(** * RTC::SimulcastConsumer — a shallow embedding of
      worker/src/RTC/SimulcastConsumer.cpp and the properties checked on it.

    The consumer is modelled as a record of its member fields, its methods as
    computations in a small state-and-fault monad that also records the
    calls made on the transport listener and on the channel notifier.
    Producer streams are shared objects reached through pointers: a slot of
    [producerRtpStreams] holds a pointer (or nullptr) and the getters of the
    pointed stream are read from the environment of the call.  The objects the
    consumer owns but whose classes live in other files (the send stream, the
    encoding context, the sequence manager) are an interface.  The virtual
    bitrates computed in [double] are computed here on the binary64 values
    of the standard library's specification of IEEE 754. *)

From Stdlib Require Import ZArith QArith Qround Qpower Qfield Lia Bool List Strings.Byte.
From Stdlib Require SpecFloat.
From stdpp Require Import base option list strings gmap.

Open Scope Z_scope.

(** ** Fixed-width integers *)

Module Int.

(** Conversion to an unsigned [w]-bit integer. *)
Definition wrapU (w z : Z) : Z := z mod 2 ^ w.

(** Conversion to a signed two's complement [w]-bit integer. *)
Definition wrapS (w z : Z) : Z := (z + 2 ^ (w - 1)) mod 2 ^ w - 2 ^ (w - 1).

Definition u16 := wrapU 16.
Definition u32 := wrapU 32.
Definition u64 := wrapU 64.
Definition i16 := wrapS 16.
Definition i64 := wrapS 64.

Definition isU32 (z : Z) : Prop := 0 <= z < 2 ^ 32.
Definition isI16 (z : Z) : Prop := - 2 ^ 15 <= z < 2 ^ 15.

End Int.

(** ** IEEE 754 doubles *)

(** [double] is the binary64 format of the standard library's
    specification of IEEE 754 ([SpecFloat]: precision 53, [emax] 1024),
    with its product and difference rounded to nearest, ties to even. *)
Module Double.

Import SpecFloat.

Definition prec : Z := 53.
Definition emax : Z := 1024.

Definition mul : spec_float -> spec_float -> spec_float := SFmul prec emax.
Definition sub : spec_float -> spec_float -> spec_float := SFsub prec emax.

(** The conversion of an integer to [double], exact below 2^53. *)
Definition ofZ (z : Z) : spec_float := binary_normalize prec emax z 0 false.

(** The integer part of a finite double, truncated toward zero. *)
Definition truncation (x : spec_float) : option Z :=
  match x with
  | S754_zero _ => Some 0
  | S754_finite s m e =>
      Some (cond_Zopp s (if e <? 0 then Z.pos m / 2 ^ (- e) else Z.pos m * 2 ^ e))
  | _ => None
  end.

(** The literals [1.08], which is no double and is read as the double
    nearest to it, 4863887597560136 / 2^52, and [0.5]. *)
Definition literal_1_08 : spec_float := S754_finite false 4863887597560136 (-52).
Definition literal_0_5 : spec_float := S754_finite false 4503599627370496 (-53).

(** The rational that a double stands for (0 for what is not finite). *)
Definition value (x : spec_float) : Q :=
  match x with
  | S754_finite s m e => (inject_Z (cond_Zopp s (Z.pos m)) * (2 # 1) ^ e)%Q
  | _ => 0%Q
  end.

(** A double that is 0 or a positive number; -1074 is the least exponent
    of a double. *)
Definition nonnegative (x : spec_float) : Prop :=
  match x with
  | S754_zero _ => True
  | S754_finite false _ e => -1074 <= e
  | _ => False
  end.

(** *** Notions used to follow the rounding *)

(** [x] is [k * 2^G], written on a grid [2^G] at least as fine as its own. *)
Definition isValue (x : spec_float) (k G : Z) : Prop :=
  match x with
  | S754_zero _ => k = 0
  | S754_finite false m e => G <= e /\ k = Z.pos m * 2 ^ (e - G)
  | _ => False
  end.

(** Whether a shift to the right has dropped a bit that was set. *)
Definition lost (mrs : shr_record) : bool := shr_r mrs || shr_s mrs.

(** Values on a common scale: [num x] is the value of a double [x >= 0]
    in units of [2^-scale], an integer for every double and for every
    exact product or difference met below. *)
Definition scale : Z := 1200.

Definition num (x : spec_float) : Z :=
  match x with
  | S754_finite false m e => Z.pos m * 2 ^ (e + scale)
  | _ => 0
  end.

(** [r] is [X], in units of [2^-scale], rounded to a double: a multiple of
    the grid [g] less than [g] away from [X], where [g] is at most
    [X / 2^52] unless the result is exact or subnormal. *)
Definition roundedFrom (r : spec_float) (X : Z) : Prop :=
  nonnegative r /\
  exists g, 0 < g /\ (g | 2 ^ scale) /\ (g | num r) /\ X - g < num r < X + g /\
    (num r = X \/ g * 2 ^ 52 <= X \/ g = 2 ^ (scale - 1074)).

End Double.

(** ** Producer streams (RTC::RtpStream, read only through getters) *)

Module RtpStream.

(** The getters this file calls on a producer stream.  [GetBitrate] and
    [GetLayerBitrate] are the values at the [now] of the call, by spatial
    and temporal layer. *)
Record t := {
  GetScore : Z;
  GetActiveTime : Z;
  GetTemporalLayers : Z;
  GetBitrate : Z -> Z -> Z;
  GetLayerBitrate : Z -> Z -> Z;
  GetSenderReportNtpMs : Z;
  GetSenderReportTs : Z;
  GetSsrc : Z
}.

End RtpStream.

(** A pointer to a producer stream; a slot holding [None] is nullptr. *)
Definition ptr := nat.

(** ** RTP packets *)

(** Modelled from the spec: RTC::RtpPacket is declared outside this file.  The
    packet carries the header fields the consumer reads and rewrites, its
    payload, and the payload as it was parsed on receipt, which is what
    [RestorePayload] writes back. *)
Record RtpPacket := {
  pktSsrc : Z;
  pktSequenceNumber : Z;
  pktTimestamp : Z;
  pktPayloadType : Z;
  pktIsKeyFrame : bool;
  pktTemporalLayer : Z;
  pktPayload : list byte;
  pktParsedPayload : list byte
}.

Definition SetSsrc (v : Z) (p : RtpPacket) : RtpPacket :=
  Build_RtpPacket v (pktSequenceNumber p) (pktTimestamp p) (pktPayloadType p)
    (pktIsKeyFrame p) (pktTemporalLayer p) (pktPayload p) (pktParsedPayload p).

Definition SetSequenceNumber (v : Z) (p : RtpPacket) : RtpPacket :=
  Build_RtpPacket (pktSsrc p) v (pktTimestamp p) (pktPayloadType p)
    (pktIsKeyFrame p) (pktTemporalLayer p) (pktPayload p) (pktParsedPayload p).

Definition SetTimestamp (v : Z) (p : RtpPacket) : RtpPacket :=
  Build_RtpPacket (pktSsrc p) (pktSequenceNumber p) v (pktPayloadType p)
    (pktIsKeyFrame p) (pktTemporalLayer p) (pktPayload p) (pktParsedPayload p).

Definition SetPayload (v : list byte) (p : RtpPacket) : RtpPacket :=
  Build_RtpPacket (pktSsrc p) (pktSequenceNumber p) (pktTimestamp p) (pktPayloadType p)
    (pktIsKeyFrame p) (pktTemporalLayer p) v (pktParsedPayload p).

Definition RestorePayload (p : RtpPacket) : RtpPacket :=
  SetPayload (pktParsedPayload p) p.

(** ** Channel requests *)

Inductive MethodId :=
| CONSUMER_REQUEST_KEY_FRAME
| CONSUMER_SET_PREFERRED_LAYERS
| OTHER_METHOD (n : nat).

(** A JSON value as far as [is_number_unsigned] can tell. *)
Inductive Json :=
| JsonUnsigned (n : Z)
| JsonOther.

(** [data.find(key)]: [None] is [data.end()]. *)
Record Request := {
  methodId : MethodId;
  dataSpatialLayer : option Json;
  dataTemporalLayer : option Json
}.

(** [it == end() || !it->is_number_unsigned()] fails exactly on [Some (JsonUnsigned n)]. *)
Definition asUnsigned (j : option Json) : option Z :=
  match j with
  | Some (JsonUnsigned n) => Some n
  | _ => None
  end.

Inductive MediaKind := AUDIO | VIDEO.

Definition isVideo (k : MediaKind) : bool :=
  match k with VIDEO => true | AUDIO => false end.

(** ** The objects owned by the consumer *)

(** The classes of the send stream, of the encoding context and of the
    sequence manager are defined in other files; the consumer only goes
    through the methods below.  The return type of [GetLossPercentage] is
    declared there too: a rational stands for the percentage, which covers
    an integer as well as a floating type.  The floating-point test that
    paces RTCP is part of the interface as well, as a function of the
    numbers it reads. *)
Class Collaborators := {
  (* RTC::Codecs::EncodingContext *)
  EncodingContext : Type;
  SetTargetTemporalLayer : Z -> EncodingContext -> EncodingContext;
  SetCurrentTemporalLayer : Z -> EncodingContext -> EncodingContext;
  GetCurrentTemporalLayer : EncodingContext -> Z;
  SyncRequired : EncodingContext -> EncodingContext;
  (* packet->ProcessPayload(context): forward?, the context and the payload afterwards *)
  ProcessPayload : EncodingContext -> RtpPacket -> bool * EncodingContext * list byte;
  (* RTC::SeqManager<uint16_t> *)
  SeqManager : Type;
  Sync : Z -> SeqManager -> SeqManager;
  Drop : Z -> SeqManager -> SeqManager;
  Input : Z -> SeqManager -> SeqManager * Z;
  (* RTC::RtpStreamSend; [stream...] where the consumer has a method of the same name *)
  RtpStreamSend : Type;
  streamGetScore : RtpStreamSend -> Z;
  GetSpatialLayers : RtpStreamSend -> Z;
  GetTemporalLayers : RtpStreamSend -> Z;
  GetLossPercentage : RtpStreamSend -> Q;
  GetFractionLost : RtpStreamSend -> Z;
  GetMaxPacketTs : RtpStreamSend -> Z;
  GetClockRate : RtpStreamSend -> Z;
  streamGetBitrate : Z -> RtpStreamSend -> Z;
  ResetScore : Z -> bool -> RtpStreamSend -> RtpStreamSend;
  ReceivePacket : RtpPacket -> RtpStreamSend -> bool * RtpStreamSend;
  Pause : RtpStreamSend -> RtpStreamSend;
  streamReceiveNack : RtpStreamSend -> RtpStreamSend;
  streamReceiveKeyFrameRequest : RtpStreamSend -> RtpStreamSend;
  streamReceiveRtcpReceiverReport : RtpStreamSend -> RtpStreamSend;
  GetRtcpSenderReport : Z -> RtpStreamSend -> bool * RtpStreamSend;
  (* static_cast<float>((now - lastRtcpSentTime) * 1.15) < maxRtcpInterval *)
  rtcpTooEarly : Z -> Z -> Z -> bool
}.

(** The arithmetic that the file leaves to declarations elsewhere and to
    the platform.  [lossPercentageOver100] is the quotient
    [lossPercentage / 100] as the double it is read as: the division is made
    in the return type of [GetLossPercentage], an integer division for an
    integer type and a floating one for a floating type.  The conversion of
    a double to [uint32_t] is undefined in C++ when the integer part is not
    within [uint32_t]: [undefinedUint32] is what the platform gives then. *)
Class Conversions := {
  lossPercentageOver100 : Q -> SpecFloat.spec_float;
  undefinedUint32 : SpecFloat.spec_float -> Z
}.

(** ** What a method sees of the rest of the worker during one call *)

(** [Consumer_IsActive] is [RTC::Consumer::IsActive()] and [IsActive] the
    unqualified [IsActive()]; the file calls both spellings and their
    definitions are in the headers, so no relation between them is assumed.
    [producer] gives the getters of the producer stream behind a pointer. *)
Record Env := {
  Consumer_IsActive : bool;
  IsActive : bool;
  producer : ptr -> RtpStream.t
}.

(** ** Observable calls *)

Inductive Method :=
| mHandleRequest | mProducerRtpStream | mProducerNewRtpStream | mProducerRtpStreamScore
| mProducerRtcpSenderReport | mUseAvailableBitrate | mIncreaseTemporalLayer | mApplyLayers
| mSendRtpPacket | mGetRtcp | mNeedWorstRemoteFractionLost | mReceiveNack
| mReceiveKeyFrameRequest | mReceiveRtcpReceiverReport | mGetTransmissionRate
| mUserOnTransportConnected | mUserOnTransportDisconnected | mUserOnPaused | mUserOnResumed
| mRequestKeyFrames | mRequestKeyFrameForTargetSpatialLayer
| mRequestKeyFrameForCurrentSpatialLayer | mMayChangeLayers | mUpdateTargetLayers
| mOnRtpStreamScore | mOnRtpStreamRetransmitRtpPacket.

(** [Call m] is the [MS_TRACE()] at the entry of the non-const method [m];
    the others are the calls on the listener, on the notifier and on the
    request, and the hand-over of the rewritten packet to the send stream. *)
Inductive Event :=
| Call (m : Method)
| OnConsumerKeyFrameRequested (mappedSsrc : Z)
| OnConsumerNeedBitrateChange
| OnConsumerSendRtpPacket (packet : RtpPacket)
| OnConsumerRetransmitRtpPacket (packet : RtpPacket)
| EmitScoreEvent (score producerScore : Z)
| EmitLayersChangeEvent (layers : option (Z * Z))
| RequestAccept
| AddSenderReport
| RtpStreamSend_ReceivePacket (packet : RtpPacket)
| Consumer_HandleRequest (r : Request).

Inductive Fault :=
| TypeError          (* MS_THROW_TYPE_ERROR *)
| OutOfRange         (* std::out_of_range thrown by at() *)
| AssertionFailed    (* MS_ASSERT *)
| Undefined.         (* nullptr dereference, operator[] past the end *)

(** ** What the constructor reads *)

(** The classes of the RTP parameters are declared in other files; the
    records below hold the members that the constructor and
    [CreateRtpStream] read. *)
Module RtpEncodingParameters.

Record t := {
  ssrc : Z;
  spatialLayers : Z;
  temporalLayers : Z;
  dtx : bool;
  hasRtx : bool;
  rtx_ssrc : Z
}.

End RtpEncodingParameters.

Module RtcpFeedback.

Record t := {
  type : string;
  parameter : string
}.

End RtcpFeedback.

(** [parameters key] is [parameters.GetInteger(key)] when
    [parameters.HasInteger(key)]. *)
Module RtpCodecParameters.

Record t := {
  mimeType : string;
  payloadType : Z;
  clockRate : Z;
  parameters : string -> option Z;
  rtcpFeedback : list RtcpFeedback.t
}.

End RtpCodecParameters.

(** [rtpParameters]: [encodings[0]], the codec and the RTX codec that
    [GetCodecForEncoding] and [GetRtxCodecForEncoding] give for it, and
    [rtcp.cname]. *)
Record RtpParameters := {
  encodings_0 : RtpEncodingParameters.t;
  GetCodecForEncoding : RtpCodecParameters.t;
  GetRtxCodecForEncoding : option RtpCodecParameters.t;
  rtcp_cname : string
}.

(** [RTC::RtpStream::Params]. *)
Module Params.

Record t := {
  ssrc : Z;
  payloadType : Z;
  mimeType : string;
  clockRate : Z;
  cname : string;
  spatialLayers : Z;
  temporalLayers : Z;
  useInBandFec : bool;
  useDtx : bool;
  useNack : bool;
  usePli : bool;
  useFir : bool
}.

Definition set_useInBandFec (v : bool) (p : t) : t :=
  Build_t (ssrc p) (payloadType p) (mimeType p) (clockRate p) (cname p) (spatialLayers p)
    (temporalLayers p) v (useDtx p) (useNack p) (usePli p) (useFir p).

Definition set_useDtx (v : bool) (p : t) : t :=
  Build_t (ssrc p) (payloadType p) (mimeType p) (clockRate p) (cname p) (spatialLayers p)
    (temporalLayers p) (useInBandFec p) v (useNack p) (usePli p) (useFir p).

Definition set_useNack (v : bool) (p : t) : t :=
  Build_t (ssrc p) (payloadType p) (mimeType p) (clockRate p) (cname p) (spatialLayers p)
    (temporalLayers p) (useInBandFec p) (useDtx p) v (usePli p) (useFir p).

Definition set_usePli (v : bool) (p : t) : t :=
  Build_t (ssrc p) (payloadType p) (mimeType p) (clockRate p) (cname p) (spatialLayers p)
    (temporalLayers p) (useInBandFec p) (useDtx p) (useNack p) v (useFir p).

Definition set_useFir (v : bool) (p : t) : t :=
  Build_t (ssrc p) (payloadType p) (mimeType p) (clockRate p) (cname p) (spatialLayers p)
    (temporalLayers p) (useInBandFec p) (useDtx p) (useNack p) (usePli p) v.

End Params.

(** What [CreateRtpStream] asks of the send stream it creates: the
    parameters and the buffer size given to [new RTC::RtpStreamSend], whether
    [Pause()] is called on it, and the arguments of [SetRtx()] if it is
    called. *)
Record StreamSetup := {
  setupParams : Params.t;
  setupBufferSize : Z;
  setupPause : bool;
  setupRtx : option (Z * Z)
}.

(** One turn of the loop over [mediaCodec->rtcpFeedback]. *)
Definition withFeedback (fb : RtcpFeedback.t) (params : Params.t) : Params.t :=
  if negb (Params.useNack params)
     && String.eqb (RtcpFeedback.type fb) "nack"
     && String.eqb (RtcpFeedback.parameter fb) EmptyString
  then Params.set_useNack true params
  else if negb (Params.usePli params)
          && String.eqb (RtcpFeedback.type fb) "nack"
          && String.eqb (RtcpFeedback.parameter fb) "pli"
  then Params.set_usePli true params
  else if negb (Params.useFir params)
          && String.eqb (RtcpFeedback.type fb) "ccm"
          && String.eqb (RtcpFeedback.parameter fb) "fir"
  then Params.set_useFir true params
  else params.

Fixpoint feedbackLoop (rtcpFeedback : list RtcpFeedback.t) (params : Params.t) : Params.t :=
  match rtcpFeedback with
  | [] => params
  | fb :: rest => feedbackLoop rest (withFeedback fb params)
  end.

(** [CreateRtpStream] up to the calls on the stream it creates.  [defaults]
    is a default-constructed [RTC::RtpStream::Params], whose flags the
    method only ever sets; [paused] and [producerPaused] are [IsPaused()]
    and [IsProducerPaused()]. *)
Definition CreateRtpStream (defaults : Params.t) (rtpParameters : RtpParameters)
    (paused producerPaused : bool) : StreamSetup :=
  let encoding := encodings_0 rtpParameters in
  let mediaCodec := GetCodecForEncoding rtpParameters in
  let params :=
    Params.Build_t
      (RtpEncodingParameters.ssrc encoding)
      (RtpCodecParameters.payloadType mediaCodec)
      (RtpCodecParameters.mimeType mediaCodec)
      (RtpCodecParameters.clockRate mediaCodec)
      (rtcp_cname rtpParameters)
      (RtpEncodingParameters.spatialLayers encoding)
      (RtpEncodingParameters.temporalLayers encoding)
      (Params.useInBandFec defaults) (Params.useDtx defaults) (Params.useNack defaults)
      (Params.usePli defaults) (Params.useFir defaults) in
  let params :=
    match RtpCodecParameters.parameters mediaCodec "useinbandfec" with
    | Some v => if v =? 1 then Params.set_useInBandFec true params else params
    | None => params
    end in
  let params :=
    match RtpCodecParameters.parameters mediaCodec "usedtx" with
    | Some v => if v =? 1 then Params.set_useDtx true params else params
    | None => params
    end in
  let params :=
    if RtpEncodingParameters.dtx encoding then Params.set_useDtx true params else params in
  let params := feedbackLoop (RtpCodecParameters.rtcpFeedback mediaCodec) params in
  let bufferSize := if Params.useNack params then 600 else 0 in
  {| setupParams := params;
     setupBufferSize := bufferSize;
     setupPause := paused || producerPaused;
     setupRtx :=
       match GetRtxCodecForEncoding rtpParameters with
       | Some rtxCodec =>
           if RtpEncodingParameters.hasRtx encoding
           then Some (RtpCodecParameters.payloadType rtxCodec,
                      RtpEncodingParameters.rtx_ssrc encoding)
           else None
       | None => None
       end |}.

Section SimulcastConsumer.

Context `{Collaborators} `{Conversions}.

(** ** The member fields read or written by the file *)

Record Consumer := {
  preferredSpatialLayer : Z;
  preferredTemporalLayer : Z;
  targetSpatialLayer : Z;
  targetTemporalLayer : Z;
  currentSpatialLayer : Z;
  tsReferenceSpatialLayer : Z;
  provisionalTargetSpatialLayer : Z;
  provisionalTargetTemporalLayer : Z;
  externallyManagedBitrate : bool;
  syncRequired : bool;
  tsOffset : Z;
  tsExtraOffsets : gmap Z Z;
  tsExtraOffetPacketCount : Z;
  producerRtpStreams : list (option ptr);
  mapMappedSsrcSpatialLayer : gmap Z Z;
  supportedCodecPayloadTypes : gset Z;
  consumableRtpEncodings : list Z;
  kind : MediaKind;
  encodingSsrc : Z;
  encodingContext : EncodingContext;
  rtpStream : RtpStreamSend;
  rtpSeqManager : SeqManager;
  lastRtcpSentTime : Z;
  maxRtcpInterval : Z
}.

Definition set_preferredSpatialLayer (v : Z) (c : Consumer) : Consumer :=
  Build_Consumer v (preferredTemporalLayer c) (targetSpatialLayer c) (targetTemporalLayer
    c) (currentSpatialLayer c) (tsReferenceSpatialLayer c) (provisionalTargetSpatialLayer c)
    (provisionalTargetTemporalLayer c) (externallyManagedBitrate c) (syncRequired c)
    (tsOffset c) (tsExtraOffsets c) (tsExtraOffetPacketCount c) (producerRtpStreams c)
    (mapMappedSsrcSpatialLayer c) (supportedCodecPayloadTypes c) (consumableRtpEncodings c)
    (kind c) (encodingSsrc c) (encodingContext c) (rtpStream c) (rtpSeqManager c)
    (lastRtcpSentTime c) (maxRtcpInterval c).

Definition set_preferredTemporalLayer (v : Z) (c : Consumer) : Consumer :=
  Build_Consumer (preferredSpatialLayer c) v (targetSpatialLayer c) (targetTemporalLayer
    c) (currentSpatialLayer c) (tsReferenceSpatialLayer c) (provisionalTargetSpatialLayer c)
    (provisionalTargetTemporalLayer c) (externallyManagedBitrate c) (syncRequired c)
    (tsOffset c) (tsExtraOffsets c) (tsExtraOffetPacketCount c) (producerRtpStreams c)
    (mapMappedSsrcSpatialLayer c) (supportedCodecPayloadTypes c) (consumableRtpEncodings c)
    (kind c) (encodingSsrc c) (encodingContext c) (rtpStream c) (rtpSeqManager c)
    (lastRtcpSentTime c) (maxRtcpInterval c).

Definition set_targetSpatialLayer (v : Z) (c : Consumer) : Consumer :=
  Build_Consumer (preferredSpatialLayer c) (preferredTemporalLayer c) v
    (targetTemporalLayer c) (currentSpatialLayer c) (tsReferenceSpatialLayer c)
    (provisionalTargetSpatialLayer c) (provisionalTargetTemporalLayer c)
    (externallyManagedBitrate c) (syncRequired c) (tsOffset c) (tsExtraOffsets c)
    (tsExtraOffetPacketCount c) (producerRtpStreams c) (mapMappedSsrcSpatialLayer c)
    (supportedCodecPayloadTypes c) (consumableRtpEncodings c) (kind c) (encodingSsrc c)
    (encodingContext c) (rtpStream c) (rtpSeqManager c) (lastRtcpSentTime c)
    (maxRtcpInterval c).

Definition set_targetTemporalLayer (v : Z) (c : Consumer) : Consumer :=
  Build_Consumer (preferredSpatialLayer c) (preferredTemporalLayer c) (targetSpatialLayer
    c) v (currentSpatialLayer c) (tsReferenceSpatialLayer c) (provisionalTargetSpatialLayer
    c) (provisionalTargetTemporalLayer c) (externallyManagedBitrate c) (syncRequired c)
    (tsOffset c) (tsExtraOffsets c) (tsExtraOffetPacketCount c) (producerRtpStreams c)
    (mapMappedSsrcSpatialLayer c) (supportedCodecPayloadTypes c) (consumableRtpEncodings c)
    (kind c) (encodingSsrc c) (encodingContext c) (rtpStream c) (rtpSeqManager c)
    (lastRtcpSentTime c) (maxRtcpInterval c).

Definition set_currentSpatialLayer (v : Z) (c : Consumer) : Consumer :=
  Build_Consumer (preferredSpatialLayer c) (preferredTemporalLayer c) (targetSpatialLayer
    c) (targetTemporalLayer c) v (tsReferenceSpatialLayer c) (provisionalTargetSpatialLayer
    c) (provisionalTargetTemporalLayer c) (externallyManagedBitrate c) (syncRequired c)
    (tsOffset c) (tsExtraOffsets c) (tsExtraOffetPacketCount c) (producerRtpStreams c)
    (mapMappedSsrcSpatialLayer c) (supportedCodecPayloadTypes c) (consumableRtpEncodings c)
    (kind c) (encodingSsrc c) (encodingContext c) (rtpStream c) (rtpSeqManager c)
    (lastRtcpSentTime c) (maxRtcpInterval c).

Definition set_tsReferenceSpatialLayer (v : Z) (c : Consumer) : Consumer :=
  Build_Consumer (preferredSpatialLayer c) (preferredTemporalLayer c) (targetSpatialLayer
    c) (targetTemporalLayer c) (currentSpatialLayer c) v (provisionalTargetSpatialLayer c)
    (provisionalTargetTemporalLayer c) (externallyManagedBitrate c) (syncRequired c)
    (tsOffset c) (tsExtraOffsets c) (tsExtraOffetPacketCount c) (producerRtpStreams c)
    (mapMappedSsrcSpatialLayer c) (supportedCodecPayloadTypes c) (consumableRtpEncodings c)
    (kind c) (encodingSsrc c) (encodingContext c) (rtpStream c) (rtpSeqManager c)
    (lastRtcpSentTime c) (maxRtcpInterval c).

Definition set_provisionalTargetSpatialLayer (v : Z) (c : Consumer) : Consumer :=
  Build_Consumer (preferredSpatialLayer c) (preferredTemporalLayer c) (targetSpatialLayer
    c) (targetTemporalLayer c) (currentSpatialLayer c) (tsReferenceSpatialLayer c) v
    (provisionalTargetTemporalLayer c) (externallyManagedBitrate c) (syncRequired c)
    (tsOffset c) (tsExtraOffsets c) (tsExtraOffetPacketCount c) (producerRtpStreams c)
    (mapMappedSsrcSpatialLayer c) (supportedCodecPayloadTypes c) (consumableRtpEncodings c)
    (kind c) (encodingSsrc c) (encodingContext c) (rtpStream c) (rtpSeqManager c)
    (lastRtcpSentTime c) (maxRtcpInterval c).

Definition set_provisionalTargetTemporalLayer (v : Z) (c : Consumer) : Consumer :=
  Build_Consumer (preferredSpatialLayer c) (preferredTemporalLayer c) (targetSpatialLayer
    c) (targetTemporalLayer c) (currentSpatialLayer c) (tsReferenceSpatialLayer c)
    (provisionalTargetSpatialLayer c) v (externallyManagedBitrate c) (syncRequired c)
    (tsOffset c) (tsExtraOffsets c) (tsExtraOffetPacketCount c) (producerRtpStreams c)
    (mapMappedSsrcSpatialLayer c) (supportedCodecPayloadTypes c) (consumableRtpEncodings c)
    (kind c) (encodingSsrc c) (encodingContext c) (rtpStream c) (rtpSeqManager c)
    (lastRtcpSentTime c) (maxRtcpInterval c).

Definition set_syncRequired (v : bool) (c : Consumer) : Consumer :=
  Build_Consumer (preferredSpatialLayer c) (preferredTemporalLayer c) (targetSpatialLayer
    c) (targetTemporalLayer c) (currentSpatialLayer c) (tsReferenceSpatialLayer c)
    (provisionalTargetSpatialLayer c) (provisionalTargetTemporalLayer c)
    (externallyManagedBitrate c) v (tsOffset c) (tsExtraOffsets c) (tsExtraOffetPacketCount
    c) (producerRtpStreams c) (mapMappedSsrcSpatialLayer c) (supportedCodecPayloadTypes c)
    (consumableRtpEncodings c) (kind c) (encodingSsrc c) (encodingContext c) (rtpStream c)
    (rtpSeqManager c) (lastRtcpSentTime c) (maxRtcpInterval c).

Definition set_tsOffset (v : Z) (c : Consumer) : Consumer :=
  Build_Consumer (preferredSpatialLayer c) (preferredTemporalLayer c) (targetSpatialLayer
    c) (targetTemporalLayer c) (currentSpatialLayer c) (tsReferenceSpatialLayer c)
    (provisionalTargetSpatialLayer c) (provisionalTargetTemporalLayer c)
    (externallyManagedBitrate c) (syncRequired c) v (tsExtraOffsets c)
    (tsExtraOffetPacketCount c) (producerRtpStreams c) (mapMappedSsrcSpatialLayer c)
    (supportedCodecPayloadTypes c) (consumableRtpEncodings c) (kind c) (encodingSsrc c)
    (encodingContext c) (rtpStream c) (rtpSeqManager c) (lastRtcpSentTime c)
    (maxRtcpInterval c).

Definition set_tsExtraOffsets (v : gmap Z Z) (c : Consumer) : Consumer :=
  Build_Consumer (preferredSpatialLayer c) (preferredTemporalLayer c) (targetSpatialLayer
    c) (targetTemporalLayer c) (currentSpatialLayer c) (tsReferenceSpatialLayer c)
    (provisionalTargetSpatialLayer c) (provisionalTargetTemporalLayer c)
    (externallyManagedBitrate c) (syncRequired c) (tsOffset c) v (tsExtraOffetPacketCount c)
    (producerRtpStreams c) (mapMappedSsrcSpatialLayer c) (supportedCodecPayloadTypes c)
    (consumableRtpEncodings c) (kind c) (encodingSsrc c) (encodingContext c) (rtpStream c)
    (rtpSeqManager c) (lastRtcpSentTime c) (maxRtcpInterval c).

Definition set_tsExtraOffetPacketCount (v : Z) (c : Consumer) : Consumer :=
  Build_Consumer (preferredSpatialLayer c) (preferredTemporalLayer c) (targetSpatialLayer
    c) (targetTemporalLayer c) (currentSpatialLayer c) (tsReferenceSpatialLayer c)
    (provisionalTargetSpatialLayer c) (provisionalTargetTemporalLayer c)
    (externallyManagedBitrate c) (syncRequired c) (tsOffset c) (tsExtraOffsets c) v
    (producerRtpStreams c) (mapMappedSsrcSpatialLayer c) (supportedCodecPayloadTypes c)
    (consumableRtpEncodings c) (kind c) (encodingSsrc c) (encodingContext c) (rtpStream c)
    (rtpSeqManager c) (lastRtcpSentTime c) (maxRtcpInterval c).

Definition set_producerRtpStreams (v : list (option ptr)) (c : Consumer) : Consumer :=
  Build_Consumer (preferredSpatialLayer c) (preferredTemporalLayer c) (targetSpatialLayer
    c) (targetTemporalLayer c) (currentSpatialLayer c) (tsReferenceSpatialLayer c)
    (provisionalTargetSpatialLayer c) (provisionalTargetTemporalLayer c)
    (externallyManagedBitrate c) (syncRequired c) (tsOffset c) (tsExtraOffsets c)
    (tsExtraOffetPacketCount c) v (mapMappedSsrcSpatialLayer c) (supportedCodecPayloadTypes
    c) (consumableRtpEncodings c) (kind c) (encodingSsrc c) (encodingContext c) (rtpStream
    c) (rtpSeqManager c) (lastRtcpSentTime c) (maxRtcpInterval c).

Definition set_encodingContext (v : EncodingContext) (c : Consumer) : Consumer :=
  Build_Consumer (preferredSpatialLayer c) (preferredTemporalLayer c) (targetSpatialLayer
    c) (targetTemporalLayer c) (currentSpatialLayer c) (tsReferenceSpatialLayer c)
    (provisionalTargetSpatialLayer c) (provisionalTargetTemporalLayer c)
    (externallyManagedBitrate c) (syncRequired c) (tsOffset c) (tsExtraOffsets c)
    (tsExtraOffetPacketCount c) (producerRtpStreams c) (mapMappedSsrcSpatialLayer c)
    (supportedCodecPayloadTypes c) (consumableRtpEncodings c) (kind c) (encodingSsrc c) v
    (rtpStream c) (rtpSeqManager c) (lastRtcpSentTime c) (maxRtcpInterval c).

Definition set_rtpStream (v : RtpStreamSend) (c : Consumer) : Consumer :=
  Build_Consumer (preferredSpatialLayer c) (preferredTemporalLayer c) (targetSpatialLayer
    c) (targetTemporalLayer c) (currentSpatialLayer c) (tsReferenceSpatialLayer c)
    (provisionalTargetSpatialLayer c) (provisionalTargetTemporalLayer c)
    (externallyManagedBitrate c) (syncRequired c) (tsOffset c) (tsExtraOffsets c)
    (tsExtraOffetPacketCount c) (producerRtpStreams c) (mapMappedSsrcSpatialLayer c)
    (supportedCodecPayloadTypes c) (consumableRtpEncodings c) (kind c) (encodingSsrc c)
    (encodingContext c) v (rtpSeqManager c) (lastRtcpSentTime c) (maxRtcpInterval c).

Definition set_rtpSeqManager (v : SeqManager) (c : Consumer) : Consumer :=
  Build_Consumer (preferredSpatialLayer c) (preferredTemporalLayer c) (targetSpatialLayer
    c) (targetTemporalLayer c) (currentSpatialLayer c) (tsReferenceSpatialLayer c)
    (provisionalTargetSpatialLayer c) (provisionalTargetTemporalLayer c)
    (externallyManagedBitrate c) (syncRequired c) (tsOffset c) (tsExtraOffsets c)
    (tsExtraOffetPacketCount c) (producerRtpStreams c) (mapMappedSsrcSpatialLayer c)
    (supportedCodecPayloadTypes c) (consumableRtpEncodings c) (kind c) (encodingSsrc c)
    (encodingContext c) (rtpStream c) v (lastRtcpSentTime c) (maxRtcpInterval c).

Definition set_lastRtcpSentTime (v : Z) (c : Consumer) : Consumer :=
  Build_Consumer (preferredSpatialLayer c) (preferredTemporalLayer c) (targetSpatialLayer
    c) (targetTemporalLayer c) (currentSpatialLayer c) (tsReferenceSpatialLayer c)
    (provisionalTargetSpatialLayer c) (provisionalTargetTemporalLayer c)
    (externallyManagedBitrate c) (syncRequired c) (tsOffset c) (tsExtraOffsets c)
    (tsExtraOffetPacketCount c) (producerRtpStreams c) (mapMappedSsrcSpatialLayer c)
    (supportedCodecPayloadTypes c) (consumableRtpEncodings c) (kind c) (encodingSsrc c)
    (encodingContext c) (rtpStream c) (rtpSeqManager c) v (maxRtcpInterval c).

(** ** State, faults and the log of calls *)

Inductive Outcome (A : Type) :=
| Done (a : A) (c : Consumer) (log : list Event)
| Stop (f : Fault) (c : Consumer) (log : list Event).

Arguments Done {A} a c log.
Arguments Stop {A} f c log.

Definition M (A : Type) := Consumer -> Outcome A.

Definition ret {A} (a : A) : M A := fun c => Done a c [].

Definition bind {A B} (m : M A) (k : A -> M B) : M B := fun c =>
  match m c with
  | Done a c1 l1 =>
      match k a c1 with
      | Done b c2 l2 => Done b c2 (l1 ++ l2)
      | Stop f c2 l2 => Stop f c2 (l1 ++ l2)
      end
  | Stop f c1 l1 => Stop f c1 l1
  end.

Definition get : M Consumer := fun c => Done c c [].
Definition gets {A} (f : Consumer -> A) : M A := fun c => Done (f c) c [].
Definition modify (f : Consumer -> Consumer) : M unit := fun c => Done tt (f c) [].
Definition emit (e : Event) : M unit := fun c => Done tt c [e].
Definition throw {A} (f : Fault) : M A := fun c => Stop f c [].

Definition MS_ASSERT (b : bool) : M unit :=
  if b then ret tt else throw AssertionFailed.

Definition MS_TRACE (m : Method) : M unit := emit (Call m).

Definition when (b : bool) (m : M unit) : M unit := if b then m else ret tt.

Definition finalState {A} (o : Outcome A) : Consumer :=
  match o with Done _ c _ => c | Stop _ c _ => c end.

Definition logOf {A} (o : Outcome A) : list Event :=
  match o with Done _ _ l => l | Stop _ _ l => l end.

Definition valueOf {A} (o : Outcome A) : option A :=
  match o with Done a _ _ => Some a | Stop _ _ _ => None end.

Notation "'let*' x ':=' m 'in' k" := (bind m (fun x => k))
  (at level 10, x name, m at level 100, k at level 200, only parsing).
Notation "m1 >> m2" := (bind m1 (fun _ => m2))
  (at level 100, m2 at level 200, right associativity, only parsing).

(** [std::vector::at]: the index is converted to [size_t], so a negative
    index is past the end; nullptr slots are returned as they are. *)
Definition vectorAt {A} (v : list A) (i : Z) : M A :=
  match (if i <? 0 then None else v !! Z.to_nat i) with
  | Some x => ret x
  | None => throw OutOfRange
  end.

(** [operator[]] on a vector, undefined past the end. *)
Definition vectorIndex {A} (v : list A) (i : Z) : M A :=
  match (if i <? 0 then None else v !! Z.to_nat i) with
  | Some x => ret x
  | None => throw Undefined
  end.

(** [p->getter()] on a producer stream pointer. *)
Definition deref (env : Env) (p : option ptr) : M RtpStream.t :=
  match p with
  | Some q => ret (producer env q)
  | None => throw Undefined
  end.

(** ** Stream getters *)

Definition GetProducerCurrentRtpStream : M (option ptr) :=
  let* c := get in
  if currentSpatialLayer c =? -1 then ret None
  else vectorAt (producerRtpStreams c) (currentSpatialLayer c).

Definition GetProducerTargetRtpStream : M (option ptr) :=
  let* c := get in
  if targetSpatialLayer c =? -1 then ret None
  else vectorAt (producerRtpStreams c) (targetSpatialLayer c).

Definition GetProducerProvisionalTargetRtpStream : M (option ptr) :=
  let* c := get in
  if provisionalTargetSpatialLayer c =? -1 then ret None
  else vectorAt (producerRtpStreams c) (provisionalTargetSpatialLayer c).

Definition GetProducerTsReferenceRtpStream : M (option ptr) :=
  let* c := get in
  if tsReferenceSpatialLayer c =? -1 then ret None
  else vectorAt (producerRtpStreams c) (tsReferenceSpatialLayer c).

(** ** Notifications *)

(** [FillJsonScore] followed by [Channel::Notifier::Emit(id, "score", data)]. *)
Definition EmitScore (env : Env) : M unit :=
  let* producerCurrentRtpStream := GetProducerCurrentRtpStream in
  let* c := get in
  let score := streamGetScore (rtpStream c) in
  let producerScore :=
    match producerCurrentRtpStream with
    | Some q => RtpStream.GetScore (producer env q)
    | None => 0
    end in
  emit (EmitScoreEvent score producerScore).

Definition EmitLayersChange : M unit :=
  let* c := get in
  if 0 <=? currentSpatialLayer c
  then emit (EmitLayersChangeEvent
               (Some (currentSpatialLayer c, GetCurrentTemporalLayer (encodingContext c))))
  else emit (EmitLayersChangeEvent None).

(** ** Key frame requests *)

Definition RequestKeyFrames : M unit :=
  MS_TRACE mRequestKeyFrames >>
  let* c := get in
  if negb (isVideo (kind c)) then ret tt
  else
    let* producerTargetRtpStream := GetProducerTargetRtpStream in
    let* producerCurrentRtpStream := GetProducerCurrentRtpStream in
    (match producerTargetRtpStream with
     | Some _ =>
         let* mappedSsrc := vectorIndex (consumableRtpEncodings c) (targetSpatialLayer c) in
         emit (OnConsumerKeyFrameRequested mappedSsrc)
     | None => ret tt
     end) >>
    match producerCurrentRtpStream with
    | Some q =>
        if bool_decide (producerTargetRtpStream = Some q) then ret tt
        else
          let* mappedSsrc := vectorIndex (consumableRtpEncodings c) (currentSpatialLayer c) in
          emit (OnConsumerKeyFrameRequested mappedSsrc)
    | None => ret tt
    end.

Definition RequestKeyFrameForTargetSpatialLayer : M unit :=
  MS_TRACE mRequestKeyFrameForTargetSpatialLayer >>
  let* c := get in
  if negb (isVideo (kind c)) then ret tt
  else
    let* producerTargetRtpStream := GetProducerTargetRtpStream in
    match producerTargetRtpStream with
    | None => ret tt
    | Some _ =>
        let* mappedSsrc := vectorIndex (consumableRtpEncodings c) (targetSpatialLayer c) in
        emit (OnConsumerKeyFrameRequested mappedSsrc)
    end.

Definition RequestKeyFrameForCurrentSpatialLayer : M unit :=
  MS_TRACE mRequestKeyFrameForCurrentSpatialLayer >>
  let* c := get in
  if negb (isVideo (kind c)) then ret tt
  else
    let* producerCurrentRtpStream := GetProducerCurrentRtpStream in
    match producerCurrentRtpStream with
    | None => ret tt
    | Some _ =>
        let* mappedSsrc := vectorIndex (consumableRtpEncodings c) (currentSpatialLayer c) in
        emit (OnConsumerKeyFrameRequested mappedSsrc)
    end.

(** ** Switch eligibility *)

Definition CanSwitchToSpatialLayer (env : Env) (spatialLayer : Z) : M bool :=
  let* c := get in
  let* slot := vectorAt (producerRtpStreams c) spatialLayer in
  MS_ASSERT (bool_decide (is_Some slot)) >>
  if tsReferenceSpatialLayer c =? -1 then ret true
  else if spatialLayer =? tsReferenceSpatialLayer c then ret true
  else
    let* reference := GetProducerTsReferenceRtpStream in
    let* referenceStream := deref env reference in
    if RtpStream.GetSenderReportNtpMs referenceStream =? 0 then ret false
    else
      let* candidate := vectorAt (producerRtpStreams c) spatialLayer in
      let* candidateStream := deref env candidate in
      ret (negb (RtpStream.GetSenderReportNtpMs candidateStream =? 0)).

(** ** Bitrate priority *)

(** The loop of [GetBitratePriority] from index [sIdx] on, over the slots
    not yet visited; [prioritySpatialLayer] is the local of the same name. *)
Fixpoint priorityLoop (env : Env) (preferred : Z) (slots : list (option ptr))
    (sIdx : Z) (prioritySpatialLayer : Z) : Z :=
  match slots with
  | [] => prioritySpatialLayer
  | producerRtpStream :: rest =>
      let spatialLayer := Int.i16 sIdx in
      if (preferred <? spatialLayer) && negb (prioritySpatialLayer =? -1)
      then prioritySpatialLayer
      else
        match producerRtpStream with
        | None => priorityLoop env preferred rest (sIdx + 1) prioritySpatialLayer
        | Some q =>
            if RtpStream.GetScore (producer env q) =? 0
            then priorityLoop env preferred rest (sIdx + 1) prioritySpatialLayer
            else priorityLoop env preferred rest (sIdx + 1) spatialLayer
        end
  end.

Definition GetBitratePriority (env : Env) : M Z :=
  let* c := get in
  MS_ASSERT (externallyManagedBitrate c) >>
  if negb (Consumer_IsActive env) then ret 0
  else
    let prioritySpatialLayer :=
      priorityLoop env (preferredSpatialLayer c) (producerRtpStreams c) 0 (-1) in
    if prioritySpatialLayer =? -1 then ret 1
    else ret (Int.u16 (prioritySpatialLayer + 1)).

(** ** Target layers *)

Definition StreamGoodScore : Z := 5.
Definition StreamMinActiveTime : Z := 2000.

Definition UpdateTargetLayers (newTargetSpatialLayer newTargetTemporalLayer : Z) : M unit :=
  MS_TRACE mUpdateTargetLayers >>
  let* c := get in
  when (negb (newTargetSpatialLayer =? -1) && (tsReferenceSpatialLayer c =? -1))
    (modify (set_tsReferenceSpatialLayer newTargetSpatialLayer)) >>
  if newTargetSpatialLayer =? -1 then
    modify (set_targetSpatialLayer (-1)) >>
    modify (set_targetTemporalLayer (-1)) >>
    modify (set_currentSpatialLayer (-1)) >>
    modify (fun c => set_encodingContext (SetTargetTemporalLayer (-1) (encodingContext c)) c) >>
    modify (fun c => set_encodingContext (SetCurrentTemporalLayer (-1) (encodingContext c)) c) >>
    EmitLayersChange
  else
    modify (set_targetSpatialLayer newTargetSpatialLayer) >>
    modify (set_targetTemporalLayer newTargetTemporalLayer) >>
    let* c := get in
    when (targetSpatialLayer c =? currentSpatialLayer c)
      (modify (set_encodingContext
                 (SetTargetTemporalLayer (targetTemporalLayer c) (encodingContext c)))) >>
    let* c := get in
    when (negb (targetSpatialLayer c =? currentSpatialLayer c))
      RequestKeyFrameForTargetSpatialLayer.

(** The loop of [RecalculateTargetLayers] over the slots not yet visited;
    the result is [newTargetSpatialLayer] when the loop is left. *)
Fixpoint recalculateLoop (env : Env) (slots : list (option ptr)) (sIdx : Z)
    (newTargetSpatialLayer maxProducerScore : Z) : M Z :=
  match slots with
  | [] => ret newTargetSpatialLayer
  | producerRtpStream :: rest =>
      let spatialLayer := Int.i16 sIdx in
      match producerRtpStream with
      | None => recalculateLoop env rest (sIdx + 1) newTargetSpatialLayer maxProducerScore
      | Some q =>
          let stream := producer env q in
          let producerScore := RtpStream.GetScore stream in
          if producerScore =? 0
          then recalculateLoop env rest (sIdx + 1) newTargetSpatialLayer maxProducerScore
          else
            let* c := get in
            if externallyManagedBitrate c && negb (newTargetSpatialLayer =? -1)
               && (RtpStream.GetActiveTime stream <? StreamMinActiveTime)
            then recalculateLoop env rest (sIdx + 1) newTargetSpatialLayer maxProducerScore
            else
              let* canSwitch := CanSwitchToSpatialLayer env spatialLayer in
              if negb canSwitch
              then recalculateLoop env rest (sIdx + 1) newTargetSpatialLayer maxProducerScore
              else if (producerScore <? maxProducerScore) && (producerScore <? StreamGoodScore)
              then recalculateLoop env rest (sIdx + 1) newTargetSpatialLayer maxProducerScore
              else if (preferredSpatialLayer c <=? spatialLayer)
                      && (StreamGoodScore <=? producerScore)
              then ret spatialLayer
              else recalculateLoop env rest (sIdx + 1) spatialLayer producerScore
      end
  end.

(** Returns the [bool] of the source followed by the two out-parameters. *)
Definition RecalculateTargetLayers (env : Env) : M (bool * Z * Z) :=
  let* c := get in
  let* newTargetSpatialLayer := recalculateLoop env (producerRtpStreams c) 0 (-1) 0 in
  let newTargetTemporalLayer :=
    if newTargetSpatialLayer =? -1 then -1
    else if newTargetSpatialLayer =? preferredSpatialLayer c then preferredTemporalLayer c
    else if newTargetSpatialLayer <? preferredSpatialLayer c
    then Int.i16 (GetTemporalLayers (rtpStream c) - 1)
    else 0 in
  ret (negb (newTargetSpatialLayer =? targetSpatialLayer c)
       || negb (newTargetTemporalLayer =? targetTemporalLayer c),
       newTargetSpatialLayer, newTargetTemporalLayer).

Definition MayChangeLayers (env : Env) (force : bool) : M unit :=
  MS_TRACE mMayChangeLayers >>
  let* r := RecalculateTargetLayers env in
  let '(changed, newTargetSpatialLayer, newTargetTemporalLayer) := r in
  if changed then
    let* c := get in
    if externallyManagedBitrate c then
      when (negb (newTargetSpatialLayer =? targetSpatialLayer c) || force)
        (emit OnConsumerNeedBitrateChange)
    else UpdateTargetLayers newTargetSpatialLayer newTargetTemporalLayer
  else ret tt.

(** ** Channel requests and producer events *)

Definition HandleRequest (env : Env) (request : Request) : M unit :=
  MS_TRACE mHandleRequest >>
  match methodId request with
  | CONSUMER_REQUEST_KEY_FRAME =>
      when (IsActive env) RequestKeyFrames >>
      emit RequestAccept
  | CONSUMER_SET_PREFERRED_LAYERS =>
      let* c := get in
      let previousPreferredSpatialLayer := preferredSpatialLayer c in
      let previousPreferredTemporalLayer := preferredTemporalLayer c in
      match asUnsigned (dataSpatialLayer request) with
      | None => throw TypeError
      | Some jsonSpatialLayer =>
          modify (set_preferredSpatialLayer (Int.i16 jsonSpatialLayer)) >>
          let* c := get in
          when (GetSpatialLayers (rtpStream c) - 1 <? preferredSpatialLayer c)
            (modify (set_preferredSpatialLayer
                       (Int.i16 (GetSpatialLayers (rtpStream c) - 1)))) >>
          (match asUnsigned (dataTemporalLayer request) with
           | Some jsonTemporalLayer =>
               modify (set_preferredTemporalLayer (Int.i16 jsonTemporalLayer)) >>
               let* c := get in
               when (GetTemporalLayers (rtpStream c) - 1 <? preferredTemporalLayer c)
                 (modify (set_preferredTemporalLayer
                            (Int.i16 (GetTemporalLayers (rtpStream c) - 1))))
           | None =>
               let* c := get in
               modify (set_preferredTemporalLayer
                         (Int.i16 (GetTemporalLayers (rtpStream c) - 1)))
           end) >>
          emit RequestAccept >>
          let* c := get in
          when (IsActive env
                && (negb (preferredSpatialLayer c =? previousPreferredSpatialLayer)
                    || negb (preferredTemporalLayer c =? previousPreferredTemporalLayer)))
            (MayChangeLayers env true)
      end
  | OTHER_METHOD _ => emit (Consumer_HandleRequest request)
  end.

(** [this->producerRtpStreams[spatialLayer] = rtpStream] for the layer mapped
    to [mappedSsrc]. *)
Definition storeProducerRtpStream (rtpStream : option ptr) (mappedSsrc : Z) : M unit :=
  let* c := get in
  match mapMappedSsrcSpatialLayer c !! mappedSsrc with
  | None => throw AssertionFailed
  | Some spatialLayer =>
      let* _ := vectorIndex (producerRtpStreams c) spatialLayer in
      modify (set_producerRtpStreams
                (<[Z.to_nat spatialLayer := rtpStream]> (producerRtpStreams c)))
  end.

Definition ProducerRtpStream (rtpStream : option ptr) (mappedSsrc : Z) : M unit :=
  MS_TRACE mProducerRtpStream >>
  storeProducerRtpStream rtpStream mappedSsrc.

Definition ProducerNewRtpStream (env : Env) (rtpStream : option ptr) (mappedSsrc : Z)
    : M unit :=
  MS_TRACE mProducerNewRtpStream >>
  storeProducerRtpStream rtpStream mappedSsrc >>
  when (IsActive env) (MayChangeLayers env false).

Definition ProducerRtpStreamScore (env : Env) (rtpStream : option ptr)
    (score previousScore : Z) : M unit :=
  MS_TRACE mProducerRtpStreamScore >>
  let* producerCurrentRtpStream := GetProducerCurrentRtpStream in
  when (bool_decide (rtpStream = producerCurrentRtpStream)) (EmitScore env) >>
  let* c := get in
  if Consumer_IsActive env then
    when (negb (externallyManagedBitrate c) || ((score =? 0) || (previousScore =? 0)))
      (MayChangeLayers env false)
  else ret tt.

Definition ProducerRtcpSenderReport (env : Env) (rtpStream : option ptr) (first : bool)
    : M unit :=
  MS_TRACE mProducerRtcpSenderReport >>
  if negb first then ret tt
  else
    let* producerCurrentRtpStream := GetProducerCurrentRtpStream in
    match producerCurrentRtpStream with
    | None => ret tt
    | Some q =>
        if RtpStream.GetSenderReportNtpMs (producer env q) =? 0 then ret tt
        else when (IsActive env) (MayChangeLayers env false)
    end.

(** ** Bitrate allocation *)

(** The conversion of a double to [uint32_t], as in the assignment of a
    double to [virtualBitrate]: its integer part when that is within
    [uint32_t]. *)
Definition toUint32 (x : SpecFloat.spec_float) : Z :=
  match Double.truncation x with
  | Some z => if (0 <=? z) && (z <? 2 ^ 32) then z else undefinedUint32 x
  | None => undefinedUint32 x
  end.

(** The block computing [virtualBitrate], the same in [UseAvailableBitrate]
    and in [IncreaseTemporalLayer].  [bitrate], a [uint32_t], and the
    literal 1 are converted to [double] for the products. *)
Definition virtualBitrateFor (c : Consumer) (bitrate : Z) (considerLoss : bool) : Z :=
  if considerLoss then
    let lossPercentage := GetLossPercentage (rtpStream c) in
    if negb (Qle_bool (inject_Z 2) lossPercentage)
    then toUint32 (Double.mul Double.literal_1_08 (Double.ofZ bitrate))
    else if negb (Qle_bool lossPercentage (inject_Z 10))
    then toUint32
           (Double.mul
              (Double.sub (Double.ofZ 1)
                 (Double.mul Double.literal_0_5 (lossPercentageOver100 lossPercentage)))
              (Double.ofZ bitrate))
    else bitrate
  else bitrate.

(** How a loop body leaves: to the next iteration or statement, or by
    [goto done]. *)
Inductive Flow := Next | GotoDone.

(** The inner loop of [UseAvailableBitrate], entered with [temporalLayer]
    and [remaining] iterations before [temporalLayer] reaches
    [GetTemporalLayers()]; gives the way out and [usedBitrate]. *)
Fixpoint useTemporalLoop (stream : RtpStream.t) (spatialLayer producerScore virtualBitrate : Z)
    (remaining : nat) (temporalLayer usedBitrate : Z) : M (Flow * Z) :=
  match remaining with
  | O => ret (Next, usedBitrate)
  | S remaining' =>
      let requiredBitrate := RtpStream.GetBitrate stream 0 temporalLayer in
      if requiredBitrate =? 0 then ret (Next, usedBitrate)
      else if virtualBitrate <? requiredBitrate then ret (GotoDone, usedBitrate)
      else
        modify (set_provisionalTargetSpatialLayer spatialLayer) >>
        modify (set_provisionalTargetTemporalLayer temporalLayer) >>
        let usedBitrate := requiredBitrate in
        let* c := get in
        if (provisionalTargetSpatialLayer c =? preferredSpatialLayer c)
           && (provisionalTargetTemporalLayer c =? preferredTemporalLayer c)
           && (StreamGoodScore <=? producerScore)
        then ret (GotoDone, usedBitrate)
        else useTemporalLoop stream spatialLayer producerScore virtualBitrate
               remaining' (temporalLayer + 1) usedBitrate
  end.

(** The outer loop of [UseAvailableBitrate]; gives [usedBitrate] at [done]. *)
Fixpoint useSpatialLoop (env : Env) (virtualBitrate : Z) (slots : list (option ptr))
    (sIdx usedBitrate maxProducerScore : Z) : M Z :=
  match slots with
  | [] => ret usedBitrate
  | producerRtpStream :: rest =>
      let spatialLayer := Int.i16 sIdx in
      match producerRtpStream with
      | None => useSpatialLoop env virtualBitrate rest (sIdx + 1) usedBitrate maxProducerScore
      | Some q =>
          let stream := producer env q in
          let producerScore := RtpStream.GetScore stream in
          if producerScore =? 0
          then useSpatialLoop env virtualBitrate rest (sIdx + 1) usedBitrate maxProducerScore
          else if (0 <? usedBitrate) && (RtpStream.GetActiveTime stream <? StreamMinActiveTime)
          then useSpatialLoop env virtualBitrate rest (sIdx + 1) usedBitrate maxProducerScore
          else
            let* canSwitch := CanSwitchToSpatialLayer env spatialLayer in
            if negb canSwitch
            then useSpatialLoop env virtualBitrate rest (sIdx + 1) usedBitrate maxProducerScore
            else if (producerScore <? maxProducerScore) && (producerScore <? StreamGoodScore)
            then useSpatialLoop env virtualBitrate rest (sIdx + 1) usedBitrate maxProducerScore
            else
              let maxProducerScore := producerScore in
              let* r := useTemporalLoop stream spatialLayer producerScore virtualBitrate
                          (Z.to_nat (RtpStream.GetTemporalLayers stream)) 0 usedBitrate in
              match r with
              | (GotoDone, usedBitrate) => ret usedBitrate
              | (Next, usedBitrate) =>
                  let* c := get in
                  if (preferredSpatialLayer c <=? provisionalTargetSpatialLayer c)
                     && (StreamGoodScore <=? producerScore)
                  then ret usedBitrate
                  else useSpatialLoop env virtualBitrate rest (sIdx + 1)
                         usedBitrate maxProducerScore
              end
      end
  end.

(** The recomputation of the returned bitrate that ends [UseAvailableBitrate]. *)
Definition reshapeUsedBitrate (usedBitrate bitrate virtualBitrate : Z) : Z :=
  if usedBitrate <=? bitrate then usedBitrate
  else if usedBitrate <=? virtualBitrate then bitrate
  else usedBitrate.

(** [usedBitrate] when the scan of [UseAvailableBitrate] reaches [done]. *)
Definition useAvailableScan (env : Env) (virtualBitrate : Z) : M Z :=
  let* c := get in
  useSpatialLoop env virtualBitrate (producerRtpStreams c) 0 0 0.

Definition UseAvailableBitrate (env : Env) (bitrate : Z) (considerLoss : bool) : M Z :=
  MS_TRACE mUseAvailableBitrate >>
  let* c := get in
  MS_ASSERT (externallyManagedBitrate c) >>
  modify (set_provisionalTargetSpatialLayer (-1)) >>
  modify (set_provisionalTargetTemporalLayer (-1)) >>
  if negb (Consumer_IsActive env) then ret 0
  else
    let virtualBitrate := virtualBitrateFor c bitrate considerLoss in
    let* usedBitrate := useAvailableScan env virtualBitrate in
    ret (reshapeUsedBitrate usedBitrate bitrate virtualBitrate).

(** The loop of [IncreaseTemporalLayer]; gives [temporalLayer] and
    [requiredBitrate] when the loop is left. *)
Fixpoint increaseLoop (c : Consumer) (stream : RtpStream.t) (remaining : nat)
    (temporalLayer requiredBitrate : Z) : Z * Z :=
  match remaining with
  | O => (temporalLayer, requiredBitrate)
  | S remaining' =>
      if (preferredSpatialLayer c <=? provisionalTargetSpatialLayer c)
         && (preferredTemporalLayer c <? temporalLayer)
      then (temporalLayer, requiredBitrate)
      else
        let requiredBitrate := RtpStream.GetLayerBitrate stream 0 temporalLayer in
        if negb (requiredBitrate =? 0) then (temporalLayer, requiredBitrate)
        else increaseLoop c stream remaining' (temporalLayer + 1) requiredBitrate
  end.

Definition IncreaseTemporalLayer (env : Env) (bitrate : Z) (considerLoss : bool) : M Z :=
  MS_TRACE mIncreaseTemporalLayer >>
  let* c := get in
  MS_ASSERT (externallyManagedBitrate c) >>
  if negb (Consumer_IsActive env) then ret 0
  else if provisionalTargetSpatialLayer c =? -1 then ret 0
  else if (provisionalTargetSpatialLayer c =? preferredSpatialLayer c)
          && (provisionalTargetTemporalLayer c =? preferredTemporalLayer c)
  then ret 0
  else
    let virtualBitrate := virtualBitrateFor c bitrate considerLoss in
    let* producerRtpStream := GetProducerProvisionalTargetRtpStream in
    let temporalLayer := Int.i16 (provisionalTargetTemporalLayer c + 1) in
    MS_ASSERT (bool_decide (is_Some producerRtpStream)) >>
    let* stream := deref env producerRtpStream in
    let '(temporalLayer, requiredBitrate) :=
      increaseLoop c stream
        (Z.to_nat (RtpStream.GetTemporalLayers stream - temporalLayer)) temporalLayer 0 in
    if requiredBitrate =? 0 then ret 0
    else if virtualBitrate <? requiredBitrate then ret 0
    else
      modify (set_provisionalTargetTemporalLayer temporalLayer) >>
      if requiredBitrate <=? bitrate then ret requiredBitrate
      else if requiredBitrate <=? virtualBitrate then ret bitrate
      else ret requiredBitrate.

Definition ApplyLayers (env : Env) : M unit :=
  MS_TRACE mApplyLayers >>
  let* c := get in
  MS_ASSERT (externallyManagedBitrate c) >>
  let provisionalTargetSpatialLayer' := provisionalTargetSpatialLayer c in
  let provisionalTargetTemporalLayer' := provisionalTargetTemporalLayer c in
  modify (set_provisionalTargetSpatialLayer (-1)) >>
  modify (set_provisionalTargetTemporalLayer (-1)) >>
  if negb (Consumer_IsActive env) then ret tt
  else
    let* c := get in
    when (negb (provisionalTargetSpatialLayer' =? targetSpatialLayer c)
          || negb (provisionalTargetTemporalLayer' =? targetTemporalLayer c))
      (UpdateTargetLayers provisionalTargetSpatialLayer' provisionalTargetTemporalLayer').

(** The inner loop of [GetDesiredBitrate] on the locals
    [(desiredSpatialLayer, desiredTemporalLayer, desiredBitrate)]. *)
Fixpoint desiredTemporalLoop (c : Consumer) (stream : RtpStream.t)
    (spatialLayer producerScore : Z) (remaining : nat) (temporalLayer : Z)
    (desired : Z * Z * Z) : Flow * (Z * Z * Z) :=
  match remaining with
  | O => (Next, desired)
  | S remaining' =>
      let bitrate := RtpStream.GetBitrate stream 0 temporalLayer in
      if bitrate =? 0 then (Next, desired)
      else
        let desired := (spatialLayer, temporalLayer, bitrate) in
        if (spatialLayer =? preferredSpatialLayer c)
           && (temporalLayer =? preferredTemporalLayer c)
           && (StreamGoodScore <=? producerScore)
        then (GotoDone, desired)
        else desiredTemporalLoop c stream spatialLayer producerScore
               remaining' (temporalLayer + 1) desired
  end.

Fixpoint desiredSpatialLoop (env : Env) (slots : list (option ptr)) (sIdx : Z)
    (desired : Z * Z * Z) (maxProducerScore : Z) : M (Z * Z * Z) :=
  match slots with
  | [] => ret desired
  | producerRtpStream :: rest =>
      let spatialLayer := Int.i16 sIdx in
      match producerRtpStream with
      | None => desiredSpatialLoop env rest (sIdx + 1) desired maxProducerScore
      | Some q =>
          let stream := producer env q in
          let producerScore := RtpStream.GetScore stream in
          if producerScore =? 0
          then desiredSpatialLoop env rest (sIdx + 1) desired maxProducerScore
          else if (0 <? snd desired) && (RtpStream.GetActiveTime stream <? StreamMinActiveTime)
          then desiredSpatialLoop env rest (sIdx + 1) desired maxProducerScore
          else
            let* canSwitch := CanSwitchToSpatialLayer env spatialLayer in
            if negb canSwitch
            then desiredSpatialLoop env rest (sIdx + 1) desired maxProducerScore
            else if (producerScore <? maxProducerScore) && (producerScore <? StreamGoodScore)
            then desiredSpatialLoop env rest (sIdx + 1) desired maxProducerScore
            else
              let* c := get in
              match desiredTemporalLoop c stream spatialLayer producerScore
                      (Z.to_nat (RtpStream.GetTemporalLayers stream)) 0 desired with
              | (GotoDone, desired) => ret desired
              | (Next, desired) =>
                  if (preferredSpatialLayer c <=? fst (fst desired))
                     && (StreamGoodScore <=? producerScore)
                  then ret desired
                  else desiredSpatialLoop env rest (sIdx + 1) desired producerScore
              end
      end
  end.

Definition GetDesiredBitrate (env : Env) : M Z :=
  let* c := get in
  MS_ASSERT (externallyManagedBitrate c) >>
  if negb (Consumer_IsActive env) then ret 0
  else
    let* desired := desiredSpatialLoop env (producerRtpStreams c) 0 (-1, -1, 0) 0 in
    let '(desiredSpatialLayer, desiredTemporalLayer, desiredBitrate) := desired in
    if desiredSpatialLayer =? -1 then ret 0
    else ret desiredBitrate.

(** ** Forwarding a packet *)

(** [std::map::at]: throws when the key is absent. *)
Definition mapAt (m : gmap Z Z) (k : Z) : M Z :=
  match m !! k with
  | Some v => ret v
  | None => throw OutOfRange
  end.

(** The check for the packet that completes a switch of spatial layer;
    [false] is the [return] on a packet that is not a key frame. *)
Definition switchCheck (env : Env) (packet : RtpPacket) (spatialLayer : Z) : M bool :=
  let* c := get in
  if negb (currentSpatialLayer c =? targetSpatialLayer c)
     && (spatialLayer =? targetSpatialLayer c)
  then
    if negb (pktIsKeyFrame packet) then ret false
    else
      modify (set_currentSpatialLayer (targetSpatialLayer c)) >>
      modify (fun c => set_encodingContext
                         (SetTargetTemporalLayer (targetTemporalLayer c) (encodingContext c)) c) >>
      modify (fun c => set_encodingContext
                         (SetCurrentTemporalLayer (pktTemporalLayer packet) (encodingContext c)) c) >>
      modify (fun c => set_rtpStream (ResetScore 10 false (rtpStream c)) c) >>
      EmitLayersChange >>
      EmitScore env >>
      modify (set_syncRequired true) >>
      ret true
  else ret true.

(** [tsOffset] from the sender reports of the reference stream [(ntpMs1, ts1)]
    and of the current stream [(ntpMs2, ts2)]. *)
Definition ntpTsOffset (ntpMs1 ts1 ntpMs2 ts2 clockRate : Z) : Z :=
  let diffMs :=
    if ntpMs1 <=? ntpMs2 then Int.i64 (Int.u64 (ntpMs2 - ntpMs1))
    else Int.i64 (Int.u64 (Int.u64 (-1) * Int.u64 (ntpMs1 - ntpMs2))) in
  let diffTs := Int.i64 (Int.i64 (diffMs * clockRate) ÷ 1000) in
  let newTs2 := Int.u32 (ts2 - diffTs) in
  Int.u32 (newTs2 - ts1).

(** The block run on the first packet after a re-sync. *)
Definition syncStream (env : Env) (packet : RtpPacket) (spatialLayer : Z) : M unit :=
  modify (fun c => set_rtpSeqManager
                     (Sync (Int.u16 (pktSequenceNumber packet - 1)) (rtpSeqManager c)) c) >>
  let* c := get in
  (if spatialLayer =? tsReferenceSpatialLayer c then modify (set_tsOffset 0)
   else
     let* producerTsReferenceRtpStream := GetProducerTsReferenceRtpStream in
     let* producerCurrentRtpStream := GetProducerCurrentRtpStream in
     let* reference := deref env producerTsReferenceRtpStream in
     MS_ASSERT (negb (RtpStream.GetSenderReportNtpMs reference =? 0)) >>
     let* current := deref env producerCurrentRtpStream in
     MS_ASSERT (negb (RtpStream.GetSenderReportNtpMs current =? 0)) >>
     modify (set_tsOffset
               (ntpTsOffset (RtpStream.GetSenderReportNtpMs reference)
                  (RtpStream.GetSenderReportTs reference)
                  (RtpStream.GetSenderReportNtpMs current)
                  (RtpStream.GetSenderReportTs current)
                  (GetClockRate (rtpStream c))))) >>
  modify (set_tsExtraOffsets ∅) >>
  modify (set_tsExtraOffetPacketCount 0) >>
  let* c := get in
  when (Int.u32 (pktTimestamp packet - tsOffset c) <=? GetMaxPacketTs (rtpStream c))
    (let tsExtraOffset :=
       Int.u32 (GetMaxPacketTs (rtpStream c) - pktTimestamp packet + tsOffset c + 1) in
     modify (set_tsExtraOffsets (<[pktTimestamp packet := tsExtraOffset]> (tsExtraOffsets c)))) >>
  modify (fun c => set_encodingContext (SyncRequired (encodingContext c)) c) >>
  modify (set_syncRequired false).

(** The outbound timestamp: the offset timestamp plus the extra offset stored
    or generated for the inbound timestamp while [tsExtraOffsets] is not empty. *)
Definition rewriteTimestamp (packet : RtpPacket) : M Z :=
  let* c := get in
  let timestamp := Int.u32 (pktTimestamp packet - tsOffset c) in
  if bool_decide (tsExtraOffsets c = ∅) then ret timestamp
  else
    let* tsExtraOffset :=
      match tsExtraOffsets c !! pktTimestamp packet with
      | Some stored => ret stored
      | None =>
          if timestamp <? GetMaxPacketTs (rtpStream c) then
            let tsExtraOffset := Int.u32 (GetMaxPacketTs (rtpStream c) - timestamp + 1) in
            modify (set_tsExtraOffsets
                      (<[pktTimestamp packet := tsExtraOffset]> (tsExtraOffsets c))) >>
            ret tsExtraOffset
          else ret 0
      end in
    let timestamp := Int.u32 (timestamp + tsExtraOffset) in
    when (negb (tsExtraOffset =? 0))
      (modify (fun c => set_tsExtraOffetPacketCount
                          (Int.u32 (tsExtraOffetPacketCount c + 1)) c)) >>
    let* c := get in
    when ((negb (tsExtraOffset =? 0) && (200 <? tsExtraOffetPacketCount c))
          || (500 <? tsExtraOffetPacketCount c))
      (modify (set_tsExtraOffsets ∅) >>
       modify (set_tsExtraOffetPacketCount 0)) >>
    ret timestamp.

(** The packet is rewritten in place; the result is the packet as the
    caller finds it when the method returns. *)
Definition SendRtpPacket (env : Env) (packet : RtpPacket) : M RtpPacket :=
  MS_TRACE mSendRtpPacket >>
  if negb (IsActive env) then ret packet
  else
    let* c := get in
    if targetTemporalLayer c =? -1 then ret packet
    else if negb (bool_decide (pktPayloadType packet ∈ supportedCodecPayloadTypes c))
    then ret packet
    else
      let* spatialLayer := mapAt (mapMappedSsrcSpatialLayer c) (pktSsrc packet) in
      let* awaited := switchCheck env packet spatialLayer in
      if negb awaited then ret packet
      else
        let* c := get in
        if negb (spatialLayer =? currentSpatialLayer c) then ret packet
        else if syncRequired c && negb (pktIsKeyFrame packet) then ret packet
        else
          let isSyncPacket := syncRequired c in
          when isSyncPacket (syncStream env packet spatialLayer) >>
          let* c := get in
          let previousTemporalLayer := GetCurrentTemporalLayer (encodingContext c) in
          let '(forward, context, payload) := ProcessPayload (encodingContext c) packet in
          modify (set_encodingContext context) >>
          let packet := SetPayload payload packet in
          if negb forward then
            modify (fun c => set_rtpSeqManager
                               (Drop (pktSequenceNumber packet) (rtpSeqManager c)) c) >>
            ret packet
          else
            let* c := get in
            when (negb (previousTemporalLayer =? GetCurrentTemporalLayer (encodingContext c)))
              EmitLayersChange >>
            let* timestamp := rewriteTimestamp packet in
            let* c := get in
            let '(manager, seq) := Input (pktSequenceNumber packet) (rtpSeqManager c) in
            modify (set_rtpSeqManager manager) >>
            let origSsrc := pktSsrc packet in
            let origSeq := pktSequenceNumber packet in
            let origTimestamp := pktTimestamp packet in
            let packet := SetSsrc (encodingSsrc c) packet in
            let packet := SetSequenceNumber seq packet in
            let packet := SetTimestamp timestamp packet in
            emit (RtpStreamSend_ReceivePacket packet) >>
            let* c := get in
            let '(accepted, stream) := ReceivePacket packet (rtpStream c) in
            modify (set_rtpStream stream) >>
            when accepted (emit (OnConsumerSendRtpPacket packet)) >>
            let packet := SetSsrc origSsrc packet in
            let packet := SetSequenceNumber origSeq packet in
            let packet := SetTimestamp origTimestamp packet in
            ret (RestorePayload packet).

(** ** RTCP, transport and stream events *)

(** [sameStream] is the asserted [rtpStream == this->rtpStream]. *)
Definition GetRtcp (sameStream : bool) (now : Z) : M unit :=
  MS_TRACE mGetRtcp >>
  MS_ASSERT sameStream >>
  let* c := get in
  if rtcpTooEarly now (lastRtcpSentTime c) (maxRtcpInterval c) then ret tt
  else
    let '(report, stream) := GetRtcpSenderReport now (rtpStream c) in
    modify (set_rtpStream stream) >>
    if negb report then ret tt
    else
      emit AddSenderReport >>
      modify (set_lastRtcpSentTime now).

(** Returns [worstRemoteFractionLost] as the method leaves it. *)
Definition NeedWorstRemoteFractionLost (env : Env) (worstRemoteFractionLost : Z) : M Z :=
  MS_TRACE mNeedWorstRemoteFractionLost >>
  if negb (IsActive env) then ret worstRemoteFractionLost
  else
    let* c := get in
    let fractionLost := GetFractionLost (rtpStream c) in
    if worstRemoteFractionLost <? fractionLost then ret fractionLost
    else ret worstRemoteFractionLost.

Definition ReceiveNack (env : Env) : M unit :=
  MS_TRACE mReceiveNack >>
  if negb (IsActive env) then ret tt
  else modify (fun c => set_rtpStream (streamReceiveNack (rtpStream c)) c).

Definition ReceiveKeyFrameRequest (env : Env) : M unit :=
  MS_TRACE mReceiveKeyFrameRequest >>
  modify (fun c => set_rtpStream (streamReceiveKeyFrameRequest (rtpStream c)) c) >>
  when (IsActive env) RequestKeyFrameForCurrentSpatialLayer.

Definition ReceiveRtcpReceiverReport : M unit :=
  MS_TRACE mReceiveRtcpReceiverReport >>
  modify (fun c => set_rtpStream (streamReceiveRtcpReceiverReport (rtpStream c)) c).

Definition GetTransmissionRate (env : Env) (now : Z) : M Z :=
  MS_TRACE mGetTransmissionRate >>
  if negb (IsActive env) then ret 0
  else
    let* c := get in
    ret (streamGetBitrate now (rtpStream c)).

Definition UserOnTransportConnected (env : Env) : M unit :=
  MS_TRACE mUserOnTransportConnected >>
  modify (set_syncRequired true) >>
  when (IsActive env) (MayChangeLayers env false).

Definition UserOnTransportDisconnected : M unit :=
  MS_TRACE mUserOnTransportDisconnected >>
  modify (fun c => set_rtpStream (Pause (rtpStream c)) c) >>
  UpdateTargetLayers (-1) (-1).

Definition UserOnPaused : M unit :=
  MS_TRACE mUserOnPaused >>
  modify (fun c => set_rtpStream (Pause (rtpStream c)) c) >>
  UpdateTargetLayers (-1) (-1) >>
  let* c := get in
  when (externallyManagedBitrate c) (emit OnConsumerNeedBitrateChange).

Definition UserOnResumed (env : Env) : M unit :=
  MS_TRACE mUserOnResumed >>
  modify (set_syncRequired true) >>
  when (IsActive env) (MayChangeLayers env false).

Definition OnRtpStreamScore (env : Env) : M unit :=
  MS_TRACE mOnRtpStreamScore >>
  EmitScore env >>
  let* c := get in
  if IsActive env then
    when (negb (externallyManagedBitrate c)) (MayChangeLayers env false)
  else ret tt.

Definition OnRtpStreamRetransmitRtpPacket (packet : RtpPacket) : M unit :=
  MS_TRACE mOnRtpStreamRetransmitRtpPacket >>
  emit (OnConsumerRetransmitRtpPacket packet).

(** ** The consumer as a state machine *)

(** The methods through which the rest of the worker acts on a consumer,
    with their arguments.  The callbacks of the send stream
    ([OnRtpStreamScore], [OnRtpStreamRetransmitRtpPacket]) and the hooks
    called by the base class ([UserOn...]) are operations of their own. *)
Inductive Operation :=
| opHandleRequest (request : Request)
| opProducerRtpStream (rtpStream : option ptr) (mappedSsrc : Z)
| opProducerNewRtpStream (rtpStream : option ptr) (mappedSsrc : Z)
| opProducerRtpStreamScore (rtpStream : option ptr) (score previousScore : Z)
| opProducerRtcpSenderReport (rtpStream : option ptr) (first : bool)
| opGetBitratePriority
| opUseAvailableBitrate (bitrate : Z) (considerLoss : bool)
| opIncreaseTemporalLayer (bitrate : Z) (considerLoss : bool)
| opApplyLayers
| opGetDesiredBitrate
| opSendRtpPacket (packet : RtpPacket)
| opGetRtcp (sameStream : bool) (now : Z)
| opNeedWorstRemoteFractionLost (worstRemoteFractionLost : Z)
| opReceiveNack
| opReceiveKeyFrameRequest
| opReceiveRtcpReceiverReport
| opGetTransmissionRate (now : Z)
| opUserOnTransportConnected
| opUserOnTransportDisconnected
| opUserOnPaused
| opUserOnResumed
| opOnRtpStreamScore
| opOnRtpStreamRetransmitRtpPacket (packet : RtpPacket).

Definition discard {A} (m : M A) : M unit := let* _ := m in ret tt.

Definition perform (env : Env) (op : Operation) : M unit :=
  match op with
  | opHandleRequest request => HandleRequest env request
  | opProducerRtpStream rtpStream mappedSsrc => ProducerRtpStream rtpStream mappedSsrc
  | opProducerNewRtpStream rtpStream mappedSsrc =>
      ProducerNewRtpStream env rtpStream mappedSsrc
  | opProducerRtpStreamScore rtpStream score previousScore =>
      ProducerRtpStreamScore env rtpStream score previousScore
  | opProducerRtcpSenderReport rtpStream first => ProducerRtcpSenderReport env rtpStream first
  | opGetBitratePriority => discard (GetBitratePriority env)
  | opUseAvailableBitrate bitrate considerLoss =>
      discard (UseAvailableBitrate env bitrate considerLoss)
  | opIncreaseTemporalLayer bitrate considerLoss =>
      discard (IncreaseTemporalLayer env bitrate considerLoss)
  | opApplyLayers => ApplyLayers env
  | opGetDesiredBitrate => discard (GetDesiredBitrate env)
  | opSendRtpPacket packet => discard (SendRtpPacket env packet)
  | opGetRtcp sameStream now => GetRtcp sameStream now
  | opNeedWorstRemoteFractionLost worst => discard (NeedWorstRemoteFractionLost env worst)
  | opReceiveNack => ReceiveNack env
  | opReceiveKeyFrameRequest => ReceiveKeyFrameRequest env
  | opReceiveRtcpReceiverReport => ReceiveRtcpReceiverReport
  | opGetTransmissionRate now => discard (GetTransmissionRate env now)
  | opUserOnTransportConnected => UserOnTransportConnected env
  | opUserOnTransportDisconnected => UserOnTransportDisconnected
  | opUserOnPaused => UserOnPaused
  | opUserOnResumed => UserOnResumed env
  | opOnRtpStreamScore => OnRtpStreamScore env
  | opOnRtpStreamRetransmitRtpPacket packet => OnRtpStreamRetransmitRtpPacket packet
  end.

(** The state in which an operation leaves the consumer, whether it
    returned or stopped at a fault. *)
Definition after (env : Env) (op : Operation) (c : Consumer) : Consumer :=
  finalState (perform env op c).

(** A run: operations with the environment each one meets. *)
Fixpoint run (ops : list (Env * Operation)) (c : Consumer) : Consumer :=
  match ops with
  | [] => c
  | (env, op) :: rest => run rest (after env op c)
  end.

(** ** Construction *)

Definition set_mapMappedSsrcSpatialLayer (v : gmap Z Z) (c : Consumer) : Consumer :=
  Build_Consumer (preferredSpatialLayer c) (preferredTemporalLayer c) (targetSpatialLayer c)
    (targetTemporalLayer c) (currentSpatialLayer c) (tsReferenceSpatialLayer c)
    (provisionalTargetSpatialLayer c) (provisionalTargetTemporalLayer c)
    (externallyManagedBitrate c) (syncRequired c) (tsOffset c) (tsExtraOffsets c)
    (tsExtraOffetPacketCount c) (producerRtpStreams c) v
    (supportedCodecPayloadTypes c) (consumableRtpEncodings c) (kind c) (encodingSsrc c)
    (encodingContext c) (rtpStream c) (rtpSeqManager c) (lastRtcpSentTime c)
    (maxRtcpInterval c).

(** What the constructor is given besides the object that the base class
    constructor leaves: the RTP parameters, [data["preferredLayers"]] when
    it is an object (its [spatialLayer] and [temporalLayer] members), the
    answers of [RTC::Codecs::IsValidTypeForCodec] and
    [RTC::Codecs::GetEncodingContext], and the send stream that the worker
    builds for a given setup. *)
Record ConstructorData := {
  rtpParameters : RtpParameters;
  data_preferredLayers : option (option Json * option Json);
  IsValidTypeForCodec : string -> bool;
  GetEncodingContext : string -> Z -> Z -> option EncodingContext;
  defaultParams : Params.t;
  IsPaused : bool;
  IsProducerPaused : bool;
  newRtpStreamSend : StreamSetup -> RtpStreamSend
}.

(** The loop that fills [mapMappedSsrcSpatialLayer], from index [idx] on. *)
Fixpoint fillMapMappedSsrcSpatialLayer (encodings : list Z) (idx : Z) (m : gmap Z Z)
    : gmap Z Z :=
  match encodings with
  | [] => m
  | ssrc :: rest =>
      fillMapMappedSsrcSpatialLayer rest (idx + 1) (<[ssrc := Int.i16 idx]> m)
  end.

(** The body of the constructor, run on the object as the constructor of
    [RTC::Consumer] and the member initialisers leave it.  The send stream
    is also pushed to [rtpStreams], a member of the base class that the file
    does not read. *)
Definition construct (data : ConstructorData) : M unit :=
  let* c := get in
  if Z.of_nat (length (consumableRtpEncodings c)) <=? 1 then throw TypeError
  else
    let encoding := encodings_0 (rtpParameters data) in
    if negb (RtpEncodingParameters.spatialLayers encoding
             =? Z.of_nat (length (consumableRtpEncodings c)))
    then throw TypeError
    else
      modify (set_mapMappedSsrcSpatialLayer
                (fillMapMappedSsrcSpatialLayer (consumableRtpEncodings c) 0
                   (mapMappedSsrcSpatialLayer c))) >>
      (match data_preferredLayers data with
       | Some (jsonSpatialLayer, jsonTemporalLayer) =>
           match asUnsigned jsonSpatialLayer with
           | None => throw TypeError
           | Some spatial =>
               modify (set_preferredSpatialLayer (Int.i16 spatial)) >>
               let* c := get in
               when (RtpEncodingParameters.spatialLayers encoding - 1
                     <? preferredSpatialLayer c)
                 (modify (set_preferredSpatialLayer
                            (Int.i16 (RtpEncodingParameters.spatialLayers encoding - 1)))) >>
               match asUnsigned jsonTemporalLayer with
               | Some temporal =>
                   modify (set_preferredTemporalLayer (Int.i16 temporal)) >>
                   let* c := get in
                   when (RtpEncodingParameters.temporalLayers encoding - 1
                         <? preferredTemporalLayer c)
                     (modify (set_preferredTemporalLayer
                                (Int.i16 (RtpEncodingParameters.temporalLayers encoding - 1))))
               | None =>
                   modify (set_preferredTemporalLayer
                             (Int.i16 (RtpEncodingParameters.temporalLayers encoding - 1)))
               end
           end
       | None =>
           modify (set_preferredSpatialLayer
                     (Int.i16 (RtpEncodingParameters.spatialLayers encoding - 1))) >>
           modify (set_preferredTemporalLayer
                     (Int.i16 (RtpEncodingParameters.temporalLayers encoding - 1)))
       end) >>
      modify (fun c => set_producerRtpStreams
                         (replicate (length (consumableRtpEncodings c)) None
                          ++ producerRtpStreams c) c) >>
      let mediaCodec := GetCodecForEncoding (rtpParameters data) in
      if negb (IsValidTypeForCodec data (RtpCodecParameters.mimeType mediaCodec))
      then throw TypeError
      else
        (match GetEncodingContext data (RtpCodecParameters.mimeType mediaCodec)
                 (RtpEncodingParameters.spatialLayers encoding)
                 (RtpEncodingParameters.temporalLayers encoding) with
         | None => throw AssertionFailed
         | Some context => modify (set_encodingContext context)
         end) >>
        modify (set_rtpStream
                  (newRtpStreamSend data
                     (CreateRtpStream (defaultParams data) (rtpParameters data)
                        (IsPaused data) (IsProducerPaused data)))).

End SimulcastConsumer.

Arguments Done {H A} a c log.
Arguments Stop {H A} f c log.

(** ** Notions used to state the properties *)

Section Notions.

Context `{Collaborators} `{Conversions}.

(** The slot of spatial layer [s], when [s] is an index of [producerRtpStreams]. *)
Definition slotAt (c : Consumer) (s : Z) : option (option ptr) :=
  if s <? 0 then None else producerRtpStreams c !! Z.to_nat s.

(** Spatial layer [s] holds the producer stream [q]. *)
Definition holdsStream (c : Consumer) (s : Z) (q : ptr) : Prop :=
  slotAt c s = Some (Some q).

(** Spatial layer [s] holds a stream whose score is not 0 (scores are
    unsigned: a score above 0). *)
Definition scoring (env : Env) (c : Consumer) (s : Z) : Prop :=
  exists q, holdsStream c s q /\ RtpStream.GetScore (producer env q) <> 0.

Definition hasSenderReport (env : Env) (q : ptr) : Prop :=
  RtpStream.GetSenderReportNtpMs (producer env q) <> 0.

(** Invariant 1 of the data model. *)
Definition noTargetNoCurrent (c : Consumer) : Prop :=
  targetSpatialLayer c = -1 -> currentSpatialLayer c = -1.

(** [m], started in a state satisfying [P], returns a value and a state
    satisfying [Q], or stops at a fault in a state satisfying [E]. *)
Definition triple {A} (P : Consumer -> Prop) (m : M A)
    (Q : A -> Consumer -> Prop) (E : Consumer -> Prop) : Prop :=
  forall c, P c ->
    match m c with
    | Done a c' _ => Q a c'
    | Stop _ c' _ => E c'
    end.

(** [m] keeps [I]: it holds when [m] returns or faults if it held before. *)
Definition keeps {A} (I : Consumer -> Prop) (m : M A) : Prop :=
  triple I m (fun _ => I) I.

(** [m] leaves the consumer as it found it (a const method). *)
Definition readOnly {A} (m : M A) : Prop :=
  forall c, finalState (m c) = c.

(** Slot [i] of [slots] holds a stream with a score other than 0. *)
Definition scoringSlot (env : Env) (slots : list (option ptr)) (i : nat) : Prop :=
  exists q, slots !! i = Some (Some q) /\ RtpStream.GetScore (producer env q) <> 0.

(** What [prioritySpatialLayer] is once the slots [slots] have been
    visited: -1 if none scores; else a scoring slot, the highest one up to
    [preferred] if there is one, the lowest one otherwise. *)
Definition priorityChoice (env : Env) (preferred : Z) (slots : list (option ptr))
    (priority : Z) : Prop :=
  (priority = -1 /\ forall i, ~ scoringSlot env slots i) \/
  (exists p : nat,
      priority = Z.of_nat p /\ scoringSlot env slots p /\
      ((Z.of_nat p <= preferred /\
        forall i, scoringSlot env slots i -> Z.of_nat i <= preferred -> (i <= p)%nat) \/
       (preferred < Z.of_nat p /\
        forall i, scoringSlot env slots i -> (p <= i)%nat))).

(** The timestamp reference layer, if there is one, holds a stream. *)
Definition referenceReady (c : Consumer) : Prop :=
  tsReferenceSpatialLayer c = -1 \/
  exists r, holdsStream c (tsReferenceSpatialLayer c) r.

(** [c] has the producer slots and the reference layer of [c0]. *)
Definition sameStreams (c0 c : Consumer) : Prop :=
  producerRtpStreams c = producerRtpStreams c0 /\
  tsReferenceSpatialLayer c = tsReferenceSpatialLayer c0.

(** The provisional target layers are both unset. *)
Definition noProvisional (c : Consumer) : Prop :=
  provisionalTargetSpatialLayer c = -1 /\ provisionalTargetTemporalLayer c = -1.

(** A layer read from the request as [int16_t] and clamped to
    [layers - 1]. *)
Definition clampLayer (layers json : Z) : Z :=
  if layers - 1 <? Int.i16 json then Int.i16 (layers - 1) else Int.i16 json.

(** The preferred layers that a [CONSUMER_SET_PREFERRED_LAYERS] request
    asks for on consumer [c]; no spatial layer when the request is rejected. *)
Definition requestedSpatialLayer (c : Consumer) (request : Request) : option Z :=
  clampLayer (GetSpatialLayers (rtpStream c)) <$> asUnsigned (dataSpatialLayer request).

Definition requestedTemporalLayer (c : Consumer) (request : Request) : Z :=
  match asUnsigned (dataTemporalLayer request) with
  | Some json => clampLayer (GetTemporalLayers (rtpStream c)) json
  | None => Int.i16 (GetTemporalLayers (rtpStream c) - 1)
  end.

(** The preferred layers are [(s, t)] and the send stream is [stream]. *)
Definition prefers (s t : Z) (stream : RtpStreamSend) (c : Consumer) : Prop :=
  preferredSpatialLayer c = s /\ preferredTemporalLayer c = t /\ rtpStream c = stream.

(** [currentSpatialLayer] is unset or an index of [producerRtpStreams]. *)
Definition currentInRange (c : Consumer) : Prop :=
  currentSpatialLayer c = -1 \/ is_Some (slotAt c (currentSpatialLayer c)).

(** The test that guards [MayChangeLayers] in [ProducerRtpStreamScore]. *)
Definition reevaluates (env : Env) (c : Consumer) (score previousScore : Z) : bool :=
  Consumer_IsActive env
  && (negb (externallyManagedBitrate c) || ((score =? 0) || (previousScore =? 0))).

(** Every value that [m] returns satisfies [R]. *)
Definition returnsOnly {A} (R : A -> Prop) (m : M A) : Prop :=
  forall c a c' log, m c = Done a c' log -> R a.

(** The header fields of [p'] are those of [p]. *)
Definition sameHeader (p p' : RtpPacket) : Prop :=
  pktSsrc p' = pktSsrc p /\
  pktSequenceNumber p' = pktSequenceNumber p /\
  pktTimestamp p' = pktTimestamp p.

(** [p'] is [p] with the payload that a rejecting [ProcessPayload] left. *)
Definition rejectedBy (p p' : RtpPacket) : Prop :=
  exists context context',
    ProcessPayload context p = (false, context', pktPayload p').

(** Modelled from the spec: [RTC::RtpPacket::ProcessPayload] and the payload
    descriptor handlers behind it are defined outside this file.  The spec
    has [processPayload] return whether the packet should be forwarded and
    lets it mutate the payload descriptor to drop higher temporal layers, a
    rewrite of what goes out: a packet that it rejects keeps the payload it
    came with. *)
Definition rejectsUntouched : Prop :=
  forall context p context' payload,
    ProcessPayload context p = (false, context', payload) -> payload = pktPayload p.

(** The payload of [p] is the payload as it was parsed on receipt: the
    packet is not in the middle of a rewrite. *)
Definition asParsed (p : RtpPacket) : Prop :=
  pktPayload p = pktParsedPayload p.

(** [outcome] with [log] in front of its log. *)
Definition prepend {A} (log : list Event) (o : Outcome A) : Outcome A :=
  match o with
  | Done a c l => Done a c (log ++ l)
  | Stop f c l => Stop f c (log ++ l)
  end.


(** The packet comes from the current spatial layer of an active consumer
    that needs no re-sync, and the encoding context forwards it. *)
Definition forwardedInSync (env : Env) (c : Consumer) (packet : RtpPacket) : Prop :=
  IsActive env = true /\
  targetTemporalLayer c <> -1 /\
  pktPayloadType packet ∈ supportedCodecPayloadTypes c /\
  mapMappedSsrcSpatialLayer c !! pktSsrc packet = Some (currentSpatialLayer c) /\
  syncRequired c = false /\
  fst (fst (ProcessPayload (encodingContext c) packet)) = true.

(** No packet is handed to the send stream in [log]. *)
Definition noHandOver (log : list Event) : Prop :=
  forall p, ~ In (RtpStreamSend_ReceivePacket p) log.

(** [m] calls nothing observable. *)
Definition silent {A} (m : M A) : Prop :=
  forall c, logOf (m c) = [].

(** The packet comes from the current spatial layer of an active consumer
    and is the key frame that a pending re-sync waits for. *)
Definition forwardedAtSync (env : Env) (c : Consumer) (packet : RtpPacket) : Prop :=
  IsActive env = true /\
  targetTemporalLayer c <> -1 /\
  pktPayloadType packet ∈ supportedCodecPayloadTypes c /\
  mapMappedSsrcSpatialLayer c !! pktSsrc packet = Some (currentSpatialLayer c) /\
  syncRequired c = true /\
  pktIsKeyFrame packet = true.

(** What [syncStream] leaves for a packet of timestamp [timestampIn] when
    [maxTs] is the highest timestamp sent: an empty [tsExtraOffsets], or the
    extra offset of that packet alone if its offset timestamp is not above
    [maxTs]. *)
Definition synced (timestampIn maxTs : Z) (stream : RtpStreamSend) (c : Consumer) : Prop :=
  rtpStream c = stream /\
  ((Int.u32 (timestampIn - tsOffset c) <= maxTs /\
    tsExtraOffsets c =
      {[ timestampIn := Int.u32 (maxTs - timestampIn + tsOffset c + 1) ]}) \/
   (maxTs < Int.u32 (timestampIn - tsOffset c) /\ tsExtraOffsets c = ∅)).

(** The cases in which [SendRtpPacket] returns before it touches anything:
    the consumer is not active, no temporal layer is targeted, the payload
    type is not supported, the packet belongs to a spatial layer that is
    neither the current one nor the awaited key frame of the target one, or
    it is not the key frame that a pending re-sync waits for. *)
Definition droppedUntouched (env : Env) (c : Consumer) (packet : RtpPacket) : Prop :=
  IsActive env = false \/
  targetTemporalLayer c = -1 \/
  pktPayloadType packet ∉ supportedCodecPayloadTypes c \/
  exists s,
    mapMappedSsrcSpatialLayer c !! pktSsrc packet = Some s /\
    ((s <> currentSpatialLayer c /\
      (s <> targetSpatialLayer c \/ pktIsKeyFrame packet = false)) \/
     (s = currentSpatialLayer c /\ syncRequired c = true /\ pktIsKeyFrame packet = false)).

(** What a packet needs to get as far as the send stream: an active consumer
    with a target, a supported payload type, and a spatial layer that is the
    current one (a key frame if a re-sync is pending) or the target one with
    a key frame. *)
Definition forwardable (env : Env) (c : Consumer) (packet : RtpPacket) : Prop :=
  IsActive env = true /\
  targetTemporalLayer c <> -1 /\
  pktPayloadType packet ∈ supportedCodecPayloadTypes c /\
  exists s,
    mapMappedSsrcSpatialLayer c !! pktSsrc packet = Some s /\
    ((s = currentSpatialLayer c /\
      (syncRequired c = true -> pktIsKeyFrame packet = true)) \/
     (s = targetSpatialLayer c /\ s <> currentSpatialLayer c /\
      pktIsKeyFrame packet = true)).

(** A property [J] of the layers in use and of the count of extra offsets
    applied, read on a consumer: [J target-spatial target-temporal current
    reference count]. *)
Definition layersSatisfy (J : Z -> Z -> Z -> Z -> Z -> Prop) (c : Consumer) : Prop :=
  J (targetSpatialLayer c) (targetTemporalLayer c) (currentSpatialLayer c)
    (tsReferenceSpatialLayer c) (tsExtraOffetPacketCount c).

(** Layers that are unset together: without a timestamp reference layer
    nothing is targeted or current, and without a target spatial layer there
    is no target temporal layer. *)
Definition unsetTogether (c : Consumer) : Prop :=
  (tsReferenceSpatialLayer c = -1 ->
   targetSpatialLayer c = -1 /\ currentSpatialLayer c = -1) /\
  (targetSpatialLayer c = -1 -> targetTemporalLayer c = -1).

(** The count of extra offsets applied since [tsExtraOffsets] was cleared
    is within the 200 packets after which it is cleared again. *)
Definition extraOffsetsCounted (c : Consumer) : Prop :=
  0 <= tsExtraOffetPacketCount c <= 200.

(** The extra offset that lines 921-944 of [SendRtpPacket] find or generate
    for [packet] while [tsExtraOffsets] is not empty: the stored one, a
    fresh one for an offset timestamp below the highest sent, or none. *)
Definition extraOffsetFor (c : Consumer) (packet : RtpPacket) : Z :=
  match tsExtraOffsets c !! pktTimestamp packet with
  | Some stored => stored
  | None =>
      let timestamp := Int.u32 (pktTimestamp packet - tsOffset c) in
      if timestamp <? GetMaxPacketTs (rtpStream c)
      then Int.u32 (GetMaxPacketTs (rtpStream c) - timestamp + 1)
      else 0
  end.

(** [packet] is a key frame of the spatial layer that [c] targets. *)
Definition targetKeyFrame (c : Consumer) (packet : RtpPacket) : Prop :=
  pktIsKeyFrame packet = true /\
  mapMappedSsrcSpatialLayer c !! pktSsrc packet = Some (targetSpatialLayer c).

(** Spatial layer [s] can be made the target: it holds a stream with a
    score and [CanSwitchToSpatialLayer] answers [true] for it. *)
Definition eligible (env : Env) (c : Consumer) (s : Z) : Prop :=
  scoring env c s /\ CanSwitchToSpatialLayer env s c = Done true c [].

(** What the scan of [UseAvailableBitrate] has allocated when
    [usedBitrate] is the bitrate in use: nothing, or the provisional target
    layers, an eligible spatial layer and a temporal layer of its stream
    whose bitrate is [usedBitrate], within the virtual bitrate. *)
Definition allocated (env : Env) (virtualBitrate usedBitrate : Z) (c : Consumer) : Prop :=
  (noProvisional c /\ usedBitrate = 0) \/
  (eligible env c (provisionalTargetSpatialLayer c) /\
   exists q,
     holdsStream c (provisionalTargetSpatialLayer c) q /\
     0 <= provisionalTargetTemporalLayer c < RtpStream.GetTemporalLayers (producer env q) /\
     RtpStream.GetBitrate (producer env q) 0 (provisionalTargetTemporalLayer c) = usedBitrate /\
     usedBitrate <> 0 /\ usedBitrate <= virtualBitrate).

(** [c] differs from [c0] in the provisional target layers at most. *)
Definition sameButProvisional (c0 c : Consumer) : Prop :=
  set_provisionalTargetSpatialLayer (-1) (set_provisionalTargetTemporalLayer (-1) c) =
  set_provisionalTargetSpatialLayer (-1) (set_provisionalTargetTemporalLayer (-1) c0).

(** The object that [construct] leaves when it returns, with the preferred
    layers [(s, t)] and the encoding context [context]. *)
Definition constructed (data : ConstructorData) (s t : Z) (context : EncodingContext)
    (c : Consumer) : Consumer :=
  set_rtpStream
    (newRtpStreamSend data
       (CreateRtpStream (defaultParams data) (rtpParameters data)
          (IsPaused data) (IsProducerPaused data)))
    (set_encodingContext context
       (set_producerRtpStreams
          (replicate (length (consumableRtpEncodings c)) None ++ producerRtpStreams c)
          (set_preferredTemporalLayer t
             (set_preferredSpatialLayer s
                (set_mapMappedSsrcSpatialLayer
                   (fillMapMappedSsrcSpatialLayer (consumableRtpEncodings c) 0
                      (mapMappedSsrcSpatialLayer c)) c))))).

(** The preferred layers that [data["preferredLayers"]] asks for on an
    encoding with the given numbers of layers: the highest ones when there
    is no such object; [None] when the object has no unsigned
    [spatialLayer]. *)
Definition initialPreferredLayers (data : ConstructorData) : option (Z * Z) :=
  let encoding := encodings_0 (rtpParameters data) in
  match data_preferredLayers data with
  | Some (jsonSpatialLayer, jsonTemporalLayer) =>
      match asUnsigned jsonSpatialLayer with
      | None => None
      | Some spatial =>
          Some (clampLayer (RtpEncodingParameters.spatialLayers encoding) spatial,
                match asUnsigned jsonTemporalLayer with
                | Some temporal =>
                    clampLayer (RtpEncodingParameters.temporalLayers encoding) temporal
                | None => Int.i16 (RtpEncodingParameters.temporalLayers encoding - 1)
                end)
      end
  | None =>
      Some (Int.i16 (RtpEncodingParameters.spatialLayers encoding - 1),
            Int.i16 (RtpEncodingParameters.temporalLayers encoding - 1))
  end.

(** Every mapped ssrc is mapped to a spatial layer that has a slot in
    [producerRtpStreams] and whose consumable encoding has that ssrc. *)
Definition mappedInRange (c : Consumer) : Prop :=
  forall ssrc s,
    mapMappedSsrcSpatialLayer c !! ssrc = Some s ->
    is_Some (slotAt c s) /\ consumableRtpEncodings c !! Z.to_nat s = Some ssrc.

(** The reasons for which [construct] throws a type error. *)
Definition rejected (data : ConstructorData) (c : Consumer) : Prop :=
  Z.of_nat (length (consumableRtpEncodings c)) <= 1 \/
  RtpEncodingParameters.spatialLayers (encodings_0 (rtpParameters data))
    <> Z.of_nat (length (consumableRtpEncodings c)) \/
  initialPreferredLayers data = None \/
  IsValidTypeForCodec data
    (RtpCodecParameters.mimeType (GetCodecForEncoding (rtpParameters data))) = false.

(** The feedback entries that [CreateRtpStream] looks for. *)
Definition nackFeedback (fb : RtcpFeedback.t) : bool :=
  String.eqb (RtcpFeedback.type fb) "nack"
  && String.eqb (RtcpFeedback.parameter fb) EmptyString.

Definition pliFeedback (fb : RtcpFeedback.t) : bool :=
  String.eqb (RtcpFeedback.type fb) "nack" && String.eqb (RtcpFeedback.parameter fb) "pli".

Definition firFeedback (fb : RtcpFeedback.t) : bool :=
  String.eqb (RtcpFeedback.type fb) "ccm" && String.eqb (RtcpFeedback.parameter fb) "fir".

(** The integer codec parameter [key] is there and is 1. *)
Definition enabled (codec : RtpCodecParameters.t) (key : string) : bool :=
  match RtpCodecParameters.parameters codec key with
  | Some v => v =? 1
  | None => false
  end.

End Notions.

(** ** Stand-ins for the owned objects, to run the methods on examples *)

Module Scenario.

(** A send stream reduced to what its getters return. *)
Record SendStream := {
  score : Z;
  spatialLayers : Z;
  temporalLayers : Z;
  lossPercentage : Q;
  fractionLost : Z;
  maxPacketTs : Z;
  clockRate : Z
}.

Definition withScore (v : Z) (s : SendStream) : SendStream :=
  Build_SendStream v (spatialLayers s) (temporalLayers s) (lossPercentage s)
    (fractionLost s) (maxPacketTs s) (clockRate s).

(** The stream takes every packet and remembers the highest timestamp seen. *)
Definition receive (p : RtpPacket) (s : SendStream) : bool * SendStream :=
  (true,
   Build_SendStream (score s) (spatialLayers s) (temporalLayers s) (lossPercentage s)
     (fractionLost s) (Z.max (maxPacketTs s) (pktTimestamp p)) (clockRate s)).

(** An encoding context reduced to its target and current temporal layers. *)
Record Context := { targetTemporal : Z; currentTemporal : Z }.

(** Forwards every packet with its payload untouched. *)
Definition forwardAll (ctx : Context) (p : RtpPacket) : bool * Context * list byte :=
  (true, ctx, pktPayload p).

(** Rejects every packet, with its payload untouched. *)
Definition rejectAll (ctx : Context) (p : RtpPacket) : bool * Context * list byte :=
  (false, ctx, pktPayload p).

(** The collaborators around a given payload processor.  Sequence numbers
    go through unchanged. *)
Definition collaborators
    (process : Context -> RtpPacket -> bool * Context * list byte) : Collaborators :=
  {| EncodingContext := Context;
     SetTargetTemporalLayer := fun v ctx => Build_Context v (currentTemporal ctx);
     SetCurrentTemporalLayer := fun v ctx => Build_Context (targetTemporal ctx) v;
     GetCurrentTemporalLayer := currentTemporal;
     SyncRequired := fun ctx => ctx;
     ProcessPayload := process;
     SeqManager := unit;
     Sync := fun _ m => m;
     Drop := fun _ m => m;
     Input := fun seq m => (m, seq);
     RtpStreamSend := SendStream;
     streamGetScore := score;
     GetSpatialLayers := spatialLayers;
     GetTemporalLayers := temporalLayers;
     GetLossPercentage := lossPercentage;
     GetFractionLost := fractionLost;
     GetMaxPacketTs := maxPacketTs;
     GetClockRate := clockRate;
     streamGetBitrate := fun _ _ => 0;
     ResetScore := fun v _ s => withScore v s;
     ReceivePacket := receive;
     Pause := fun s => s;
     streamReceiveNack := fun s => s;
     streamReceiveKeyFrameRequest := fun s => s;
     streamReceiveRtcpReceiverReport := fun s => s;
     GetRtcpSenderReport := fun _ s => (true, s);
     rtcpTooEarly := fun now last interval => (now - last) * 115 <? interval * 100 |}.

(** The loss percentage taken to be a double, so that [lossPercentage / 100]
    is the quotient rounded to a double; a conversion out of range gives 0. *)
#[export] Instance doubles : Conversions :=
  {| lossPercentageOver100 := fun loss =>
       SpecFloat.SFdiv Double.prec Double.emax
         (Double.ofZ (Qnum loss)) (Double.ofZ (Z.pos (Qden loss) * 100));
     undefinedUint32 := fun _ => 0 |}.

(** A producer stream with a given score and sender report, three temporal
    layers at 100, 180 and 260 kbps. *)
Definition producerStream (streamScore ntpMs ts : Z) : RtpStream.t :=
  {| RtpStream.GetScore := streamScore;
     RtpStream.GetActiveTime := 5000;
     RtpStream.GetTemporalLayers := 3;
     RtpStream.GetBitrate := fun _ t =>
       if t =? 0 then 100000 else if t =? 1 then 180000 else 260000;
     RtpStream.GetLayerBitrate := fun _ t =>
       if t =? 0 then 100000 else if t =? 1 then 80000 else 80000;
     RtpStream.GetSenderReportNtpMs := ntpMs;
     RtpStream.GetSenderReportTs := ts;
     RtpStream.GetSsrc := 0 |}.

(** An active consumer among producer streams of the given scores, all
    with a sender report; stream [q] is behind pointer [q]. *)
Definition environment (scores : list Z) : Env :=
  {| Consumer_IsActive := true;
     IsActive := true;
     producer := fun q => producerStream (nth q scores 0) (1000 + Z.of_nat q) 90000 |}.

Definition sendStream (maxTs : Z) : SendStream :=
  {| score := 10; spatialLayers := 3; temporalLayers := 3; lossPercentage := 0;
     fractionLost := 0; maxPacketTs := maxTs; clockRate := 90000 |}.

(** Three encodings with mapped ssrcs 100, 101 and 102, sent as ssrc 7;
    preferred layers 2:2 and the given producer slots, layers and send
    stream. *)
Definition consumer (process : Context -> RtpPacket -> bool * Context * list byte)
    (slots : list (option ptr)) (target current reference : Z) (externally : bool)
    (stream : SendStream) : @Consumer (collaborators process) :=
  @Build_Consumer (collaborators process)
    2 2                                      (* preferred layers *)
    target (if target =? -1 then -1 else 2)  (* target layers *)
    current reference
    (-1) (-1)                                (* provisional target layers *)
    externally
    false 0 ∅ 0                              (* syncRequired, tsOffset, extra offsets *)
    slots
    {[ 100 := 0; 101 := 1; 102 := 2 ]}
    {[ 96 ]}
    [100; 101; 102]
    VIDEO
    7
    {| targetTemporal := 2; currentTemporal := 2 |}
    stream
    tt
    0 1000.

Definition rtpPacket (ssrc seq ts : Z) (keyFrame : bool) : RtpPacket :=
  {| pktSsrc := ssrc; pktSequenceNumber := seq; pktTimestamp := ts; pktPayloadType := 96;
     pktIsKeyFrame := keyFrame; pktTemporalLayer := 0;
     pktPayload := [x01; x02]; pktParsedPayload := [x01; x02] |}.

(** *** The situations of the examples *)

Definition allStreams : list (option ptr) := [Some 0%nat; Some 1%nat; Some 2%nat].

(** All three producer streams at score 10. *)
Definition healthy : Env := environment [10; 10; 10].

(** Layer 0 is target, current and reference; 1000 is the highest timestamp
    sent so far and no extra offset is stored. *)
Definition steady (process : Context -> RtpPacket -> bool * Context * list byte)
    : @Consumer (collaborators process) :=
  consumer process allStreams 0 0 0 false (sendStream 1000).

(** A packet of layer 0 that arrives late: its timestamp is 500. *)
Definition latePacket : RtpPacket := rtpPacket 100 5 500 false.

(** Only the stream of layer 2 is there and scores; layer 0 is preferred. *)
Definition onlyTopLayer : Env := environment [0; 0; 10].

Definition preferringLowest : @Consumer (collaborators forwardAll) :=
  set_preferredSpatialLayer 0
    (consumer forwardAll [None; None; Some 2%nat] (-1) (-1) (-1) true (sendStream 0)).

(** Scenario 3 of the spec: the bitrate is externally managed, nothing is
    targeted yet and only layer 0 scores. *)
Definition onlyLowLayer : Env := environment [10; 0; 0].

Definition starting : @Consumer (collaborators forwardAll) :=
  consumer forwardAll allStreams (-1) (-1) (-1) true (sendStream 0).

(** [starting] with half of the packets lost. *)
Definition lossy : @Consumer (collaborators forwardAll) :=
  consumer forwardAll allStreams (-1) (-1) (-1) true
    {| score := 10; spatialLayers := 3; temporalLayers := 3; lossPercentage := 50;
       fractionLost := 128; maxPacketTs := 0; clockRate := 90000 |}.

(** Layer 1 is targeted while layer 0 is current and reference. *)
Definition switching : @Consumer (collaborators forwardAll) :=
  consumer forwardAll allStreams 1 0 0 true (sendStream 90000).

(** Scenario 1 of the spec: nothing targeted yet, bitrate managed locally. *)
Definition coldStart : @Consumer (collaborators forwardAll) :=
  consumer forwardAll allStreams (-1) (-1) (-1) false (sendStream 0).

(** Every producer stream at score 0. *)
Definition allDead : Env := environment [0; 0; 0].

(** The preferred layers the consumer already has. *)
Definition samePreferredLayers : Request :=
  {| methodId := CONSUMER_SET_PREFERRED_LAYERS;
     dataSpatialLayer := Some (JsonUnsigned 2);
     dataTemporalLayer := Some (JsonUnsigned 2) |}.

(** *** Further situations *)

(** A packet of layer 2, and one whose ssrc is no consumable encoding. *)
Definition topLayerPacket : RtpPacket := rtpPacket 102 5 500 false.

Definition strangerPacket : RtpPacket := rtpPacket 999 5 500 false.

(** A key frame of layer 0, late and on time. *)
Definition lateKeyFrame : RtpPacket := rtpPacket 100 6 500 true.

Definition keyFrame : RtpPacket := rtpPacket 100 6 2000 true.

(** [steady] with a re-sync pending. *)
Definition resyncing : @Consumer (collaborators forwardAll) :=
  set_syncRequired true (steady forwardAll).

(** [starting] once 100 kbps have been allocated: provisional layers 0:0. *)
Definition allocating : @Consumer (collaborators forwardAll) :=
  finalState (UseAvailableBitrate onlyLowLayer 100000 false starting).

(** Requests for the preferred layers: layer 5 of 3, layer 65535, none. *)
Definition tooHighLayer : Request :=
  {| methodId := CONSUMER_SET_PREFERRED_LAYERS;
     dataSpatialLayer := Some (JsonUnsigned 5);
     dataTemporalLayer := None |}.

Definition hugeLayer : Request :=
  {| methodId := CONSUMER_SET_PREFERRED_LAYERS;
     dataSpatialLayer := Some (JsonUnsigned 65535);
     dataTemporalLayer := None |}.

Definition noLayer : Request :=
  {| methodId := CONSUMER_SET_PREFERRED_LAYERS;
     dataSpatialLayer := Some JsonOther;
     dataTemporalLayer := Some (JsonUnsigned 1) |}.

(** A pause followed by a resume. *)
Definition pauseAndResume : list (Env * Operation) :=
  [(healthy, opUserOnPaused); (healthy, opUserOnResumed)].

(** [steady] with an extra offset of 501 stored for timestamp 500, and the
    late packet, of that timestamp, coming 200 times. *)
Definition offsetStored : @Consumer (collaborators forwardAll) :=
  set_tsExtraOffsets {[ 500 := 501 ]} (steady forwardAll).

Definition latePackets : list (Env * Operation) :=
  replicate 200 (healthy, opSendRtpPacket latePacket).

(** Packets of layer 0 that are no key frames, around a NACK. *)
Definition deltaFrames : list (Env * Operation) :=
  [(healthy, opSendRtpPacket latePacket); (healthy, opReceiveNack);
   (healthy, opSendRtpPacket (rtpPacket 100 7 3000 false))].

(** *** Construction *)

(** A VP8 codec with NACK (twice), PLI and one more feedback, and RTP
    parameters with three spatial and three temporal layers. *)
Definition vp8 : RtpCodecParameters.t :=
  {| RtpCodecParameters.mimeType := "video/VP8";
     RtpCodecParameters.payloadType := 96;
     RtpCodecParameters.clockRate := 90000;
     RtpCodecParameters.parameters := fun _ => None;
     RtpCodecParameters.rtcpFeedback :=
       [ {| RtcpFeedback.type := "nack"; RtcpFeedback.parameter := EmptyString |};
         {| RtcpFeedback.type := "nack"; RtcpFeedback.parameter := "pli" |};
         {| RtcpFeedback.type := "goog-remb"; RtcpFeedback.parameter := EmptyString |};
         {| RtcpFeedback.type := "nack"; RtcpFeedback.parameter := EmptyString |} ] |}.

Definition rtx : RtpCodecParameters.t :=
  {| RtpCodecParameters.mimeType := "video/rtx";
     RtpCodecParameters.payloadType := 97;
     RtpCodecParameters.clockRate := 90000;
     RtpCodecParameters.parameters := fun _ => None;
     RtpCodecParameters.rtcpFeedback := [] |}.

Definition threeLayers : RtpParameters :=
  {| encodings_0 :=
       {| RtpEncodingParameters.ssrc := 7;
          RtpEncodingParameters.spatialLayers := 3;
          RtpEncodingParameters.temporalLayers := 3;
          RtpEncodingParameters.dtx := false;
          RtpEncodingParameters.hasRtx := true;
          RtpEncodingParameters.rtx_ssrc := 8 |};
     GetCodecForEncoding := vp8;
     GetRtxCodecForEncoding := Some rtx;
     rtcp_cname := "cname" |}.

Definition noFlags : Params.t :=
  {| Params.ssrc := 0; Params.payloadType := 0; Params.mimeType := EmptyString;
     Params.clockRate := 0; Params.cname := EmptyString;
     Params.spatialLayers := 1; Params.temporalLayers := 1;
     Params.useInBandFec := false; Params.useDtx := false; Params.useNack := false;
     Params.usePli := false; Params.useFir := false |}.

(** The data of a constructor call with the given [preferredLayers] and
    mime type for which the codec is valid. *)
Definition constructorData (preferred : option (option Json * option Json))
    (valid : string) : @ConstructorData (collaborators forwardAll) :=
  @Build_ConstructorData (collaborators forwardAll)
    threeLayers preferred
    (fun mime => String.eqb mime valid)
    (fun _ _ temporal => Some {| targetTemporal := temporal - 1;
                                 currentTemporal := temporal - 1 |})
    noFlags false false
    (fun setup =>
       {| score := 10;
          spatialLayers := Params.spatialLayers (setupParams setup);
          temporalLayers := Params.temporalLayers (setupParams setup);
          lossPercentage := 0; fractionLost := 0; maxPacketTs := 0;
          clockRate := Params.clockRate (setupParams setup) |}).

(** The object before the body of the constructor runs: three consumable
    encodings, no mapped ssrc, no producer slot. *)
Definition unconstructed : @Consumer (collaborators forwardAll) :=
  @Build_Consumer (collaborators forwardAll)
    (-1) (-1) (-1) (-1) (-1) (-1) (-1) (-1)
    false false 0 ∅ 0
    []
    ∅
    {[ 96 ]}
    [100; 101; 102]
    VIDEO
    7
    {| targetTemporal := -1; currentTemporal := -1 |}
    (sendStream 0)
    tt
    0 1000.

(** The same with a single consumable encoding. *)
Definition singleEncoding : @Consumer (collaborators forwardAll) :=
  @Build_Consumer (collaborators forwardAll)
    (-1) (-1) (-1) (-1) (-1) (-1) (-1) (-1)
    false false 0 ∅ 0
    []
    ∅
    {[ 96 ]}
    [100]
    VIDEO
    7
    {| targetTemporal := -1; currentTemporal := -1 |}
    (sendStream 0)
    tt
    0 1000.

End Scenario.

(** * Properties *)

(** ** Products and differences of doubles *)

Section DoubleArithmetic.

Import SpecFloat Double.

Lemma digits2_pos_bound (p : positive) :
  2 ^ (Z.pos (digits2_pos p) - 1) <= Z.pos p < 2 ^ Z.pos (digits2_pos p).
Proof.
  induction p as [p IH | p IH |]; simpl digits2_pos; [| | simpl; lia].
  all: rewrite Pos2Z.inj_succ;
    replace (Z.succ (Z.pos (digits2_pos p)) - 1) with (Z.succ (Z.pos (digits2_pos p) - 1)) by lia;
    rewrite !Z.pow_succ_r by lia; lia.
Qed.

Lemma digits2_pos_unique (p : positive) d :
  2 ^ (d - 1) <= Z.pos p < 2 ^ d -> Z.pos (digits2_pos p) = d.
Proof.
  intros [Hlow Hhigh]. pose proof (digits2_pos_bound p) as [Hlow' Hhigh'].
  assert (Hd : 0 < d).
  { destruct (Z_lt_le_dec 0 d) as [Hd | Hd]; [exact Hd |].
    destruct (Z.eq_dec d 0) as [-> | Hd0]; [simpl in Hhigh; lia |].
    rewrite (Z.pow_neg_r 2 d) in Hhigh by lia. lia. }
  destruct (Z.lt_trichotomy (Z.pos (digits2_pos p)) d) as [Hlt | [Heq | Hgt]]; [| exact Heq |].
  - assert (2 ^ Z.pos (digits2_pos p) <= 2 ^ (d - 1)) by (apply Z.pow_le_mono_r; lia). lia.
  - assert (2 ^ d <= 2 ^ (Z.pos (digits2_pos p) - 1)) by (apply Z.pow_le_mono_r; lia). lia.
Qed.

Lemma shr_1_m mrs : 0 <= shr_m mrs -> shr_m (shr_1 mrs) = shr_m mrs / 2.
Proof.
  destruct mrs as [m r s]. simpl. intros Hm.
  destruct m as [| [p | p |] | p]; simpl; [reflexivity | | | reflexivity | lia].
  - apply (Z.div_unique _ 2 _ 1); lia.
  - apply (Z.div_unique _ 2 _ 0); lia.
Qed.

Lemma pow2_xO (n : positive) : 2 ^ Z.pos n~0 = 2 ^ Z.pos n * 2 ^ Z.pos n.
Proof. rewrite <- Z.pow_add_r by lia. f_equal. lia. Qed.

Lemma pow2_xI (n : positive) : 2 ^ Z.pos n~1 = 2 * (2 ^ Z.pos n * 2 ^ Z.pos n).
Proof.
  rewrite <- Z.pow_add_r by lia. rewrite <- Z.pow_succ_r by lia. f_equal. lia.
Qed.

Lemma iter_shr_1_m (n : positive) :
  forall mrs, 0 <= shr_m mrs ->
    shr_m (iter_pos shr_1 n mrs) = shr_m mrs / 2 ^ Z.pos n.
Proof.
  assert (Hpos : forall z, 0 <= z -> 0 <= z / 2) by (intros; apply Z.div_pos; lia).
  induction n as [n IH | n IH |]; intros mrs Hm; simpl iter_pos.
  - assert (H1 : 0 <= shr_m (shr_1 mrs)) by (rewrite shr_1_m by exact Hm; auto).
    assert (H2 : 0 <= shr_m (iter_pos shr_1 n (shr_1 mrs))).
    { rewrite IH by exact H1. apply Z.div_pos; [exact H1 | lia]. }
    rewrite IH, IH, shr_1_m by assumption.
    rewrite !Z.div_div by lia. rewrite pow2_xI. reflexivity.
  - assert (H2 : 0 <= shr_m (iter_pos shr_1 n mrs)).
    { rewrite IH by exact Hm. apply Z.div_pos; [exact Hm | lia]. }
    rewrite IH, IH by assumption.
    rewrite !Z.div_div by lia. rewrite pow2_xO. reflexivity.
  - rewrite shr_1_m by exact Hm. reflexivity.
Qed.

Lemma round_nearest_even_cases m l :
  round_nearest_even m l = m \/ round_nearest_even m l = m + 1.
Proof.
  destruct l as [| []]; simpl; auto. destruct (Z.even m); auto.
Qed.


Lemma shr_1_lost mrs :
  0 <= shr_m mrs -> lost mrs = false -> (2 | shr_m mrs) -> lost (shr_1 mrs) = false.
Proof.
  destruct mrs as [m r s]. unfold lost. simpl. intros Hm Hlost [c Hc].
  rewrite Hlost.
  destruct m as [| [p | p |] | p]; simpl; try reflexivity; exfalso; lia.
Qed.

Lemma divide_split A B m : 0 < A -> (A * B | m) -> (A | m) /\ (B | m / A).
Proof.
  intros HA [c Hc]. split.
  - exists (c * B). lia.
  - exists c. subst m. replace (c * (A * B)) with (c * B * A) by ring.
    rewrite Z.div_mul by lia. reflexivity.
Qed.

Lemma iter_shr_1_lost (n : positive) :
  forall mrs, 0 <= shr_m mrs -> lost mrs = false -> (2 ^ Z.pos n | shr_m mrs) ->
    lost (iter_pos shr_1 n mrs) = false.
Proof.
  assert (Hpow : forall k : positive, 0 < 2 ^ Z.pos k) by (intros; apply Z.pow_pos_nonneg; lia).
  induction n as [n IH | n IH |]; intros mrs Hm Hlost Hdiv; simpl iter_pos.
  - rewrite pow2_xI in Hdiv.
    apply divide_split in Hdiv; [| lia]. destruct Hdiv as [H1 H2].
    apply divide_split in H2; [| apply Hpow]. destruct H2 as [H2 H3].
    assert (Hm1 : 0 <= shr_m (shr_1 mrs))
      by (rewrite shr_1_m by exact Hm; apply Z.div_pos; lia).
    assert (Hm2 : 0 <= shr_m (iter_pos shr_1 n (shr_1 mrs))).
    { rewrite iter_shr_1_m by exact Hm1. apply Z.div_pos; [lia | apply Hpow]. }
    apply IH; [exact Hm2 | | rewrite iter_shr_1_m, shr_1_m by assumption; exact H3].
    apply IH; [exact Hm1 | | rewrite shr_1_m by assumption; exact H2].
    apply shr_1_lost; assumption.
  - rewrite pow2_xO in Hdiv.
    apply divide_split in Hdiv; [| apply Hpow]. destruct Hdiv as [H1 H2].
    assert (Hm1 : 0 <= shr_m (iter_pos shr_1 n mrs)).
    { rewrite iter_shr_1_m by exact Hm. apply Z.div_pos; [lia | apply Hpow]. }
    apply IH; [exact Hm1 | | rewrite iter_shr_1_m by assumption; exact H2].
    apply IH; assumption.
  - apply shr_1_lost; assumption.
Qed.

Lemma round_nearest_even_exact mrs :
  lost mrs = false -> round_nearest_even (shr_m mrs) (loc_of_shr_record mrs) = shr_m mrs.
Proof.
  destruct mrs as [m r s]. unfold lost. simpl. intros Hlost.
  apply orb_false_elim in Hlost. destruct Hlost as [-> ->]. reflexivity.
Qed.

Lemma shr_fexp_exact (m : positive) (e : Z) :
  Z.max (Z.pos (digits2_pos m) + e - 53) (-1074) <= e ->
  shr_fexp 53 1024 (Z.pos m) e loc_Exact = (Build_shr_record (Z.pos m) false false, e).
Proof.
  intros Hn. unfold shr_fexp, fexp, emin. simpl Zdigits2. simpl shr_record_of_loc.
  change (3 - 1024 - 53) with (-1074).
  destruct (Z.max (Z.pos (digits2_pos m) + e - 53) (-1074) - e) eqn:Hshift;
    [reflexivity | exfalso; lia | reflexivity].
Qed.

Lemma binary_round_aux_exact (m : positive) (e : Z) :
  Z.max (Z.pos (digits2_pos m) + e - 53) (-1074) <= e -> e <= 971 ->
  binary_round_aux 53 1024 false (Z.pos m) e loc_Exact = S754_finite false m e.
Proof.
  intros Hn He. unfold binary_round_aux.
  rewrite (shr_fexp_exact m e Hn). simpl shr_m. simpl loc_of_shr_record.
  simpl round_nearest_even. rewrite (shr_fexp_exact m e Hn). simpl shr_m.
  change (1024 - 53) with 971.
  destruct (e <=? 971) eqn:Hle; [reflexivity | apply Z.leb_gt in Hle; lia].
Qed.

Lemma binary_round_aux_pos (m : positive) (e : Z) :
  let d := Z.pos (digits2_pos m) in
  let G := Z.max e (Z.max (d + e - 53) (-1074)) in
  e <= 971 -> d + e <= 1023 ->
  exists k,
    isValue (binary_round_aux 53 1024 false (Z.pos m) e loc_Exact) k G /\
    (k = Z.pos m / 2 ^ (G - e) \/ (e < G /\ k = Z.pos m / 2 ^ (G - e) + 1)) /\
    ((2 ^ (G - e) | Z.pos m) -> k = Z.pos m / 2 ^ (G - e)).
Proof.
  intros d G He Hd.
  destruct (Z_le_gt_dec (Z.max (d + e - 53) (-1074)) e) as [Hexact | Hround].
  { rewrite (binary_round_aux_exact m e Hexact He).
    assert (HG : G = e) by (subst G; lia).
    exists (Z.pos m). unfold isValue. rewrite HG, !Z.sub_diag. change (2 ^ 0) with 1.
    split; [split; lia |].
    rewrite Z.div_1_r. split; [left; reflexivity | reflexivity]. }
  set (E := Z.max (d + e - 53) (-1074)) in *.
  assert (HG : G = E) by (subst G; lia). rewrite HG. clear HG G.
  destruct (E - e) as [| n | n] eqn:Hshift; [exfalso; lia | | exfalso; lia].
  set (mrs := iter_pos shr_1 n (Build_shr_record (Z.pos m) false false)).
  assert (Hfirst : shr_fexp 53 1024 (Z.pos m) e loc_Exact = (mrs, E)).
  { unfold shr_fexp, fexp, emin. simpl Zdigits2. simpl shr_record_of_loc.
    change (3 - 1024 - 53) with (-1074). fold d. fold E. rewrite Hshift.
    unfold shr. f_equal. lia. }
  assert (Hquot : shr_m mrs = Z.pos m / 2 ^ Z.pos n).
  { subst mrs. rewrite iter_shr_1_m by (simpl; lia). reflexivity. }
  set (Q := Z.pos m / 2 ^ Z.pos n) in *.
  assert (HQ : 0 <= Q < 2 ^ 53).
  { split; [apply Z.div_pos; lia |].
    apply Z.div_lt_upper_bound; [lia |].
    pose proof (digits2_pos_bound m) as [_ Hhigh]. fold d in Hhigh.
    assert (2 ^ d <= 2 ^ (Z.pos n + 53)) by (apply Z.pow_le_mono_r; lia).
    rewrite Z.pow_add_r in H by lia. lia. }
  set (m1 := round_nearest_even (shr_m mrs) (loc_of_shr_record mrs)).
  assert (Hm1 : m1 = Q \/ m1 = Q + 1).
  { subst m1. rewrite <- Hquot. apply round_nearest_even_cases. }
  assert (Hexactly : (2 ^ Z.pos n | Z.pos m) -> m1 = Q).
  { intros Hdiv. subst m1. rewrite <- Hquot. apply round_nearest_even_exact.
    subst mrs. apply iter_shr_1_lost; [simpl; lia | reflexivity | exact Hdiv]. }
  unfold binary_round_aux. rewrite Hfirst. fold m1.
  exists m1.
  split; [| split; [destruct Hm1 as [-> | ->];
                    [left; reflexivity | right; split; [lia | reflexivity]]
                   | exact Hexactly]].
  assert (Hm1' : 0 <= m1 <= 2 ^ 53) by lia.
  clearbody m1. clear Hm1 Hexactly Hquot Hfirst mrs.
  destruct m1 as [| p1 | p1]; [| | exfalso; lia].
  - assert (Hsecond : shr_fexp 53 1024 0 E loc_Exact = (Build_shr_record 0 false false, E)).
    { unfold shr_fexp, fexp, emin. simpl Zdigits2. simpl shr_record_of_loc.
      change (3 - 1024 - 53) with (-1074).
      destruct (Z.max (0 + E - 53) (-1074) - E) eqn:Hshift2;
        [reflexivity | exfalso; lia | reflexivity]. }
    rewrite Hsecond. simpl. reflexivity.
  - destruct (Z.eq_dec (Z.pos p1) (2 ^ 53)) as [Htop | Hbelow].
    + assert (Hp1 : p1 = 9007199254740992%positive)
        by (apply Pos2Z.inj; rewrite Htop; reflexivity).
      subst p1.
      assert (Hsecond : shr_fexp 53 1024 (Z.pos 9007199254740992) E loc_Exact
                        = (Build_shr_record (Z.pos 4503599627370496) false false, E + 1)).
      { unfold shr_fexp, fexp, emin, Zdigits2.
        change (digits2_pos 9007199254740992) with 54%positive.
        change (3 - 1024 - 53) with (-1074).
        replace (Z.max (54 + E - 53) (-1074) - E) with 1 by lia. reflexivity. }
      rewrite Hsecond. simpl shr_m. change (1024 - 53) with 971.
      destruct (E + 1 <=? 971) eqn:Hle; [| apply Z.leb_gt in Hle; lia].
      unfold isValue. split; [lia |]. replace (E + 1 - E) with 1 by lia. reflexivity.
    + assert (Hd1 : Z.pos (digits2_pos p1) <= 53).
      { pose proof (digits2_pos_bound p1) as [Hlow _].
        destruct (Z_le_gt_dec (Z.pos (digits2_pos p1)) 53) as [Hle | Hgt]; [exact Hle |].
        assert (2 ^ 53 <= 2 ^ (Z.pos (digits2_pos p1) - 1)) by (apply Z.pow_le_mono_r; lia).
        lia. }
      assert (HE : -1074 <= E <= 970) by (subst E; lia).
      rewrite (shr_fexp_exact p1 E) by lia. simpl shr_m. change (1024 - 53) with 971.
      destruct (E <=? 971) eqn:Hle; [| apply Z.leb_gt in Hle; lia].
      unfold isValue. split; [lia |]. rewrite Z.sub_diag. change (2 ^ 0) with 1. lia.
Qed.


Lemma truncation_isValue x k G :
  isValue x k G -> G <= 0 -> truncation x = Some (k / 2 ^ (- G)).
Proof.
  intros Hvalue HG. destruct x as [s | s | | [|] m e]; unfold isValue in Hvalue;
    try contradiction.
  - subst k. reflexivity.
  - destruct Hvalue as [He ->]. unfold truncation, cond_Zopp. f_equal.
    destruct (e <? 0) eqn:Hneg.
    + apply Z.ltb_lt in Hneg.
      replace (- G) with ((- e) + (e - G)) by lia.
      rewrite Z.pow_add_r by lia.
      rewrite Z.div_mul_cancel_r by lia. reflexivity.
    + apply Z.ltb_ge in Hneg.
      replace (e - G) with (e + (- G)) by lia.
      rewrite Z.pow_add_r, Z.mul_assoc by lia.
      rewrite Z.div_mul by lia. reflexivity.
Qed.

Lemma iter_xO (k m : positive) : Z.pos (Pos.iter xO m k) = Z.pos m * 2 ^ Z.pos k.
Proof.
  revert m. induction k as [k IH | k IH |]; intros m; simpl Pos.iter.
  - rewrite Pos2Z.inj_xO, IH, IH, pow2_xI. ring.
  - rewrite IH, IH, pow2_xO. ring.
  - rewrite Pos2Z.inj_xO. lia.
Qed.

(** A [uint32_t], and any integer below 2^53, is converted exactly. *)
Lemma ofZ_pos b :
  0 < b < 2 ^ 53 ->
  exists mb eb,
    ofZ b = S754_finite false mb eb /\
    -52 <= eb <= 0 /\ Z.pos mb = b * 2 ^ (- eb) /\ Z.pos (digits2_pos mb) = 53.
Proof.
  intros Hb. destruct b as [| p | p]; [lia | | lia].
  unfold ofZ, binary_normalize, binary_round, fexp, emin.
  change (3 - emax - prec) with (-1074). unfold prec, emax.
  set (d := Z.pos (digits2_pos p)).
  pose proof (digits2_pos_bound p) as [Hlow Hhigh]. fold d in Hlow, Hhigh.
  assert (Hd : 1 <= d <= 53).
  { split; [subst d; lia |].
    destruct (Z_le_gt_dec d 53) as [Hle | Hgt]; [exact Hle |].
    assert (2 ^ 53 <= 2 ^ (d - 1)) by (apply Z.pow_le_mono_r; lia). lia. }
  replace (Z.max (d + 0 - 53) (-1074)) with (d - 53) by lia.
  unfold shl_align.
  destruct (d - 53 - 0) as [| n | n] eqn:Hshift; [| exfalso; lia |].
  - assert (Hd53 : d = 53) by lia.
    rewrite binary_round_aux_exact by (fold d; lia).
    exists p, 0. split; [reflexivity |]. split; [lia |].
    split; [change (2 ^ (- 0)) with 1; lia | exact Hd53].
  - assert (Hn : Z.pos n = 53 - d) by lia.
    assert (Hm : Z.pos (Pos.iter xO p n) = Z.pos p * 2 ^ Z.pos n) by apply iter_xO.
    assert (Hdigits : Z.pos (digits2_pos (Pos.iter xO p n)) = 53).
    { apply digits2_pos_unique. rewrite Hm, Hn.
      assert (Hlower : 2 ^ (53 - 1) = 2 ^ (d - 1) * 2 ^ (53 - d))
        by (rewrite <- Z.pow_add_r by lia; f_equal; lia).
      assert (Hupper : 2 ^ 53 = 2 ^ d * 2 ^ (53 - d))
        by (rewrite <- Z.pow_add_r by lia; f_equal; lia).
      rewrite Hlower, Hupper.
      assert (0 < 2 ^ (53 - d)) by (apply Z.pow_pos_nonneg; lia). nia. }
    rewrite binary_round_aux_exact by (rewrite ?Hdigits; lia).
    exists (Pos.iter xO p n), (d - 53). split; [reflexivity |]. split; [lia |].
    split; [| exact Hdigits].
    rewrite Hm, Hn. f_equal. f_equal. lia.
Qed.


(** The product of a double [f >= 0] and an integer [b], rounded and
    truncated: the mantissa of the exact product is [m], on the grid
    [2^(ef + eb)]; rounding keeps it or moves it to the grid [2^G]. *)
Lemma mul_ofZ_truncation (mf : positive) (ef b : Z) :
  0 < b < 2 ^ 53 -> ef <= 0 -> Z.pos mf * b < 2 ^ (53 - ef) ->
  exists eb G k,
    -52 <= eb <= 0 /\ ef + eb <= G <= 0 /\
    (G = ef + eb \/ 2 ^ (G - ef - eb) * 2 ^ 52 <= Z.pos mf * b * 2 ^ (- eb) \/ G = -1074) /\
    (k = Z.pos mf * b * 2 ^ (- eb) / 2 ^ (G - ef - eb) \/
     (ef + eb < G /\ k = Z.pos mf * b * 2 ^ (- eb) / 2 ^ (G - ef - eb) + 1)) /\
    ((2 ^ (G - ef - eb) | Z.pos mf * b * 2 ^ (- eb)) ->
     k = Z.pos mf * b * 2 ^ (- eb) / 2 ^ (G - ef - eb)) /\
    truncation (mul (S754_finite false mf ef) (ofZ b)) = Some (k / 2 ^ (- G)).
Proof.
  intros Hb Hef Hbelow.
  destruct (ofZ_pos b Hb) as (mb & eb & -> & Heb & Hmb & _).
  unfold mul, SFmul. cbn [xorb]. fold prec emax.
  change (binary_round_aux prec emax) with (binary_round_aux 53 1024).
  set (d := Z.pos (digits2_pos (mf * mb))).
  assert (Hm : Z.pos (mf * mb) = Z.pos mf * b * 2 ^ (- eb)).
  { rewrite Pos2Z.inj_mul, Hmb. ring. }
  assert (Hd : d + (ef + eb) <= 53).
  { pose proof (digits2_pos_bound (mf * mb)) as [Hlow _]. fold d in Hlow.
    destruct (Z_le_gt_dec (d + (ef + eb)) 53) as [Hle | Hgt]; [exact Hle |].
    assert (Hpow : 2 ^ (53 - ef - eb) <= 2 ^ (d - 1)) by (apply Z.pow_le_mono_r; lia).
    replace (53 - ef - eb) with ((53 - ef) + (- eb)) in Hpow by lia.
    rewrite Z.pow_add_r in Hpow by lia.
    assert (0 < 2 ^ (- eb)) by (apply Z.pow_pos_nonneg; lia).
    rewrite Hm in Hlow. nia. }
  destruct (binary_round_aux_pos (mf * mb) (ef + eb)) as (k & Hvalue & Hk & Hexactly);
    [lia | fold d; lia |].
  fold d in Hvalue, Hk, Hexactly.
  set (G := Z.max (ef + eb) (Z.max (d + (ef + eb) - 53) (-1074))) in *.
  assert (HG : ef + eb <= G <= 0) by (subst G; lia).
  exists eb, G, k. split; [exact Heb |]. split; [exact HG |].
  replace (G - ef - eb) with (G - (ef + eb)) by lia. rewrite <- Hm.
  split; [| split; [exact Hk | split; [exact Hexactly |
                      apply truncation_isValue; [exact Hvalue | lia]]]].
  destruct (Z.eq_dec G (ef + eb)) as [Hexact | Hrounded]; [left; exact Hexact | right].
  destruct (Z.eq_dec G (-1074)) as [Hsub | Hnormal]; [right; exact Hsub | left].
  assert (HGd : G = d + (ef + eb) - 53) by (subst G; lia).
  pose proof (digits2_pos_bound (mf * mb)) as [Hlow _]. fold d in Hlow.
  rewrite <- Z.pow_add_r by lia.
  replace (G - (ef + eb) + 52) with (d - 1) by lia. exact Hlow.
Qed.

Lemma literal_1_08_nearest :
  2 * Z.abs (25 * 4863887597560136 - 27 * 2 ^ 52) <= 25.
Proof. vm_compute. discriminate. Qed.

(** [uint32_t(1.08 * bitrate)] is the floor of the exact product for every
    bitrate whose product fits [uint32_t]. *)
Lemma mul_1_08_floor b :
  0 <= b <= 3976821570 ->
  truncation (mul literal_1_08 (ofZ b)) = Some (27 * b / 25).
Proof.
  intros Hb. destruct (Z.eq_dec b 0) as [-> | Hpos]; [reflexivity |].
  unfold literal_1_08.
  destruct (mul_ofZ_truncation 4863887597560136 (-52) b)
    as (eb & G & k & Heb & HG & Hgrid & Hk & _ & ->); [lia | lia | lia |].
  f_equal.
  set (M := Z.pos 4863887597560136) in *.
  set (s := 2 ^ (- eb)) in *.
  set (T := 2 ^ (G - -52 - eb)) in *.
  set (D := 2 ^ (- G)).
  set (N := 27 * b / 25).
  assert (Hs : 0 < s) by (apply Z.pow_pos_nonneg; lia).
  assert (HT : 0 < T) by (apply Z.pow_pos_nonneg; lia).
  assert (HD : 0 < D) by (apply Z.pow_pos_nonneg; lia).
  assert (HTD : T * D = 2 ^ 52 * s).
  { subst T D s. rewrite <- !Z.pow_add_r by lia. f_equal. lia. }
  assert (HM : 25 * M = 27 * 2 ^ 52 + 8) by reflexivity.
  assert (HN : 25 * N <= 27 * b < 25 * N + 25).
  { subst N. pose proof (Z.div_mod (27 * b) 25) as Hdiv.
    pose proof (Z.mod_pos_bound (27 * b) 25). lia. }
  assert (HTs : T < 2 ^ 33 * s).
  { destruct Hgrid as [Hexact | [Hnormal | Hsub]]; [| | lia].
    - subst T. replace (G - -52 - eb) with 0 by lia. change (2 ^ 0) with 1. lia.
    - assert (M * b < 2 ^ 85) by (subst M; lia). nia. }
  assert (Hfloor : M * b * s / T / D = N).
  { rewrite Z.div_div, HTD by lia. rewrite Z.div_mul_cancel_r by lia.
    symmetry. apply Z.div_unique_pos with (r := M * b - N * 2 ^ 52); [| lia].
    split; [nia |]. nia. }
  assert (Hupper : M * b * s + T < (N + 1) * (T * D)).
  { rewrite HTD. nia. }
  destruct Hk as [-> | [_ ->]]; [exact Hfloor |].
  set (Q := M * b * s / T) in *.
  apply Z.le_antisymm.
  - apply Z.lt_succ_r. apply Z.div_lt_upper_bound; [lia |].
    assert (HQ : Q * T <= M * b * s).
    { subst Q. rewrite Z.mul_comm. apply Z.mul_div_le. lia. }
    unfold Z.succ. nia.
  - rewrite <- Hfloor. apply Z.div_le_mono; lia.
Qed.


(** Rounding on the common scale. *)
Lemma binary_round_aux_num (m : positive) (e : Z) :
  - scale <= e <= 0 -> Z.pos m * 2 ^ (e + scale) < 2 ^ (53 + scale) ->
  roundedFrom (binary_round_aux 53 1024 false (Z.pos m) e loc_Exact)
    (Z.pos m * 2 ^ (e + scale)).
Proof.
  intros He Hbelow.
  set (r := binary_round_aux 53 1024 false (Z.pos m) e loc_Exact).
  set (X := Z.pos m * 2 ^ (e + scale)) in *.
  set (d := Z.pos (digits2_pos m)).
  assert (Hscale : scale = 1200) by reflexivity.
  set (u := 2 ^ (e + scale)) in *.
  assert (Hu : 0 < u) by (apply Z.pow_pos_nonneg; lia).
  pose proof (digits2_pos_bound m) as [Hlow _]. fold d in Hlow.
  assert (Hd : d + e <= 53).
  { destruct (Z_le_gt_dec (d + e) 53) as [Hle | Hgt]; [exact Hle |].
    assert (Hpow : 2 ^ (53 + scale) <= 2 ^ (d - 1 + (e + scale)))
      by (apply Z.pow_le_mono_r; lia).
    assert (Hsplit : 2 ^ (d - 1 + (e + scale)) = 2 ^ (d - 1) * u).
    { subst u. rewrite <- Z.pow_add_r by (subst d; lia). reflexivity. }
    rewrite Hsplit in Hpow. subst X. nia. }
  destruct (binary_round_aux_pos m e) as (k & Hvalue & Hk & Hexactly); [lia | fold d; lia |].
  fold r in Hvalue. fold d in Hvalue, Hk, Hexactly.
  set (G := Z.max e (Z.max (d + e - 53) (-1074))) in *.
  assert (HG : -1074 <= G <= 0 /\ e <= G) by (subst G; lia).
  set (T := 2 ^ (G - e)) in *.
  assert (HT : 0 < T) by (apply Z.pow_pos_nonneg; lia).
  assert (Hg : 2 ^ (G + scale) = T * u).
  { subst T u. rewrite <- Z.pow_add_r by lia. f_equal. lia. }
  assert (Hnum : nonnegative r /\ num r = k * 2 ^ (G + scale)).
  { destruct r as [sr | sr | | [|] mr er]; unfold isValue in Hvalue; try contradiction.
    - subst k. split; [exact I | reflexivity].
    - destruct Hvalue as [Her ->]. split; [unfold nonnegative; lia |].
      unfold num. rewrite <- Z.mul_assoc, <- Z.pow_add_r by lia. f_equal. f_equal. lia. }
  destruct Hnum as [Hnonneg Hnum]. split; [exact Hnonneg |].
  exists (2 ^ (G + scale)).
  assert (HQ : Z.pos m / T * T <= Z.pos m < (Z.pos m / T + 1) * T).
  { pose proof (Z.div_mod (Z.pos m) T) as Hdiv.
    pose proof (Z.mod_pos_bound (Z.pos m) T HT). lia. }
  split; [apply Z.pow_pos_nonneg; lia |].
  split.
  { exists (2 ^ (- G)). rewrite <- Z.pow_add_r by lia. f_equal. lia. }
  split; [exists k; exact Hnum |].
  rewrite Hnum, Hg. subst X.
  split.
  - destruct Hk as [-> | [_ ->]]; [nia |].
    split; [nia |].
    assert (Hstrict : Z.pos m / T * T <> Z.pos m).
    { intros Heq. assert (Hdiv : (T | Z.pos m)) by (exists (Z.pos m / T); lia).
      specialize (Hexactly Hdiv). lia. }
    nia.
  - destruct (Z.eq_dec G e) as [Hsame | Hrounded].
    + left. assert (HT1 : T = 1) by (subst T; rewrite Hsame, Z.sub_diag; reflexivity).
      destruct Hk as [-> | [Hlt _]]; [| lia]. rewrite HT1, Z.div_1_r. lia.
    + right. destruct (Z.eq_dec G (-1074)) as [Hsub | Hnormal].
      * right. rewrite <- Hg, Hsub. f_equal; lia.
      * left. assert (HGd : G = d + e - 53) by (subst G; lia).
        assert (Hpow : T * 2 ^ 52 = 2 ^ (d - 1)).
        { subst T. rewrite <- Z.pow_add_r by lia. f_equal. lia. }
        nia.
Qed.

Lemma roundedFrom_exact r X : nonnegative r -> num r = X -> roundedFrom r X.
Proof.
  intros Hr Hnum. split; [exact Hr |]. exists 1.
  split; [lia |]. split; [apply Z.divide_1_l |]. split; [apply Z.divide_1_l |].
  split; [lia | left; exact Hnum].
Qed.

(** A rounded value stays below every double above the exact one. *)
Lemma roundedFrom_le r X Y :
  roundedFrom r X -> X <= Y -> (2 ^ scale | Y) -> num r <= Y.
Proof.
  intros (_ & g & Hg & [c Hc] & [a Ha] & [_ Hupper] & _) HXY [y Hy].
  rewrite Ha in *. rewrite Hy, Hc in *.
  assert (Hlt : a * g < (y * c + 1) * g) by lia.
  apply Z.mul_lt_mono_pos_r in Hlt; [| exact Hg].
  replace (y * (c * g)) with (y * c * g) by ring.
  apply Z.mul_le_mono_nonneg_r; lia.
Qed.

Lemma roundedFrom_nonneg r X : roundedFrom r X -> 0 <= X -> 0 <= num r.
Proof.
  intros (_ & g & Hg & _ & [a Ha] & [Hlower _] & _) HX. rewrite Ha in *.
  assert (Hlt : (-1) * g < a * g) by lia.
  apply Z.mul_lt_mono_pos_r in Hlt; [| exact Hg].
  apply Z.mul_nonneg_nonneg; lia.
Qed.

(** The error of one rounding, for a value of at most [Y]. *)
Lemma roundedFrom_error r X Y :
  roundedFrom r X -> 0 <= X <= Y -> 2 ^ (scale - 1022) <= Y ->
  Z.abs (num r - X) * 2 ^ 52 <= Y.
Proof.
  intros (_ & g & Hg & _ & _ & Hnear & Hcases) HX HY.
  assert (Hsub : 2 ^ (scale - 1074) * 2 ^ 52 = 2 ^ (scale - 1022)).
  { rewrite <- Z.pow_add_r by (unfold scale; lia). f_equal; unfold scale; lia. }
  destruct Hcases as [-> | [Hnormal | Hsubnormal]]; [rewrite Z.sub_diag; simpl; lia | |];
    nia.
Qed.

Lemma truncation_num x :
  nonnegative x -> truncation x = Some (num x / 2 ^ scale).
Proof.
  assert (Hscale : scale = 1200) by reflexivity.
  destruct x as [s | s | | [|] m e]; unfold nonnegative, num, truncation, cond_Zopp;
    try contradiction; intros He.
  - reflexivity.
  - f_equal.
    assert (Hu : 0 < 2 ^ (e + scale)) by (apply Z.pow_pos_nonneg; lia).
    destruct (e <? 0) eqn:Hneg.
    + apply Z.ltb_lt in Hneg.
      assert (Hsplit : 2 ^ scale = 2 ^ (- e) * 2 ^ (e + scale))
        by (rewrite <- Z.pow_add_r by lia; f_equal; lia).
      assert (0 < 2 ^ (- e)) by (apply Z.pow_pos_nonneg; lia).
      rewrite Hsplit, Z.div_mul_cancel_r by lia. reflexivity.
    + apply Z.ltb_ge in Hneg.
      assert (Hsplit : 2 ^ (e + scale) = 2 ^ e * 2 ^ scale)
        by (rewrite <- Z.pow_add_r by lia; reflexivity).
      rewrite Hsplit, Z.mul_assoc, Z.div_mul; [reflexivity |].
      apply Z.pow_nonzero; lia.
Qed.


Lemma shl_align_fst (mx : positive) (ex ez : Z) :
  ez <= ex -> Z.pos (fst (shl_align mx ex ez)) = Z.pos mx * 2 ^ (ex - ez).
Proof.
  intros Hle. unfold shl_align.
  destruct (ez - ex) as [| n | n] eqn:Hshift; [| exfalso; lia |]; cbn [fst].
  - replace (ex - ez) with 0 by lia. change (2 ^ 0) with 1. lia.
  - rewrite iter_xO. f_equal. f_equal. lia.
Qed.

Lemma binary_round_num (m : positive) (e : Z) :
  -1074 <= e <= 0 -> Z.pos m * 2 ^ (e + scale) < 2 ^ (53 + scale) ->
  roundedFrom (binary_round 53 1024 false m e) (Z.pos m * 2 ^ (e + scale)).
Proof.
  intros He Hbelow. unfold binary_round, fexp, emin.
  change (3 - 1024 - 53) with (-1074).
  set (E := Z.max (Z.pos (digits2_pos m) + e - 53) (-1074)).
  assert (Hscale : scale = 1200) by reflexivity.
  unfold shl_align.
  destruct (E - e) as [| n | n] eqn:Hshift.
  - apply binary_round_aux_num; [lia | exact Hbelow].
  - apply binary_round_aux_num; [lia | exact Hbelow].
  - assert (Hn : Z.pos n = e - E) by lia.
    assert (Hvalue : Z.pos (Pos.iter xO m n) * 2 ^ (E + scale) = Z.pos m * 2 ^ (e + scale)).
    { rewrite iter_xO, Hn, <- Z.mul_assoc, <- Z.pow_add_r by lia. f_equal. f_equal. lia. }
    rewrite <- Hvalue in *.
    apply binary_round_aux_num; [subst E; lia | exact Hbelow].
Qed.

(** [0.5 * q] for a double [0 <= q <= 2]. *)
Lemma mul_half_num q :
  nonnegative q -> num q <= 2 * 2 ^ scale ->
  exists X, 2 * X = num q /\ roundedFrom (mul literal_0_5 q) X.
Proof.
  assert (Hscale : scale = 1200) by reflexivity.
  intros Hq Hle. destruct q as [s | s | | [|] mq eq]; unfold nonnegative in Hq;
    try contradiction.
  - exists 0. split; [reflexivity |]. apply roundedFrom_exact; [exact I | reflexivity].
  - unfold num in Hle |- *.
    assert (Hu : 0 < 2 ^ (eq + scale)) by (apply Z.pow_pos_nonneg; lia).
    assert (Heq : eq <= 1).
    { destruct (Z_le_gt_dec eq 1) as [Hok | Hbig]; [exact Hok |].
      assert (2 ^ (2 + scale) <= 2 ^ (eq + scale)) by (apply Z.pow_le_mono_r; lia).
      rewrite Z.pow_add_r in H by lia. change (2 ^ 2) with 4 in H. nia. }
    exists (Z.pos (4503599627370496 * mq) * 2 ^ (-53 + eq + scale)).
    assert (Hvalue : 2 * (Z.pos (4503599627370496 * mq) * 2 ^ (-53 + eq + scale))
                     = Z.pos mq * 2 ^ (eq + scale)).
    { rewrite Pos2Z.inj_mul. change (Z.pos 4503599627370496) with (2 ^ 52).
      replace (eq + scale) with (53 + (-53 + eq + scale)) by lia.
      rewrite (Z.pow_add_r 2 53) by lia. change (2 ^ 53) with (2 * 2 ^ 52). ring. }
    split; [exact Hvalue |].
    unfold mul, literal_0_5, SFmul. cbn [xorb].
    change (binary_round_aux prec emax) with (binary_round_aux 53 1024).
    apply binary_round_aux_num; [lia |].
    assert (2 ^ scale < 2 ^ (53 + scale)) by (apply Z.pow_lt_mono_r; lia). lia.
Qed.

(** [1 - t] for a double [0 <= t <= 1]. *)
Lemma sub_one_num t :
  nonnegative t -> num t <= 2 ^ scale ->
  roundedFrom (sub (ofZ 1) t) (2 ^ scale - num t).
Proof.
  assert (Hscale : scale = 1200) by reflexivity.
  assert (HU : 0 < 2 ^ scale) by (apply Z.pow_pos_nonneg; lia).
  change (ofZ 1) with (S754_finite false 4503599627370496 (-52)).
  assert (Hone : num (S754_finite false 4503599627370496 (-52)) = 2 ^ scale).
  { unfold num. change (Z.pos 4503599627370496) with (2 ^ 52).
    rewrite <- Z.pow_add_r by lia. f_equal. }
  intros Ht Hle. destruct t as [s | s | | [|] m1 e1]; unfold nonnegative in Ht;
    try contradiction.
  - unfold sub, SFsub.
    apply roundedFrom_exact; [unfold nonnegative; lia | rewrite Hone; unfold num; lia].
  - unfold num in Hle |- *. unfold sub, SFsub.
    change (binary_normalize prec emax) with (binary_normalize 53 1024).
    set (ez := Z.min (-52) e1).
    unfold cond_Zopp.
    rewrite (shl_align_fst 4503599627370496 (-52) ez) by (subst ez; lia).
    rewrite (shl_align_fst m1 e1 ez) by (subst ez; lia).
    change (Z.pos 4503599627370496) with (2 ^ 52).
    assert (Hez : -1074 <= ez <= -52) by (subst ez; lia).
    assert (Hu : 0 < 2 ^ (ez + scale)) by (apply Z.pow_pos_nonneg; lia).
    assert (Hvalue : (2 ^ 52 * 2 ^ (-52 - ez) - Z.pos m1 * 2 ^ (e1 - ez)) * 2 ^ (ez + scale)
                     = 2 ^ scale - Z.pos m1 * 2 ^ (e1 + scale)).
    { rewrite Z.mul_sub_distr_r. f_equal.
      - rewrite <- !Z.pow_add_r by lia. f_equal. lia.
      - rewrite <- Z.mul_assoc, <- Z.pow_add_r by lia. f_equal. f_equal. lia. }
    destruct (2 ^ 52 * 2 ^ (-52 - ez) - Z.pos m1 * 2 ^ (e1 - ez)) as [| pI | pI].
    + apply roundedFrom_exact; [exact I |]. unfold binary_normalize, num. lia.
    + unfold binary_normalize. rewrite <- Hvalue.
      apply binary_round_num; [lia |]. rewrite Hvalue.
      assert (2 ^ scale < 2 ^ (53 + scale)) by (apply Z.pow_lt_mono_r; lia). lia.
    + exfalso. nia.
Qed.

(** [t * b] for a double [0 <= t <= 1] and a 32-bit unsigned [b]. *)
Lemma mul_ofZ_num t b :
  nonnegative t -> num t <= 2 ^ scale -> 0 <= b < 2 ^ 32 ->
  roundedFrom (mul t (ofZ b)) (num t * b).
Proof.
  assert (Hscale : scale = 1200) by reflexivity.
  assert (HU : 0 < 2 ^ scale) by (apply Z.pow_pos_nonneg; lia).
  intros Ht Hle Hb.
  destruct (Z.eq_dec b 0) as [-> | Hpos].
  { rewrite Z.mul_0_r. apply roundedFrom_exact.
    - destruct t as [s | s | | [|] m e]; try contradiction; exact I.
    - destruct t as [s | s | | [|] m e]; try contradiction; reflexivity. }
  destruct (ofZ_pos b) as (mb & eb & -> & Heb & Hmb & _); [lia |].
  destruct t as [s | s | | [|] m2 e2]; unfold nonnegative in Ht; try contradiction.
  - apply roundedFrom_exact; [exact I | reflexivity].
  - unfold num in Hle |- *.
    assert (Hu : 0 < 2 ^ (e2 + scale)) by (apply Z.pow_pos_nonneg; lia).
    assert (He2 : e2 <= 0).
    { destruct (Z_le_gt_dec e2 0) as [Hok | Hbig]; [exact Hok |].
      assert (2 ^ (1 + scale) <= 2 ^ (e2 + scale)) by (apply Z.pow_le_mono_r; lia).
      rewrite Z.pow_add_r in H by lia. change (2 ^ 1) with 2 in H. nia. }
    assert (Hvalue : Z.pos (m2 * mb) * 2 ^ (e2 + eb + scale)
                     = Z.pos m2 * 2 ^ (e2 + scale) * b).
    { rewrite Pos2Z.inj_mul, Hmb.
      replace (e2 + scale) with ((- eb) + (e2 + eb + scale)) by lia.
      rewrite (Z.pow_add_r 2 (- eb)) by lia. ring. }
    rewrite <- Hvalue.
    unfold mul, SFmul. cbn [xorb].
    change (binary_round_aux prec emax) with (binary_round_aux 53 1024).
    apply binary_round_aux_num; [lia |]. rewrite Hvalue.
    assert (Hpow : 2 ^ (53 + scale) = 2 ^ 53 * 2 ^ scale) by (apply Z.pow_add_r; lia).
    rewrite Hpow. nia.
Qed.


Lemma num_nonneg x : 0 <= num x.
Proof.
  destruct x as [s | s | | [|] m e]; unfold num;
    first [lia | apply Z.mul_nonneg_nonneg; [lia | apply Z.pow_nonneg; lia]].
Qed.

(** [uint32_t((1 - 0.5 * q) * b)] for a double [0 <= q <= 2]: at most [b],
    and within one of the floor of the exact value. *)
Lemma penalised_truncation q b :
  nonnegative q -> num q <= 2 * 2 ^ scale -> 0 <= b < 2 ^ 32 ->
  exists v,
    truncation (mul (sub (ofZ 1) (mul literal_0_5 q)) (ofZ b)) = Some v /\
    0 <= v <= b /\
    (2 * 2 ^ scale - num q) * b / (2 * 2 ^ scale) - 1 <= v
      <= (2 * 2 ^ scale - num q) * b / (2 * 2 ^ scale) + 1.
Proof.
  intros Hq Hle Hb.
  assert (Hscale : scale = 1200) by reflexivity.
  assert (Hc : 2 ^ scale = 2 ^ (scale - 52) * 2 ^ 52).
  { rewrite <- Z.pow_add_r by lia. f_equal; lia. }
  assert (Hsmall : 2 ^ (scale - 1022) <= 2 ^ scale) by (apply Z.pow_le_mono_r; lia).
  assert (Hcpos : 0 < 2 ^ (scale - 52)) by (apply Z.pow_pos_nonneg; lia).
  set (U := 2 ^ scale) in *. set (c := 2 ^ (scale - 52)) in *.
  assert (HU : 0 < U) by lia.
  destruct (mul_half_num q Hq Hle) as (X1 & HX1 & Ht1). fold U in Ht1.
  set (t1 := mul literal_0_5 q) in *.
  pose proof (num_nonneg q) as Hq0.
  assert (Hn1 : 0 <= num t1 <= U).
  { split; [apply (roundedFrom_nonneg t1 X1 Ht1); lia |].
    apply (roundedFrom_le t1 X1 U Ht1); [lia | apply Z.divide_refl]. }
  pose proof (sub_one_num t1 (proj1 Ht1) (proj2 Hn1)) as Ht2. fold U in Ht2.
  set (t2 := sub (ofZ 1) t1) in *.
  assert (Hn2 : 0 <= num t2 <= U).
  { split; [apply (roundedFrom_nonneg t2 _ Ht2); lia |].
    apply (roundedFrom_le t2 _ U Ht2); [lia | apply Z.divide_refl]. }
  pose proof (mul_ofZ_num t2 b (proj1 Ht2) (proj2 Hn2) Hb) as Ht3.
  set (t3 := mul t2 (ofZ b)) in *.
  assert (Hn3 : 0 <= num t3 <= U * b).
  { split; [apply (roundedFrom_nonneg t3 _ Ht3); nia |].
    apply (roundedFrom_le t3 _ (U * b) Ht3); [nia | apply Z.divide_factor_l]. }
  exists (num t3 / U). split; [apply truncation_num; exact (proj1 Ht3) |].
  pose proof (roundedFrom_error t1 X1 U Ht1) as E1.
  pose proof (roundedFrom_error t2 (U - num t1) U Ht2) as E2.
  pose proof (roundedFrom_error t3 (num t2 * b) (U * 2 ^ 32) Ht3) as E3.
  assert (E1' : Z.abs (num t1 - X1) <= c) by nia.
  assert (E2' : Z.abs (num t2 - (U - num t1)) <= c) by nia.
  assert (E3' : Z.abs (num t3 - num t2 * b) <= c * 2 ^ 32) by nia.
  clear E1 E2 E3.
  set (n1 := num t1) in *. set (n2 := num t2) in *. set (n3 := num t3) in *.
  set (W := (2 * U - num q) * b).
  assert (Hnear : Z.abs (2 * n3 - W) < U).
  { assert (Hb1 : Z.abs (b * (n2 - (U - n1))) <= 2 ^ 32 * c).
    { rewrite Z.abs_mul. rewrite (Z.abs_eq b) by lia. nia. }
    assert (Hb2 : Z.abs (b * (n1 - X1)) <= 2 ^ 32 * c).
    { rewrite Z.abs_mul. rewrite (Z.abs_eq b) by lia. nia. }
    assert (Hsum : 2 * n3 - W
                   = 2 * (n3 - n2 * b) + 2 * (b * (n2 - (U - n1))) - 2 * (b * (n1 - X1))).
    { subst W. rewrite <- HX1. ring. }
    rewrite Hsum. lia. }
  pose proof (Z.div_mod n3 U) as Hv. pose proof (Z.mod_pos_bound n3 U HU) as Hvr.
  pose proof (Z.div_mod W (2 * U)) as HN.
  pose proof (Z.mod_pos_bound W (2 * U)) as HNr.
  set (v := n3 / U) in *. set (N := W / (2 * U)) in *.
  split.
  - split; [apply Z.div_pos; lia |].
    apply Z.div_le_upper_bound; [lia | lia].
  - split.
    + assert (Hlt : (2 * N - 1) * U < (2 * (v + 1)) * U) by lia.
      apply Z.mul_lt_mono_pos_r in Hlt; lia.
    + assert (Hlt : (2 * v) * U < (2 * N + 3) * U) by lia.
      apply Z.mul_lt_mono_pos_r in Hlt; lia.
Qed.


Lemma Qfloor_div a b : 0 < b -> Qfloor (inject_Z a / inject_Z b) = a / b.
Proof.
  intros Hb. destruct b as [| b | b]; [lia | | lia].
  unfold Qdiv, Qmult, Qinv, inject_Z, Qfloor. simpl Qnum. simpl Qden.
  rewrite Z.mul_1_r. reflexivity.
Qed.

Lemma value_num x :
  nonnegative x -> (value x == inject_Z (num x) / inject_Z (2 ^ scale))%Q.
Proof.
  assert (Hscale : scale = 1200) by reflexivity.
  assert (Htwo : ~ (2 # 1 == 0)%Q) by discriminate.
  assert (Hunit : ~ ((2 # 1) ^ scale == 0)%Q) by (apply Qpower_not_0; exact Htwo).
  destruct x as [s | s | | [|] m e]; unfold nonnegative, value, num, cond_Zopp;
    try contradiction; intros He.
  - rewrite Zpower_Qpower by lia. change (inject_Z 0) with 0%Q. change (inject_Z 2) with (2 # 1).
    field. exact Hunit.
  - rewrite inject_Z_mult, !Zpower_Qpower by lia. change (inject_Z 2) with (2 # 1).
    rewrite Qpower_plus by exact Htwo. field. exact Hunit.
Qed.

Lemma inject_Z_nonzero z : 0 < z -> ~ (inject_Z z == 0)%Q.
Proof. intros Hz Heq. apply (inject_Z_injective z 0) in Heq. lia. Qed.

Lemma Qfloor_penalised x b :
  nonnegative x ->
  Qfloor ((1 - value x / 2) * inject_Z b) = (2 * 2 ^ scale - num x) * b / (2 * 2 ^ scale).
Proof.
  intros Hx.
  assert (HU : 0 < 2 ^ scale) by (apply Z.pow_pos_nonneg; unfold scale; lia).
  rewrite <- Qfloor_div by lia.
  apply Qfloor_comp. rewrite (value_num x Hx).
  unfold Z.sub. rewrite !inject_Z_mult, inject_Z_plus, inject_Z_opp, !inject_Z_mult.
  change (inject_Z 2) with (2 # 1).
  pose proof (inject_Z_nonzero _ HU) as Hunit.
  field. exact Hunit.
Qed.

Lemma value_le_2 x : nonnegative x -> (value x <= 2)%Q -> num x <= 2 * 2 ^ scale.
Proof.
  intros Hx Hle.
  assert (HU : 0 < 2 ^ scale) by (apply Z.pow_pos_nonneg; unfold scale; lia).
  rewrite (value_num x Hx) in Hle.
  destruct (2 ^ scale) as [| u | u]; [lia | | lia].
  unfold Qle, Qdiv, Qmult, Qinv, inject_Z in Hle. simpl Qnum in Hle. simpl Qden in Hle.
  lia.
Qed.

Lemma Qfloor_boosted b : Qfloor ((108 # 100) * inject_Z b) = 27 * b / 25.
Proof.
  unfold Qfloor, Qmult, inject_Z. simpl Qnum. simpl Qden.
  change (Z.pos (100 * 1)) with (25 * 4).
  replace (108 * b) with (27 * b * 4) by ring.
  rewrite Z.div_mul_cancel_r by lia. reflexivity.
Qed.

End DoubleArithmetic.

Section Properties.

Context `{Collaborators} `{Conversions}.

(** ** Fixed-width integers *)

Lemma u32_range z : Int.isU32 (Int.u32 z).
Proof. unfold Int.isU32, Int.u32, Int.wrapU. apply Z.mod_pos_bound. lia. Qed.

Lemma u32_id z : Int.isU32 z -> Int.u32 z = z.
Proof. unfold Int.isU32, Int.u32, Int.wrapU. intros Hz. apply Z.mod_small. lia. Qed.

Lemma i16_id z : Int.isI16 z -> Int.i16 z = z.
Proof.
  unfold Int.isI16, Int.i16, Int.wrapS. intros Hz.
  rewrite Z.mod_small; lia.
Qed.

Lemma u16_id z : 0 <= z < 2 ^ 16 -> Int.u16 z = z.
Proof. unfold Int.u16, Int.wrapU. intros Hz. apply Z.mod_small. lia. Qed.

(** ** Reasoning rules *)

Lemma triple_ret {A} (a : A) (P : Consumer -> Prop) Q E :
  (forall c, P c -> Q a c) -> triple P (ret a) Q E.
Proof. intros HQ c Hc. simpl. auto. Qed.

Lemma triple_bind {A B} (m : M A) (k : A -> M B) P Q R E :
  triple P m Q E -> (forall a, triple (Q a) (k a) R E) -> triple P (bind m k) R E.
Proof.
  intros Hm Hk c Hc. unfold bind.
  specialize (Hm c Hc). destruct (m c) as [a c1 l1 | f c1 l1]; [| exact Hm].
  specialize (Hk a c1 Hm). destruct (k a c1); exact Hk.
Qed.

Lemma triple_weaken {A} (m : M A) (P P' : Consumer -> Prop) (Q Q' : A -> Consumer -> Prop) E :
  triple P' m Q' E -> (forall c, P c -> P' c) -> (forall a c, Q' a c -> Q a c) ->
  triple P m Q E.
Proof.
  intros Hm HP HQ c Hc. specialize (Hm c (HP c Hc)).
  destruct (m c); auto.
Qed.

Lemma triple_assume {A} (fact : Prop) (m : M A) (P : Consumer -> Prop) Q E :
  (fact -> triple P m Q E) -> triple (fun c => P c /\ fact) m Q E.
Proof. intros Hm c [Hc Hfact]. exact (Hm Hfact c Hc). Qed.

Lemma triple_get P E : triple P get (fun a c => a = c /\ P c) E.
Proof. intros c Hc. simpl. auto. Qed.

Lemma triple_modify (f : Consumer -> Consumer) (P : Consumer -> Prop) Q E :
  (forall c, P c -> Q tt (f c)) -> triple P (modify f) Q E.
Proof. intros Hf c Hc. simpl. auto. Qed.

Lemma triple_emit e (P : Consumer -> Prop) E : triple P (emit e) (fun _ => P) E.
Proof. intros c Hc. exact Hc. Qed.

Lemma triple_throw {A} f (P : Consumer -> Prop) (Q : A -> Consumer -> Prop) E :
  (forall c, P c -> E c) -> triple P (throw f) Q E.
Proof. intros HE c Hc. simpl. auto. Qed.

(** A computation that leaves the state alone keeps everything. *)
Lemma readOnly_keeps {A} (m : M A) I : readOnly m -> keeps I m.
Proof.
  intros Hm c Hc. specialize (Hm c).
  destruct (m c); simpl in Hm; subst; exact Hc.
Qed.

Lemma keeps_bind {A B} (m : M A) (k : A -> M B) I :
  keeps I m -> (forall a, keeps I (k a)) -> keeps I (bind m k).
Proof. intros Hm Hk. eapply triple_bind; [exact Hm | exact Hk]. Qed.

Lemma keeps_ret {A} (a : A) I : keeps I (ret a).
Proof. apply triple_ret. auto. Qed.

Lemma keeps_get I : keeps I get.
Proof. intros c Hc. exact Hc. Qed.

Lemma keeps_emit e I : keeps I (emit e).
Proof. apply triple_emit. Qed.

Lemma keeps_throw {A} f I : keeps I (@throw _ A f).
Proof. apply triple_throw. auto. Qed.

Lemma keeps_modify (f : Consumer -> Consumer) (I : Consumer -> Prop) :
  (forall c, I c -> I (f c)) -> keeps I (modify f).
Proof. intros Hf. apply triple_modify. exact Hf. Qed.

Lemma keeps_MS_ASSERT b I : keeps I (MS_ASSERT b).
Proof. destruct b; [apply keeps_ret | apply keeps_throw]. Qed.

Lemma keeps_when b (m : M unit) I : keeps I m -> keeps I (when b m).
Proof. destruct b; [auto | intros _; apply keeps_ret]. Qed.

Lemma keeps_vectorAt {A} (v : list A) i I : keeps I (vectorAt v i).
Proof.
  unfold vectorAt. destruct (if i <? 0 then None else v !! Z.to_nat i);
    [apply keeps_ret | apply keeps_throw].
Qed.

Lemma keeps_vectorIndex {A} (v : list A) i I : keeps I (vectorIndex v i).
Proof.
  unfold vectorIndex. destruct (if i <? 0 then None else v !! Z.to_nat i);
    [apply keeps_ret | apply keeps_throw].
Qed.

Lemma keeps_deref env p I : keeps I (deref env p).
Proof. destruct p; [apply keeps_ret | apply keeps_throw]. Qed.

Lemma keeps_mapAt m k I : keeps I (mapAt m k).
Proof. unfold mapAt. destruct (m !! k); [apply keeps_ret | apply keeps_throw]. Qed.

(** *** Const methods *)

Lemma readOnly_ret {A} (a : A) : readOnly (ret a).
Proof. intros c. reflexivity. Qed.

Lemma readOnly_bind {A B} (m : M A) (k : A -> M B) :
  readOnly m -> (forall a, readOnly (k a)) -> readOnly (bind m k).
Proof.
  intros Hm Hk c. unfold bind. specialize (Hm c).
  destruct (m c) as [a c1 l1 | f c1 l1]; simpl in Hm; subst; [| reflexivity].
  specialize (Hk a c). destruct (k a c); exact Hk.
Qed.

Lemma readOnly_get : readOnly get.
Proof. intros c. reflexivity. Qed.

Lemma readOnly_emit e : readOnly (emit e).
Proof. intros c. reflexivity. Qed.

Lemma readOnly_throw {A} f : readOnly (@throw _ A f).
Proof. intros c. reflexivity. Qed.

Lemma readOnly_MS_ASSERT b : readOnly (MS_ASSERT b).
Proof. destruct b; intros c; reflexivity. Qed.

Lemma readOnly_vectorAt {A} (v : list A) i : readOnly (vectorAt v i).
Proof.
  unfold vectorAt. destruct (if i <? 0 then None else v !! Z.to_nat i);
    intros c; reflexivity.
Qed.

Lemma readOnly_vectorIndex {A} (v : list A) i : readOnly (vectorIndex v i).
Proof.
  unfold vectorIndex. destruct (if i <? 0 then None else v !! Z.to_nat i);
    intros c; reflexivity.
Qed.

Lemma readOnly_deref env p : readOnly (deref env p).
Proof. destruct p; intros c; reflexivity. Qed.

Lemma readOnly_when b (m : M unit) : readOnly m -> readOnly (when b m).
Proof. destruct b; [auto | intros _ c; reflexivity]. Qed.

Create HintDb constMethods.

Hint Resolve readOnly_ret readOnly_get readOnly_emit readOnly_throw readOnly_MS_ASSERT
  readOnly_vectorAt readOnly_vectorIndex readOnly_deref : constMethods.

(** Walks through a method that only reads: one rule per construct, a case
    analysis at every test. *)
Ltac readOnly_walk :=
  repeat first
    [ progress auto with constMethods
    | apply readOnly_bind; [| intros ?]
    | apply readOnly_when
    | match goal with
      | |- readOnly (MS_TRACE _) => apply readOnly_emit
      | |- readOnly (if ?b then _ else _) => destruct b
      | |- readOnly (match ?x with _ => _ end) => destruct x
      end ].

Lemma GetProducerCurrentRtpStream_readOnly : readOnly GetProducerCurrentRtpStream.
Proof. unfold GetProducerCurrentRtpStream. readOnly_walk. Qed.

Lemma GetProducerTargetRtpStream_readOnly : readOnly GetProducerTargetRtpStream.
Proof. unfold GetProducerTargetRtpStream. readOnly_walk. Qed.

Lemma GetProducerProvisionalTargetRtpStream_readOnly :
  readOnly GetProducerProvisionalTargetRtpStream.
Proof. unfold GetProducerProvisionalTargetRtpStream. readOnly_walk. Qed.

Lemma GetProducerTsReferenceRtpStream_readOnly : readOnly GetProducerTsReferenceRtpStream.
Proof. unfold GetProducerTsReferenceRtpStream. readOnly_walk. Qed.

Hint Resolve GetProducerCurrentRtpStream_readOnly GetProducerTargetRtpStream_readOnly
  GetProducerProvisionalTargetRtpStream_readOnly GetProducerTsReferenceRtpStream_readOnly
  : constMethods.

Lemma EmitScore_readOnly env : readOnly (EmitScore env).
Proof. unfold EmitScore. readOnly_walk. Qed.

Lemma EmitLayersChange_readOnly : readOnly EmitLayersChange.
Proof. unfold EmitLayersChange. readOnly_walk. Qed.

Lemma RequestKeyFrames_readOnly : readOnly RequestKeyFrames.
Proof. unfold RequestKeyFrames. readOnly_walk. Qed.

Lemma RequestKeyFrameForTargetSpatialLayer_readOnly :
  readOnly RequestKeyFrameForTargetSpatialLayer.
Proof. unfold RequestKeyFrameForTargetSpatialLayer. readOnly_walk. Qed.

Lemma RequestKeyFrameForCurrentSpatialLayer_readOnly :
  readOnly RequestKeyFrameForCurrentSpatialLayer.
Proof. unfold RequestKeyFrameForCurrentSpatialLayer. readOnly_walk. Qed.

Lemma CanSwitchToSpatialLayer_readOnly env s : readOnly (CanSwitchToSpatialLayer env s).
Proof. unfold CanSwitchToSpatialLayer. readOnly_walk. Qed.

Hint Resolve EmitScore_readOnly EmitLayersChange_readOnly RequestKeyFrames_readOnly
  RequestKeyFrameForTargetSpatialLayer_readOnly
  RequestKeyFrameForCurrentSpatialLayer_readOnly CanSwitchToSpatialLayer_readOnly
  : constMethods.

Lemma recalculateLoop_readOnly env slots :
  forall sIdx newTarget maxScore, readOnly (recalculateLoop env slots sIdx newTarget maxScore).
Proof.
  induction slots as [| slot rest IH]; intros sIdx newTarget maxScore; simpl.
  - apply readOnly_ret.
  - readOnly_walk.
Qed.

Hint Resolve recalculateLoop_readOnly : constMethods.

Lemma RecalculateTargetLayers_readOnly env : readOnly (RecalculateTargetLayers env).
Proof. unfold RecalculateTargetLayers. readOnly_walk. Qed.

Lemma desiredSpatialLoop_readOnly env slots :
  forall sIdx desired maxScore, readOnly (desiredSpatialLoop env slots sIdx desired maxScore).
Proof.
  induction slots as [| slot rest IH]; intros sIdx desired maxScore; simpl.
  - apply readOnly_ret.
  - readOnly_walk.
Qed.

Hint Resolve RecalculateTargetLayers_readOnly desiredSpatialLoop_readOnly : constMethods.

Lemma GetDesiredBitrate_readOnly env : readOnly (GetDesiredBitrate env).
Proof. unfold GetDesiredBitrate. readOnly_walk. Qed.

Lemma GetBitratePriority_readOnly env : readOnly (GetBitratePriority env).
Proof. unfold GetBitratePriority. readOnly_walk. Qed.

Hint Resolve GetDesiredBitrate_readOnly GetBitratePriority_readOnly : constMethods.

(** ** Switch eligibility *)

Lemma vectorAt_slot (c : Consumer) s x :
  slotAt c s = Some x -> vectorAt (producerRtpStreams c) s c = Done x c [].
Proof. unfold slotAt, vectorAt. intros ->. reflexivity. Qed.

(** C5. For a spatial layer [s] whose slot holds a stream,
    [CanSwitchToSpatialLayer(s)] returns true exactly when there is no
    timestamp reference layer yet, or [s] is the reference layer, or the
    reference layer holds a stream and both it and the stream at [s] have a
    non-zero [senderReportNtpMs]; and it returns (true or false, without
    touching the consumer) whenever the reference layer, if any, holds a
    stream. *)
Theorem CanSwitchToSpatialLayer_iff env (c : Consumer) s q :
  holdsStream c s q ->
  (CanSwitchToSpatialLayer env s c = Done true c [] <->
     tsReferenceSpatialLayer c = -1 \/
     s = tsReferenceSpatialLayer c \/
     (exists r, holdsStream c (tsReferenceSpatialLayer c) r /\
                hasSenderReport env r /\ hasSenderReport env q)) /\
  (tsReferenceSpatialLayer c = -1 \/
   (exists r, holdsStream c (tsReferenceSpatialLayer c) r) ->
   exists b, CanSwitchToSpatialLayer env s c = Done b c []).
Proof.
  intros Hs. unfold holdsStream, hasSenderReport in *.
  unfold CanSwitchToSpatialLayer, bind, get.
  rewrite (vectorAt_slot c s (Some q) Hs). simpl.
  destruct (tsReferenceSpatialLayer c =? -1) eqn:Href.
  { apply Z.eqb_eq in Href. split; [tauto | eauto]. }
  apply Z.eqb_neq in Href.
  destruct (s =? tsReferenceSpatialLayer c) eqn:Hsame.
  { apply Z.eqb_eq in Hsame. split; [tauto | eauto]. }
  apply Z.eqb_neq in Hsame.
  unfold GetProducerTsReferenceRtpStream, bind, get.
  rewrite (proj2 (Z.eqb_neq _ _) Href).
  destruct (slotAt c (tsReferenceSpatialLayer c)) as [[r |] |] eqn:Hr.
  - rewrite (vectorAt_slot c _ _ Hr). simpl.
    destruct (RtpStream.GetSenderReportNtpMs (producer env r) =? 0) eqn:Hntp1.
    + apply Z.eqb_eq in Hntp1. split; [| eauto].
      split; [discriminate |].
      intros [? | [? | (r' & Hr' & Hn & _)]]; try tauto.
      congruence.
    + apply Z.eqb_neq in Hntp1.
      rewrite (vectorAt_slot c s (Some q) Hs). simpl.
      destruct (RtpStream.GetSenderReportNtpMs (producer env q) =? 0) eqn:Hntp2; simpl.
      * apply Z.eqb_eq in Hntp2. split; [| eauto].
        split; [discriminate |].
        intros [? | [? | (r' & _ & _ & Hn)]]; tauto.
      * apply Z.eqb_neq in Hntp2. split; [| eauto].
        split; [| reflexivity].
        intros _. right. right. exists r. auto.
  - rewrite (vectorAt_slot c _ _ Hr). simpl.
    split.
    + split; [discriminate |].
      intros [? | [? | (r' & Hr' & _)]]; try tauto. discriminate.
    + intros [? | (r' & Hr')]; [tauto | discriminate].
  - assert (Hat : vectorAt (producerRtpStreams c) (tsReferenceSpatialLayer c) c
                  = Stop OutOfRange c ([] : list Event)).
    { unfold slotAt in Hr. unfold vectorAt. rewrite Hr. reflexivity. }
    rewrite Hat. simpl.
    split.
    + split; [discriminate |].
      intros [? | [? | (r' & Hr' & _)]]; try tauto. discriminate.
    + intros [? | (r' & Hr')]; [tauto | discriminate].
Qed.

(** ** Bitrate priority *)

Lemma scoringSlot_lt env slots i : scoringSlot env slots i -> (i < length slots)%nat.
Proof. intros (q & Hq & _). eapply lookup_lt_Some. exact Hq. Qed.

Lemma scoringSlot_app_l env pre rest i :
  (i < length pre)%nat -> scoringSlot env (pre ++ rest) i <-> scoringSlot env pre i.
Proof. intros Hi. unfold scoringSlot. rewrite lookup_app_l by exact Hi. reflexivity. Qed.

Lemma scoringSlot_middle env pre x rest :
  scoringSlot env (pre ++ x :: rest) (length pre) <->
  exists q, x = Some q /\ RtpStream.GetScore (producer env q) <> 0.
Proof.
  unfold scoringSlot. rewrite list_lookup_middle by reflexivity.
  split; intros (q & Hq & Hs); exists q; split; congruence.
Qed.

(** Visiting slots that cannot change the choice. *)
Lemma priorityChoice_break env preferred pre rest priority :
  priorityChoice env preferred pre priority ->
  priority <> -1 -> preferred < Z.of_nat (length pre) ->
  priorityChoice env preferred (pre ++ rest) priority.
Proof.
  intros [[Hp _] | (p & Hp & Hscore & Hbest)] Hne Hlt; [contradiction |].
  right. exists p. split; [exact Hp |].
  pose proof (scoringSlot_lt _ _ _ Hscore) as Hplt.
  split; [apply scoringSlot_app_l; assumption |].
  destruct Hbest as [[Hle Hmax] | [Hgt Hmin]].
  - left. split; [exact Hle |]. intros i Hi Hipref.
    apply Hmax; [| exact Hipref].
    apply (scoringSlot_app_l env pre rest); [lia | exact Hi].
  - right. split; [exact Hgt |]. intros i Hi.
    destruct (decide (i < length pre)%nat) as [Hin | Hout]; [| lia].
    apply Hmin. apply (scoringSlot_app_l env pre rest); assumption.
Qed.

Lemma priorityChoice_skip env preferred pre x priority :
  priorityChoice env preferred pre priority ->
  (forall q, x = Some q -> RtpStream.GetScore (producer env q) = 0) ->
  priorityChoice env preferred (pre ++ [x]) priority.
Proof.
  intros Hchoice Hx.
  assert (Hsame : forall i, scoringSlot env (pre ++ [x]) i <-> scoringSlot env pre i).
  { intros i. destruct (decide (i < length pre)%nat) as [Hin | Hout].
    - apply scoringSlot_app_l. exact Hin.
    - split; intros Hi.
      + pose proof (scoringSlot_lt _ _ _ Hi) as Hlt.
        rewrite length_app in Hlt. simpl in Hlt.
        assert (i = length pre) by lia. subst i.
        apply scoringSlot_middle in Hi. destruct Hi as (q & Hq & Hs).
        specialize (Hx q Hq). contradiction.
      + pose proof (scoringSlot_lt _ _ _ Hi). lia. }
  destruct Hchoice as [[Hp Hnone] | (p & Hp & Hscore & Hbest)].
  - left. split; [exact Hp |]. intros i Hi. apply (Hnone i), Hsame, Hi.
  - right. exists p. split; [exact Hp |]. split; [apply Hsame, Hscore |].
    destruct Hbest as [[Hle Hmax] | [Hgt Hmin]].
    + left. split; [exact Hle |]. intros i Hi. apply Hmax, Hsame, Hi.
    + right. split; [exact Hgt |]. intros i Hi. apply Hmin, Hsame, Hi.
Qed.

Lemma priorityChoice_take env preferred pre q priority :
  priorityChoice env preferred pre priority ->
  RtpStream.GetScore (producer env q) <> 0 ->
  Z.of_nat (length pre) <= preferred \/ priority = -1 ->
  priorityChoice env preferred (pre ++ [Some q]) (Z.of_nat (length pre)).
Proof.
  intros Hchoice Hq Hcase. right. exists (length pre).
  split; [reflexivity |].
  split; [apply scoringSlot_middle; eauto |].
  destruct (decide (Z.of_nat (length pre) <= preferred)) as [Hle | Hgt].
  - left. split; [exact Hle |]. intros i Hi _.
    pose proof (scoringSlot_lt _ _ _ Hi) as Hlt.
    rewrite length_app in Hlt. simpl in Hlt. lia.
  - right. split; [lia |]. intros i Hi.
    destruct Hcase as [? | Hnone]; [lia |].
    destruct Hchoice as [[_ Hno] | (p & Hp & _)]; [| lia].
    destruct (decide (i < length pre)%nat) as [Hin | Hout]; [| lia].
    exfalso. apply (Hno i). apply (scoringSlot_app_l env pre [Some q]); assumption.
Qed.

Lemma priorityLoop_choice env preferred slots :
  forall pre priority,
    priorityChoice env preferred pre priority ->
    Z.of_nat (length (pre ++ slots)) <= 32767 ->
    priorityChoice env preferred (pre ++ slots)
      (priorityLoop env preferred slots (Z.of_nat (length pre)) priority).
Proof.
  induction slots as [| x rest IH]; intros pre priority Hchoice Hlen; simpl.
  - rewrite app_nil_r. exact Hchoice.
  - rewrite length_app in Hlen. simpl in Hlen.
    rewrite i16_id by (unfold Int.isI16; lia).
    assert (Hnext : Z.of_nat (length pre) + 1 = Z.of_nat (length (pre ++ [x]))).
    { rewrite length_app. simpl. lia. }
    assert (Happ : pre ++ x :: rest = (pre ++ [x]) ++ rest).
    { rewrite <- app_assoc. reflexivity. }
    assert (Hlen' : Z.of_nat (length ((pre ++ [x]) ++ rest)) <= 32767).
    { rewrite !length_app. simpl. lia. }
    destruct ((preferred <? Z.of_nat (length pre)) && negb (priority =? -1)) eqn:Hbreak.
    + apply andb_true_iff in Hbreak. destruct Hbreak as [Hlt Hne].
      apply Z.ltb_lt in Hlt. apply negb_true_iff, Z.eqb_neq in Hne.
      apply priorityChoice_break; assumption.
    + assert (Hcase : Z.of_nat (length pre) <= preferred \/ priority = -1).
      { apply andb_false_iff in Hbreak. destruct Hbreak as [Hge | Hnone].
        - apply Z.ltb_ge in Hge. left. exact Hge.
        - apply negb_false_iff, Z.eqb_eq in Hnone. right. exact Hnone. }
      rewrite Hnext, Happ.
      destruct x as [q |].
      * destruct (RtpStream.GetScore (producer env q) =? 0) eqn:Hscore.
        -- apply Z.eqb_eq in Hscore. apply IH; [| exact Hlen'].
           apply priorityChoice_skip; [exact Hchoice |].
           intros q' Hq'. congruence.
        -- apply Z.eqb_neq in Hscore. apply IH; [| exact Hlen'].
           apply priorityChoice_take with (priority := priority); assumption.
      * apply IH; [| exact Hlen'].
        apply priorityChoice_skip; [exact Hchoice |]. discriminate.
Qed.

Lemma scoring_scoringSlot env (c : Consumer) s :
  scoring env c s <-> 0 <= s /\ scoringSlot env (producerRtpStreams c) (Z.to_nat s).
Proof.
  unfold scoring, holdsStream, slotAt, scoringSlot.
  destruct (s <? 0) eqn:Hneg.
  - apply Z.ltb_lt in Hneg. split.
    + intros (q & Hq & _). discriminate.
    + intros [Hs _]. lia.
  - apply Z.ltb_ge in Hneg. split.
    + intros Hq. split; [exact Hneg | exact Hq].
    + intros [_ Hq]. exact Hq.
Qed.

Lemma GetBitratePriority_active env (c : Consumer) :
  externallyManagedBitrate c = true -> Consumer_IsActive env = true ->
  GetBitratePriority env c =
    let priority :=
      priorityLoop env (preferredSpatialLayer c) (producerRtpStreams c) 0 (-1) in
    Done (if priority =? -1 then 1 else Int.u16 (priority + 1)) c [].
Proof.
  intros Hext Hactive. unfold GetBitratePriority, bind, get. simpl.
  rewrite Hext, Hactive. simpl.
  destruct (priorityLoop _ _ _ _ _ =? -1); reflexivity.
Qed.

(** C4, as the code has it.  [GetBitratePriority] returns 0 when the consumer
    is not active and 1 when it is active but no slot holds a stream with a
    score above 0.  Otherwise it returns one plus the chosen spatial layer,
    which is the highest scoring layer up to [preferredSpatialLayer] when
    there is one (the result is then at most [preferredSpatialLayer + 1]),
    and the lowest scoring layer above [preferredSpatialLayer] when there is
    none: in that case the result is not capped. *)
Theorem GetBitratePriority_spec env (c : Consumer) :
  externallyManagedBitrate c = true ->
  Z.of_nat (length (producerRtpStreams c)) <= 32767 ->
  (Consumer_IsActive env = false -> GetBitratePriority env c = Done 0 c []) /\
  (Consumer_IsActive env = true -> (forall s, ~ scoring env c s) ->
   GetBitratePriority env c = Done 1 c []) /\
  (Consumer_IsActive env = true ->
   forall s, scoring env c s -> s <= preferredSpatialLayer c ->
     (forall s', scoring env c s' -> s' <= preferredSpatialLayer c -> s' <= s) ->
     GetBitratePriority env c = Done (s + 1) c [] /\
     s + 1 <= preferredSpatialLayer c + 1) /\
  (Consumer_IsActive env = true ->
   forall s, scoring env c s -> preferredSpatialLayer c < s ->
     (forall s', scoring env c s' -> s <= s') ->
     GetBitratePriority env c = Done (s + 1) c []).
Proof.
  intros Hext Hlen.
  assert (Hchoice : priorityChoice env (preferredSpatialLayer c) (producerRtpStreams c)
            (priorityLoop env (preferredSpatialLayer c) (producerRtpStreams c) 0 (-1))).
  { apply (priorityLoop_choice env (preferredSpatialLayer c) (producerRtpStreams c) [] (-1)).
    - left. split; [reflexivity |]. intros i (q & Hq & _). discriminate.
    - exact Hlen. }
  assert (Hslot : forall i, scoringSlot env (producerRtpStreams c) i ->
                            scoring env c (Z.of_nat i)).
  { intros i Hi. apply scoring_scoringSlot. rewrite Nat2Z.id. split; [lia | exact Hi]. }
  assert (Hplus : forall p : nat,
             scoringSlot env (producerRtpStreams c) p ->
             (if Z.of_nat p =? -1 then 1 else Int.u16 (Z.of_nat p + 1)) = Z.of_nat p + 1).
  { intros p Hp. pose proof (scoringSlot_lt _ _ _ Hp) as Hlt.
    destruct (Z.of_nat p =? -1) eqn:Heq; [apply Z.eqb_eq in Heq; lia |].
    apply u16_id. lia. }
  split; [| split; [| split]].
  - intros Hactive. unfold GetBitratePriority, bind, get. simpl.
    rewrite Hext, Hactive. reflexivity.
  - intros Hactive Hnone. rewrite (GetBitratePriority_active env c Hext Hactive). simpl.
    destruct Hchoice as [[-> _] | (p & _ & Hscore & _)]; [reflexivity |].
    exfalso. exact (Hnone _ (Hslot p Hscore)).
  - intros Hactive s Hs Hle Hmax. split; [| lia].
    rewrite (GetBitratePriority_active env c Hext Hactive). simpl.
    pose proof Hs as Hs'. apply scoring_scoringSlot in Hs'. destruct Hs' as [Hs0 Hslot'].
    destruct Hchoice as [[_ Hnone] | (p & -> & Hscore & Hbest)].
    + exfalso. exact (Hnone _ Hslot').
    + rewrite (Hplus p Hscore). f_equal.
      destruct Hbest as [[Hple Hpmax] | [Hpgt Hpmin]].
      * specialize (Hpmax _ Hslot'). specialize (Hmax _ (Hslot p Hscore) Hple). lia.
      * specialize (Hpmin _ Hslot'). lia.
  - intros Hactive s Hs Hgt Hmin.
    rewrite (GetBitratePriority_active env c Hext Hactive). simpl.
    pose proof Hs as Hs'. apply scoring_scoringSlot in Hs'. destruct Hs' as [Hs0 Hslot'].
    destruct Hchoice as [[_ Hnone] | (p & -> & Hscore & Hbest)].
    + exfalso. exact (Hnone _ Hslot').
    + rewrite (Hplus p Hscore). f_equal.
      specialize (Hmin _ (Hslot p Hscore)).
      destruct Hbest as [[Hle _] | [_ Hmin']]; [lia |].
      specialize (Hmin' _ Hslot'). lia.
Qed.

(** ** Use of the available bitrate *)

Lemma CanSwitchToSpatialLayer_returns env (c : Consumer) s q :
  holdsStream c s q -> referenceReady c ->
  exists b, CanSwitchToSpatialLayer env s c = Done b c [].
Proof.
  intros Hs Href. unfold holdsStream in *.
  unfold CanSwitchToSpatialLayer, bind, get.
  rewrite (vectorAt_slot c s (Some q) Hs). simpl.
  destruct (tsReferenceSpatialLayer c =? -1) eqn:Hnone; [eauto |].
  destruct (s =? tsReferenceSpatialLayer c) eqn:Hsame; [eauto |].
  destruct Href as [Href | (r & Hr)]; [apply Z.eqb_neq in Hnone; contradiction |].
  unfold GetProducerTsReferenceRtpStream, bind, get. rewrite Hnone.
  rewrite (vectorAt_slot c _ _ Hr). simpl.
  destruct (RtpStream.GetSenderReportNtpMs (producer env r) =? 0); [eauto |].
  rewrite (vectorAt_slot c s (Some q) Hs). simpl. eauto.
Qed.

Lemma sameStreams_holdsStream c0 c s q :
  sameStreams c0 c -> holdsStream c0 s q -> holdsStream c s q.
Proof. intros [Hslots _]. unfold holdsStream, slotAt. rewrite Hslots. auto. Qed.

Lemma sameStreams_referenceReady c0 c :
  sameStreams c0 c -> referenceReady c0 -> referenceReady c.
Proof.
  intros Hsame [Hnone | (r & Hr)].
  - left. destruct Hsame as [_ ->]. exact Hnone.
  - right. exists r. destruct Hsame as [Hslots Href].
    unfold holdsStream, slotAt in *. rewrite Hslots, Href. exact Hr.
Qed.

Lemma CanSwitchToSpatialLayer_total env c0 s q :
  holdsStream c0 s q -> referenceReady c0 ->
  triple (sameStreams c0) (CanSwitchToSpatialLayer env s)
    (fun _ => sameStreams c0) (fun _ => False).
Proof.
  intros Hs Href c Hc.
  destruct (CanSwitchToSpatialLayer_returns env c s q) as [b ->].
  - eapply sameStreams_holdsStream; eassumption.
  - eapply sameStreams_referenceReady; eassumption.
  - exact Hc.
Qed.

(** The inner loop returns, touches the provisional layers only, and keeps
    [usedBitrate] within the virtual bitrate. *)
Lemma useTemporalLoop_total c0 stream spatialLayer producerScore virtualBitrate remaining :
  forall temporalLayer usedBitrate,
    usedBitrate <= Z.max 0 virtualBitrate ->
    triple (sameStreams c0)
      (useTemporalLoop stream spatialLayer producerScore virtualBitrate
         remaining temporalLayer usedBitrate)
      (fun r c => sameStreams c0 c /\ snd r <= Z.max 0 virtualBitrate)
      (fun _ => False).
Proof.
  induction remaining as [| remaining IH]; intros temporalLayer usedBitrate Hused; simpl.
  - apply triple_ret. auto.
  - destruct (RtpStream.GetBitrate stream 0 temporalLayer =? 0); [apply triple_ret; auto |].
    destruct (virtualBitrate <? RtpStream.GetBitrate stream 0 temporalLayer) eqn:Hover;
      [apply triple_ret; auto |].
    apply Z.ltb_ge in Hover.
    eapply triple_bind; [apply triple_modify with (Q := fun _ => sameStreams c0); auto |].
    intros [].
    eapply triple_bind; [apply triple_modify with (Q := fun _ => sameStreams c0); auto |].
    intros [].
    eapply triple_bind; [apply triple_get |]. intros c.
    eapply triple_weaken with (P' := sameStreams c0) (Q' := fun r c' =>
      sameStreams c0 c' /\ snd r <= Z.max 0 virtualBitrate); [| tauto | auto].
    destruct (_ && _).
    + apply triple_ret. simpl. intros; split; [assumption | lia].
    + apply IH. lia.
Qed.

Lemma useSpatialLoop_total env c0 virtualBitrate slots :
  referenceReady c0 ->
  forall pre usedBitrate maxProducerScore,
    producerRtpStreams c0 = pre ++ slots ->
    Z.of_nat (length (pre ++ slots)) <= 32767 ->
    usedBitrate <= Z.max 0 virtualBitrate ->
    triple (sameStreams c0)
      (useSpatialLoop env virtualBitrate slots (Z.of_nat (length pre))
         usedBitrate maxProducerScore)
      (fun u c => sameStreams c0 c /\ u <= Z.max 0 virtualBitrate)
      (fun _ => False).
Proof.
  intros Href.
  induction slots as [| x rest IH]; intros pre usedBitrate maxProducerScore Hall Hlen Hused;
    simpl.
  - apply triple_ret. auto.
  - assert (Hnext : Z.of_nat (length pre) + 1 = Z.of_nat (length (pre ++ [x]))).
    { rewrite length_app. simpl. lia. }
    assert (Hall' : producerRtpStreams c0 = (pre ++ [x]) ++ rest).
    { rewrite <- app_assoc. exact Hall. }
    assert (Hlen' : Z.of_nat (length ((pre ++ [x]) ++ rest)) <= 32767).
    { rewrite <- app_assoc. exact Hlen. }
    assert (Hskip : forall used score, used <= Z.max 0 virtualBitrate ->
               triple (sameStreams c0)
                 (useSpatialLoop env virtualBitrate rest (Z.of_nat (length pre) + 1)
                    used score)
                 (fun u c => sameStreams c0 c /\ u <= Z.max 0 virtualBitrate)
                 (fun _ => False)).
    { intros used score Hu. rewrite Hnext. apply IH; assumption. }
    rewrite length_app in Hlen. simpl in Hlen.
    rewrite i16_id by (unfold Int.isI16; lia).
    destruct x as [q |]; [| apply Hskip; exact Hused].
    destruct (RtpStream.GetScore (producer env q) =? 0); [apply Hskip; exact Hused |].
    destruct (_ && _); [apply Hskip; exact Hused |].
    assert (Hq : holdsStream c0 (Z.of_nat (length pre)) q).
    { unfold holdsStream, slotAt.
      destruct (Z.of_nat (length pre) <? 0) eqn:Hneg; [apply Z.ltb_lt in Hneg; lia |].
      rewrite Nat2Z.id, Hall. apply list_lookup_middle. reflexivity. }
    eapply triple_bind; [apply (CanSwitchToSpatialLayer_total env c0 _ q Hq Href) |].
    intros canSwitch. simpl.
    destruct canSwitch; simpl; [| apply Hskip; exact Hused].
    destruct (_ && _); [apply Hskip; exact Hused |].
    eapply triple_bind; [apply useTemporalLoop_total; exact Hused |].
    intros [flow used]. simpl. apply triple_assume. intros Hu.
    destruct flow.
    + eapply triple_bind; [apply triple_get |]. intros c.
      eapply triple_weaken with (P' := sameStreams c0) (Q' := fun u c' =>
        sameStreams c0 c' /\ u <= Z.max 0 virtualBitrate); [| tauto | auto].
      destruct (_ && _).
      * apply triple_ret. tauto.
      * apply Hskip. exact Hu.
    + apply triple_ret. tauto.
Qed.

(** The virtual bitrate is the given bitrate when loss is not considered
    and when the loss percentage is from 2 to 10. *)
Lemma virtualBitrateFor_ignoring_loss (c : Consumer) bitrate :
  virtualBitrateFor c bitrate false = bitrate.
Proof. reflexivity. Qed.

Lemma virtualBitrateFor_moderate_loss (c : Consumer) bitrate considerLoss :
  (inject_Z 2 <= GetLossPercentage (rtpStream c))%Q ->
  (GetLossPercentage (rtpStream c) <= inject_Z 10)%Q ->
  virtualBitrateFor c bitrate considerLoss = bitrate.
Proof.
  intros Hlow Hhigh. unfold virtualBitrateFor.
  destruct considerLoss; [| reflexivity].
  rewrite (proj2 (Qle_bool_iff _ _) Hlow), (proj2 (Qle_bool_iff _ _) Hhigh).
  reflexivity.
Qed.

Lemma toUint32_truncation x z :
  Double.truncation x = Some z -> 0 <= z < 2 ^ 32 -> toUint32 x = z.
Proof.
  intros Htruncation Hz. unfold toUint32. rewrite Htruncation.
  destruct (0 <=? z) eqn:Hlow; [| apply Z.leb_gt in Hlow; lia].
  destruct (z <? 2 ^ 32) eqn:Hhigh; [reflexivity | apply Z.ltb_ge in Hhigh; lia].
Qed.

(** C3, as the code has it.  With [considerLoss], for a bitrate [b] within
    [uint32_t] and the loss percentage [p] of the send stream, the virtual
    bitrate is an integer: the integer part of [1.08 * b] when [p < 2] (for
    a bitrate up to 3976821570, beyond which the product is past
    [uint32_t]), [b] when [2 <= p <= 10], and when [p > 10] the integer
    part of the double [(1 - 0.5 * q) * b], which is at most [b] and at most
    1 away from the integer part of the exact [(1 - 0.5 * q) * b]; [q] is
    the double that the code gets for [p / 100], between 0 and 2. *)
Theorem virtualBitrateFor_considering_loss (c : Consumer) bitrate :
  0 <= bitrate < 2 ^ 32 ->
  let p := GetLossPercentage (rtpStream c) in
  let q := lossPercentageOver100 p in
  let v := virtualBitrateFor c bitrate true in
  ((p < 2)%Q -> bitrate <= 3976821570 ->
   v = Qfloor ((108 # 100) * inject_Z bitrate)) /\
  ((2 <= p)%Q -> (p <= 10)%Q -> v = bitrate) /\
  ((10 < p)%Q -> Double.nonnegative q -> (Double.value q <= 2)%Q ->
   0 <= v <= bitrate /\
   Qfloor ((1 - Double.value q / 2) * inject_Z bitrate) - 1 <= v
     <= Qfloor ((1 - Double.value q / 2) * inject_Z bitrate) + 1).
Proof.
  intros Hb p q v. split; [| split].
  - intros Hp Hcap. subst v. unfold virtualBitrateFor. fold p.
    assert (Hbelow : Qle_bool 2 p = false).
    { destruct (Qle_bool 2 p) eqn:Hle; [| reflexivity].
      apply Qle_bool_iff in Hle. exfalso. exact (Qlt_not_le _ _ Hp Hle). }
    change (inject_Z 2) with 2%Q. rewrite Hbelow. cbn [negb].
    rewrite Qfloor_boosted.
    apply toUint32_truncation; [apply mul_1_08_floor; lia |].
    split; [apply Z.div_pos; lia | apply Z.div_lt_upper_bound; lia].
  - intros Hlow Hhigh. exact (virtualBitrateFor_moderate_loss c bitrate true Hlow Hhigh).
  - intros Hp Hq Hle. subst v. unfold virtualBitrateFor. fold p.
    assert (Hlow : Qle_bool 2 p = true).
    { apply Qle_bool_iff. apply Qlt_le_weak.
      apply (Qlt_trans _ 10); [reflexivity | exact Hp]. }
    assert (Hhigh : Qle_bool p 10 = false).
    { destruct (Qle_bool p 10) eqn:Hten; [| reflexivity].
      apply Qle_bool_iff in Hten. exfalso. exact (Qlt_not_le _ _ Hp Hten). }
    change (inject_Z 2) with 2%Q. change (inject_Z 10) with 10%Q.
    rewrite Hlow, Hhigh. cbn [negb]. fold q.
    destruct (penalised_truncation q bitrate Hq (value_le_2 q Hq Hle) Hb)
      as (z & Htruncation & Hrange & Hnear).
    rewrite (toUint32_truncation _ z Htruncation) by lia.
    rewrite (Qfloor_penalised q bitrate Hq).
    split; [exact Hrange | exact Hnear].
Qed.

Lemma useAvailableScan_total env (c : Consumer) virtualBitrate :
  referenceReady c -> Z.of_nat (length (producerRtpStreams c)) <= 32767 ->
  exists u c' l,
    useAvailableScan env virtualBitrate c = Done u c' l /\
    sameStreams c c' /\ u <= Z.max 0 virtualBitrate.
Proof.
  intros Href Hlen.
  pose proof (useSpatialLoop_total env c virtualBitrate (producerRtpStreams c) Href
                [] 0 0 eq_refl Hlen ltac:(lia) c (conj eq_refl eq_refl)) as Hloop.
  unfold useAvailableScan, bind, get. simpl in *.
  change (Z.of_nat 0) with 0 in Hloop.
  destruct (useSpatialLoop env virtualBitrate (producerRtpStreams c) 0 0 0 c)
    as [u c' l | f c' l]; [| contradiction].
  exists u, c', l. tauto.
Qed.

(** C6. On an active consumer (whose bitrate is externally managed, as
    asserted, and whose reference layer holds a stream) the scan of
    [UseAvailableBitrate] ends with some used bitrate [u], and the call
    returns [u] if [u <= bitrate], [bitrate] if [bitrate < u <= v] and [u]
    otherwise, [v] being the virtual bitrate.  The scan never takes more
    than a non-negative virtual bitrate. *)
Theorem UseAvailableBitrate_return env (c : Consumer) bitrate considerLoss :
  externallyManagedBitrate c = true ->
  Consumer_IsActive env = true ->
  referenceReady c ->
  Z.of_nat (length (producerRtpStreams c)) <= 32767 ->
  let v := virtualBitrateFor c bitrate considerLoss in
  let start :=
    set_provisionalTargetTemporalLayer (-1) (set_provisionalTargetSpatialLayer (-1) c) in
  exists u c' l r,
    useAvailableScan env v start = Done u c' l /\
    UseAvailableBitrate env bitrate considerLoss c
      = Done r c' (Call mUseAvailableBitrate :: l) /\
    (u <= bitrate -> r = u) /\
    (bitrate < u <= v -> r = bitrate) /\
    (bitrate < u -> v < u -> r = u) /\
    (0 <= v -> u <= v).
Proof.
  intros Hext Hactive Href Hlen v start.
  destruct (useAvailableScan_total env start v) as (u & c' & l & Hscan & _ & Hbound).
  { destruct Href as [Hnone | (r & Hr)]; [left; exact Hnone | right; exists r; exact Hr]. }
  { exact Hlen. }
  exists u, c', l, (reshapeUsedBitrate u bitrate v).
  split; [exact Hscan |].
  split.
  - unfold UseAvailableBitrate, bind, get, modify, MS_TRACE, emit, MS_ASSERT. simpl.
    rewrite Hext, Hactive. simpl. fold start. fold v. rewrite Hscan. simpl.
    rewrite !app_nil_r. reflexivity.
  - unfold reshapeUsedBitrate.
    destruct (u <=? bitrate) eqn:Hfit; [apply Z.leb_le in Hfit | apply Z.leb_gt in Hfit];
      [repeat split; intros; lia |].
    destruct (u <=? v) eqn:Hvirt; [apply Z.leb_le in Hvirt | apply Z.leb_gt in Hvirt];
      repeat split; intros; lia.
Qed.

(** ** Frame of the methods that write the consumer *)

Lemma keeps_finalState {A} (m : M A) (I : Consumer -> Prop) c :
  keeps I m -> I c -> I (finalState (m c)).
Proof. intros Hm Hc. specialize (Hm c Hc). destruct (m c); exact Hm. Qed.

Create HintDb keepers.

(** Walks through a method for a property of the fields that the method
    does not write: every [modify] met must leave the property as it is. *)
Ltac keeps_walk :=
  repeat match goal with
    | |- keeps _ (ret _) => apply keeps_ret
    | |- keeps _ get => apply keeps_get
    | |- keeps _ (emit _) => apply keeps_emit
    | |- keeps _ (throw _) => apply keeps_throw
    | |- keeps _ (MS_TRACE _) => apply keeps_emit
    | |- keeps _ (MS_ASSERT _) => apply keeps_MS_ASSERT
    | |- keeps _ (vectorAt _ _) => apply keeps_vectorAt
    | |- keeps _ (vectorIndex _ _) => apply keeps_vectorIndex
    | |- keeps _ (deref _ _) => apply keeps_deref
    | |- keeps _ (mapAt _ _) => apply keeps_mapAt
    | |- keeps _ (when _ _) => apply keeps_when
    | |- keeps _ (modify _) =>
        apply keeps_modify; let c := fresh "c" in let Hc := fresh "Hc" in
                            intros c Hc; exact Hc
    | |- keeps _ (bind _ _) => apply keeps_bind; [| intros ?]
    | |- keeps _ (if ?b then _ else _) => destruct b
    | |- keeps _ (match ?x with _ => _ end) => destruct x
    | |- keeps _ _ => solve [auto with keepers]
    | |- keeps _ _ => solve [apply readOnly_keeps; auto with constMethods]
    end.

Lemma UpdateTargetLayers_keeps_noProvisional newSpatial newTemporal :
  keeps noProvisional (UpdateTargetLayers newSpatial newTemporal).
Proof. unfold UpdateTargetLayers. keeps_walk. Qed.

(** C10. [ApplyLayers] (on a consumer whose bitrate is externally managed,
    as asserted) always leaves both provisional target layers at -1.  When
    the consumer is not active or the saved provisional pair equals the
    target pair, nothing else changes and [UpdateTargetLayers] is not
    called; otherwise the call is [UpdateTargetLayers] on the saved pair,
    run after the reset. *)
Theorem ApplyLayers_frame env (c : Consumer) :
  externallyManagedBitrate c = true ->
  let start :=
    set_provisionalTargetTemporalLayer (-1) (set_provisionalTargetSpatialLayer (-1) c) in
  let differs :=
    negb (provisionalTargetSpatialLayer c =? targetSpatialLayer c)
    || negb (provisionalTargetTemporalLayer c =? targetTemporalLayer c) in
  noProvisional (finalState (ApplyLayers env c)) /\
  (Consumer_IsActive env && differs = false ->
   ApplyLayers env c = Done tt start [Call mApplyLayers]) /\
  (Consumer_IsActive env && differs = true ->
   ApplyLayers env c =
     bind (MS_TRACE mApplyLayers)
       (fun _ => UpdateTargetLayers (provisionalTargetSpatialLayer c)
                   (provisionalTargetTemporalLayer c)) start).
Proof.
  intros Hext start differs.
  assert (Hrun : ApplyLayers env c =
                 if Consumer_IsActive env && differs
                 then bind (MS_TRACE mApplyLayers)
                        (fun _ => UpdateTargetLayers (provisionalTargetSpatialLayer c)
                                    (provisionalTargetTemporalLayer c)) start
                 else Done tt start [Call mApplyLayers]).
  { unfold ApplyLayers, bind, get, modify, MS_TRACE, emit, MS_ASSERT. simpl.
    rewrite Hext. simpl. fold start.
    destruct (Consumer_IsActive env); simpl; [| reflexivity].
    change (targetSpatialLayer start) with (targetSpatialLayer c).
    change (targetTemporalLayer start) with (targetTemporalLayer c).
    fold differs. destruct differs; simpl; [| reflexivity].
    destruct (UpdateTargetLayers _ _ start); simpl; rewrite ?app_nil_r; reflexivity. }
  split; [| split].
  - rewrite Hrun. destruct (Consumer_IsActive env && differs).
    + unfold bind, MS_TRACE, emit.
      pose proof (keeps_finalState
                    (UpdateTargetLayers (provisionalTargetSpatialLayer c)
                       (provisionalTargetTemporalLayer c))
                    noProvisional start
                    (UpdateTargetLayers_keeps_noProvisional _ _)) as Hkeep.
      destruct (UpdateTargetLayers _ _ start); apply Hkeep; split; reflexivity.
    + split; reflexivity.
  - intros Hcase. rewrite Hrun, Hcase. reflexivity.
  - intros Hcase. rewrite Hrun, Hcase. reflexivity.
Qed.

(** ** Preferred layers *)

Lemma UpdateTargetLayers_keeps_prefers s t stream newSpatial newTemporal :
  keeps (prefers s t stream) (UpdateTargetLayers newSpatial newTemporal).
Proof. unfold UpdateTargetLayers. keeps_walk. Qed.

Hint Resolve UpdateTargetLayers_keeps_prefers : keepers.

Lemma MayChangeLayers_keeps_prefers s t stream env force :
  keeps (prefers s t stream) (MayChangeLayers env force).
Proof. unfold MayChangeLayers. keeps_walk. Qed.

(** What the request does to the preferred layers before it looks at
    whether they changed. *)
Lemma HandleRequest_preferred env (c : Consumer) request s :
  methodId request = CONSUMER_SET_PREFERRED_LAYERS ->
  requestedSpatialLayer c request = Some s ->
  let stored :=
    set_preferredTemporalLayer (requestedTemporalLayer c request)
      (set_preferredSpatialLayer s c) in
  HandleRequest env request c =
    bind (emit (Call mHandleRequest))
      (fun _ => bind (emit RequestAccept)
         (fun _ => when (IsActive env
                         && (negb (s =? preferredSpatialLayer c)
                             || negb (requestedTemporalLayer c request
                                      =? preferredTemporalLayer c)))
                     (MayChangeLayers env true))) stored.
Proof.
  intros Hmethod Hspatial stored. subst stored.
  unfold requestedSpatialLayer, requestedTemporalLayer, clampLayer in *.
  unfold HandleRequest. rewrite Hmethod.
  destruct (asUnsigned (dataSpatialLayer request)) as [n |]; [| discriminate].
  simpl in Hspatial. injection Hspatial as <-.
  unfold bind, get, modify, MS_TRACE, emit, when.
  destruct c; cbn -[Int.i16 MayChangeLayers].
  match goal with
  | |- context [GetSpatialLayers ?st - 1 <? Int.i16 n] =>
      destruct (GetSpatialLayers st - 1 <? Int.i16 n)
  end;
    destruct (asUnsigned (dataTemporalLayer request)) as [t |];
    cbn -[Int.i16 MayChangeLayers];
    try match goal with
        | |- context [GetTemporalLayers ?st - 1 <? Int.i16 t] =>
            destruct (GetTemporalLayers st - 1 <? Int.i16 t)
        end; cbn -[Int.i16 MayChangeLayers];
    match goal with
    | |- context [if ?b then MayChangeLayers env true else ret tt] =>
        destruct b; cbn -[Int.i16 MayChangeLayers]; try reflexivity
    end;
    unfold set_preferredSpatialLayer, set_preferredTemporalLayer;
    cbn -[Int.i16 MayChangeLayers];
    match goal with
    | |- context [MayChangeLayers env true ?c'] =>
        destruct (MayChangeLayers env true c'); reflexivity
    end.
Qed.

Lemma HandleRequest_unchanged env (c : Consumer) request :
  methodId request = CONSUMER_SET_PREFERRED_LAYERS ->
  requestedSpatialLayer c request = Some (preferredSpatialLayer c) ->
  requestedTemporalLayer c request = preferredTemporalLayer c ->
  HandleRequest env request c = Done tt c [Call mHandleRequest; RequestAccept].
Proof.
  intros Hmethod Hspatial Htemporal.
  rewrite (HandleRequest_preferred env c request _ Hmethod Hspatial).
  rewrite Htemporal, !Z.eqb_refl. simpl. rewrite andb_false_r.
  unfold bind, emit, when, ret. simpl. destruct c; reflexivity.
Qed.

(** C9. A [CONSUMER_SET_PREFERRED_LAYERS] request whose clamped spatial and
    temporal layers are the preferred layers already stored is accepted and
    leaves the whole consumer (preferred, target and current layers
    included) as it was; [MayChangeLayers] is not called and no key frame is
    requested. *)
Theorem HandleRequest_same_preferred_layers env (c : Consumer) request :
  methodId request = CONSUMER_SET_PREFERRED_LAYERS ->
  requestedSpatialLayer c request = Some (preferredSpatialLayer c) ->
  requestedTemporalLayer c request = preferredTemporalLayer c ->
  HandleRequest env request c = Done tt c [Call mHandleRequest; RequestAccept] /\
  ~ In (Call mMayChangeLayers) (logOf (HandleRequest env request c)) /\
  forall mappedSsrc,
    ~ In (OnConsumerKeyFrameRequested mappedSsrc) (logOf (HandleRequest env request c)).
Proof.
  intros Hmethod Hspatial Htemporal.
  rewrite (HandleRequest_unchanged env c request Hmethod Hspatial Htemporal). simpl.
  split; [reflexivity |].
  split; [intros [Hin | [Hin | []]]; discriminate |].
  intros mappedSsrc [Hin | [Hin | []]]; discriminate.
Qed.

(** The law as the spec words it: the same request applied a second time,
    whatever the first one did, changes nothing and requests no key frame. *)
Lemma HandleRequest_twice env env' (c c' : Consumer) request log :
  methodId request = CONSUMER_SET_PREFERRED_LAYERS ->
  HandleRequest env request c = Done tt c' log ->
  HandleRequest env' request c' = Done tt c' [Call mHandleRequest; RequestAccept].
Proof.
  intros Hmethod Hfirst.
  destruct (requestedSpatialLayer c request) as [s |] eqn:Hspatial.
  2: { unfold requestedSpatialLayer in Hspatial. unfold HandleRequest in Hfirst.
       rewrite Hmethod in Hfirst.
       destruct (asUnsigned (dataSpatialLayer request)); [discriminate |].
       unfold bind, MS_TRACE, emit, get, throw in Hfirst. discriminate. }
  assert (Hkept : prefers s (requestedTemporalLayer c request) (rtpStream c) c').
  { rewrite (HandleRequest_preferred env c request s Hmethod Hspatial) in Hfirst.
    set (stored := set_preferredTemporalLayer _ _) in Hfirst.
    assert (Hstored : prefers s (requestedTemporalLayer c request) (rtpStream c) stored).
    { repeat split. }
    unfold bind, emit, when in Hfirst. simpl in Hfirst.
    destruct (IsActive env && _).
    - pose proof (MayChangeLayers_keeps_prefers _ _ _ env true stored Hstored) as Hkeep.
      destruct (MayChangeLayers env true stored); [| discriminate].
      injection Hfirst as _ <- _. exact Hkeep.
    - injection Hfirst as <- _. exact Hstored. }
  destruct Hkept as (Hs & Ht & Hstream).
  apply HandleRequest_unchanged; [exact Hmethod | |].
  - unfold requestedSpatialLayer in *. rewrite Hstream, Hspatial, Hs. reflexivity.
  - unfold requestedTemporalLayer in *. rewrite Hstream, Ht. reflexivity.
Qed.

(** ** Producer stream score *)

Lemma GetProducerCurrentRtpStream_cases (c : Consumer) :
  (currentInRange c /\ exists p, GetProducerCurrentRtpStream c = Done p c []) \/
  (~ currentInRange c /\ GetProducerCurrentRtpStream c = Stop OutOfRange c []).
Proof.
  unfold GetProducerCurrentRtpStream, currentInRange, slotAt, bind, get, vectorAt. simpl.
  destruct (currentSpatialLayer c =? -1) eqn:Hnone.
  - left. apply Z.eqb_eq in Hnone. split; [left; exact Hnone | eauto].
  - apply Z.eqb_neq in Hnone.
    destruct (if currentSpatialLayer c <? 0 then None
              else producerRtpStreams c !! Z.to_nat (currentSpatialLayer c)) as [p |].
    + left. split; [right; eauto | eauto].
    + right. split; [| reflexivity].
      intros [? | [p Hp]]; [contradiction | discriminate].
Qed.

Lemma EmitScore_returns env (c : Consumer) p :
  GetProducerCurrentRtpStream c = Done p c [] ->
  exists score producerScore,
    EmitScore env c = Done tt c [EmitScoreEvent score producerScore].
Proof.
  intros Hp. unfold EmitScore, bind, get, emit. rewrite Hp. simpl. eauto.
Qed.

Lemma MayChangeLayers_log env force (c : Consumer) :
  exists rest, logOf (MayChangeLayers env force c) = Call mMayChangeLayers :: rest.
Proof.
  unfold MayChangeLayers, bind, MS_TRACE, emit. simpl.
  match goal with
  | |- context [match ?o with Done _ _ _ => _ | Stop _ _ _ => _ end] => destruct o
  end; simpl; eauto.
Qed.

(** What [ProducerRtpStreamScore] does before the test: the score event, if
    the stream is the current one. *)
Lemma ProducerRtpStreamScore_run env (c : Consumer) rtpStream score previousScore :
  currentInRange c ->
  exists announced,
    (forall e, In e announced -> exists s p, e = EmitScoreEvent s p) /\
    ProducerRtpStreamScore env rtpStream score previousScore c =
      if reevaluates env c score previousScore
      then bind (fun c' => Done tt c' (Call mProducerRtpStreamScore :: announced))
             (fun _ => MayChangeLayers env false) c
      else Done tt c (Call mProducerRtpStreamScore :: announced).
Proof.
  intros Hrange.
  destruct (GetProducerCurrentRtpStream_cases c) as [[_ [p Hp]] | [Hout _]];
    [| contradiction].
  destruct (EmitScore_returns env c p Hp) as (s & ps & Hemit).
  exists (if bool_decide (rtpStream = p) then [EmitScoreEvent s ps] else []).
  split.
  { intros e. destruct (bool_decide (rtpStream = p)); simpl; [| tauto].
    intros [<- | []]. eauto. }
  unfold ProducerRtpStreamScore, reevaluates, bind, get, when, MS_TRACE, emit.
  rewrite Hp. simpl.
  destruct (bool_decide (rtpStream = p)); simpl; rewrite ?Hemit; simpl;
    destruct (Consumer_IsActive env); simpl; try reflexivity;
    destruct (negb (externallyManagedBitrate c) || ((score =? 0) || (previousScore =? 0)));
    simpl; try reflexivity;
    destruct (MayChangeLayers env false c); reflexivity.
Qed.

(** C8. On a producer stream score event, [MayChangeLayers] is called only
    if the consumer is active and either the bitrate is not externally
    managed or the new or the previous score is 0, and it is called whenever
    that holds (and [currentSpatialLayer] is a valid layer, so that the
    method gets that far); when it does not hold the event leaves the whole
    consumer, target layers included, as it was. *)
Theorem ProducerRtpStreamScore_reevaluates env (c : Consumer) rtpStream score previousScore :
  let outcome := ProducerRtpStreamScore env rtpStream score previousScore c in
  (In (Call mMayChangeLayers) (logOf outcome) ->
   reevaluates env c score previousScore = true) /\
  (currentInRange c -> reevaluates env c score previousScore = true ->
   In (Call mMayChangeLayers) (logOf outcome)) /\
  (reevaluates env c score previousScore = false -> finalState outcome = c).
Proof.
  intros outcome. subst outcome.
  destruct (GetProducerCurrentRtpStream_cases c) as [[Hrange _] | [Hout Hstop]].
  - destruct (ProducerRtpStreamScore_run env c rtpStream score previousScore Hrange)
      as (announced & Hannounced & ->).
    destruct (reevaluates env c score previousScore).
    + split; [reflexivity |]. split; [| discriminate].
      intros _ _. unfold bind.
      destruct (MayChangeLayers_log env false c) as [rest Hlog].
      destruct (MayChangeLayers env false c); simpl in *; rewrite Hlog;
        right; apply in_or_app; right; left; reflexivity.
    + split; [| split; [discriminate | reflexivity]].
      simpl. intros [Hcall | Hin]; [discriminate |].
      destruct (Hannounced _ Hin) as (s & p & He). discriminate.
  - unfold ProducerRtpStreamScore, bind, MS_TRACE, emit. rewrite Hstop. simpl.
    split; [| split; [contradiction | reflexivity]].
    intros [Hcall | []]. discriminate.
Qed.

(** ** No current layer without a target layer *)

Lemma keeps_discard {A} (m : M A) I : keeps I m -> keeps I (discard m).
Proof. intros Hm. unfold discard. apply keeps_bind; [exact Hm | intros a; apply keeps_ret]. Qed.

Lemma UpdateTargetLayers_keeps_noTargetNoCurrent newSpatial newTemporal :
  keeps noTargetNoCurrent (UpdateTargetLayers newSpatial newTemporal).
Proof.
  unfold UpdateTargetLayers.
  apply keeps_bind; [apply keeps_emit | intros _].
  apply keeps_bind; [apply keeps_get | intros c].
  apply keeps_bind; [keeps_walk | intros _].
  destruct (newSpatial =? -1) eqn:Hnew.
  - (* target and current layers are unset together *)
    intros c0 _. unfold bind, modify. cbn -[EmitLayersChange].
    match goal with
    | |- context [EmitLayersChange ?c1] =>
        pose proof (EmitLayersChange_readOnly c1) as Hsame;
        destruct (EmitLayersChange c1); simpl in Hsame; subst
    end; intros _; reflexivity.
  - apply Z.eqb_neq in Hnew.
    apply keeps_bind.
    { apply keeps_modify. intros c0 _ Htarget. simpl in Htarget. contradiction. }
    intros _. keeps_walk.
Qed.

Hint Resolve UpdateTargetLayers_keeps_noTargetNoCurrent : keepers.

Lemma MayChangeLayers_keeps_noTargetNoCurrent env force :
  keeps noTargetNoCurrent (MayChangeLayers env force).
Proof. unfold MayChangeLayers. keeps_walk. Qed.

Hint Resolve MayChangeLayers_keeps_noTargetNoCurrent : keepers.

Lemma HandleRequest_keeps_noTargetNoCurrent env request :
  keeps noTargetNoCurrent (HandleRequest env request).
Proof. unfold HandleRequest. keeps_walk. Qed.

Lemma storeProducerRtpStream_keeps_noTargetNoCurrent rtpStream mappedSsrc :
  keeps noTargetNoCurrent (storeProducerRtpStream rtpStream mappedSsrc).
Proof. unfold storeProducerRtpStream. keeps_walk. Qed.

Hint Resolve storeProducerRtpStream_keeps_noTargetNoCurrent : keepers.

Lemma useTemporalLoop_keeps_noTargetNoCurrent stream spatialLayer producerScore
    virtualBitrate remaining :
  forall temporalLayer usedBitrate,
    keeps noTargetNoCurrent
      (useTemporalLoop stream spatialLayer producerScore virtualBitrate
         remaining temporalLayer usedBitrate).
Proof.
  induction remaining as [| remaining IH]; intros temporalLayer usedBitrate; simpl;
    keeps_walk.
Qed.

Hint Resolve useTemporalLoop_keeps_noTargetNoCurrent : keepers.

Lemma useSpatialLoop_keeps_noTargetNoCurrent env virtualBitrate slots :
  forall sIdx usedBitrate maxProducerScore,
    keeps noTargetNoCurrent
      (useSpatialLoop env virtualBitrate slots sIdx usedBitrate maxProducerScore).
Proof.
  induction slots as [| slot rest IH]; intros sIdx usedBitrate maxProducerScore; simpl;
    keeps_walk.
Qed.

Hint Resolve useSpatialLoop_keeps_noTargetNoCurrent : keepers.

Lemma UseAvailableBitrate_keeps_noTargetNoCurrent env bitrate considerLoss :
  keeps noTargetNoCurrent (UseAvailableBitrate env bitrate considerLoss).
Proof. unfold UseAvailableBitrate, useAvailableScan. keeps_walk. Qed.

Lemma IncreaseTemporalLayer_keeps_noTargetNoCurrent env bitrate considerLoss :
  keeps noTargetNoCurrent (IncreaseTemporalLayer env bitrate considerLoss).
Proof. unfold IncreaseTemporalLayer. keeps_walk. Qed.

Lemma ApplyLayers_keeps_noTargetNoCurrent env :
  keeps noTargetNoCurrent (ApplyLayers env).
Proof. unfold ApplyLayers. keeps_walk. Qed.

(** The switch makes the current layer the target layer. *)
Lemma switchCheck_keeps_noTargetNoCurrent env packet spatialLayer :
  keeps noTargetNoCurrent (switchCheck env packet spatialLayer).
Proof.
  unfold switchCheck.
  eapply triple_bind; [apply triple_get |]. intros c.
  destruct (negb (currentSpatialLayer c =? targetSpatialLayer c)
            && (spatialLayer =? targetSpatialLayer c));
    [| apply triple_ret; tauto].
  destruct (negb (pktIsKeyFrame packet)); [apply triple_ret; tauto |].
  apply triple_bind with (Q := fun _ => noTargetNoCurrent).
  { apply triple_modify. intros c0 [-> _] Htarget. exact Htarget. }
  intros _.
  match goal with |- triple _ ?m _ _ => change (keeps noTargetNoCurrent m) end.
  keeps_walk.
Qed.

Lemma syncStream_keeps_noTargetNoCurrent env packet spatialLayer :
  keeps noTargetNoCurrent (syncStream env packet spatialLayer).
Proof. unfold syncStream. keeps_walk. Qed.

Lemma rewriteTimestamp_keeps_noTargetNoCurrent packet :
  keeps noTargetNoCurrent (rewriteTimestamp packet).
Proof. unfold rewriteTimestamp. keeps_walk. Qed.

Hint Resolve switchCheck_keeps_noTargetNoCurrent syncStream_keeps_noTargetNoCurrent
  rewriteTimestamp_keeps_noTargetNoCurrent : keepers.

Lemma SendRtpPacket_keeps_noTargetNoCurrent env packet :
  keeps noTargetNoCurrent (SendRtpPacket env packet).
Proof. unfold SendRtpPacket. keeps_walk. Qed.

Hint Resolve HandleRequest_keeps_noTargetNoCurrent
  UseAvailableBitrate_keeps_noTargetNoCurrent IncreaseTemporalLayer_keeps_noTargetNoCurrent
  ApplyLayers_keeps_noTargetNoCurrent SendRtpPacket_keeps_noTargetNoCurrent : keepers.

Lemma perform_keeps_noTargetNoCurrent env op : keeps noTargetNoCurrent (perform env op).
Proof.
  destruct op; simpl; try apply keeps_discard; try solve [auto with keepers];
    try solve [apply readOnly_keeps; auto with constMethods].
  all: unfold ProducerRtpStream, ProducerNewRtpStream, ProducerRtpStreamScore,
         ProducerRtcpSenderReport, GetRtcp, NeedWorstRemoteFractionLost, ReceiveNack,
         ReceiveKeyFrameRequest, ReceiveRtcpReceiverReport, GetTransmissionRate,
         UserOnTransportConnected, UserOnTransportDisconnected, UserOnPaused,
         UserOnResumed, OnRtpStreamScore, OnRtpStreamRetransmitRtpPacket;
       keeps_walk.
Qed.

(** C7. Every operation on the consumer, whether it returns or stops at a
    fault, leaves a consumer in which an unset target spatial layer goes
    with an unset current spatial layer, if that was so before. *)
Theorem noTargetNoCurrent_preserved env op (c : Consumer) :
  noTargetNoCurrent c -> noTargetNoCurrent (after env op c).
Proof.
  intros Hc. unfold after.
  apply keeps_finalState; [apply perform_keeps_noTargetNoCurrent | exact Hc].
Qed.

(** The invariant along any run of operations. *)
Lemma noTargetNoCurrent_run ops :
  forall c : Consumer, noTargetNoCurrent c -> noTargetNoCurrent (run ops c).
Proof.
  induction ops as [| [env op] rest IH]; intros c Hc; simpl; [exact Hc |].
  apply IH. unfold after.
  apply keeps_finalState; [apply perform_keeps_noTargetNoCurrent | exact Hc].
Qed.

(** ** The packet after [SendRtpPacket] *)

Lemma returnsOnly_ret {A} (R : A -> Prop) a : R a -> returnsOnly R (ret a).
Proof. intros Ha c a' c' log Hret. injection Hret as <- _ _. exact Ha. Qed.

Lemma returnsOnly_bind {A B} (R : B -> Prop) (m : M A) (k : A -> M B) :
  (forall a, returnsOnly R (k a)) -> returnsOnly R (bind m k).
Proof.
  intros Hk c b c' log. unfold bind.
  destruct (m c) as [a c1 l1 | f c1 l1]; [| discriminate].
  destruct (k a c1) as [b' c2 l2 | f c2 l2] eqn:Hka; [| discriminate].
  intros Hret. injection Hret as <- _ _. exact (Hk a c1 b' c2 l2 Hka).
Qed.

Lemma SendRtpPacket_returns env packet :
  pktPayload packet = pktParsedPayload packet ->
  returnsOnly
    (fun packet' => sameHeader packet packet' /\
       (pktPayload packet' = pktPayload packet \/ rejectedBy packet packet'))
    (SendRtpPacket env packet).
Proof.
  intros Hparsed.
  assert (Hsame : sameHeader packet packet /\
                  (pktPayload packet = pktPayload packet \/ rejectedBy packet packet)).
  { repeat split. left. reflexivity. }
  unfold SendRtpPacket.
  repeat match goal with
    | |- returnsOnly _ (ret packet) => apply returnsOnly_ret; exact Hsame
    | |- returnsOnly _ (bind _ _) => apply returnsOnly_bind; intros ?
    | |- returnsOnly _ (match ProcessPayload ?context ?p with _ => _ end) =>
        let Hprocess := fresh "Hprocess" in
        destruct (ProcessPayload context p) as [[[|] ?context'] ?payload] eqn:Hprocess;
        cbn [negb]
    | |- returnsOnly _ (if ?b then _ else _) => destruct b
    | |- returnsOnly _ (match ?x with _ => _ end) => destruct x
    end.
  - (* forwarded: the header is written back and the payload restored *)
    apply returnsOnly_ret. split; [repeat split |].
    left. simpl. symmetry. exact Hparsed.
  - (* rejected by ProcessPayload *)
    apply returnsOnly_ret. split; [repeat split |].
    right. simpl. eexists _, _. eassumption.
Qed.


(** ** Outbound timestamps *)

Lemma prepend_nil {A} (o : Outcome A) : prepend [] o = o.
Proof. destruct o; reflexivity. Qed.

Lemma bind_run {A B} (m : M A) (k : A -> M B) c a c1 l1 :
  m c = Done a c1 l1 -> bind m k c = prepend l1 (k a c1).
Proof. intros Hm. unfold bind. rewrite Hm. reflexivity. Qed.

Lemma bind_ret {A B} (a : A) (k : A -> M B) c : bind (ret a) k c = k a c.
Proof. rewrite (bind_run _ _ c a c []) by reflexivity. apply prepend_nil. Qed.

Lemma bind_get {B} (k : Consumer -> M B) c : bind get k c = k c c.
Proof. rewrite (bind_run _ _ c c c []) by reflexivity. apply prepend_nil. Qed.

Lemma bind_modify {B} f (k : unit -> M B) c : bind (modify f) k c = k tt (f c).
Proof. rewrite (bind_run _ _ c tt (f c) []) by reflexivity. apply prepend_nil. Qed.

Lemma bind_emit {B} e (k : unit -> M B) c : bind (emit e) k c = prepend [e] (k tt c).
Proof. apply bind_run. reflexivity. Qed.

Lemma u32_add_extra offsetTs maxTs :
  Int.u32 (offsetTs + Int.u32 (maxTs - offsetTs + 1)) = Int.u32 (maxTs + 1).
Proof.
  unfold Int.u32, Int.wrapU.
  rewrite Zplus_mod_idemp_r. f_equal. lia.
Qed.

(** The timestamp [rewriteTimestamp] gives, by what [tsExtraOffsets] holds. *)
Lemma rewriteTimestamp_cases packet (c : Consumer) :
  let offsetTs := Int.u32 (pktTimestamp packet - tsOffset c) in
  let maxTs := GetMaxPacketTs (rtpStream c) in
  exists timestamp c',
    rewriteTimestamp packet c = Done timestamp c' [] /\
    rtpStream c' = rtpStream c /\ rtpSeqManager c' = rtpSeqManager c /\
    encodingSsrc c' = encodingSsrc c /\
    (tsExtraOffsets c = ∅ -> timestamp = offsetTs /\ tsExtraOffsets c' = ∅) /\
    (forall extra, tsExtraOffsets c <> ∅ ->
       tsExtraOffsets c !! pktTimestamp packet = Some extra ->
       timestamp = Int.u32 (offsetTs + extra)) /\
    (tsExtraOffsets c <> ∅ -> tsExtraOffsets c !! pktTimestamp packet = None ->
     offsetTs < maxTs ->
     timestamp = Int.u32 (maxTs + 1) /\
     (tsExtraOffsets c' =
        <[pktTimestamp packet := Int.u32 (maxTs - offsetTs + 1)]> (tsExtraOffsets c) \/
      tsExtraOffsets c' = ∅)) /\
    (tsExtraOffsets c <> ∅ -> tsExtraOffsets c !! pktTimestamp packet = None ->
     maxTs <= offsetTs -> timestamp = offsetTs).
Proof.
  intros offsetTs maxTs. unfold rewriteTimestamp.
  rewrite bind_get. fold offsetTs. fold maxTs.
  destruct (bool_decide (tsExtraOffsets c = ∅)) eqn:Hempty.
  { apply bool_decide_eq_true in Hempty.
    exists offsetTs, c. repeat split; auto; intros; contradiction. }
  apply bool_decide_eq_false in Hempty.
  destruct (tsExtraOffsets c !! pktTimestamp packet) as [stored |] eqn:Hstored.
  - rewrite bind_ret.
    set (timestamp := Int.u32 (offsetTs + stored)).
    destruct (negb (stored =? 0)); cbn [when];
      rewrite ?bind_modify, ?bind_ret, bind_get;
      match goal with
      | |- context [when ?b _] => destruct b
      end; cbn [when]; rewrite ?bind_ret; unfold bind, modify, ret; cbn;
      eexists _, _; (split; [reflexivity |]); cbn;
      repeat split; try congruence; intros; try contradiction;
      subst timestamp; congruence.
  - destruct (offsetTs <? maxTs) eqn:Hbelow.
    + apply Z.ltb_lt in Hbelow.
      rewrite (bind_run _ _ c (Int.u32 (maxTs - offsetTs + 1))
                 (set_tsExtraOffsets
                    (<[pktTimestamp packet := Int.u32 (maxTs - offsetTs + 1)]>
                       (tsExtraOffsets c)) c) [])
        by (rewrite bind_modify; reflexivity).
      rewrite prepend_nil, u32_add_extra.
      destruct (negb (Int.u32 (maxTs - offsetTs + 1) =? 0)); cbn [when];
        rewrite ?bind_modify, ?bind_ret, bind_get;
        match goal with
        | |- context [when ?b _] => destruct b
        end; cbn [when]; rewrite ?bind_ret; unfold bind, modify, ret; cbn;
        eexists _, _; (split; [reflexivity |]); cbn;
        repeat split; try congruence; intros; try contradiction; try lia; auto.
    + apply Z.ltb_ge in Hbelow. rewrite bind_ret.
      rewrite Z.add_0_r.
      assert (Hid : Int.u32 offsetTs = offsetTs).
      { apply u32_id, u32_range. }
      rewrite Hid. cbn [Z.eqb negb when]. rewrite bind_ret, bind_get.
      match goal with
      | |- context [when ?b _] => destruct b
      end; cbn [when]; rewrite ?bind_ret; unfold bind, modify, ret; cbn;
        eexists _, _; (split; [reflexivity |]); cbn;
        repeat split; try congruence; intros; try contradiction; try lia; auto.
Qed.

Lemma switchCheck_current env packet (c : Consumer) :
  switchCheck env packet (currentSpatialLayer c) c = Done true c [].
Proof.
  unfold switchCheck. rewrite bind_get.
  destruct (currentSpatialLayer c =? targetSpatialLayer c); reflexivity.
Qed.

Lemma EmitLayersChange_run (c : Consumer) :
  exists layers, EmitLayersChange c = Done tt c [EmitLayersChangeEvent layers].
Proof.
  unfold EmitLayersChange. rewrite bind_get.
  destruct (0 <=? currentSpatialLayer c); eauto.
Qed.

(** *** Calls that leave no trace *)

Lemma silent_ret {A} (a : A) : silent (ret a).
Proof. intros c. reflexivity. Qed.

Lemma silent_bind {A B} (m : M A) (k : A -> M B) :
  silent m -> (forall a, silent (k a)) -> silent (bind m k).
Proof.
  intros Hm Hk c. unfold bind. specialize (Hm c).
  destruct (m c) as [a c1 l1 | f c1 l1]; simpl in Hm; subst; [| reflexivity].
  specialize (Hk a c1). destruct (k a c1); exact Hk.
Qed.

Lemma silent_get : silent get.
Proof. intros c. reflexivity. Qed.

Lemma silent_modify f : silent (modify f).
Proof. intros c. reflexivity. Qed.

Lemma silent_throw {A} f : silent (@throw _ A f).
Proof. intros c. reflexivity. Qed.

Ltac silent_walk :=
  repeat match goal with
    | |- silent (ret _) => apply silent_ret
    | |- silent get => apply silent_get
    | |- silent (modify _) => apply silent_modify
    | |- silent (throw _) => apply silent_throw
    | |- silent (bind _ _) => apply silent_bind; [| intros ?]
    | |- silent (MS_ASSERT ?b) => destruct b; [apply silent_ret | apply silent_throw]
    | |- silent (when ?b _) => destruct b; cbn [when]; cbv zeta; [| apply silent_ret]
    | |- silent (vectorAt _ _) => unfold vectorAt
    | |- silent (deref _ ?p) => destruct p; [apply silent_ret | apply silent_throw]
    | |- silent (if ?b then _ else _) => destruct b
    | |- silent (match ?x with _ => _ end) => destruct x
    end.

Lemma syncStream_silent env packet spatialLayer : silent (syncStream env packet spatialLayer).
Proof.
  unfold syncStream, GetProducerTsReferenceRtpStream, GetProducerCurrentRtpStream.
  silent_walk.
Qed.

(** *** The re-sync *)

Lemma syncStream_synced env packet spatialLayer stream :
  triple (fun c => rtpStream c = stream)
    (syncStream env packet spatialLayer)
    (fun _ => synced (pktTimestamp packet) (GetMaxPacketTs stream) stream)
    (fun c => rtpStream c = stream).
Proof.
  set (kept := fun c : Consumer => rtpStream c = stream).
  unfold syncStream.
  apply triple_bind with (Q := fun _ => kept).
  { change (keeps kept (modify (fun c => set_rtpSeqManager
              (Sync (Int.u16 (pktSequenceNumber packet - 1)) (rtpSeqManager c)) c))).
    keeps_walk. }
  intros _.
  apply triple_bind with (Q := fun _ => kept); [apply keeps_get |]. intros c.
  apply triple_bind with (Q := fun _ => kept).
  { match goal with |- triple _ ?m _ _ => change (keeps kept m) end. keeps_walk. }
  intros _.
  apply triple_bind with (Q := fun _ c' => kept c' /\ tsExtraOffsets c' = ∅).
  { apply triple_modify. intros c' Hc'. split; [exact Hc' | reflexivity]. }
  intros _.
  apply triple_bind with (Q := fun _ c' => kept c' /\ tsExtraOffsets c' = ∅).
  { apply triple_modify. intros c' Hc'. exact Hc'. }
  intros _.
  eapply triple_bind; [apply triple_get |]. intros c2.
  apply triple_bind
    with (Q := fun _ => synced (pktTimestamp packet) (GetMaxPacketTs stream) stream).
  { destruct (Int.u32 (pktTimestamp packet - tsOffset c2) <=? GetMaxPacketTs (rtpStream c2))
      eqn:Hbelow; cbn [when].
    - apply triple_modify. intros c' (-> & Hstream & Hmap). unfold kept in Hstream.
      rewrite Hstream in Hbelow. apply Z.leb_le in Hbelow.
      split; [exact Hstream |]. left. split; [exact Hbelow |].
      cbn. rewrite Hmap, Hstream. reflexivity.
    - apply triple_ret. intros c' (-> & Hstream & Hmap). unfold kept in Hstream.
      rewrite Hstream in Hbelow. apply Z.leb_gt in Hbelow.
      split; [exact Hstream |]. right. split; [exact Hbelow | exact Hmap]. }
  intros _.
  apply triple_bind
    with (Q := fun _ => synced (pktTimestamp packet) (GetMaxPacketTs stream) stream).
  { apply triple_modify. intros c' Hc'. exact Hc'. }
  intros _. apply triple_modify. intros c' Hc'. exact Hc'.
Qed.

(** *** The forwarding path *)

Lemma SendRtpPacket_forwarding env (c c1 : Consumer) packet :
  IsActive env = true ->
  targetTemporalLayer c <> -1 ->
  pktPayloadType packet ∈ supportedCodecPayloadTypes c ->
  mapMappedSsrcSpatialLayer c !! pktSsrc packet = Some (currentSpatialLayer c) ->
  syncRequired c && negb (pktIsKeyFrame packet) = false ->
  when (syncRequired c) (syncStream env packet (currentSpatialLayer c)) c = Done tt c1 [] ->
  fst (fst (ProcessPayload (encodingContext c1) packet)) = true ->
  let context := snd (fst (ProcessPayload (encodingContext c1) packet)) in
  let payload := snd (ProcessPayload (encodingContext c1) packet) in
  forall timestamp c',
    rewriteTimestamp (SetPayload payload packet) (set_encodingContext context c1)
      = Done timestamp c' [] ->
    exists sent packet' final before behind,
      SendRtpPacket env packet c =
        Done packet' final (before ++ RtpStreamSend_ReceivePacket sent :: behind) /\
      noHandOver before /\ noHandOver behind /\
      pktTimestamp sent = timestamp /\
      tsExtraOffsets final = tsExtraOffsets c'.
Proof.
  intros Hactive Htarget Htype Hlayer Hkey Hsync Hforward context payload
    timestamp c' Hrewrite.
  assert (Hprocess : ProcessPayload (encodingContext c1) packet = (true, context, payload)).
  { subst context payload. destruct (ProcessPayload (encodingContext c1) packet) as [[f x] y].
    simpl in *. subst f. reflexivity. }
  unfold SendRtpPacket, MS_TRACE.
  rewrite bind_emit, Hactive. cbn [negb].
  rewrite bind_get, (proj2 (Z.eqb_neq _ _) Htarget), (bool_decide_eq_true_2 _ Htype).
  cbn [negb]. unfold mapAt. rewrite Hlayer, bind_ret.
  rewrite (bind_run _ _ _ _ _ _ (switchCheck_current env packet c)), prepend_nil.
  cbn [negb]. rewrite bind_get, Z.eqb_refl, Hkey. cbn [negb].
  rewrite (bind_run _ _ _ _ _ _ Hsync), prepend_nil.
  rewrite bind_get, Hprocess. cbn iota beta.
  rewrite bind_modify. cbn [negb]. rewrite bind_get.
  set (c2 := set_encodingContext context c1) in *.
  set (packet1 := SetPayload payload packet) in *.
  assert (Hlayers : exists announced,
             noHandOver announced /\
             forall (k : unit -> M RtpPacket),
               bind (when (negb (GetCurrentTemporalLayer (encodingContext c1) =?
                                 GetCurrentTemporalLayer (encodingContext c2)))
                       EmitLayersChange) k c2
               = prepend announced (k tt c2)).
  { destruct (negb (GetCurrentTemporalLayer _ =? _)); cbn [when].
    - destruct (EmitLayersChange_run c2) as [layers Hemit].
      exists [EmitLayersChangeEvent layers]. split.
      + intros p [Hin | []]. discriminate.
      + intros k. apply bind_run. exact Hemit.
    - exists []. split; [intros p [] |].
      intros k. rewrite bind_ret, prepend_nil. reflexivity. }
  destruct Hlayers as (announced & Hannounced & ->).
  rewrite (bind_run _ _ _ _ _ _ Hrewrite), prepend_nil, bind_get.
  destruct (Input (pktSequenceNumber packet1) (rtpSeqManager c')) as [manager seq].
  rewrite bind_modify, bind_emit, bind_get.
  set (sent := SetTimestamp timestamp _).
  destruct (ReceivePacket sent _) as [accepted stream].
  rewrite bind_modify.
  exists sent. destruct accepted; cbn [when].
  - rewrite bind_emit.
    eexists _, _, (Call mSendRtpPacket :: announced), [OnConsumerSendRtpPacket sent].
    split; [unfold ret; cbn; rewrite ?app_nil_r; reflexivity |].
    split; [intros p [Hin | Hin]; [discriminate | exact (Hannounced p Hin)] |].
    split; [intros p [Hin | []]; discriminate |].
    split; reflexivity.
  - rewrite bind_ret.
    eexists _, _, (Call mSendRtpPacket :: announced), [].
    split; [unfold ret; cbn; rewrite ?app_nil_r; reflexivity |].
    split; [intros p [Hin | Hin]; [discriminate | exact (Hannounced p Hin)] |].
    split; [intros p [] |].
    split; reflexivity.
Qed.

Lemma SendRtpPacket_forwarded env (c : Consumer) packet :
  forwardedInSync env c packet ->
  let context := snd (fst (ProcessPayload (encodingContext c) packet)) in
  let payload := snd (ProcessPayload (encodingContext c) packet) in
  forall timestamp c',
    rewriteTimestamp (SetPayload payload packet) (set_encodingContext context c)
      = Done timestamp c' [] ->
    exists sent packet' final before behind,
      SendRtpPacket env packet c =
        Done packet' final (before ++ RtpStreamSend_ReceivePacket sent :: behind) /\
      noHandOver before /\ noHandOver behind /\
      pktTimestamp sent = timestamp /\
      tsExtraOffsets final = tsExtraOffsets c'.
Proof.
  intros (Hactive & Htarget & Htype & Hlayer & Hsync & Hforward).
  apply SendRtpPacket_forwarding; try assumption.
  - rewrite Hsync. reflexivity.
  - rewrite Hsync. reflexivity.
Qed.

Lemma u32_add_u32 a b : Int.u32 (Int.u32 a + Int.u32 b) = Int.u32 (a + b).
Proof. unfold Int.u32, Int.wrapU. symmetry. apply Zplus_mod. Qed.

(** X21.  The re-sync of [SendRtpPacket] (lines 823-899) followed by the
    rewrite of the timestamp (lines 914-962): the key frame that ends a
    re-sync goes out above the highest timestamp sent so far (at
    [maxPacketTs + 1], modulo 2^32, if its offset timestamp is not above
    it). *)
Lemma SendRtpPacket_sync_timestamp env (c c1 : Consumer) packet log :
  forwardedAtSync env c packet ->
  syncStream env packet (currentSpatialLayer c) c = Done tt c1 log ->
  fst (fst (ProcessPayload (encodingContext c1) packet)) = true ->
  exists sent packet' final before behind,
    SendRtpPacket env packet c =
      Done packet' final (before ++ RtpStreamSend_ReceivePacket sent :: behind) /\
    noHandOver before /\ noHandOver behind /\
    (pktTimestamp sent = Int.u32 (GetMaxPacketTs (rtpStream c) + 1) \/
     GetMaxPacketTs (rtpStream c) < pktTimestamp sent).
Proof.
  intros (Hactive & Htarget & Htype & Hlayer & Hsync & Hkey) Hrun Hforward.
  assert (Hlog : log = []).
  { pose proof (syncStream_silent env packet (currentSpatialLayer c) c) as Hsilent.
    rewrite Hrun in Hsilent. exact Hsilent. }
  subst log.
  pose proof (syncStream_synced env packet (currentSpatialLayer c) (rtpStream c) c eq_refl)
    as Hsynced.
  rewrite Hrun in Hsynced. destruct Hsynced as [Hstream Hmap].
  set (context := snd (fst (ProcessPayload (encodingContext c1) packet))).
  set (payload := snd (ProcessPayload (encodingContext c1) packet)).
  destruct (rewriteTimestamp_cases (SetPayload payload packet)
              (set_encodingContext context c1))
    as (timestamp & c' & Hrewrite & _ & _ & _ & Hempty & Hstored & _ & _).
  cbn in Hempty, Hstored.
  assert (Hkeyed : syncRequired c && negb (pktIsKeyFrame packet) = false).
  { rewrite Hsync, Hkey. reflexivity. }
  assert (Hwhen : when (syncRequired c) (syncStream env packet (currentSpatialLayer c)) c
                  = Done tt c1 []).
  { rewrite Hsync. exact Hrun. }
  destruct (SendRtpPacket_forwarding env c c1 packet Hactive Htarget Htype Hlayer
              Hkeyed Hwhen Hforward timestamp c' Hrewrite)
    as (sent & packet' & final & before & behind & Hsend & Hbefore & Hbehind & Hts & _).
  exists sent, packet', final, before, behind.
  split; [exact Hsend |]. split; [exact Hbefore |]. split; [exact Hbehind |].
  rewrite Hts.
  destruct Hmap as [[Hbelow Hone] | [Habove Hnone]].
  - left. rewrite (Hstored (Int.u32 (GetMaxPacketTs (rtpStream c) - pktTimestamp packet
                                     + tsOffset c1 + 1))).
    + rewrite u32_add_u32. f_equal. lia.
    + rewrite Hone. apply insert_non_empty.
    + rewrite Hone. apply lookup_singleton_eq.
  - right. destruct (Hempty Hnone) as [-> _]. exact Habove.
Qed.


(** ** Packets that are not forwarded *)

Lemma switchCheck_pass env packet s (c : Consumer) :
  (negb (currentSpatialLayer c =? targetSpatialLayer c) && (s =? targetSpatialLayer c)) = false ->
  switchCheck env packet s c = Done true c [].
Proof. intros Hcond. unfold switchCheck. rewrite bind_get, Hcond. reflexivity. Qed.

Lemma switchCheck_wait env packet s (c : Consumer) :
  (negb (currentSpatialLayer c =? targetSpatialLayer c) && (s =? targetSpatialLayer c)) = true ->
  pktIsKeyFrame packet = false ->
  switchCheck env packet s c = Done false c [].
Proof. intros Hcond Hkey. unfold switchCheck. rewrite bind_get, Hcond, Hkey. reflexivity. Qed.

(** X1.  Lines 764-818 of [SendRtpPacket]: a packet met by an inactive
    consumer, without target temporal layer, with an unsupported payload
    type, from a spatial layer that is neither current nor the target
    awaiting this key frame, or that is not the key frame a pending re-sync
    waits for, is returned as it came; the consumer is left as it was and
    nothing is called. *)
Theorem SendRtpPacket_dropped env (c : Consumer) packet :
  droppedUntouched env c packet ->
  SendRtpPacket env packet c = Done packet c [Call mSendRtpPacket].
Proof.
  intros Hdrop. unfold SendRtpPacket, MS_TRACE. rewrite bind_emit.
  destruct (IsActive env) eqn:Hactive; cbn [negb]; [| reflexivity].
  rewrite bind_get.
  destruct (targetTemporalLayer c =? -1) eqn:Htarget; [reflexivity |].
  destruct (bool_decide (pktPayloadType packet ∈ supportedCodecPayloadTypes c)) eqn:Htype;
    cbn [negb]; [| reflexivity].
  destruct Hdrop as [Hdrop | [Hdrop | [Hdrop | (s & Hs & Hdrop)]]].
  - congruence.
  - apply Z.eqb_neq in Htarget. contradiction.
  - apply bool_decide_eq_true in Htype. contradiction.
  - unfold mapAt. rewrite Hs, bind_ret.
    destruct Hdrop as [[Hcurrent Hother] | (-> & Hsync & Hkey)].
    + destruct (s =? targetSpatialLayer c) eqn:Hst.
      * apply Z.eqb_eq in Hst. subst s.
        destruct Hother as [Hother | Hkey]; [contradiction |].
        rewrite (bind_run _ _ c false c []), prepend_nil; [reflexivity |].
        apply switchCheck_wait; [| exact Hkey].
        rewrite Z.eqb_refl, andb_true_r. apply negb_true_iff, Z.eqb_neq. congruence.
      * rewrite (bind_run _ _ c true c []), prepend_nil
          by (apply switchCheck_pass; rewrite Hst; apply andb_false_r).
        cbn [negb]. rewrite bind_get.
        assert (Hsc : (s =? currentSpatialLayer c) = false) by (apply Z.eqb_neq; exact Hcurrent).
        rewrite Hsc. reflexivity.
    + rewrite (bind_run _ _ _ _ _ _ (switchCheck_current env packet c)), prepend_nil.
      cbn [negb]. rewrite bind_get, Z.eqb_refl, Hsync, Hkey.
      reflexivity.
Qed.

(** X2.  Line 781 of [SendRtpPacket]: [mapMappedSsrcSpatialLayer.at()] throws
    on a packet whose ssrc is none of the consumable encodings; the consumer
    is left as it was. *)
Theorem SendRtpPacket_unknown_ssrc env (c : Consumer) packet :
  IsActive env = true ->
  targetTemporalLayer c <> -1 ->
  pktPayloadType packet ∈ supportedCodecPayloadTypes c ->
  mapMappedSsrcSpatialLayer c !! pktSsrc packet = None ->
  SendRtpPacket env packet c = Stop OutOfRange c [Call mSendRtpPacket].
Proof.
  intros Hactive Htarget Htype Hnone. unfold SendRtpPacket, MS_TRACE.
  rewrite bind_emit, Hactive. cbn [negb].
  rewrite bind_get, (proj2 (Z.eqb_neq _ _) Htarget), (bool_decide_eq_true_2 _ Htype).
  cbn [negb]. unfold mapAt. rewrite Hnone. reflexivity.
Qed.

(** X3.  Lines 764-818 of [SendRtpPacket], read the other way round: a packet
    is handed to the send stream only by an active consumer with a target,
    only with a supported payload type, and only from the current spatial
    layer (a key frame if a re-sync is pending) or as the key frame of the
    target spatial layer. *)
Theorem SendRtpPacket_hand_over env (c : Consumer) packet sent :
  In (RtpStreamSend_ReceivePacket sent) (logOf (SendRtpPacket env packet c)) ->
  forwardable env c packet.
Proof.
  intros Hin. unfold SendRtpPacket, MS_TRACE in Hin. rewrite bind_emit in Hin.
  assert (Hcall : forall (o : RtpPacket) (x : Consumer),
             ~ In (RtpStreamSend_ReceivePacket sent)
                 (logOf (prepend [Call mSendRtpPacket] (Done o x [])))).
  { intros o x [Hcall | []]. discriminate. }
  destruct (IsActive env) eqn:Hactive; cbn [negb] in Hin;
    [| exfalso; exact (Hcall _ _ Hin)].
  rewrite bind_get in Hin.
  destruct (targetTemporalLayer c =? -1) eqn:Htarget; [exfalso; exact (Hcall _ _ Hin) |].
  destruct (bool_decide (pktPayloadType packet ∈ supportedCodecPayloadTypes c)) eqn:Htype;
    cbn [negb] in Hin; [| exfalso; exact (Hcall _ _ Hin)].
  apply Z.eqb_neq in Htarget. apply bool_decide_eq_true in Htype.
  split; [exact Hactive |]. split; [exact Htarget |]. split; [exact Htype |].
  unfold mapAt in Hin.
  destruct (mapMappedSsrcSpatialLayer c !! pktSsrc packet) as [s |] eqn:Hs.
  2: { exfalso. destruct Hin as [Hin | []]. discriminate. }
  exists s. split; [reflexivity |].
  rewrite bind_ret in Hin.
  destruct (negb (currentSpatialLayer c =? targetSpatialLayer c)
            && (s =? targetSpatialLayer c)) eqn:Hswitch.
  - pose proof Hswitch as Hcond.
    apply andb_true_iff in Hswitch. destruct Hswitch as [Hct Hst].
    apply negb_true_iff, Z.eqb_neq in Hct. apply Z.eqb_eq in Hst.
    destruct (pktIsKeyFrame packet) eqn:Hkey.
    + right. split; [exact Hst |]. split; [congruence | reflexivity].
    + rewrite (bind_run _ _ _ _ _ _ (switchCheck_wait env packet s c Hcond Hkey)),
        prepend_nil in Hin.
      exfalso. exact (Hcall _ _ Hin).
  - rewrite (bind_run _ _ _ _ _ _ (switchCheck_pass env packet s c Hswitch)),
      prepend_nil in Hin.
    cbn [negb] in Hin. rewrite bind_get in Hin.
    destruct (s =? currentSpatialLayer c) eqn:Hsc; cbn [negb] in Hin;
      [| exfalso; exact (Hcall _ _ Hin)].
    apply Z.eqb_eq in Hsc.
    destruct (syncRequired c && negb (pktIsKeyFrame packet)) eqn:Hsync;
      [exfalso; exact (Hcall _ _ Hin) |].
    left. split; [exact Hsc |]. intros Hrequired. rewrite Hrequired in Hsync.
    destruct (pktIsKeyFrame packet); [reflexivity | discriminate].
Qed.

(** ** Properties of the layers in use kept by every operation *)

Lemma finalState_prepend {A} log (o : Outcome A) : finalState (prepend log o) = finalState o.
Proof. destruct o; reflexivity. Qed.

Lemma logOf_prepend {A} log (o : Outcome A) : logOf (prepend log o) = log ++ logOf o.
Proof. destruct o; reflexivity. Qed.

Lemma keeps_intro {A} (m : M A) (I : Consumer -> Prop) :
  (forall c, I c -> I (finalState (m c))) -> keeps I m.
Proof. intros Hm c Hc. specialize (Hm c Hc). destruct (m c); exact Hm. Qed.

(** The layers in use and the count of extra offsets are written in four
    places: [UpdateTargetLayers] (unsetting the layers, or setting a target
    and the reference if there is none yet), the switch of [SendRtpPacket],
    the re-sync, and the count kept while extra offsets are applied.  A
    property kept by these four writes is kept by every method. *)
Section LayerInvariants.

Variable J : Z -> Z -> Z -> Z -> Z -> Prop.

Hypothesis J_unset : forall tS tT cur ref n,
  J tS tT cur ref n -> J (-1) (-1) (-1) ref n.

Hypothesis J_set : forall newS newT tS tT cur ref n,
  newS <> -1 -> J tS tT cur ref n -> J newS newT cur (if ref =? -1 then newS else ref) n.

Hypothesis J_switch : forall tS tT cur ref n,
  cur <> tS -> J tS tT cur ref n -> J tS tT tS ref n.

Hypothesis J_reset : forall tS tT cur ref n,
  J tS tT cur ref n -> J tS tT cur ref 0.

Hypothesis J_tick : forall tS tT cur ref n,
  J tS tT cur ref n -> Int.u32 (n + 1) <= 200 -> J tS tT cur ref (Int.u32 (n + 1)).

Lemma UpdateTargetLayers_keeps_layers newSpatial newTemporal :
  keeps (layersSatisfy J) (UpdateTargetLayers newSpatial newTemporal).
Proof.
  apply keeps_intro. intros c Hc. unfold UpdateTargetLayers, MS_TRACE.
  rewrite bind_emit, finalState_prepend, bind_get.
  destruct (newSpatial =? -1) eqn:Hnew.
  - cbn [negb andb when]. rewrite bind_ret, !bind_modify.
    apply keeps_finalState; [apply readOnly_keeps, EmitLayersChange_readOnly |].
    exact (J_unset _ _ _ _ _ Hc).
  - apply Z.eqb_neq in Hnew. cbn [negb andb].
    pose proof (J_set newSpatial newTemporal _ _ _ _ _ Hnew Hc) as Hset.
    destruct (tsReferenceSpatialLayer c =? -1) eqn:Href; cbn [when];
      rewrite ?bind_ret, !bind_modify, bind_get;
      match goal with |- context [when ?b (modify _)] => destruct b end; cbn [when];
      rewrite ?bind_ret, ?bind_modify, bind_get;
      match goal with |- context [when ?b _] => destruct b end; cbn [when];
      try (apply keeps_finalState;
           [apply readOnly_keeps, RequestKeyFrameForTargetSpatialLayer_readOnly |]);
      exact Hset.
Qed.

Hint Resolve UpdateTargetLayers_keeps_layers : keepers.

Lemma MayChangeLayers_keeps_layers env force :
  keeps (layersSatisfy J) (MayChangeLayers env force).
Proof. unfold MayChangeLayers. keeps_walk. Qed.

Hint Resolve MayChangeLayers_keeps_layers : keepers.

Lemma HandleRequest_keeps_layers env request :
  keeps (layersSatisfy J) (HandleRequest env request).
Proof. unfold HandleRequest. keeps_walk. Qed.

Lemma storeProducerRtpStream_keeps_layers rtpStream mappedSsrc :
  keeps (layersSatisfy J) (storeProducerRtpStream rtpStream mappedSsrc).
Proof. unfold storeProducerRtpStream. keeps_walk. Qed.

Hint Resolve storeProducerRtpStream_keeps_layers : keepers.

Lemma useTemporalLoop_keeps_layers stream spatialLayer producerScore
    virtualBitrate remaining :
  forall temporalLayer usedBitrate,
    keeps (layersSatisfy J)
      (useTemporalLoop stream spatialLayer producerScore virtualBitrate
         remaining temporalLayer usedBitrate).
Proof.
  induction remaining as [| remaining IH]; intros temporalLayer usedBitrate; simpl;
    keeps_walk.
Qed.

Hint Resolve useTemporalLoop_keeps_layers : keepers.

Lemma useSpatialLoop_keeps_layers env virtualBitrate slots :
  forall sIdx usedBitrate maxProducerScore,
    keeps (layersSatisfy J)
      (useSpatialLoop env virtualBitrate slots sIdx usedBitrate maxProducerScore).
Proof.
  induction slots as [| slot rest IH]; intros sIdx usedBitrate maxProducerScore; simpl;
    keeps_walk.
Qed.

Hint Resolve useSpatialLoop_keeps_layers : keepers.

Lemma UseAvailableBitrate_keeps_layers env bitrate considerLoss :
  keeps (layersSatisfy J) (UseAvailableBitrate env bitrate considerLoss).
Proof. unfold UseAvailableBitrate, useAvailableScan. keeps_walk. Qed.

Lemma IncreaseTemporalLayer_keeps_layers env bitrate considerLoss :
  keeps (layersSatisfy J) (IncreaseTemporalLayer env bitrate considerLoss).
Proof. unfold IncreaseTemporalLayer. keeps_walk. Qed.

Lemma ApplyLayers_keeps_layers env :
  keeps (layersSatisfy J) (ApplyLayers env).
Proof. unfold ApplyLayers. keeps_walk. Qed.

Hint Resolve HandleRequest_keeps_layers UseAvailableBitrate_keeps_layers
  IncreaseTemporalLayer_keeps_layers ApplyLayers_keeps_layers : keepers.

Lemma switchCheck_keeps_layers env packet spatialLayer :
  keeps (layersSatisfy J) (switchCheck env packet spatialLayer).
Proof.
  unfold switchCheck.
  eapply triple_bind; [apply triple_get |]. intros c.
  destruct (negb (currentSpatialLayer c =? targetSpatialLayer c)
            && (spatialLayer =? targetSpatialLayer c)) eqn:Hswitch;
    [| apply triple_ret; tauto].
  destruct (negb (pktIsKeyFrame packet)); [apply triple_ret; tauto |].
  apply andb_true_iff in Hswitch. destruct Hswitch as [Hdiffer _].
  apply negb_true_iff, Z.eqb_neq in Hdiffer.
  apply triple_bind with (Q := fun _ => layersSatisfy J).
  { apply triple_modify. intros c0 [-> Hc]. exact (J_switch _ _ _ _ _ Hdiffer Hc). }
  intros _.
  match goal with |- triple _ ?m _ _ => change (keeps (layersSatisfy J) m) end.
  keeps_walk.
Qed.

Lemma syncStream_keeps_layers env packet spatialLayer :
  keeps (layersSatisfy J) (syncStream env packet spatialLayer).
Proof.
  unfold syncStream. keeps_walk.
  all: apply keeps_modify; intros c' Hc'; exact (J_reset _ _ _ _ _ Hc').
Qed.

Lemma rewriteTimestamp_keeps_layers packet :
  keeps (layersSatisfy J) (rewriteTimestamp packet).
Proof.
  unfold rewriteTimestamp.
  apply keeps_bind; [apply keeps_get | intros c].
  destruct (bool_decide (tsExtraOffsets c = ∅)); [apply keeps_ret |].
  apply keeps_bind; [keeps_walk | intros tsExtraOffset].
  apply keeps_intro. intros c0 Hc0.
  destruct (tsExtraOffset =? 0) eqn:Hextra; cbn [negb when andb orb];
    rewrite ?bind_ret, ?bind_modify, bind_get;
    match goal with |- context [when ?b _] => destruct b eqn:Hclear end; cbn [when];
    unfold bind, modify, ret; cbn [finalState].
  - exact (J_reset _ _ _ _ _ Hc0).
  - exact Hc0.
  - exact (J_reset _ _ _ _ _ Hc0).
  - apply orb_false_iff in Hclear. destruct Hclear as [Hclear _].
    apply Z.ltb_ge in Hclear. exact (J_tick _ _ _ _ _ Hc0 Hclear).
Qed.

Hint Resolve switchCheck_keeps_layers syncStream_keeps_layers
  rewriteTimestamp_keeps_layers : keepers.

Lemma SendRtpPacket_keeps_layers env packet :
  keeps (layersSatisfy J) (SendRtpPacket env packet).
Proof. unfold SendRtpPacket. keeps_walk. Qed.

Hint Resolve SendRtpPacket_keeps_layers : keepers.

Lemma perform_keeps_layers env op : keeps (layersSatisfy J) (perform env op).
Proof.
  destruct op; simpl; try apply keeps_discard; try solve [auto with keepers];
    try solve [apply readOnly_keeps; auto with constMethods].
  all: unfold ProducerRtpStream, ProducerNewRtpStream, ProducerRtpStreamScore,
         ProducerRtcpSenderReport, GetRtcp, NeedWorstRemoteFractionLost, ReceiveNack,
         ReceiveKeyFrameRequest, ReceiveRtcpReceiverReport, GetTransmissionRate,
         UserOnTransportConnected, UserOnTransportDisconnected, UserOnPaused,
         UserOnResumed, OnRtpStreamScore, OnRtpStreamRetransmitRtpPacket;
       keeps_walk.
Qed.

Lemma perform_keeps_layers_unless_sent env op :
  (forall packet, op <> opSendRtpPacket packet) ->
  keeps (layersSatisfy J) (perform env op).
Proof.
  intros Hother.
  destruct op; try solve [exfalso; eapply Hother; reflexivity];
    simpl; try apply keeps_discard; try solve [auto with keepers];
    try solve [apply readOnly_keeps; auto with constMethods].
  all: unfold ProducerRtpStream, ProducerNewRtpStream, ProducerRtpStreamScore,
         ProducerRtcpSenderReport, GetRtcp, NeedWorstRemoteFractionLost, ReceiveNack,
         ReceiveKeyFrameRequest, ReceiveRtcpReceiverReport, GetTransmissionRate,
         UserOnTransportConnected, UserOnTransportDisconnected, UserOnPaused,
         UserOnResumed, OnRtpStreamScore, OnRtpStreamRetransmitRtpPacket;
       keeps_walk.
Qed.

End LayerInvariants.

Lemma run_keeps (I : Consumer -> Prop) :
  (forall env op, keeps I (perform env op)) ->
  forall ops c, I c -> I (run ops c).
Proof.
  intros Hop ops. induction ops as [| [env op] rest IH]; intros c Hc; simpl; [exact Hc |].
  apply IH. unfold after. apply keeps_finalState; [apply Hop | exact Hc].
Qed.

(** X4.  Lines 1393-1399 of [UpdateTargetLayers], the only place that writes
    [tsReferenceSpatialLayer]: once a timestamp reference layer is set, no
    run of operations changes it. *)
Theorem tsReferenceSpatialLayer_set_once ops (c : Consumer) :
  tsReferenceSpatialLayer c <> -1 ->
  tsReferenceSpatialLayer (run ops c) = tsReferenceSpatialLayer c.
Proof.
  intros Hset.
  apply (run_keeps
           (layersSatisfy (fun _ _ _ ref _ => ref = tsReferenceSpatialLayer c)));
    [| reflexivity].
  intros env op. apply perform_keeps_layers; try (intros; assumption).
  intros newS newT tS tT cur ref n _ ->.
  rewrite (proj2 (Z.eqb_neq _ _) Hset). reflexivity.
Qed.

(** The count of extra offsets applied stays within 0..200 along any run of
    operations. *)
Lemma extraOffsetsCounted_run ops (c : Consumer) :
  extraOffsetsCounted c -> extraOffsetsCounted (run ops c).
Proof.
  apply (run_keeps (layersSatisfy (fun _ _ _ _ n => 0 <= n <= 200))).
  intros env op. apply perform_keeps_layers; try (intros; assumption).
  - intros; lia.
  - intros tS tT cur ref n _ Hbound. split; [apply u32_range | exact Hbound].
Qed.

(** X5.  The rule of lines 949-961 of [SendRtpPacket], with the reset at
    lines 872-874: along any run of operations the count of extra offsets
    applied is within 0..200 when the timestamp of a packet is rewritten.
    With [tsExtraOffsets] empty nothing changes.  Otherwise the extra offset
    found or generated is applied; when it is not 0 and the count is at 200,
    [tsExtraOffsets] is cleared and the count reset to 0; in every other
    case [tsExtraOffsets] stays non-empty, and the count is one more when
    the extra offset is not 0 and as it was when it is 0.  The second test
    of the rule, against 500, never decides. *)
Theorem tsExtraOffetPacketCount_reset ops (c0 : Consumer) packet :
  extraOffsetsCounted c0 ->
  let c := run ops c0 in
  let extra := extraOffsetFor c packet in
  let count := tsExtraOffetPacketCount c in
  exists timestamp c',
    rewriteTimestamp packet c = Done timestamp c' [] /\
    0 <= count <= 200 /\
    (tsExtraOffsets c = ∅ -> c' = c) /\
    (tsExtraOffsets c <> ∅ ->
     timestamp = Int.u32 (Int.u32 (pktTimestamp packet - tsOffset c) + extra) /\
     if negb (extra =? 0) && (count =? 200)
     then tsExtraOffsets c' = ∅ /\ tsExtraOffetPacketCount c' = 0
     else tsExtraOffsets c' <> ∅ /\
          tsExtraOffetPacketCount c' = (if extra =? 0 then count else count + 1)).
Proof.
  intros Hc0 c extra count.
  assert (Hcount : 0 <= count <= 200) by exact (extraOffsetsCounted_run ops c0 Hc0).
  assert (Hnext : Int.u32 (count + 1) = count + 1).
  { apply u32_id. unfold Int.isU32. lia. }
  assert (Hnever : (500 <? count) = false) by (apply Z.ltb_ge; lia).
  assert (Hnever' : (500 <? count + 1) = false) by (apply Z.ltb_ge; lia).
  assert (Hinserted : forall v, <[pktTimestamp packet := v]> (tsExtraOffsets c) <> ∅).
  { intros v. apply insert_non_empty. }
  unfold rewriteTimestamp. rewrite bind_get.
  destruct (bool_decide (tsExtraOffsets c = ∅)) eqn:Hempty.
  { apply bool_decide_eq_true in Hempty.
    eexists _, c. split; [reflexivity |]. split; [exact Hcount |].
    split; [reflexivity | intros Hsome; contradiction]. }
  apply bool_decide_eq_false in Hempty.
  subst extra. unfold extraOffsetFor.
  set (offsetTs := Int.u32 (pktTimestamp packet - tsOffset c)).
  destruct (tsExtraOffsets c !! pktTimestamp packet) as [stored |] eqn:Hstored.
  - rewrite bind_ret.
    destruct (stored =? 0) eqn:Hzero; cbn [negb when andb orb].
    + rewrite bind_ret, bind_get. fold count. rewrite Hnever. cbn [when].
      rewrite bind_ret. eexists _, c. split; [reflexivity |]. split; [exact Hcount |].
      split; [intros Hnone; contradiction | intros _].
      split; [reflexivity |]. split; [exact Hempty | reflexivity].
    + rewrite bind_modify, bind_get. cbn [tsExtraOffetPacketCount set_tsExtraOffetPacketCount].
      fold count. rewrite Hnext, Hnever', orb_false_r.
      destruct (count =? 200) eqn:Hfull.
      * apply Z.eqb_eq in Hfull.
        assert (Hpast : (200 <? count + 1) = true) by (apply Z.ltb_lt; lia).
        rewrite Hpast. cbn [when]. unfold bind, modify, ret; cbn.
        eexists _, _. split; [reflexivity |]. split; [exact Hcount |].
        split; [intros Hnone; contradiction | intros _].
        split; [reflexivity |]. split; reflexivity.
      * apply Z.eqb_neq in Hfull.
        assert (Hpast : (200 <? count + 1) = false) by (apply Z.ltb_ge; lia).
        rewrite Hpast. cbn [when]. unfold bind, modify, ret; cbn.
        eexists _, _. split; [reflexivity |]. split; [exact Hcount |].
        split; [intros Hnone; contradiction | intros _].
        split; [reflexivity |]. split; [exact Hempty | reflexivity].
  - fold offsetTs.
    destruct (offsetTs <? GetMaxPacketTs (rtpStream c)) eqn:Hbelow.
    + set (fresh := Int.u32 (GetMaxPacketTs (rtpStream c) - offsetTs + 1)).
      rewrite (bind_run _ _ c fresh
                 (set_tsExtraOffsets (<[pktTimestamp packet := fresh]> (tsExtraOffsets c)) c)
                 [])
        by (rewrite bind_modify; reflexivity).
      rewrite prepend_nil.
      destruct (fresh =? 0) eqn:Hzero; cbn [negb when andb orb].
      * rewrite bind_ret, bind_get.
        cbn [tsExtraOffetPacketCount set_tsExtraOffsets]. fold count.
        rewrite Hnever. cbn [when]. rewrite bind_ret.
        eexists _, _. split; [reflexivity |]. split; [exact Hcount |].
        split; [intros Hnone; contradiction | intros _].
        split; [reflexivity |]. split; [apply Hinserted | reflexivity].
      * rewrite bind_modify, bind_get.
        cbn [tsExtraOffetPacketCount set_tsExtraOffetPacketCount set_tsExtraOffsets].
        fold count. rewrite Hnext, Hnever', orb_false_r.
        destruct (count =? 200) eqn:Hfull.
        -- apply Z.eqb_eq in Hfull.
           assert (Hpast : (200 <? count + 1) = true) by (apply Z.ltb_lt; lia).
           rewrite Hpast. cbn [when]. unfold bind, modify, ret; cbn.
           eexists _, _. split; [reflexivity |]. split; [exact Hcount |].
           split; [intros Hnone; contradiction | intros _].
           split; [reflexivity |]. split; reflexivity.
        -- apply Z.eqb_neq in Hfull.
           assert (Hpast : (200 <? count + 1) = false) by (apply Z.ltb_ge; lia).
           rewrite Hpast. cbn [when]. unfold bind, modify, ret; cbn.
           eexists _, _. split; [reflexivity |]. split; [exact Hcount |].
           split; [intros Hnone; contradiction | intros _].
           split; [reflexivity |]. split; [apply Hinserted | reflexivity].
    + rewrite bind_ret. cbn [Z.eqb negb when andb orb].
      rewrite bind_ret, bind_get. fold count. rewrite Hnever. cbn [when].
      rewrite bind_ret. eexists _, c. split; [reflexivity |]. split; [exact Hcount |].
      split; [intros Hnone; contradiction | intros _].
      split; [reflexivity |]. split; [exact Hempty | reflexivity].
Qed.

(** X6.  [UpdateTargetLayers] (lines 1393-1420) and the switch of
    [SendRtpPacket] (line 792): along any run of operations a consumer
    without timestamp reference layer has neither target nor current spatial
    layer, and a consumer without target spatial layer has no target
    temporal layer. *)
Theorem unsetTogether_run ops (c : Consumer) :
  unsetTogether c -> unsetTogether (run ops c).
Proof.
  apply (run_keeps
           (layersSatisfy (fun tS tT cur ref _ =>
              (ref = -1 -> tS = -1 /\ cur = -1) /\ (tS = -1 -> tT = -1)))).
  intros env op. apply perform_keeps_layers; try (intros; assumption).
  - intros tS tT cur ref n [Href _]. split; intros; [split |]; reflexivity.
  - intros newS newT tS tT cur ref n Hnew _. split; [| contradiction].
    destruct (ref =? -1) eqn:Href; [contradiction |].
    apply Z.eqb_neq in Href. contradiction.
  - intros tS tT cur ref n _ [Href Htarget]. split; [| exact Htarget].
    intros Hnone. destruct (Href Hnone) as [-> _]. split; reflexivity.
Qed.

Lemma triple_finalState {A} (m : M A) (P I : Consumer -> Prop) c :
  triple P m (fun _ => I) I -> P c -> I (finalState (m c)).
Proof. intros Hm Hc. specialize (Hm c Hc). destruct (m c); exact Hm. Qed.

Lemma finalState_discard {A} (m : M A) c : finalState (discard m c) = finalState (m c).
Proof. unfold discard, bind. destruct (m c); reflexivity. Qed.

(** The current spatial layer after [SendRtpPacket]: the one before, or the
    target layer when the packet is its key frame. *)
Lemma SendRtpPacket_current env packet (c : Consumer) :
  let c' := finalState (SendRtpPacket env packet c) in
  currentSpatialLayer c' = currentSpatialLayer c \/
  (targetKeyFrame c packet /\ currentSpatialLayer c' = targetSpatialLayer c).
Proof.
  set (J := fun (_ _ cur _ _ : Z) =>
              cur = currentSpatialLayer c \/
              (targetKeyFrame c packet /\ cur = targetSpatialLayer c)).
  assert (Hreset : forall tS tT cur ref n, J tS tT cur ref n -> J tS tT cur ref 0)
    by (intros; assumption).
  assert (Htick : forall tS tT cur ref n,
             J tS tT cur ref n -> Int.u32 (n + 1) <= 200 -> J tS tT cur ref (Int.u32 (n + 1)))
    by (intros; assumption).
  pose proof (syncStream_keeps_layers J Hreset) as Hsync.
  pose proof (rewriteTimestamp_keeps_layers J Hreset Htick) as Hrewrite.
  assert (Hstart : layersSatisfy J c) by (left; reflexivity).
  cbv zeta.
  change (layersSatisfy J (finalState (SendRtpPacket env packet c))).
  unfold SendRtpPacket, MS_TRACE. rewrite bind_emit, finalState_prepend.
  destruct (negb (IsActive env)); [exact Hstart |].
  rewrite bind_get.
  destruct (targetTemporalLayer c =? -1); [exact Hstart |].
  destruct (negb (bool_decide (pktPayloadType packet ∈ supportedCodecPayloadTypes c)));
    [exact Hstart |].
  unfold mapAt.
  destruct (mapMappedSsrcSpatialLayer c !! pktSsrc packet) as [s |] eqn:Hs;
    [| exact Hstart].
  rewrite bind_ret.
  apply triple_finalState with (P := fun x => x = c); [| reflexivity].
  apply triple_bind with (Q := fun _ => layersSatisfy J).
  - unfold switchCheck.
    eapply triple_bind; [apply triple_get |]. intros c0.
    destruct (negb (currentSpatialLayer c0 =? targetSpatialLayer c0)
              && (s =? targetSpatialLayer c0)) eqn:Hswitch;
      [| apply triple_ret; intros x [_ ->]; exact Hstart].
    destruct (pktIsKeyFrame packet) eqn:Hkey; cbn [negb];
      [| apply triple_ret; intros x [_ ->]; exact Hstart].
    apply andb_true_iff in Hswitch. destruct Hswitch as [_ Hlayer].
    apply Z.eqb_eq in Hlayer.
    apply triple_bind with (Q := fun _ => layersSatisfy J).
    { apply triple_modify. intros x [-> ->]. right.
      split; [split; [exact Hkey | rewrite Hs, Hlayer; reflexivity] | reflexivity]. }
    intros _.
    match goal with |- triple _ ?m _ _ => change (keeps (layersSatisfy J) m) end.
    keeps_walk.
  - intros awaited.
    match goal with |- triple _ ?m _ _ => change (keeps (layersSatisfy J) m) end.
    keeps_walk.
Qed.

(** X7.  The writes of [currentSpatialLayer] (line 1406 of
    [UpdateTargetLayers] and line 792 of [SendRtpPacket]): an operation
    leaves the current spatial layer as it was, or unsets it, or is
    [SendRtpPacket] on a key frame of the target spatial layer, which
    becomes the current one. *)
Theorem currentSpatialLayer_changes env op (c : Consumer) :
  let c' := after env op c in
  currentSpatialLayer c' = currentSpatialLayer c \/
  currentSpatialLayer c' = -1 \/
  exists packet,
    op = opSendRtpPacket packet /\ targetKeyFrame c packet /\
    currentSpatialLayer c' = targetSpatialLayer c.
Proof.
  cbv zeta. unfold after.
  assert (Hsent : (exists packet, op = opSendRtpPacket packet) \/
                  (forall packet, op <> opSendRtpPacket packet)).
  { destruct op; try (right; intros packet' Heq; discriminate). left. eauto. }
  destruct Hsent as [[packet ->] | Hother].
  - simpl. rewrite finalState_discard.
    destruct (SendRtpPacket_current env packet c) as [Hsame | [Hkey Hswitch]].
    + left. exact Hsame.
    + right. right. exists packet. split; [reflexivity |]. split; assumption.
  - assert (Hkeeps : keeps (layersSatisfy (fun _ _ cur _ _ =>
                               cur = currentSpatialLayer c \/ cur = -1))
                       (perform env op)).
    { apply perform_keeps_layers_unless_sent; [| | exact Hother].
      - intros. right. reflexivity.
      - intros; assumption. }
    pose proof (keeps_finalState _ _ c Hkeeps (or_introl eq_refl)) as Hfinal.
    destruct Hfinal as [Hsame | Hunset]; [left | right; left]; assumption.
Qed.

(** ** The target layers chosen without bitrate estimation *)

Lemma holdsStream_middle (c : Consumer) pre q rest :
  producerRtpStreams c = pre ++ Some q :: rest ->
  holdsStream c (Z.of_nat (length pre)) q.
Proof.
  intros Hall. unfold holdsStream, slotAt.
  destruct (Z.of_nat (length pre) <? 0) eqn:Hneg; [apply Z.ltb_lt in Hneg; lia |].
  rewrite Nat2Z.id, Hall. apply list_lookup_middle. reflexivity.
Qed.

(** The loop returns, and what it returns is no layer or an eligible one. *)
Lemma recalculateLoop_eligible env (c : Consumer) slots :
  referenceReady c ->
  forall pre newTargetSpatialLayer maxProducerScore,
    producerRtpStreams c = pre ++ slots ->
    Z.of_nat (length (pre ++ slots)) <= 32767 ->
    newTargetSpatialLayer = -1 \/ eligible env c newTargetSpatialLayer ->
    exists s,
      recalculateLoop env slots (Z.of_nat (length pre)) newTargetSpatialLayer
        maxProducerScore c = Done s c [] /\
      (s = -1 \/ eligible env c s).
Proof.
  intros Href.
  induction slots as [| x rest IH];
    intros pre newTarget maxScore Hall Hlen Hnew; cbn [recalculateLoop].
  - exists newTarget. split; [reflexivity | exact Hnew].
  - assert (Hnext : Z.of_nat (length pre) + 1 = Z.of_nat (length (pre ++ [x]))).
    { rewrite length_app. simpl. lia. }
    assert (Hall' : producerRtpStreams c = (pre ++ [x]) ++ rest).
    { rewrite <- app_assoc. exact Hall. }
    assert (Hlen' : Z.of_nat (length ((pre ++ [x]) ++ rest)) <= 32767).
    { rewrite <- app_assoc. exact Hlen. }
    assert (Hskip : forall new score, new = -1 \/ eligible env c new ->
               exists s,
                 recalculateLoop env rest (Z.of_nat (length pre) + 1) new score c
                   = Done s c [] /\
                 (s = -1 \/ eligible env c s)).
    { intros new score Hn. rewrite Hnext. apply IH; assumption. }
    rewrite length_app in Hlen. simpl in Hlen.
    rewrite i16_id by (unfold Int.isI16; lia).
    destruct x as [q |]; [| apply Hskip; exact Hnew].
    cbv zeta.
    destruct (RtpStream.GetScore (producer env q) =? 0) eqn:Hscore;
      [apply Hskip; exact Hnew |].
    apply Z.eqb_neq in Hscore.
    rewrite bind_get.
    destruct (externallyManagedBitrate c && negb (newTarget =? -1)
              && (RtpStream.GetActiveTime (producer env q) <? StreamMinActiveTime));
      [apply Hskip; exact Hnew |].
    pose proof (holdsStream_middle c pre q rest Hall) as Hq.
    destruct (CanSwitchToSpatialLayer_returns env c _ q Hq Href) as [canSwitch Hcan].
    rewrite (bind_run _ _ _ _ _ _ Hcan), prepend_nil.
    destruct canSwitch; cbn [negb]; [| apply Hskip; exact Hnew].
    assert (Heligible : eligible env c (Z.of_nat (length pre))).
    { split; [exists q; split; [exact Hq | exact Hscore] | exact Hcan]. }
    destruct ((RtpStream.GetScore (producer env q) <? maxScore)
              && (RtpStream.GetScore (producer env q) <? StreamGoodScore));
      [apply Hskip; exact Hnew |].
    destruct ((preferredSpatialLayer c <=? Z.of_nat (length pre))
              && (StreamGoodScore <=? RtpStream.GetScore (producer env q))).
    + exists (Z.of_nat (length pre)). split; [reflexivity | right; exact Heligible].
    + apply Hskip. right. exact Heligible.
Qed.

(** X8.  [RecalculateTargetLayers] (lines 1315-1386) on a consumer whose
    reference layer, if any, holds a stream: it returns without touching the
    consumer; the spatial layer it picks is none, with no temporal layer, or
    a layer with a scoring stream to which the consumer can switch; the
    temporal layer is the preferred one on the preferred spatial layer, the
    highest one below it and 0 above it; the result says whether the pair
    differs from the target layers. *)
Theorem RecalculateTargetLayers_choice env (c : Consumer) :
  referenceReady c ->
  Z.of_nat (length (producerRtpStreams c)) <= 32767 ->
  exists changed s t,
    RecalculateTargetLayers env c = Done (changed, s, t) c [] /\
    ((s = -1 /\ t = -1) \/
     (eligible env c s /\
      (s = preferredSpatialLayer c -> t = preferredTemporalLayer c) /\
      (s < preferredSpatialLayer c -> t = Int.i16 (GetTemporalLayers (rtpStream c) - 1)) /\
      (preferredSpatialLayer c < s -> t = 0))) /\
    (changed = false <-> s = targetSpatialLayer c /\ t = targetTemporalLayer c).
Proof.
  intros Href Hlen.
  destruct (recalculateLoop_eligible env c (producerRtpStreams c) Href [] (-1) 0
              eq_refl Hlen (or_introl eq_refl)) as (s & Hloop & Hs).
  change (Z.of_nat (length [])) with 0 in Hloop.
  unfold RecalculateTargetLayers. rewrite bind_get.
  rewrite (bind_run _ _ _ _ _ _ Hloop), prepend_nil.
  eexists _, s, _. split; [reflexivity |]. split.
  - destruct (s =? -1) eqn:Hnone; [left; apply Z.eqb_eq in Hnone; auto |].
    apply Z.eqb_neq in Hnone. right.
    destruct Hs as [Hs | Hs]; [contradiction |].
    split; [exact Hs |].
    destruct (s =? preferredSpatialLayer c) eqn:Hsame;
      [apply Z.eqb_eq in Hsame | apply Z.eqb_neq in Hsame].
    { repeat split; intros; try lia; reflexivity. }
    destruct (s <? preferredSpatialLayer c) eqn:Hbelow;
      [apply Z.ltb_lt in Hbelow | apply Z.ltb_ge in Hbelow];
      repeat split; intros; try lia; try contradiction; reflexivity.
  - rewrite orb_false_iff, !negb_false_iff, !Z.eqb_eq. reflexivity.
Qed.

Lemma readOnly_silent_run {A} (m : M A) c :
  readOnly m -> silent m ->
  (exists a, m c = Done a c []) \/ (exists f, m c = Stop f c []).
Proof.
  intros Hread Hsilent. specialize (Hread c). specialize (Hsilent c).
  destruct (m c) as [a c' l | f c' l]; simpl in *; subst; eauto.
Qed.

Lemma CanSwitchToSpatialLayer_silent env s : silent (CanSwitchToSpatialLayer env s).
Proof.
  unfold CanSwitchToSpatialLayer, GetProducerTsReferenceRtpStream. silent_walk.
Qed.

Lemma recalculateLoop_silent env slots :
  forall sIdx newTargetSpatialLayer maxProducerScore,
    silent (recalculateLoop env slots sIdx newTargetSpatialLayer maxProducerScore).
Proof.
  induction slots as [| slot rest IH]; intros sIdx newTarget maxScore;
    cbn [recalculateLoop]; [apply silent_ret |].
  destruct slot as [q |]; [| apply IH]. cbv zeta.
  destruct (RtpStream.GetScore (producer env q) =? 0); [apply IH |].
  apply silent_bind; [apply silent_get | intros c].
  destruct (_ && _); [apply IH |].
  apply silent_bind; [apply CanSwitchToSpatialLayer_silent | intros canSwitch].
  destruct (negb canSwitch); [apply IH |].
  destruct (_ && _); [apply IH |].
  destruct (_ && _); [apply silent_ret | apply IH].
Qed.

Lemma RecalculateTargetLayers_silent env : silent (RecalculateTargetLayers env).
Proof.
  unfold RecalculateTargetLayers.
  apply silent_bind; [apply silent_get | intros c].
  apply silent_bind; [apply recalculateLoop_silent | intros s]. apply silent_ret.
Qed.

(** X9.  [MayChangeLayers] (lines 1289-1313) when the bitrate is externally
    managed: whatever [RecalculateTargetLayers] gives, the consumer is left
    as it was, and nothing is called but
    [listener->OnConsumerNeedBitrateChange()]: no key frame is requested and
    no layer change is announced. *)
Theorem MayChangeLayers_externally_managed env force (c : Consumer) :
  externallyManagedBitrate c = true ->
  finalState (MayChangeLayers env force c) = c /\
  forall e, In e (logOf (MayChangeLayers env force c)) ->
    e = Call mMayChangeLayers \/ e = OnConsumerNeedBitrateChange.
Proof.
  intros Hext. unfold MayChangeLayers, MS_TRACE.
  rewrite bind_emit, finalState_prepend, logOf_prepend.
  destruct (readOnly_silent_run (RecalculateTargetLayers env) c
              (RecalculateTargetLayers_readOnly env) (RecalculateTargetLayers_silent env))
    as [[[[changed s] t] Hrun] | [f Hrun]].
  - rewrite (bind_run _ _ _ _ _ _ Hrun), prepend_nil.
    destruct changed.
    + rewrite bind_get, Hext.
      destruct (negb (s =? targetSpatialLayer c) || force); cbn.
      * split; [reflexivity |]. intros e [<- | [<- | []]]; auto.
      * split; [reflexivity |]. intros e [<- | []]; auto.
    + cbn. split; [reflexivity |]. intros e [<- | []]; auto.
  - unfold bind. rewrite Hrun. cbn.
    split; [reflexivity |]. intros e [<- | []]; auto.
Qed.

(** The layers that [UpdateTargetLayers] leaves, whether it returns or the
    key frame request faults. *)
Lemma UpdateTargetLayers_layers newSpatial newTemporal (c : Consumer) :
  let c' := finalState (UpdateTargetLayers newSpatial newTemporal c) in
  targetSpatialLayer c' = newSpatial /\
  targetTemporalLayer c' = (if newSpatial =? -1 then -1 else newTemporal) /\
  currentSpatialLayer c' = (if newSpatial =? -1 then -1 else currentSpatialLayer c) /\
  tsReferenceSpatialLayer c' =
    (if negb (newSpatial =? -1) && (tsReferenceSpatialLayer c =? -1)
     then newSpatial else tsReferenceSpatialLayer c).
Proof.
  cbv zeta. unfold UpdateTargetLayers, MS_TRACE.
  rewrite bind_emit, finalState_prepend, bind_get.
  destruct (newSpatial =? -1) eqn:Hnew.
  - apply Z.eqb_eq in Hnew. subst newSpatial.
    cbn [negb andb when]. rewrite bind_ret, !bind_modify.
    rewrite EmitLayersChange_readOnly. repeat split; reflexivity.
  - cbn [negb andb].
    destruct (tsReferenceSpatialLayer c =? -1) eqn:Href; cbn [when];
      rewrite ?bind_ret, !bind_modify, bind_get;
      match goal with |- context [when ?b (modify _)] => destruct b end; cbn [when];
      rewrite ?bind_ret, ?bind_modify, bind_get;
      match goal with |- context [when ?b _] => destruct b end; cbn [when];
      rewrite ?RequestKeyFrameForTargetSpatialLayer_readOnly;
      repeat split; reflexivity.
Qed.

(** X10.  [MayChangeLayers] (lines 1289-1313) when the bitrate is not
    externally managed: the target layers it leaves are the layers that
    [RecalculateTargetLayers] gave, whether they had to be changed or not. *)
Theorem MayChangeLayers_locally_managed env force (c : Consumer) changed s t :
  externallyManagedBitrate c = false ->
  RecalculateTargetLayers env c = Done (changed, s, t) c [] ->
  targetSpatialLayer (finalState (MayChangeLayers env force c)) = s /\
  targetTemporalLayer (finalState (MayChangeLayers env force c)) = t.
Proof.
  intros Hext Hrun. unfold MayChangeLayers, MS_TRACE.
  rewrite bind_emit, finalState_prepend.
  rewrite (bind_run _ _ _ _ _ _ Hrun), prepend_nil.
  unfold RecalculateTargetLayers in Hrun. rewrite bind_get in Hrun.
  unfold bind in Hrun.
  destruct (recalculateLoop env (producerRtpStreams c) 0 (-1) 0 c) as [s' c' l' | f c' l'];
    [| discriminate].
  cbn in Hrun. injection Hrun as Hchanged <- Ht _ _.
  destruct changed.
  - rewrite bind_get, Hext.
    destruct (UpdateTargetLayers_layers s' t c) as (Hs & Htemporal & _).
    split; [exact Hs |]. rewrite Htemporal, <- Ht.
    destruct (s' =? -1); reflexivity.
  - apply orb_false_iff in Hchanged. destruct Hchanged as [Hs Htemporal].
    apply negb_false_iff, Z.eqb_eq in Hs. apply negb_false_iff, Z.eqb_eq in Htemporal.
    cbn. split; [symmetry; exact Hs |]. rewrite <- Ht. symmetry. exact Htemporal.
Qed.

(** X11.  [UserOnPaused] (lines 1123-1135) with [UpdateTargetLayers(-1, -1)]
    (lines 1401-1416) and [EmitLayersChange] (lines 1492-1500): the method
    always returns; it pauses the send stream, unsets the target and current
    layers, announces the layers as null and, when the bitrate is externally
    managed, asks for a new bitrate; every packet that arrives afterwards is
    returned untouched by [SendRtpPacket]. *)
Theorem UserOnPaused_run (c : Consumer) :
  exists c',
    UserOnPaused c =
      Done tt c'
        (Call mUserOnPaused :: Call mUpdateTargetLayers :: EmitLayersChangeEvent None
         :: (if externallyManagedBitrate c then [OnConsumerNeedBitrateChange] else [])) /\
    targetSpatialLayer c' = -1 /\ targetTemporalLayer c' = -1 /\
    currentSpatialLayer c' = -1 /\
    tsReferenceSpatialLayer c' = tsReferenceSpatialLayer c /\
    rtpStream c' = Pause (rtpStream c) /\
    forall env packet,
      SendRtpPacket env packet c' = Done packet c' [Call mSendRtpPacket].
Proof.
  unfold UserOnPaused, UpdateTargetLayers, EmitLayersChange, MS_TRACE.
  rewrite bind_emit, bind_modify.
  eexists. split.
  - unfold bind, emit, get, modify, when, ret. cbn.
    destruct (externallyManagedBitrate c); reflexivity.
  - repeat split; try reflexivity.
    intros env packet. unfold SendRtpPacket, MS_TRACE. rewrite bind_emit.
    destruct (negb (IsActive env)); [reflexivity |].
    rewrite bind_get. reflexivity.
Qed.

(** ** The provisional layers chosen from the available bitrate *)

(** [CanSwitchToSpatialLayer] reads the producer slots and the reference
    layer only. *)
Lemma CanSwitchToSpatialLayer_sameStreams env s (c0 c : Consumer) b :
  sameStreams c0 c ->
  CanSwitchToSpatialLayer env s c0 = Done b c0 [] ->
  CanSwitchToSpatialLayer env s c = Done b c [].
Proof.
  intros [Hslots Href].
  unfold CanSwitchToSpatialLayer, GetProducerTsReferenceRtpStream, vectorAt, deref,
    MS_ASSERT, bind, get, ret, throw.
  cbn. rewrite ?Hslots, ?Href.
  repeat match goal with
    | |- context [match ?x with _ => _ end] =>
        lazymatch x with
        | context [match _ with _ => _ end] => fail
        | _ => destruct x; cbn; rewrite ?Hslots, ?Href
        end
    end; try discriminate; intros [= <-]; reflexivity.
Qed.

Lemma eligible_sameStreams env s (c0 c : Consumer) :
  sameStreams c0 c -> eligible env c0 s -> eligible env c s.
Proof.
  intros Hsame [(q & Hq & Hscore) Hcan]. split.
  - exists q. split; [eapply sameStreams_holdsStream; eassumption | exact Hscore].
  - eapply CanSwitchToSpatialLayer_sameStreams; eassumption.
Qed.

Lemma sameStreams_trans c0 c1 c2 :
  sameStreams c0 c1 -> sameStreams c1 c2 -> sameStreams c0 c2.
Proof. intros [H1 H2] [H3 H4]. split; congruence. Qed.

Lemma allocated_sameStreams env v u (c c' : Consumer) :
  sameStreams c c' ->
  provisionalTargetSpatialLayer c' = provisionalTargetSpatialLayer c ->
  provisionalTargetTemporalLayer c' = provisionalTargetTemporalLayer c ->
  allocated env v u c -> allocated env v u c'.
Proof.
  intros Hsame Hs Ht [[[Hns Hnt] Hu] | (Heligible & q & Hq & Hrange & Hrate & Hbound)].
  - left. split; [split; congruence | exact Hu].
  - right. rewrite Hs, Ht. split; [eapply eligible_sameStreams; eassumption |].
    exists q. split; [eapply sameStreams_holdsStream; eassumption |].
    split; [exact Hrange |]. split; [exact Hrate | exact Hbound].
Qed.

(** The inner loop on the stream [q] of an eligible spatial layer. *)
Lemma useTemporalLoop_allocated env c0 q spatialLayer producerScore virtualBitrate remaining :
  eligible env c0 spatialLayer ->
  holdsStream c0 spatialLayer q ->
  forall temporalLayer usedBitrate,
    0 <= temporalLayer ->
    remaining = O \/
    temporalLayer + Z.of_nat remaining <= RtpStream.GetTemporalLayers (producer env q) ->
    triple (fun c => sameStreams c0 c /\ allocated env virtualBitrate usedBitrate c)
      (useTemporalLoop (producer env q) spatialLayer producerScore virtualBitrate
         remaining temporalLayer usedBitrate)
      (fun r c => sameStreams c0 c /\ allocated env virtualBitrate (snd r) c)
      (fun _ => False).
Proof.
  intros Heligible Hq.
  induction remaining as [| remaining IH]; intros temporalLayer usedBitrate Hlow Hhigh;
    cbn [useTemporalLoop].
  - apply triple_ret. auto.
  - cbv zeta.
    destruct (RtpStream.GetBitrate (producer env q) 0 temporalLayer =? 0) eqn:Hzero;
      [apply triple_ret; auto |].
    destruct (virtualBitrate <? RtpStream.GetBitrate (producer env q) 0 temporalLayer)
      eqn:Hover; [apply triple_ret; auto |].
    apply Z.eqb_neq in Hzero. apply Z.ltb_ge in Hover.
    set (required := RtpStream.GetBitrate (producer env q) 0 temporalLayer) in *.
    apply triple_bind
      with (Q := fun _ c => sameStreams c0 c /\
                            provisionalTargetSpatialLayer c = spatialLayer).
    { apply triple_modify. intros c [Hsame _]. split; [exact Hsame | reflexivity]. }
    intros _.
    apply triple_bind
      with (Q := fun _ c => sameStreams c0 c /\ allocated env virtualBitrate required c).
    { apply triple_modify. intros c [Hsame Hs]. split; [exact Hsame |].
      right. cbn. rewrite Hs.
      assert (Hsame' : sameStreams c0 (set_provisionalTargetTemporalLayer temporalLayer c))
        by exact Hsame.
      split; [eapply eligible_sameStreams; eassumption |].
      exists q. split; [eapply sameStreams_holdsStream; eassumption |].
      split; [lia |]. split; [reflexivity |]. split; [exact Hzero | exact Hover]. }
    intros _.
    eapply triple_bind; [apply triple_get |]. intros c.
    eapply triple_weaken
      with (P' := fun c => sameStreams c0 c /\ allocated env virtualBitrate required c)
           (Q' := fun r c' => sameStreams c0 c' /\ allocated env virtualBitrate (snd r) c');
      [| tauto | auto].
    destruct (_ && _).
    + apply triple_ret. auto.
    + apply IH; lia.
Qed.

Lemma useSpatialLoop_allocated env c0 virtualBitrate slots :
  referenceReady c0 ->
  forall pre usedBitrate maxProducerScore,
    producerRtpStreams c0 = pre ++ slots ->
    Z.of_nat (length (pre ++ slots)) <= 32767 ->
    triple (fun c => sameStreams c0 c /\ allocated env virtualBitrate usedBitrate c)
      (useSpatialLoop env virtualBitrate slots (Z.of_nat (length pre))
         usedBitrate maxProducerScore)
      (fun u c => sameStreams c0 c /\ allocated env virtualBitrate u c)
      (fun _ => False).
Proof.
  intros Href.
  induction slots as [| x rest IH]; intros pre usedBitrate maxProducerScore Hall Hlen;
    cbn [useSpatialLoop].
  - apply triple_ret. auto.
  - assert (Hnext : Z.of_nat (length pre) + 1 = Z.of_nat (length (pre ++ [x]))).
    { rewrite length_app. simpl. lia. }
    assert (Hall' : producerRtpStreams c0 = (pre ++ [x]) ++ rest).
    { rewrite <- app_assoc. exact Hall. }
    assert (Hlen' : Z.of_nat (length ((pre ++ [x]) ++ rest)) <= 32767).
    { rewrite <- app_assoc. exact Hlen. }
    assert (Hskip : forall used score,
               triple (fun c => sameStreams c0 c /\ allocated env virtualBitrate used c)
                 (useSpatialLoop env virtualBitrate rest (Z.of_nat (length pre) + 1)
                    used score)
                 (fun u c => sameStreams c0 c /\ allocated env virtualBitrate u c)
                 (fun _ => False)).
    { intros used score. rewrite Hnext. apply IH; assumption. }
    rewrite length_app in Hlen. simpl in Hlen.
    rewrite i16_id by (unfold Int.isI16; lia).
    destruct x as [q |]; [| apply Hskip]. cbv zeta.
    destruct (RtpStream.GetScore (producer env q) =? 0) eqn:Hscore; [apply Hskip |].
    apply Z.eqb_neq in Hscore.
    destruct (_ && _); [apply Hskip |].
    pose proof (holdsStream_middle c0 pre q rest Hall) as Hq.
    destruct (CanSwitchToSpatialLayer_returns env c0 _ q Hq Href) as [canSwitch Hcan].
    apply triple_bind
      with (Q := fun b c => b = canSwitch /\
                            sameStreams c0 c /\ allocated env virtualBitrate usedBitrate c).
    { intros c [Hsame Halloc].
      rewrite (CanSwitchToSpatialLayer_sameStreams env _ c0 c canSwitch Hsame Hcan). auto. }
    intros b.
    eapply triple_weaken
      with (P' := fun c => (sameStreams c0 c /\ allocated env virtualBitrate usedBitrate c)
                           /\ b = canSwitch)
           (Q' := fun u c => sameStreams c0 c /\ allocated env virtualBitrate u c);
      [| tauto | auto].
    apply triple_assume. intros ->.
    destruct canSwitch; cbn [negb]; [| apply Hskip].
    destruct (_ && _); [apply Hskip |].
    assert (Heligible : eligible env c0 (Z.of_nat (length pre))).
    { split; [exists q; split; [exact Hq | exact Hscore] | exact Hcan]. }
    eapply triple_bind.
    { apply (useTemporalLoop_allocated env c0 q _ _ virtualBitrate _ Heligible Hq);
        [lia |].
      destruct (RtpStream.GetTemporalLayers (producer env q)); simpl; lia. }
    intros [flow used]. cbn [snd].
    destruct flow.
    + eapply triple_bind; [apply triple_get |]. intros c.
      eapply triple_weaken
        with (P' := fun c => sameStreams c0 c /\ allocated env virtualBitrate used c)
             (Q' := fun u c' => sameStreams c0 c' /\ allocated env virtualBitrate u c');
        [| tauto | auto].
      destruct (_ && _).
      * apply triple_ret. tauto.
      * apply Hskip.
    + apply triple_ret. tauto.
Qed.

(** X12.  The scan of [UseAvailableBitrate] (lines 406-492): on an active
    consumer whose reference layer, if any, holds a stream, the method
    returns, and the provisional target layers it leaves go with the used
    bitrate [u] behind the returned value: nothing is chosen and [u = 0], or
    the provisional spatial layer holds a scoring stream to which the
    consumer can switch, the provisional temporal layer is one of that
    stream, and [u] is the bitrate of that stream up to that temporal layer,
    not 0 and within the virtual bitrate. *)
Theorem UseAvailableBitrate_allocates env (c : Consumer) bitrate considerLoss :
  externallyManagedBitrate c = true ->
  Consumer_IsActive env = true ->
  referenceReady c ->
  Z.of_nat (length (producerRtpStreams c)) <= 32767 ->
  let v := virtualBitrateFor c bitrate considerLoss in
  exists u c' l,
    UseAvailableBitrate env bitrate considerLoss c
      = Done (reshapeUsedBitrate u bitrate v) c' l /\
    allocated env v u c'.
Proof.
  intros Hext Hactive Href Hlen v.
  set (start :=
         set_provisionalTargetTemporalLayer (-1) (set_provisionalTargetSpatialLayer (-1) c)).
  assert (Hstart : referenceReady start) by exact Href.
  pose proof (useSpatialLoop_allocated env start v (producerRtpStreams start) Hstart
                [] 0 0 eq_refl Hlen start) as Hloop.
  change (Z.of_nat (length [])) with 0 in Hloop.
  assert (Hinit : sameStreams start start /\ allocated env v 0 start).
  { split; [split; reflexivity |]. left. split; [split; reflexivity | reflexivity]. }
  specialize (Hloop Hinit).
  destruct (useSpatialLoop env v (producerRtpStreams start) 0 0 0 start)
    as [u c' l | f c' l] eqn:Hscan; [| contradiction].
  exists u, c', (Call mUseAvailableBitrate :: l). split; [| apply Hloop].
  unfold UseAvailableBitrate, useAvailableScan, bind, get, modify, MS_TRACE, emit, MS_ASSERT.
  simpl. rewrite Hext, Hactive. simpl. fold start. fold v.
  change (producerRtpStreams c) with (producerRtpStreams start).
  rewrite Hscan. simpl. rewrite !app_nil_r. reflexivity.
Qed.

Lemma useTemporalLoop_keeps_frame c0 stream spatialLayer producerScore
    virtualBitrate remaining :
  forall temporalLayer usedBitrate,
    keeps (sameButProvisional c0)
      (useTemporalLoop stream spatialLayer producerScore virtualBitrate
         remaining temporalLayer usedBitrate).
Proof.
  induction remaining as [| remaining IH]; intros temporalLayer usedBitrate; simpl;
    keeps_walk.
Qed.

Lemma useSpatialLoop_keeps_frame c0 env virtualBitrate slots :
  forall sIdx usedBitrate maxProducerScore,
    keeps (sameButProvisional c0)
      (useSpatialLoop env virtualBitrate slots sIdx usedBitrate maxProducerScore).
Proof.
  pose proof (useTemporalLoop_keeps_frame c0) as Htemporal.
  induction slots as [| slot rest IH]; intros sIdx usedBitrate maxProducerScore; simpl;
    keeps_walk.
Qed.

(** X13.  The writes of [UseAvailableBitrate] (lines 380-381, 462-463) and of
    [IncreaseTemporalLayer] (line 615): whether they return or stop at a
    fault, the two methods change nothing in the consumer but the
    provisional target layers. *)
Theorem provisional_layers_only env bitrate considerLoss (c : Consumer) :
  sameButProvisional c (finalState (UseAvailableBitrate env bitrate considerLoss c)) /\
  sameButProvisional c (finalState (IncreaseTemporalLayer env bitrate considerLoss c)).
Proof.
  pose proof (useSpatialLoop_keeps_frame c) as Hspatial.
  split; (apply keeps_finalState; [| reflexivity]).
  - unfold UseAvailableBitrate, useAvailableScan. keeps_walk.
  - unfold IncreaseTemporalLayer. keeps_walk.
Qed.

(** The loop of [IncreaseTemporalLayer] entered with no required bitrate:
    it leaves with none, or at the first temporal layer with a layer
    bitrate, which is not above the preferred layers. *)
Lemma increaseLoop_first (c : Consumer) stream remaining :
  forall start,
    let r := increaseLoop c stream remaining start 0 in
    snd r = 0 \/
    (start <= fst r < start + Z.of_nat remaining /\
     snd r = RtpStream.GetLayerBitrate stream 0 (fst r) /\
     snd r <> 0 /\
     ~ (preferredSpatialLayer c <= provisionalTargetSpatialLayer c /\
        preferredTemporalLayer c < fst r) /\
     forall t, start <= t < fst r -> RtpStream.GetLayerBitrate stream 0 t = 0).
Proof.
  induction remaining as [| remaining IH]; intros start; cbn [increaseLoop]; cbv zeta.
  - left. reflexivity.
  - destruct ((preferredSpatialLayer c <=? provisionalTargetSpatialLayer c)
              && (preferredTemporalLayer c <? start)) eqn:Habove;
      [left; reflexivity |].
    destruct (RtpStream.GetLayerBitrate stream 0 start =? 0) eqn:Hzero; cbn [negb].
    + apply Z.eqb_eq in Hzero. rewrite Hzero.
      destruct (IH (start + 1)) as [Hnone | (Hrange & Hrate & Hactive & Hpreferred & Hbelow)];
        [left; exact Hnone |].
      right. split; [lia |]. split; [exact Hrate |]. split; [exact Hactive |].
      split; [exact Hpreferred |].
      intros t Ht. destruct (Z.eq_dec t start) as [-> | Hother]; [exact Hzero |].
      apply Hbelow. lia.
    + apply Z.eqb_neq in Hzero. right. cbn [fst snd].
      split; [lia |]. split; [reflexivity |]. split; [exact Hzero |].
      split; [| intros t Ht; lia].
      intros [Hs Ht]. apply andb_false_iff in Habove.
      destruct Habove as [Habove | Habove];
        [apply Z.leb_gt in Habove | apply Z.ltb_ge in Habove]; lia.
Qed.

(** X14.  [IncreaseTemporalLayer] (lines 536-633): when it returns, either
    it returns 0 and leaves the consumer as it was, or it moves the
    provisional temporal layer, and nothing else, up to the first temporal
    layer of the provisional stream that has a layer bitrate; that layer is
    not above the preferred layers, its bitrate is within the virtual
    bitrate, and the value returned is that bitrate or the given bitrate,
    whichever is lower (the last [return] of the method is never reached). *)
Theorem IncreaseTemporalLayer_upgrade env (c c' : Consumer) bitrate considerLoss r log :
  IncreaseTemporalLayer env bitrate considerLoss c = Done r c' log ->
  (r = 0 /\ c' = c) \/
  exists q t,
    holdsStream c (provisionalTargetSpatialLayer c) q /\
    c' = set_provisionalTargetTemporalLayer t c /\
    Int.i16 (provisionalTargetTemporalLayer c + 1) <= t
      < RtpStream.GetTemporalLayers (producer env q) /\
    (forall t', Int.i16 (provisionalTargetTemporalLayer c + 1) <= t' < t ->
       RtpStream.GetLayerBitrate (producer env q) 0 t' = 0) /\
    ~ (preferredSpatialLayer c <= provisionalTargetSpatialLayer c /\
       preferredTemporalLayer c < t) /\
    RtpStream.GetLayerBitrate (producer env q) 0 t <> 0 /\
    RtpStream.GetLayerBitrate (producer env q) 0 t
      <= virtualBitrateFor c bitrate considerLoss /\
    r = Z.min (RtpStream.GetLayerBitrate (producer env q) 0 t) bitrate.
Proof.
  unfold IncreaseTemporalLayer, MS_TRACE. rewrite bind_emit, bind_get.
  destruct (externallyManagedBitrate c); cbn [MS_ASSERT];
    [rewrite bind_ret | intros Hrun; discriminate].
  destruct (negb (Consumer_IsActive env));
    [intros [= <- <- _]; left; split; reflexivity |].
  destruct (provisionalTargetSpatialLayer c =? -1) eqn:Hnone;
    [intros [= <- <- _]; left; split; reflexivity |].
  destruct ((provisionalTargetSpatialLayer c =? preferredSpatialLayer c)
            && (provisionalTargetTemporalLayer c =? preferredTemporalLayer c));
    [intros [= <- <- _]; left; split; reflexivity |].
  assert (Hget : GetProducerProvisionalTargetRtpStream c
                 = vectorAt (producerRtpStreams c) (provisionalTargetSpatialLayer c) c).
  { unfold GetProducerProvisionalTargetRtpStream. rewrite bind_get, Hnone. reflexivity. }
  unfold vectorAt in Hget.
  destruct (if provisionalTargetSpatialLayer c <? 0 then None
            else producerRtpStreams c !! Z.to_nat (provisionalTargetSpatialLayer c))
    as [slot |] eqn:Hslot;
    [| unfold bind at 1; rewrite Hget; intros Hrun; discriminate].
  rewrite (bind_run _ _ _ _ _ _ Hget), prepend_nil.
  destruct slot as [q |]; [| intros Hrun; discriminate].
  rewrite bool_decide_eq_true_2 by (eexists; reflexivity).
  cbn [MS_ASSERT deref]. rewrite !bind_ret.
  set (start := Int.i16 (provisionalTargetTemporalLayer c + 1)).
  set (remaining := Z.to_nat (RtpStream.GetTemporalLayers (producer env q) - start)).
  pose proof (increaseLoop_first c (producer env q) remaining start) as Hloop.
  cbv zeta in Hloop.
  destruct (increaseLoop c (producer env q) remaining start 0) as [t required].
  cbn [fst snd] in Hloop.
  destruct (required =? 0) eqn:Hzero;
    [intros [= <- <- _]; left; split; reflexivity |].
  apply Z.eqb_neq in Hzero.
  destruct (virtualBitrateFor c bitrate considerLoss <? required) eqn:Hover;
    [intros [= <- <- _]; left; split; reflexivity |].
  apply Z.ltb_ge in Hover.
  destruct Hloop as [Hnothing | (Hrange & Hrate & _ & Hpreferred & Hbelow)];
    [contradiction |].
  rewrite bind_modify. intros Hrun. right. exists q, t.
  split; [exact Hslot |].
  assert (Hlayers : t < RtpStream.GetTemporalLayers (producer env q)).
  { subst remaining. lia. }
  rewrite <- Hrate.
  destruct (required <=? bitrate) eqn:Hfits;
    [apply Z.leb_le in Hfits | apply Z.leb_gt in Hfits].
  - injection Hrun as <- <- _.
    repeat (split; [first [reflexivity | assumption | lia] |]). lia.
  - rewrite (proj2 (Z.leb_le _ _) Hover) in Hrun. injection Hrun as <- <- _.
    repeat (split; [first [reflexivity | assumption | lia] |]). lia.
Qed.

(** X15.  [ApplyLayers] (lines 635-660) with [UpdateTargetLayers]: on an
    active consumer the target layers become the provisional target layers
    saved at the start of the call (provisional layers that are unset
    together), whether they were already the target or
    [UpdateTargetLayers] had to be called. *)
Theorem ApplyLayers_commits env (c : Consumer) :
  externallyManagedBitrate c = true ->
  Consumer_IsActive env = true ->
  (provisionalTargetSpatialLayer c = -1 -> provisionalTargetTemporalLayer c = -1) ->
  targetSpatialLayer (finalState (ApplyLayers env c)) = provisionalTargetSpatialLayer c /\
  targetTemporalLayer (finalState (ApplyLayers env c)) = provisionalTargetTemporalLayer c.
Proof.
  intros Hext Hactive Hunset. unfold ApplyLayers, MS_TRACE.
  rewrite bind_emit, finalState_prepend, bind_get, Hext. cbn [MS_ASSERT].
  rewrite bind_ret. cbv zeta. rewrite !bind_modify, Hactive. cbn [negb].
  rewrite bind_get.
  match goal with |- context [when ?b _] => destruct b eqn:Hdiffers end; cbn [when].
  - match goal with
    | |- context [UpdateTargetLayers ?s ?t ?x] =>
        destruct (UpdateTargetLayers_layers s t x) as (Hs & Ht & _)
    end.
    split; [exact Hs |]. rewrite Ht.
    destruct (provisionalTargetSpatialLayer c =? -1) eqn:Hnone; [| reflexivity].
    apply Z.eqb_eq in Hnone. symmetry. exact (Hunset Hnone).
  - apply orb_false_iff in Hdiffers. destruct Hdiffers as [Hs Ht].
    apply negb_false_iff, Z.eqb_eq in Hs. apply negb_false_iff, Z.eqb_eq in Ht.
    cbn in *. split; symmetry; assumption.
Qed.

(** ** Key frame requests *)

Lemma RequestKeyFrameForTargetSpatialLayer_log (c : Consumer) ssrc :
  In (OnConsumerKeyFrameRequested ssrc) (logOf (RequestKeyFrameForTargetSpatialLayer c)) <->
  kind c = VIDEO /\
  (exists q, holdsStream c (targetSpatialLayer c) q) /\
  consumableRtpEncodings c !! Z.to_nat (targetSpatialLayer c) = Some ssrc.
Proof.
  unfold holdsStream, slotAt.
  unfold RequestKeyFrameForTargetSpatialLayer, GetProducerTargetRtpStream, vectorAt,
    vectorIndex, bind, get, MS_TRACE, emit, ret, throw.
  destruct (kind c); cbn.
  { split; [intros [Hin | []]; discriminate | intros [Hkind _]; discriminate]. }
  destruct (targetSpatialLayer c =? -1) eqn:Hnone; cbn.
  { apply Z.eqb_eq in Hnone. rewrite Hnone. cbn.
    split; [intros [Hin | []]; discriminate | intros (_ & [q Hq] & _); discriminate]. }
  destruct (targetSpatialLayer c <? 0) eqn:Hneg; cbn.
  { split; [intros [Hin | []]; discriminate | intros (_ & [q Hq] & _); discriminate]. }
  destruct (producerRtpStreams c !! Z.to_nat (targetSpatialLayer c)) as [[q |] |]; cbn.
  - destruct (consumableRtpEncodings c !! Z.to_nat (targetSpatialLayer c)) as [x |]; cbn.
    + split.
      * intros [Hin | [Hin | []]]; [discriminate |]. injection Hin as ->.
        split; [reflexivity |]. split; [eauto | reflexivity].
      * intros (_ & _ & [= ->]). right. left. reflexivity.
    + split; [intros [Hin | []]; discriminate | intros (_ & _ & Hx); discriminate].
  - split; [intros [Hin | []]; discriminate | intros (_ & [q Hq] & _); discriminate].
  - split; [intros [Hin | []]; discriminate | intros (_ & [q Hq] & _); discriminate].
Qed.

(** X16.  The key frame request of [UpdateTargetLayers] (lines 1418-1437 with
    [RequestKeyFrameForTargetSpatialLayer], lines 1255-1270): a key frame
    is requested for a mapped ssrc exactly when a spatial layer other than
    the current one is targeted on a video consumer, the layer holds a
    producer stream and the ssrc is the one of its consumable encoding. *)
Theorem UpdateTargetLayers_key_frame newSpatial newTemporal (c : Consumer) ssrc :
  In (OnConsumerKeyFrameRequested ssrc)
    (logOf (UpdateTargetLayers newSpatial newTemporal c)) <->
  newSpatial <> -1 /\ newSpatial <> currentSpatialLayer c /\
  kind c = VIDEO /\
  (exists q, holdsStream c newSpatial q) /\
  consumableRtpEncodings c !! Z.to_nat newSpatial = Some ssrc.
Proof.
  unfold UpdateTargetLayers, MS_TRACE. rewrite bind_emit, logOf_prepend, bind_get.
  destruct (newSpatial =? -1) eqn:Hnew.
  - apply Z.eqb_eq in Hnew. cbn [negb andb when]. rewrite bind_ret, !bind_modify.
    match goal with
    | |- context [EmitLayersChange ?x] => destruct (EmitLayersChange_run x) as [layers ->]
    end.
    cbn. split; [intros [Hin | [Hin | []]]; discriminate | intros [Hset _]; contradiction].
  - apply Z.eqb_neq in Hnew. cbn [negb andb].
    destruct (tsReferenceSpatialLayer c =? -1); cbn [when];
      rewrite ?bind_ret, !bind_modify, bind_get;
      cbn [targetSpatialLayer currentSpatialLayer set_targetSpatialLayer
             set_targetTemporalLayer set_tsReferenceSpatialLayer];
      (destruct (newSpatial =? currentSpatialLayer c) eqn:Hcurrent; cbn [when negb];
       rewrite ?bind_ret, ?bind_modify, bind_get;
       cbn [targetSpatialLayer currentSpatialLayer set_targetSpatialLayer
              set_targetTemporalLayer set_tsReferenceSpatialLayer set_encodingContext];
       rewrite Hcurrent; cbn [when negb];
       [apply Z.eqb_eq in Hcurrent; cbn;
        split; [intros [Hin | []]; discriminate | intros (_ & Hother & _); contradiction]
       | apply Z.eqb_neq in Hcurrent]).
    all: match goal with
         | |- context [RequestKeyFrameForTargetSpatialLayer ?x] =>
             assert (Hlog :
               In (OnConsumerKeyFrameRequested ssrc)
                 (logOf (RequestKeyFrameForTargetSpatialLayer x)) <->
               kind c = VIDEO /\
               (exists q, holdsStream c newSpatial q) /\
               consumableRtpEncodings c !! Z.to_nat newSpatial = Some ssrc)
               by exact (RequestKeyFrameForTargetSpatialLayer_log x ssrc)
         end;
         cbn [app In];
         split;
         [intros [Hin | Hin]; [discriminate |];
          split; [exact Hnew |]; split; [exact Hcurrent |];
          apply Hlog; exact Hin
         | intros (_ & _ & Hrest); right; apply Hlog; exact Hrest].
Qed.

(** ** Preferred layers of a request *)

Lemma HandleRequest_prefers env (c : Consumer) request s :
  methodId request = CONSUMER_SET_PREFERRED_LAYERS ->
  requestedSpatialLayer c request = Some s ->
  prefers s (requestedTemporalLayer c request) (rtpStream c)
    (finalState (HandleRequest env request c)).
Proof.
  intros Hmethod Hspatial.
  rewrite (HandleRequest_preferred env c request s Hmethod Hspatial).
  pose proof (MayChangeLayers_keeps_prefers s (requestedTemporalLayer c request)
                (rtpStream c) env true) as Hkeep.
  apply keeps_finalState; [keeps_walk | repeat split].
Qed.

Lemma clampLayer_min layers json :
  0 <= json < 2 ^ 15 -> - 2 ^ 15 < layers <= 2 ^ 15 ->
  clampLayer layers json = Z.min json (layers - 1).
Proof.
  intros Hjson Hlayers. unfold clampLayer.
  rewrite (i16_id json) by (unfold Int.isI16; lia).
  rewrite (i16_id (layers - 1)) by (unfold Int.isI16; lia).
  destruct (layers - 1 <? json) eqn:Hover;
    [apply Z.ltb_lt in Hover | apply Z.ltb_ge in Hover]; lia.
Qed.

(** X17.  The clamp of [HandleRequest] (lines 209-225): a
    [CONSUMER_SET_PREFERRED_LAYERS] request with layers below 2^15 leaves,
    whether the layers are re-evaluated or not, the requested spatial layer
    or the highest spatial layer of the send stream, whichever is lower, as
    the preferred one; the same for the temporal layer, which is the highest
    one when the request has no unsigned [temporalLayer]. *)
Theorem HandleRequest_clamps env (c : Consumer) request spatial :
  methodId request = CONSUMER_SET_PREFERRED_LAYERS ->
  asUnsigned (dataSpatialLayer request) = Some spatial ->
  0 <= spatial < 2 ^ 15 ->
  (forall temporal,
     asUnsigned (dataTemporalLayer request) = Some temporal -> 0 <= temporal < 2 ^ 15) ->
  0 <= GetSpatialLayers (rtpStream c) <= 2 ^ 15 ->
  0 <= GetTemporalLayers (rtpStream c) <= 2 ^ 15 ->
  let c' := finalState (HandleRequest env request c) in
  preferredSpatialLayer c' = Z.min spatial (GetSpatialLayers (rtpStream c) - 1) /\
  preferredTemporalLayer c' =
    match asUnsigned (dataTemporalLayer request) with
    | Some temporal => Z.min temporal (GetTemporalLayers (rtpStream c) - 1)
    | None => GetTemporalLayers (rtpStream c) - 1
    end.
Proof.
  intros Hmethod Hspatial Hs Ht Hsl Htl. cbv zeta.
  destruct (HandleRequest_prefers env c request
              (clampLayer (GetSpatialLayers (rtpStream c)) spatial) Hmethod)
    as (Hps & Hpt & _).
  { unfold requestedSpatialLayer. rewrite Hspatial. reflexivity. }
  rewrite Hps, Hpt. split; [apply clampLayer_min; lia |].
  unfold requestedTemporalLayer.
  destruct (asUnsigned (dataTemporalLayer request)) as [temporal |].
  - apply clampLayer_min; [apply Ht; reflexivity | lia].
  - apply i16_id. unfold Int.isI16. lia.
Qed.

(** X18.  Lines 209-212 of [HandleRequest]: the requested spatial layer is
    read as [int16_t] and only clamped from above, so that a request for a
    layer from 2^15 to 2^16 - 1 leaves a negative preferred spatial layer
    (65535 leaves -1). *)
Theorem HandleRequest_wraps env (c : Consumer) request spatial :
  methodId request = CONSUMER_SET_PREFERRED_LAYERS ->
  asUnsigned (dataSpatialLayer request) = Some spatial ->
  2 ^ 15 <= spatial < 2 ^ 16 ->
  0 <= GetSpatialLayers (rtpStream c) ->
  preferredSpatialLayer (finalState (HandleRequest env request c)) = spatial - 2 ^ 16.
Proof.
  intros Hmethod Hspatial Hs Hsl.
  destruct (HandleRequest_prefers env c request
              (clampLayer (GetSpatialLayers (rtpStream c)) spatial) Hmethod)
    as (Hps & _).
  { unfold requestedSpatialLayer. rewrite Hspatial. reflexivity. }
  rewrite Hps. unfold clampLayer.
  assert (Hwrap : Int.i16 spatial = spatial - 2 ^ 16).
  { unfold Int.i16, Int.wrapS.
    replace (spatial + 2 ^ (16 - 1)) with (spatial - 2 ^ 15 + 1 * 2 ^ 16) by lia.
    rewrite Z.mod_add by lia. rewrite Z.mod_small; lia. }
  rewrite Hwrap.
  destruct (GetSpatialLayers (rtpStream c) - 1 <? spatial - 2 ^ 16) eqn:Hover;
    [apply Z.ltb_lt in Hover; lia | reflexivity].
Qed.

(** X19.  Lines 200-207 of [HandleRequest]: a
    [CONSUMER_SET_PREFERRED_LAYERS] request without [spatialLayer], or with
    one that is not an unsigned number, throws a type error before anything
    is written: the consumer is left as it was and the request is not
    accepted. *)
Theorem HandleRequest_missing_spatialLayer env (c : Consumer) request :
  methodId request = CONSUMER_SET_PREFERRED_LAYERS ->
  asUnsigned (dataSpatialLayer request) = None ->
  HandleRequest env request c = Stop TypeError c [Call mHandleRequest].
Proof.
  intros Hmethod Hnone. unfold HandleRequest, MS_TRACE.
  rewrite bind_emit, Hmethod, bind_get, Hnone. reflexivity.
Qed.

(** ** Producer streams *)

(** X20.  [ProducerRtpStream] (lines 259-270): for a mapped ssrc of a
    spatial layer within [producerRtpStreams], the stream is stored in the
    slot of that layer; the other slots, and the rest of the consumer, are
    left as they were. *)
Theorem ProducerRtpStream_stores rtpStream mappedSsrc (c : Consumer) s :
  mapMappedSsrcSpatialLayer c !! mappedSsrc = Some s ->
  is_Some (slotAt c s) ->
  let c' :=
    set_producerRtpStreams (<[Z.to_nat s := rtpStream]> (producerRtpStreams c)) c in
  ProducerRtpStream rtpStream mappedSsrc c = Done tt c' [Call mProducerRtpStream] /\
  slotAt c' s = Some rtpStream /\
  (forall s', s' <> s -> slotAt c' s' = slotAt c s') /\
  length (producerRtpStreams c') = length (producerRtpStreams c).
Proof.
  intros Hs [slot Hslot] c'. unfold slotAt in *.
  destruct (s <? 0) eqn:Hneg; [discriminate |]. apply Z.ltb_ge in Hneg.
  split.
  - unfold ProducerRtpStream, storeProducerRtpStream, MS_TRACE.
    rewrite bind_emit, bind_get, Hs.
    rewrite (bind_run _ _ c slot c []), prepend_nil; [reflexivity |].
    unfold vectorIndex. rewrite (proj2 (Z.ltb_ge _ _) Hneg), Hslot. reflexivity.
  - split; [| split].
    + cbn. apply list_lookup_insert_eq. eapply lookup_lt_Some. exact Hslot.
    + intros s' Hother. destruct (s' <? 0) eqn:Hneg'; [reflexivity |].
      apply Z.ltb_ge in Hneg'. cbn. apply list_lookup_insert_ne. lia.
    + cbn. apply length_insert.
Qed.

(** [ProducerRtpStream] and [ProducerNewRtpStream] stop at the assertion on
    a mapped ssrc that is not one of the consumable encodings, with the
    consumer as it was. *)
Lemma Producer_unknown_mappedSsrc env rtpStream mappedSsrc (c : Consumer) :
  mapMappedSsrcSpatialLayer c !! mappedSsrc = None ->
  ProducerRtpStream rtpStream mappedSsrc c
    = Stop AssertionFailed c [Call mProducerRtpStream] /\
  ProducerNewRtpStream env rtpStream mappedSsrc c
    = Stop AssertionFailed c [Call mProducerNewRtpStream].
Proof.
  intros Hnone.
  assert (Hstore : storeProducerRtpStream rtpStream mappedSsrc c
                   = Stop AssertionFailed c []).
  { unfold storeProducerRtpStream. rewrite bind_get, Hnone. reflexivity. }
  unfold ProducerRtpStream, ProducerNewRtpStream, MS_TRACE.
  rewrite !bind_emit. unfold bind. rewrite Hstore. split; reflexivity.
Qed.

(** ** The timestamp offset of a re-sync *)

Lemma i64_id z : - 2 ^ 63 <= z < 2 ^ 63 -> Int.i64 z = z.
Proof. unfold Int.i64, Int.wrapS. intros Hz. rewrite Z.mod_small; lia. Qed.

Lemma i64_u64 z : Int.i64 (Int.u64 z) = Int.i64 z.
Proof.
  unfold Int.i64, Int.u64, Int.wrapS, Int.wrapU.
  rewrite Zplus_mod_idemp_l. reflexivity.
Qed.

Lemma quot_1000_range z : - 2 ^ 63 <= z < 2 ^ 63 -> - 2 ^ 63 <= z ÷ 1000 < 2 ^ 63.
Proof.
  intros Hz. pose proof (Z.quot_rem' z 1000) as Hqr.
  destruct (Z.le_gt_cases 0 z) as [Hpos | Hneg].
  - pose proof (Z.rem_bound_pos z 1000 Hpos ltac:(lia)). lia.
  - pose proof (Z.rem_bound_pos_neg z 1000 ltac:(lia) ltac:(lia)). lia.
Qed.

(** X22.  The NTP based synchronisation of [SendRtpPacket] (lines 852-869),
    for sender report times below 2^63 ms whose difference in clock ticks
    fits [int64_t]: both branches on the order of the two NTP times give the
    signed difference, so that [tsOffset] is, modulo 2^32, the timestamp of
    the current stream's sender report less the timestamp at which the
    reference stream is at that instant; taking it off the current stream's
    sender report timestamp gives the reference stream's timestamp moved
    by the time between the two reports. *)
Theorem ntpTsOffset_difference ntpMs1 ts1 ntpMs2 ts2 clockRate :
  0 <= ntpMs1 < 2 ^ 63 ->
  0 <= ntpMs2 < 2 ^ 63 ->
  - 2 ^ 63 <= (ntpMs2 - ntpMs1) * clockRate < 2 ^ 63 ->
  let diffTs := ((ntpMs2 - ntpMs1) * clockRate) ÷ 1000 in
  ntpTsOffset ntpMs1 ts1 ntpMs2 ts2 clockRate = Int.u32 (ts2 - diffTs - ts1) /\
  Int.u32 (ts2 - ntpTsOffset ntpMs1 ts1 ntpMs2 ts2 clockRate) = Int.u32 (ts1 + diffTs).
Proof.
  intros H1 H2 Hticks diffTs.
  assert (Hoffset : ntpTsOffset ntpMs1 ts1 ntpMs2 ts2 clockRate
                    = Int.u32 (ts2 - diffTs - ts1)).
  { unfold ntpTsOffset.
    assert (HdiffMs : (if ntpMs1 <=? ntpMs2 then Int.i64 (Int.u64 (ntpMs2 - ntpMs1))
                       else Int.i64 (Int.u64 (Int.u64 (-1) * Int.u64 (ntpMs1 - ntpMs2))))
                      = ntpMs2 - ntpMs1).
    { destruct (ntpMs1 <=? ntpMs2) eqn:Horder;
        [apply Z.leb_le in Horder | apply Z.leb_gt in Horder].
      - rewrite i64_u64. apply i64_id. lia.
      - rewrite i64_u64.
        assert (Hd : Int.u64 (ntpMs1 - ntpMs2) = ntpMs1 - ntpMs2).
        { unfold Int.u64, Int.wrapU. apply Z.mod_small. lia. }
        rewrite Hd. change (Int.u64 (-1)) with (2 ^ 64 - 1).
        unfold Int.i64, Int.wrapS.
        replace ((2 ^ 64 - 1) * (ntpMs1 - ntpMs2) + 2 ^ (64 - 1))
          with (ntpMs2 - ntpMs1 + 2 ^ 63 + (ntpMs1 - ntpMs2) * 2 ^ 64) by lia.
        rewrite Z.mod_add by lia. rewrite Z.mod_small; lia. }
    rewrite HdiffMs. cbv zeta.
    rewrite (i64_id ((ntpMs2 - ntpMs1) * clockRate)) by exact Hticks.
    rewrite i64_id by (apply quot_1000_range; exact Hticks).
    fold diffTs. unfold Int.u32, Int.wrapU. rewrite Zminus_mod_idemp_l. reflexivity. }
  split; [exact Hoffset |].
  rewrite Hoffset. unfold Int.u32, Int.wrapU. rewrite Zminus_mod_idemp_r.
  f_equal. lia.
Qed.

(** ** After a resume *)

(** While a re-sync is pending, a packet that is not a key frame does not
    reach the send stream. *)
Lemma SendRtpPacket_waits env (c : Consumer) packet :
  syncRequired c = true -> pktIsKeyFrame packet = false ->
  noHandOver (logOf (SendRtpPacket env packet c)).
Proof.
  intros Hsync Hkey sent Hin.
  unfold SendRtpPacket, MS_TRACE in Hin. rewrite bind_emit in Hin.
  assert (Hcall : forall (o : RtpPacket) (x : Consumer),
             ~ In (RtpStreamSend_ReceivePacket sent)
                 (logOf (prepend [Call mSendRtpPacket] (Done o x [])))).
  { intros o x [Hcall | []]. discriminate. }
  destruct (negb (IsActive env)); [exact (Hcall _ _ Hin) |].
  rewrite bind_get in Hin.
  destruct (targetTemporalLayer c =? -1); [exact (Hcall _ _ Hin) |].
  destruct (negb (bool_decide (pktPayloadType packet ∈ supportedCodecPayloadTypes c)));
    [exact (Hcall _ _ Hin) |].
  unfold mapAt in Hin.
  destruct (mapMappedSsrcSpatialLayer c !! pktSsrc packet) as [s |].
  2: { destruct Hin as [Hin | []]. discriminate. }
  rewrite bind_ret in Hin.
  destruct (negb (currentSpatialLayer c =? targetSpatialLayer c)
            && (s =? targetSpatialLayer c)) eqn:Hswitch.
  - rewrite (bind_run _ _ _ _ _ _ (switchCheck_wait env packet s c Hswitch Hkey)),
      prepend_nil in Hin.
    exact (Hcall _ _ Hin).
  - rewrite (bind_run _ _ _ _ _ _ (switchCheck_pass env packet s c Hswitch)),
      prepend_nil in Hin.
    cbn [negb] in Hin. rewrite bind_get, Hsync, Hkey in Hin.
    destruct (negb (s =? currentSpatialLayer c)); exact (Hcall _ _ Hin).
Qed.

Lemma UpdateTargetLayers_keeps_syncRequired newSpatial newTemporal :
  keeps (fun c => syncRequired c = true) (UpdateTargetLayers newSpatial newTemporal).
Proof. unfold UpdateTargetLayers. keeps_walk. Qed.

(** It also leaves the consumer as it was: every return before the re-sync
    block comes before the first write that such a packet can reach. *)
Lemma SendRtpPacket_waits_state env (c : Consumer) packet :
  syncRequired c = true -> pktIsKeyFrame packet = false ->
  finalState (SendRtpPacket env packet c) = c.
Proof.
  intros Hsync Hkey.
  unfold SendRtpPacket, MS_TRACE. rewrite bind_emit, finalState_prepend.
  destruct (negb (IsActive env)); [reflexivity |].
  rewrite bind_get.
  destruct (targetTemporalLayer c =? -1); [reflexivity |].
  destruct (negb (bool_decide (pktPayloadType packet ∈ supportedCodecPayloadTypes c)));
    [reflexivity |].
  unfold mapAt.
  destruct (mapMappedSsrcSpatialLayer c !! pktSsrc packet) as [s |]; [| reflexivity].
  rewrite bind_ret.
  destruct (negb (currentSpatialLayer c =? targetSpatialLayer c)
            && (s =? targetSpatialLayer c)) eqn:Hswitch.
  - rewrite (bind_run _ _ _ _ _ _ (switchCheck_wait env packet s c Hswitch Hkey)),
      prepend_nil.
    reflexivity.
  - rewrite (bind_run _ _ _ _ _ _ (switchCheck_pass env packet s c Hswitch)),
      prepend_nil.
    cbn [negb]. rewrite bind_get, Hsync, Hkey.
    destruct (negb (s =? currentSpatialLayer c)); reflexivity.
Qed.

(** [syncRequired] is cleared at line 898 only, at the end of the re-sync
    block: a pending re-sync stays pending through every operation but
    [SendRtpPacket] on a key frame. *)
Lemma perform_keeps_syncRequired env op :
  (forall packet, op = opSendRtpPacket packet -> pktIsKeyFrame packet = false) ->
  keeps (fun c => syncRequired c = true) (perform env op).
Proof.
  intros Hwaiting.
  set (I := fun c : Consumer => syncRequired c = true).
  assert (Hupdate : forall s t, keeps I (UpdateTargetLayers s t)).
  { intros s t. unfold UpdateTargetLayers. keeps_walk. }
  assert (Hmay : forall force, keeps I (MayChangeLayers env force)).
  { intros force. unfold MayChangeLayers. keeps_walk. }
  assert (Hstore : forall rtpStream mappedSsrc,
             keeps I (storeProducerRtpStream rtpStream mappedSsrc)).
  { intros rtpStream mappedSsrc. unfold storeProducerRtpStream. keeps_walk. }
  assert (Htemporal : forall stream spatialLayer producerScore virtualBitrate remaining
                        temporalLayer usedBitrate,
             keeps I
               (useTemporalLoop stream spatialLayer producerScore virtualBitrate
                  remaining temporalLayer usedBitrate)).
  { intros stream spatialLayer producerScore virtualBitrate remaining.
    induction remaining as [| remaining IH]; intros temporalLayer usedBitrate; simpl;
      keeps_walk. }
  assert (Hspatial : forall virtualBitrate slots sIdx usedBitrate maxProducerScore,
             keeps I
               (useSpatialLoop env virtualBitrate slots sIdx usedBitrate maxProducerScore)).
  { intros virtualBitrate slots.
    induction slots as [| slot rest IH]; intros sIdx usedBitrate maxProducerScore; simpl;
      keeps_walk. }
  destruct op; simpl; try apply keeps_discard;
    try solve [apply readOnly_keeps; auto with constMethods].
  all: try match goal with
         | |- keeps _ (SendRtpPacket _ ?p) =>
             apply keeps_intro; intros c Hc;
             rewrite (SendRtpPacket_waits_state env c p Hc (Hwaiting p eq_refl));
             exact Hc
         end.
  all: unfold HandleRequest, ProducerRtpStream, ProducerNewRtpStream,
         ProducerRtpStreamScore, ProducerRtcpSenderReport, UseAvailableBitrate,
         useAvailableScan, IncreaseTemporalLayer, ApplyLayers, GetRtcp,
         NeedWorstRemoteFractionLost, ReceiveNack,
         ReceiveKeyFrameRequest, ReceiveRtcpReceiverReport, GetTransmissionRate,
         UserOnTransportConnected, UserOnTransportDisconnected, UserOnPaused,
         UserOnResumed, OnRtpStreamScore, OnRtpStreamRetransmitRtpPacket;
       keeps_walk.
  all: apply keeps_modify; intros c _; reflexivity.
Qed.

(** X23.  [UserOnResumed] and [UserOnTransportConnected] (lines 1104-1112,
    1137-1145) with lines 815-818 and 898 of [SendRtpPacket]: after a resume
    or a transport connection, and through whatever operations follow as
    long as [SendRtpPacket] is given no key frame, a packet that
    [SendRtpPacket] hands to the send stream is a key frame.  Nothing goes
    out before a key frame has come. *)
Theorem key_frame_after_resume env op ops (c : Consumer) env' packet sent :
  op = opUserOnResumed \/ op = opUserOnTransportConnected ->
  (forall env'' waiting,
     In (env'', opSendRtpPacket waiting) ops -> pktIsKeyFrame waiting = false) ->
  In (RtpStreamSend_ReceivePacket sent)
    (logOf (SendRtpPacket env' packet (run ops (after env op c)))) ->
  pktIsKeyFrame packet = true.
Proof.
  intros Hop Hwaiting Hin.
  pose proof UpdateTargetLayers_keeps_syncRequired as Hupdate.
  assert (Hresumed : syncRequired (after env op c) = true).
  { unfold after.
    destruct Hop as [-> | ->]; cbn [perform];
      unfold UserOnResumed, UserOnTransportConnected, MS_TRACE;
      rewrite bind_emit, finalState_prepend, bind_modify;
      (apply keeps_finalState; [| reflexivity]);
      unfold MayChangeLayers; keeps_walk. }
  assert (Hpending : syncRequired (run ops (after env op c)) = true).
  { clear Hin. revert Hwaiting Hresumed. generalize (after env op c) as c0.
    induction ops as [| [env0 op0] rest IH]; intros c0 Hwaiting Hc0; simpl; [exact Hc0 |].
    apply IH; [intros env'' waiting Hrest; apply (Hwaiting env''); right; exact Hrest |].
    unfold after.
    apply (keeps_finalState _ (fun c => syncRequired c = true)); [| exact Hc0].
    apply perform_keeps_syncRequired. intros waiting ->.
    apply (Hwaiting env0). left. reflexivity. }
  destruct (pktIsKeyFrame packet) eqn:Hkey; [reflexivity |].
  exfalso. exact (SendRtpPacket_waits env' _ packet Hpending Hkey sent Hin).
Qed.

(** ** Events that re-evaluate the layers or ask for a key frame *)

Lemma GetProducerCurrentRtpStream_run (c : Consumer) :
  GetProducerCurrentRtpStream c =
    if currentSpatialLayer c =? -1 then Done None c []
    else match slotAt c (currentSpatialLayer c) with
         | Some p => Done p c []
         | None => Stop OutOfRange c []
         end.
Proof.
  unfold GetProducerCurrentRtpStream, vectorAt, slotAt. rewrite bind_get.
  destruct (currentSpatialLayer c =? -1); [reflexivity |].
  destruct (if currentSpatialLayer c <? 0 then None
            else producerRtpStreams c !! Z.to_nat (currentSpatialLayer c)); reflexivity.
Qed.

(** X24.  [ProducerRtcpSenderReport] (lines 312-331): the layers are
    re-evaluated exactly on the first sender report of a stream, when the
    consumer is active and its current spatial layer holds a stream that has
    a sender report. *)
Theorem ProducerRtcpSenderReport_reevaluates env rtpStream first (c : Consumer) :
  In (Call mMayChangeLayers) (logOf (ProducerRtcpSenderReport env rtpStream first c)) <->
  first = true /\ IsActive env = true /\
  exists q, holdsStream c (currentSpatialLayer c) q /\ hasSenderReport env q.
Proof.
  unfold ProducerRtcpSenderReport, MS_TRACE. rewrite bind_emit, logOf_prepend.
  cbn [app In].
  destruct first; cbn [negb].
  2: { cbn. split; [intros [Hin | []]; discriminate | intros [Hfirst _]; discriminate]. }
  pose proof (GetProducerCurrentRtpStream_run c) as Hget.
  unfold holdsStream, hasSenderReport.
  destruct (currentSpatialLayer c =? -1) eqn:Hnone.
  { rewrite (bind_run _ _ _ _ _ _ Hget), prepend_nil.
    apply Z.eqb_eq in Hnone. rewrite Hnone. unfold slotAt. cbn.
    split; [intros [Hin | []]; discriminate | intros (_ & _ & q & Hq & _); discriminate]. }
  destruct (slotAt c (currentSpatialLayer c)) as [[q |] |].
  - rewrite (bind_run _ _ _ _ _ _ Hget), prepend_nil.
    destruct (RtpStream.GetSenderReportNtpMs (producer env q) =? 0) eqn:Hreport.
    { apply Z.eqb_eq in Hreport. cbn.
      split; [intros [Hin | []]; discriminate |].
      intros (_ & _ & q' & [= <-] & Hq). contradiction. }
    apply Z.eqb_neq in Hreport.
    destruct (IsActive env); cbn [when].
    + destruct (MayChangeLayers_log env false c) as [rest ->].
      split; [| intros _; right; left; reflexivity].
      intros _. split; [reflexivity |]. split; [reflexivity |]. eauto.
    + cbn. split; [intros [Hin | []]; discriminate
                  | intros (_ & Hactive & _); discriminate].
  - rewrite (bind_run _ _ _ _ _ _ Hget), prepend_nil. cbn.
    split; [intros [Hin | []]; discriminate | intros (_ & _ & q' & Hq & _); discriminate].
  - unfold bind. rewrite Hget. cbn.
    split; [intros [Hin | []]; discriminate | intros (_ & _ & q' & Hq & _); discriminate].
Qed.

Lemma RequestKeyFrameForCurrentSpatialLayer_log (c : Consumer) ssrc :
  In (OnConsumerKeyFrameRequested ssrc) (logOf (RequestKeyFrameForCurrentSpatialLayer c)) <->
  kind c = VIDEO /\
  (exists q, holdsStream c (currentSpatialLayer c) q) /\
  consumableRtpEncodings c !! Z.to_nat (currentSpatialLayer c) = Some ssrc.
Proof.
  unfold holdsStream, slotAt.
  unfold RequestKeyFrameForCurrentSpatialLayer, GetProducerCurrentRtpStream, vectorAt,
    vectorIndex, bind, get, MS_TRACE, emit, ret, throw.
  destruct (kind c); cbn.
  { split; [intros [Hin | []]; discriminate | intros [Hkind _]; discriminate]. }
  destruct (currentSpatialLayer c =? -1) eqn:Hnone; cbn.
  { apply Z.eqb_eq in Hnone. rewrite Hnone. cbn.
    split; [intros [Hin | []]; discriminate | intros (_ & [q Hq] & _); discriminate]. }
  destruct (currentSpatialLayer c <? 0) eqn:Hneg; cbn.
  { split; [intros [Hin | []]; discriminate | intros (_ & [q Hq] & _); discriminate]. }
  destruct (producerRtpStreams c !! Z.to_nat (currentSpatialLayer c)) as [[q |] |]; cbn.
  - destruct (consumableRtpEncodings c !! Z.to_nat (currentSpatialLayer c)) as [x |]; cbn.
    + split.
      * intros [Hin | [Hin | []]]; [discriminate |]. injection Hin as ->.
        split; [reflexivity |]. split; [eauto | reflexivity].
      * intros (_ & _ & [= ->]). right. left. reflexivity.
    + split; [intros [Hin | []]; discriminate | intros (_ & _ & Hx); discriminate].
  - split; [intros [Hin | []]; discriminate | intros (_ & [q Hq] & _); discriminate].
  - split; [intros [Hin | []]; discriminate | intros (_ & [q Hq] & _); discriminate].
Qed.

(** X25.  [ReceiveKeyFrameRequest] (lines 1069-1078 with
    [RequestKeyFrameForCurrentSpatialLayer], lines 1272-1287): the request
    always reaches the send stream; it is passed on to the producer, for the
    mapped ssrc of the current spatial layer, exactly when the consumer is
    active, of kind video, and its current spatial layer holds a stream. *)
Theorem ReceiveKeyFrameRequest_forwards env (c : Consumer) ssrc :
  rtpStream (finalState (ReceiveKeyFrameRequest env c))
    = streamReceiveKeyFrameRequest (rtpStream c) /\
  (In (OnConsumerKeyFrameRequested ssrc) (logOf (ReceiveKeyFrameRequest env c)) <->
   IsActive env = true /\ kind c = VIDEO /\
   (exists q, holdsStream c (currentSpatialLayer c) q) /\
   consumableRtpEncodings c !! Z.to_nat (currentSpatialLayer c) = Some ssrc).
Proof.
  unfold ReceiveKeyFrameRequest, MS_TRACE.
  rewrite bind_emit, finalState_prepend, logOf_prepend, bind_modify.
  cbn [app In].
  destruct (IsActive env); cbn [when].
  - rewrite RequestKeyFrameForCurrentSpatialLayer_readOnly.
    split; [reflexivity |].
    match goal with
    | |- context [RequestKeyFrameForCurrentSpatialLayer ?x] =>
        assert (Hlog :
          In (OnConsumerKeyFrameRequested ssrc)
            (logOf (RequestKeyFrameForCurrentSpatialLayer x)) <->
          kind c = VIDEO /\
          (exists q, holdsStream c (currentSpatialLayer c) q) /\
          consumableRtpEncodings c !! Z.to_nat (currentSpatialLayer c) = Some ssrc)
          by exact (RequestKeyFrameForCurrentSpatialLayer_log x ssrc)
    end.
    split.
    + intros [Hin | Hin]; [discriminate |]. split; [reflexivity |]. apply Hlog. exact Hin.
    + intros [_ Hrest]. right. apply Hlog. exact Hrest.
  - cbn. split; [reflexivity |].
    split; [intros [Hin | []]; discriminate | intros [Hactive _]; discriminate].
Qed.

(** ** Construction *)

Lemma fillMapMappedSsrcSpatialLayer_other encodings ssrc :
  ssrc ∉ encodings ->
  forall idx m, fillMapMappedSsrcSpatialLayer encodings idx m !! ssrc = m !! ssrc.
Proof.
  induction encodings as [| x rest IH]; intros Hnot idx m; cbn; [reflexivity |].
  rewrite IH by (intros Hin; apply Hnot; right; exact Hin).
  apply lookup_insert_ne. intros ->. apply Hnot. left.
Qed.

(** An ssrc among the encodings is mapped to the index of one of its
    encodings (the last one). *)
Lemma fillMapMappedSsrcSpatialLayer_mapped encodings ssrc :
  ssrc ∈ encodings ->
  forall idx m,
    exists i,
      encodings !! i = Some ssrc /\
      fillMapMappedSsrcSpatialLayer encodings idx m !! ssrc
        = Some (Int.i16 (idx + Z.of_nat i)).
Proof.
  induction encodings as [| x rest IH]; intros Hin idx m; [inversion Hin |].
  cbn. destruct (decide (ssrc ∈ rest)) as [Hrest | Hrest].
  - destruct (IH Hrest (idx + 1) (<[x := Int.i16 idx]> m)) as (i & Hi & Hmapped).
    exists (S i). split; [exact Hi |]. rewrite Hmapped. do 2 f_equal. lia.
  - assert (ssrc = x) as ->.
    { apply elem_of_cons in Hin. destruct Hin as [Heq | Hin]; [exact Heq | contradiction]. }
    exists O. split; [reflexivity |].
    rewrite fillMapMappedSsrcSpatialLayer_other by exact Hrest.
    rewrite lookup_insert_eq. do 2 f_equal. lia.
Qed.

Lemma fillMapMappedSsrcSpatialLayer_inv encodings :
  forall idx m ssrc s,
    fillMapMappedSsrcSpatialLayer encodings idx m !! ssrc = Some s ->
    m !! ssrc = Some s \/
    exists i, encodings !! i = Some ssrc /\ s = Int.i16 (idx + Z.of_nat i).
Proof.
  intros idx m ssrc s Hs.
  destruct (decide (ssrc ∈ encodings)) as [Hin | Hnot].
  - destruct (fillMapMappedSsrcSpatialLayer_mapped encodings ssrc Hin idx m)
      as (i & Hi & Hmapped).
    right. exists i. split; [exact Hi | congruence].
  - left. rewrite fillMapMappedSsrcSpatialLayer_other in Hs by exact Hnot. exact Hs.
Qed.

(** How [construct] runs once the two checks on the encodings pass. *)
Lemma construct_run data (c : Consumer) :
  1 < Z.of_nat (length (consumableRtpEncodings c)) ->
  RtpEncodingParameters.spatialLayers (encodings_0 (rtpParameters data))
    = Z.of_nat (length (consumableRtpEncodings c)) ->
  let mimeType := RtpCodecParameters.mimeType (GetCodecForEncoding (rtpParameters data)) in
  let context :=
    GetEncodingContext data mimeType
      (RtpEncodingParameters.spatialLayers (encodings_0 (rtpParameters data)))
      (RtpEncodingParameters.temporalLayers (encodings_0 (rtpParameters data))) in
  match initialPreferredLayers data with
  | None => exists c', construct data c = Stop TypeError c' []
  | Some (s, t) =>
      if IsValidTypeForCodec data mimeType then
        match context with
        | Some context => construct data c = Done tt (constructed data s t context c) []
        | None =>
            exists c',
              construct data c = Stop AssertionFailed c' [] /\
              preferredSpatialLayer c' = s /\ preferredTemporalLayer c' = t
        end
      else
        exists c',
          construct data c = Stop TypeError c' [] /\
          preferredSpatialLayer c' = s /\ preferredTemporalLayer c' = t
  end.
Proof.
  intros Hmany Hlayers mimeType context. subst context mimeType.
  unfold construct, initialPreferredLayers, constructed, clampLayer.
  rewrite bind_get, (proj2 (Z.leb_gt _ _) Hmany). cbv zeta.
  rewrite Hlayers, Z.eqb_refl. cbn [negb].
  unfold bind, modify, get, when, ret, throw.
  destruct c; cbn -[Int.i16 fillMapMappedSsrcSpatialLayer CreateRtpStream replicate].
  destruct (data_preferredLayers data) as [[jsonSpatialLayer jsonTemporalLayer] |];
    [destruct (asUnsigned jsonSpatialLayer) as [spatial |];
     [destruct (asUnsigned jsonTemporalLayer) as [temporal |] |] |];
    cbn -[Int.i16 fillMapMappedSsrcSpatialLayer CreateRtpStream replicate];
    repeat match goal with
      | |- context [if ?b <? ?x then _ else _] =>
          destruct (b <? x);
          cbn -[Int.i16 fillMapMappedSsrcSpatialLayer CreateRtpStream replicate]
      end;
    try (eexists; reflexivity);
    destruct (IsValidTypeForCodec data _);
    cbn -[Int.i16 fillMapMappedSsrcSpatialLayer CreateRtpStream replicate];
    try (eexists; split; [reflexivity | split; reflexivity]);
    destruct (GetEncodingContext data _ _ _);
    cbn -[Int.i16 fillMapMappedSsrcSpatialLayer CreateRtpStream replicate];
    try (eexists; split; [reflexivity | split; reflexivity]);
    reflexivity.
Qed.

(** X27.  The constructor (lines 20-109) on an object without mapped ssrc
    and without producer slots, for more than one and at most 2^15
    consumable encodings, as many as spatial layers, a valid codec and an
    encoding context: it returns; every slot of [producerRtpStreams] is
    there and holds nullptr; the mapped ssrcs are those of the consumable
    encodings, each mapped to a spatial layer that has a slot and whose
    encoding has that ssrc. *)
Theorem construct_maps data (c : Consumer) s t context :
  1 < Z.of_nat (length (consumableRtpEncodings c)) <= 2 ^ 15 ->
  RtpEncodingParameters.spatialLayers (encodings_0 (rtpParameters data))
    = Z.of_nat (length (consumableRtpEncodings c)) ->
  mapMappedSsrcSpatialLayer c = ∅ ->
  producerRtpStreams c = [] ->
  initialPreferredLayers data = Some (s, t) ->
  IsValidTypeForCodec data
    (RtpCodecParameters.mimeType (GetCodecForEncoding (rtpParameters data))) = true ->
  GetEncodingContext data
    (RtpCodecParameters.mimeType (GetCodecForEncoding (rtpParameters data)))
    (RtpEncodingParameters.spatialLayers (encodings_0 (rtpParameters data)))
    (RtpEncodingParameters.temporalLayers (encodings_0 (rtpParameters data)))
    = Some context ->
  let c' := constructed data s t context c in
  construct data c = Done tt c' [] /\
  producerRtpStreams c' = replicate (length (consumableRtpEncodings c)) None /\
  (forall ssrc,
     ssrc ∈ consumableRtpEncodings c <-> is_Some (mapMappedSsrcSpatialLayer c' !! ssrc)) /\
  mappedInRange c'.
Proof.
  intros Hmany Hlayers Hmap Hslots Hpreferred Hvalid Hcontext c'.
  pose proof (construct_run data c ltac:(lia) Hlayers) as Hrun. cbv zeta in Hrun.
  rewrite Hpreferred, Hvalid, Hcontext in Hrun.
  assert (Hstreams : producerRtpStreams c'
                     = replicate (length (consumableRtpEncodings c)) None).
  { subst c'. cbn. rewrite Hslots. apply app_nil_r. }
  assert (Hmapped : mapMappedSsrcSpatialLayer c'
                    = fillMapMappedSsrcSpatialLayer (consumableRtpEncodings c) 0 ∅).
  { subst c'. cbn. rewrite Hmap. reflexivity. }
  split; [exact Hrun |]. split; [exact Hstreams |]. split.
  - intros ssrc. rewrite Hmapped. split.
    + intros Hin.
      destruct (fillMapMappedSsrcSpatialLayer_mapped _ ssrc Hin 0 ∅) as (i & _ & ->).
      eexists. reflexivity.
    + intros [layer Hlayer].
      destruct (decide (ssrc ∈ consumableRtpEncodings c)) as [Hin | Hnot]; [exact Hin |].
      rewrite fillMapMappedSsrcSpatialLayer_other in Hlayer by exact Hnot.
      rewrite lookup_empty in Hlayer. discriminate.
  - intros ssrc layer Hlayer. rewrite Hmapped in Hlayer.
    apply fillMapMappedSsrcSpatialLayer_inv in Hlayer.
    destruct Hlayer as [Hlayer | (i & Hi & ->)];
      [rewrite lookup_empty in Hlayer; discriminate |].
    pose proof (lookup_lt_Some _ _ _ Hi) as Hlt.
    rewrite i16_id by (unfold Int.isI16; lia).
    change (0 + Z.of_nat i) with (Z.of_nat i).
    unfold slotAt. rewrite Hstreams.
    destruct (Z.of_nat i <? 0) eqn:Hneg; [apply Z.ltb_lt in Hneg; lia |].
    rewrite Nat2Z.id. split; [| exact Hi].
    exists None. apply lookup_replicate. split; [reflexivity | exact Hlt].
Qed.

(** X28.  The preferred layers set by the constructor (lines 48-82), for
    more than one consumable encoding, as many as spatial layers, and at
    most 2^15 spatial and temporal layers: without a [preferredLayers]
    object they are the highest layers of the encoding; with one, asking
    for layers below 2^15, each is the layer asked for or the highest one,
    whichever is lower, and the temporal layer is the highest one when none
    is asked for.  This holds whether the constructor returns or throws
    afterwards. *)
Theorem construct_preferred data (c : Consumer) :
  1 < Z.of_nat (length (consumableRtpEncodings c)) <= 2 ^ 15 ->
  RtpEncodingParameters.spatialLayers (encodings_0 (rtpParameters data))
    = Z.of_nat (length (consumableRtpEncodings c)) ->
  0 <= RtpEncodingParameters.temporalLayers (encodings_0 (rtpParameters data)) <= 2 ^ 15 ->
  let spatialLayers := RtpEncodingParameters.spatialLayers (encodings_0 (rtpParameters data)) in
  let temporalLayers := RtpEncodingParameters.temporalLayers (encodings_0 (rtpParameters data)) in
  let c' := finalState (construct data c) in
  match data_preferredLayers data with
  | None =>
      preferredSpatialLayer c' = spatialLayers - 1 /\
      preferredTemporalLayer c' = temporalLayers - 1
  | Some (jsonSpatialLayer, jsonTemporalLayer) =>
      forall spatial,
        asUnsigned jsonSpatialLayer = Some spatial -> 0 <= spatial < 2 ^ 15 ->
        preferredSpatialLayer c' = Z.min spatial (spatialLayers - 1) /\
        match asUnsigned jsonTemporalLayer with
        | Some temporal =>
            0 <= temporal < 2 ^ 15 ->
            preferredTemporalLayer c' = Z.min temporal (temporalLayers - 1)
        | None => preferredTemporalLayer c' = temporalLayers - 1
        end
  end.
Proof.
  intros Hmany Hlayers Htemporal spatialLayers temporalLayers c'.
  pose proof (construct_run data c ltac:(lia) Hlayers) as Hrun. cbv zeta in Hrun.
  assert (Hstored : forall s t,
             initialPreferredLayers data = Some (s, t) ->
             preferredSpatialLayer c' = s /\ preferredTemporalLayer c' = t).
  { intros s t Hinitial. rewrite Hinitial in Hrun. subst c'.
    destruct (IsValidTypeForCodec data _).
    - destruct (GetEncodingContext data _ _ _).
      + rewrite Hrun. split; reflexivity.
      + destruct Hrun as (x & -> & Hx). exact Hx.
    - destruct Hrun as (x & -> & Hx). exact Hx. }
  unfold initialPreferredLayers in Hstored. fold spatialLayers temporalLayers in Hstored.
  destruct (data_preferredLayers data) as [[jsonSpatialLayer jsonTemporalLayer] |].
  - intros spatial Hspatial Hrange. rewrite Hspatial in Hstored.
    destruct (Hstored _ _ eq_refl) as [Hs Ht]. rewrite Hs, Ht.
    split; [apply clampLayer_min; subst spatialLayers; lia |].
    destruct (asUnsigned jsonTemporalLayer) as [temporal |].
    + intros Hlow. apply clampLayer_min; lia.
    + apply i16_id. unfold Int.isI16. lia.
  - destruct (Hstored _ _ eq_refl) as [Hs Ht]. rewrite Hs, Ht.
    split; apply i16_id; unfold Int.isI16; subst spatialLayers; lia.
Qed.

(** X29.  The type errors of the constructor (lines 27-28, 33-36, 54-57,
    92-96): it throws with one consumable encoding or none, with a number
    of spatial layers other than the number of consumable encodings, with a
    [preferredLayers] object that has no unsigned [spatialLayer], and with
    a codec that is not valid for simulcast. *)
Theorem construct_throws data (c : Consumer) :
  rejected data c ->
  exists c', construct data c = Stop TypeError c' [].
Proof.
  intros Hrejected.
  destruct (Z.of_nat (length (consumableRtpEncodings c)) <=? 1) eqn:Hfew.
  { exists c. unfold construct. rewrite bind_get, Hfew. reflexivity. }
  apply Z.leb_gt in Hfew.
  destruct (RtpEncodingParameters.spatialLayers (encodings_0 (rtpParameters data))
            =? Z.of_nat (length (consumableRtpEncodings c))) eqn:Hlayers.
  2: { exists c. unfold construct.
       rewrite bind_get, (proj2 (Z.leb_gt _ _) Hfew). cbv zeta. rewrite Hlayers.
       reflexivity. }
  apply Z.eqb_eq in Hlayers.
  pose proof (construct_run data c Hfew Hlayers) as Hrun. cbv zeta in Hrun.
  destruct Hrejected as [Hone | [Hother | [Hnone | Hinvalid]]]; [lia | contradiction | |].
  - rewrite Hnone in Hrun. exact Hrun.
  - destruct (initialPreferredLayers data) as [[s t] |]; [| exact Hrun].
    rewrite Hinvalid in Hrun. destruct Hrun as (c' & Hrun & _). eauto.
Qed.

(** ** The setup of the send stream *)

Lemma withFeedback_flags fb params :
  Params.useNack (withFeedback fb params) = Params.useNack params || nackFeedback fb /\
  Params.usePli (withFeedback fb params) = Params.usePli params || pliFeedback fb /\
  Params.useFir (withFeedback fb params) = Params.useFir params || firFeedback fb /\
  Params.useDtx (withFeedback fb params) = Params.useDtx params /\
  Params.useInBandFec (withFeedback fb params) = Params.useInBandFec params.
Proof.
  unfold withFeedback, nackFeedback, pliFeedback, firFeedback.
  destruct params as [ssrc pt mime rate cname sl tl fec dtx nack pli fir].
  cbn [Params.useNack Params.usePli Params.useFir Params.useDtx Params.useInBandFec].
  destruct (String.eqb (RtcpFeedback.type fb) "nack") eqn:Htype.
  - apply String.eqb_eq in Htype. rewrite Htype.
    change (String.eqb "nack" "ccm") with false.
    destruct (String.eqb (RtcpFeedback.parameter fb) EmptyString) eqn:Hparam.
    + apply String.eqb_eq in Hparam. rewrite Hparam.
      change (String.eqb EmptyString "pli") with false.
      destruct nack, pli, fir; cbn; repeat split; reflexivity.
    + destruct (String.eqb (RtcpFeedback.parameter fb) "pli");
        destruct nack, pli, fir; cbn; repeat split; reflexivity.
  - destruct (String.eqb (RtcpFeedback.type fb) "ccm");
      destruct (String.eqb (RtcpFeedback.parameter fb) "fir");
      destruct nack, pli, fir; cbn; repeat split; reflexivity.
Qed.

Lemma feedbackLoop_flags rtcpFeedback :
  forall params,
    Params.useNack (feedbackLoop rtcpFeedback params)
      = Params.useNack params || existsb nackFeedback rtcpFeedback /\
    Params.usePli (feedbackLoop rtcpFeedback params)
      = Params.usePli params || existsb pliFeedback rtcpFeedback /\
    Params.useFir (feedbackLoop rtcpFeedback params)
      = Params.useFir params || existsb firFeedback rtcpFeedback /\
    Params.useDtx (feedbackLoop rtcpFeedback params) = Params.useDtx params /\
    Params.useInBandFec (feedbackLoop rtcpFeedback params) = Params.useInBandFec params.
Proof.
  induction rtcpFeedback as [| fb rest IH]; intros params; cbn [feedbackLoop existsb].
  - rewrite !orb_false_r. repeat split; reflexivity.
  - destruct (IH (withFeedback fb params)) as (Hnack & Hpli & Hfir & Hdtx & Hfec).
    destruct (withFeedback_flags fb params) as (Hnack' & Hpli' & Hfir' & Hdtx' & Hfec').
    rewrite Hnack, Hpli, Hfir, Hdtx, Hfec, Hnack', Hpli', Hfir', Hdtx', Hfec'.
    rewrite !orb_assoc. repeat split; reflexivity.
Qed.

(** X30.  [CreateRtpStream] (lines 1147-1228) on default parameters whose
    flags are all unset: NACK, PLI and FIR are used exactly when the codec
    has the feedback [nack], [nack pli] and [ccm fir], in whatever order
    and however often the entries come; DTX is used when the codec
    parameter [usedtx] is 1 or the encoding asks for it, in-band FEC when
    [useinbandfec] is 1; the retransmission buffer has 600 entries with
    NACK and none without. *)
Theorem CreateRtpStream_setup defaults rtpParameters paused producerPaused :
  Params.useNack defaults = false -> Params.usePli defaults = false ->
  Params.useFir defaults = false -> Params.useDtx defaults = false ->
  Params.useInBandFec defaults = false ->
  let mediaCodec := GetCodecForEncoding rtpParameters in
  let setup := CreateRtpStream defaults rtpParameters paused producerPaused in
  Params.useNack (setupParams setup)
    = existsb nackFeedback (RtpCodecParameters.rtcpFeedback mediaCodec) /\
  Params.usePli (setupParams setup)
    = existsb pliFeedback (RtpCodecParameters.rtcpFeedback mediaCodec) /\
  Params.useFir (setupParams setup)
    = existsb firFeedback (RtpCodecParameters.rtcpFeedback mediaCodec) /\
  Params.useDtx (setupParams setup)
    = enabled mediaCodec "usedtx" || RtpEncodingParameters.dtx (encodings_0 rtpParameters) /\
  Params.useInBandFec (setupParams setup) = enabled mediaCodec "useinbandfec" /\
  setupBufferSize setup
    = (if existsb nackFeedback (RtpCodecParameters.rtcpFeedback mediaCodec)
       then 600 else 0).
Proof.
  intros Hnack Hpli Hfir Hdtx Hfec mediaCodec setup.
  subst setup. unfold CreateRtpStream. fold mediaCodec. cbv zeta.
  cbn [setupParams setupBufferSize].
  match goal with
  | |- context [feedbackLoop ?fbs ?p] =>
      destruct (feedbackLoop_flags fbs p) as (Hn & Hp & Hf & Hd & Hb);
      set (params := p) in *
  end.
  rewrite Hn, Hp, Hf, Hd, Hb.
  assert (Hflags : Params.useNack params = false /\ Params.usePli params = false /\
                   Params.useFir params = false /\
                   Params.useDtx params
                     = enabled mediaCodec "usedtx"
                       || RtpEncodingParameters.dtx (encodings_0 rtpParameters) /\
                   Params.useInBandFec params = enabled mediaCodec "useinbandfec").
  { subst params. unfold enabled.
    destruct (RtpCodecParameters.parameters mediaCodec "useinbandfec") as [fec |];
      [destruct (fec =? 1) |];
      (destruct (RtpCodecParameters.parameters mediaCodec "usedtx") as [dtx |];
       [destruct (dtx =? 1) |]);
      destruct (RtpEncodingParameters.dtx (encodings_0 rtpParameters));
      cbn; rewrite ?Hnack, ?Hpli, ?Hfir, ?Hdtx, ?Hfec; repeat split; reflexivity. }
  destruct Hflags as (-> & -> & -> & -> & ->). cbn [orb].
  repeat split; reflexivity.
Qed.

(** ** Mapped ssrcs and producer slots *)

Lemma storeProducerRtpStream_keeps_mappedInRange rtpStream mappedSsrc :
  keeps mappedInRange (storeProducerRtpStream rtpStream mappedSsrc).
Proof.
  apply keeps_intro. intros c Hc. unfold storeProducerRtpStream.
  rewrite bind_get.
  destruct (mapMappedSsrcSpatialLayer c !! mappedSsrc) as [layer |]; [| exact Hc].
  unfold vectorIndex.
  destruct (if layer <? 0 then None else producerRtpStreams c !! Z.to_nat layer)
    as [slot |]; [| exact Hc].
  rewrite bind_ret. cbn.
  intros ssrc s Hs. destruct (Hc ssrc s Hs) as [Hslot Hencoding].
  split; [| exact Hencoding].
  unfold slotAt in *. cbn. destruct (s <? 0); [exact Hslot |].
  apply lookup_lt_is_Some. rewrite length_insert. apply lookup_lt_is_Some. exact Hslot.
Qed.

Lemma perform_keeps_mappedInRange env op : keeps mappedInRange (perform env op).
Proof.
  pose proof storeProducerRtpStream_keeps_mappedInRange as Hstore.
  assert (Hupdate : forall s t, keeps mappedInRange (UpdateTargetLayers s t)).
  { intros s t. unfold UpdateTargetLayers. keeps_walk. }
  assert (Hmay : forall force, keeps mappedInRange (MayChangeLayers env force)).
  { intros force. unfold MayChangeLayers. keeps_walk. }
  assert (Htemporal : forall stream spatialLayer producerScore virtualBitrate remaining
                        temporalLayer usedBitrate,
             keeps mappedInRange
               (useTemporalLoop stream spatialLayer producerScore virtualBitrate
                  remaining temporalLayer usedBitrate)).
  { intros stream spatialLayer producerScore virtualBitrate remaining.
    induction remaining as [| remaining IH]; intros temporalLayer usedBitrate; simpl;
      keeps_walk. }
  assert (Hspatial : forall virtualBitrate slots sIdx usedBitrate maxProducerScore,
             keeps mappedInRange
               (useSpatialLoop env virtualBitrate slots sIdx usedBitrate maxProducerScore)).
  { intros virtualBitrate slots.
    induction slots as [| slot rest IH]; intros sIdx usedBitrate maxProducerScore; simpl;
      keeps_walk. }
  assert (Hswitch : forall packet s, keeps mappedInRange (switchCheck env packet s)).
  { intros packet s. unfold switchCheck. keeps_walk. }
  assert (Hsync : forall packet s, keeps mappedInRange (syncStream env packet s)).
  { intros packet s. unfold syncStream. keeps_walk. }
  assert (Hrewrite : forall packet, keeps mappedInRange (rewriteTimestamp packet)).
  { intros packet. unfold rewriteTimestamp. keeps_walk. }
  destruct op; simpl; try apply keeps_discard;
    try solve [apply readOnly_keeps; auto with constMethods].
  all: unfold HandleRequest, ProducerRtpStream, ProducerNewRtpStream,
         ProducerRtpStreamScore, ProducerRtcpSenderReport, UseAvailableBitrate,
         useAvailableScan, IncreaseTemporalLayer, ApplyLayers, SendRtpPacket, GetRtcp,
         NeedWorstRemoteFractionLost, ReceiveNack,
         ReceiveKeyFrameRequest, ReceiveRtcpReceiverReport, GetTransmissionRate,
         UserOnTransportConnected, UserOnTransportDisconnected, UserOnPaused,
         UserOnResumed, OnRtpStreamScore, OnRtpStreamRetransmitRtpPacket;
       keeps_walk.
Qed.

(** X26.  The writes of [producerRtpStreams] (lines 269, 282): along any run
    of operations every mapped ssrc stays mapped to a spatial layer that
    has a slot in [producerRtpStreams] and whose consumable encoding has
    that ssrc, as the constructor leaves it; so that [ProducerRtpStream]
    and [ProducerNewRtpStream] find the slot of every mapped ssrc. *)
Theorem mappedInRange_run ops (c : Consumer) :
  mappedInRange c -> mappedInRange (run ops c).
Proof. apply run_keeps. intros env op. apply perform_keeps_mappedInRange. Qed.

End Properties.

(** * Worked examples *)

Module Examples.

Import Scenario.

Abbreviation forwarding := (collaborators forwardAll).
Abbreviation rejecting := (collaborators rejectAll).

(** Scenario 1 of the spec.  Once the transport is connected, layers 2:2
    are targeted, layer 2 becomes the timestamp reference and a key frame is
    requested on its mapped ssrc; the key frame of layer 2 then makes it the
    current layer and goes out with its own timestamp. *)
Example cold_start :
  let connected := after healthy opUserOnTransportConnected coldStart in
  (targetSpatialLayer connected, targetTemporalLayer connected) = (2, 2) /\
  tsReferenceSpatialLayer connected = 2 /\
  currentSpatialLayer connected = -1 /\
  In (OnConsumerKeyFrameRequested 102)
     (logOf (UserOnTransportConnected healthy coldStart)) /\
  currentSpatialLayer (finalState (SendRtpPacket healthy (rtpPacket 102 1 3000 true) connected))
    = 2 /\
  In (RtpStreamSend_ReceivePacket (SetSsrc 7 (rtpPacket 102 1 3000 true)))
     (logOf (SendRtpPacket healthy (rtpPacket 102 1 3000 true) connected)).
Proof.
  vm_compute. repeat split.
  - right. right. right. right. left. reflexivity.
  - right. right. right. left. reflexivity.
Qed.

(** Scenario 5 of the spec.  When every producer score is 0 the target and
    current layers are unset, a null [layerschange] is emitted and packets
    are dropped from then on. *)
Example loss_of_signal :
  let lost := after allDead (opProducerRtpStreamScore (Some 0%nat) 0 10) (steady forwardAll) in
  (targetSpatialLayer lost, targetTemporalLayer lost, currentSpatialLayer lost)
    = (-1, -1, -1) /\
  In (EmitLayersChangeEvent None)
     (logOf (ProducerRtpStreamScore allDead (Some 0%nat) 0 10 (steady forwardAll))) /\
  SendRtpPacket allDead latePacket lost = Done latePacket lost [Call mSendRtpPacket].
Proof.
  vm_compute. repeat split.
  right. right. right. right. left. reflexivity.
Qed.

(** Scenario 3 of the spec: 200 kbps with no loss make a virtual bitrate of
    216 kbps; layer 0:1 at 180 kbps fits, layer 0:2 at 260 kbps does not. *)
Example UseAvailableBitrate_starvation :
  valueOf (UseAvailableBitrate onlyLowLayer 200000 true starting) = Some 180000 /\
  provisionalTargetSpatialLayer
    (finalState (UseAvailableBitrate onlyLowLayer 200000 true starting)) = 0 /\
  provisionalTargetTemporalLayer
    (finalState (UseAvailableBitrate onlyLowLayer 200000 true starting)) = 1.
Proof. vm_compute. repeat split. Qed.

(** Scenario 4 of the spec.  A key frame of the targeted layer 1 completes
    the switch.  The sender reports put layer 1 one millisecond (90 ticks)
    after the reference layer 0, so [tsOffset] is -90 and the timestamp 89410
    of the key frame becomes 89500, below the 90000 already sent: it goes out
    as 90001 and the extra offset 501 is stored for it. *)
Example SendRtpPacket_switch :
  let outcome := SendRtpPacket healthy (rtpPacket 101 9 89410 true) switching in
  currentSpatialLayer (finalState outcome) = 1 /\
  syncRequired (finalState outcome) = false /\
  tsOffset (finalState outcome) = Int.u32 (-90) /\
  tsExtraOffsets (finalState outcome) !! 89410 = Some 501 /\
  In (RtpStreamSend_ReceivePacket
        (SetTimestamp 90001 (SetSsrc 7 (rtpPacket 101 9 89410 true))))
     (logOf outcome).
Proof. vm_compute. repeat split. right. right. right. left. reflexivity. Qed.

(** *** Outbound timestamps (C1) *)

Lemma latePacket_forwarded : forwardedInSync healthy (steady forwardAll) latePacket.
Proof.
  unfold forwardedInSync.
  split; [reflexivity |].
  split; [vm_compute; discriminate |].
  split; [change (96 ∈ ({[ 96 ]} : gset Z)); apply elem_of_singleton_2; reflexivity |].
  split; [vm_compute; reflexivity |].
  split; reflexivity.
Defined.



(** *** The packet after the call (C2) *)

(** Neither stand-in touches the payload of a packet it rejects. *)
Lemma forwarding_rejectsUntouched : @rejectsUntouched forwarding.
Proof. intros context p context' payload Hprocess. discriminate Hprocess. Defined.

Lemma rejecting_rejectsUntouched : @rejectsUntouched rejecting.
Proof.
  intros context p context' payload Hprocess.
  injection Hprocess as _ <-. reflexivity.
Defined.


(** *** Bitrate priority (C4) *)

(** Against C4 as stated: with layer 0 preferred and only layer 2 scoring,
    the priority is 3, above [preferredSpatialLayer + 1]. *)
Lemma GetBitratePriority_not_capped :
  externallyManagedBitrate preferringLowest = true /\
  scoring onlyTopLayer preferringLowest 2 /\
  GetBitratePriority onlyTopLayer preferringLowest = Done 3 preferringLowest [] /\
  ~ 3 <= preferredSpatialLayer preferringLowest + 1.
Proof.
  split; [reflexivity |].
  split; [exists 2%nat; split; [reflexivity | discriminate] |].
  split; [reflexivity |].
  vm_compute. intros Hle. apply Hle. reflexivity.
Qed.

Lemma GetBitratePriority_spec_witness :
  externallyManagedBitrate preferringLowest = true /\
  Z.of_nat (length (producerRtpStreams preferringLowest)) <= 32767 /\
  GetBitratePriority onlyTopLayer preferringLowest = Done (2 + 1) preferringLowest [].
Proof.
  split; [reflexivity |]. split; [vm_compute; discriminate |].
  refine (proj2 (proj2 (proj2
            (@GetBitratePriority_spec forwarding onlyTopLayer preferringLowest
               eq_refl _))) eq_refl 2 _ _ _).
  - vm_compute. discriminate.
  - exists 2%nat. split; [reflexivity | discriminate].
  - reflexivity.
  - intros s' (q & Hq & Hscore). unfold holdsStream, slotAt in Hq.
    destruct (s' <? 0) eqn:Hneg; [discriminate |]. apply Z.ltb_ge in Hneg.
    destruct (Z.to_nat s') as [| [| [| n]]] eqn:Hs'; simpl in Hq;
      try discriminate; lia.
Defined.

(** *** The virtual bitrate (C3) *)

(** Against C3 as stated: [virtualBitrate] is a [uint32_t].  Without loss a
    bitrate of 1 gives 1, not 1.08; with half of the packets lost a bitrate
    of 1001 gives 750, not 750.75. *)
Lemma virtualBitrateFor_not_scaled :
  ((@GetLossPercentage forwarding (rtpStream starting) < 2)%Q /\
   virtualBitrateFor starting 1 true = 1 /\
   ~ (inject_Z (virtualBitrateFor starting 1 true) == (108 # 100) * inject_Z 1)%Q) /\
  ((10 < @GetLossPercentage forwarding (rtpStream lossy))%Q /\
   virtualBitrateFor lossy 1001 true = 750 /\
   ~ (inject_Z (virtualBitrateFor lossy 1001 true)
      == (1 - (1 # 2) * (@GetLossPercentage forwarding (rtpStream lossy) / 100))
         * inject_Z 1001)%Q).
Proof.
  split; (split; [reflexivity |]); (split; [vm_compute; reflexivity |]);
    vm_compute; discriminate.
Qed.

(** A bitrate of 200000 is raised to 216000 without loss; with half of the
    packets lost, so that [lossPercentage / 100] is 0.5 in double, it is
    lowered to 150000. *)
Lemma virtualBitrateFor_considering_loss_witness :
  0 <= 200000 < 2 ^ 32 /\
  virtualBitrateFor starting 200000 true = Qfloor ((108 # 100) * inject_Z 200000) /\
  Qfloor ((108 # 100) * inject_Z 200000) = 216000 /\
  (Double.value (lossPercentageOver100 50) == 1 # 2)%Q /\
  virtualBitrateFor lossy 200000 true = 150000 /\
  Qfloor ((1 - Double.value (lossPercentageOver100 50) / 2) * inject_Z 200000)
    = 150000 /\
  0 <= virtualBitrateFor lossy 200000 true <= 200000 /\
  Qfloor ((1 - Double.value (lossPercentageOver100 50) / 2) * inject_Z 200000) - 1
    <= virtualBitrateFor lossy 200000 true
    <= Qfloor ((1 - Double.value (lossPercentageOver100 50) / 2)
               * inject_Z 200000) + 1.
Proof.
  assert (Hrange : 0 <= 200000 < 2 ^ 32) by (split; [discriminate | reflexivity]).
  split; [exact Hrange |].
  split.
  { apply (proj1 (@virtualBitrateFor_considering_loss forwarding doubles starting 200000 Hrange)).
    - reflexivity.
    - discriminate. }
  split; [vm_compute; reflexivity |].
  split; [vm_compute; reflexivity |].
  split; [vm_compute; reflexivity |].
  split; [vm_compute; reflexivity |].
  apply (proj2 (proj2 (@virtualBitrateFor_considering_loss forwarding doubles lossy 200000 Hrange))).
  - reflexivity.
  - vm_compute. discriminate.
  - vm_compute. discriminate.
Defined.

(** *** Switch eligibility (C5) *)

Lemma CanSwitchToSpatialLayer_iff_witness :
  holdsStream switching 1 1%nat /\
  (CanSwitchToSpatialLayer healthy 1 switching = Done true switching [] <->
     tsReferenceSpatialLayer switching = -1 \/
     1 = tsReferenceSpatialLayer switching \/
     (exists r, holdsStream switching (tsReferenceSpatialLayer switching) r /\
                hasSenderReport healthy r /\ hasSenderReport healthy 1%nat)) /\
  (tsReferenceSpatialLayer switching = -1 \/
   (exists r, holdsStream switching (tsReferenceSpatialLayer switching) r) ->
   exists b, CanSwitchToSpatialLayer healthy 1 switching = Done b switching []).
Proof.
  split; [reflexivity |].
  apply (@CanSwitchToSpatialLayer_iff forwarding healthy switching 1 1%nat).
  reflexivity.
Defined.

(** *** Use of the available bitrate (C6) *)

Lemma starting_referenceReady : referenceReady starting.
Proof. left. reflexivity. Defined.

Lemma UseAvailableBitrate_return_witness :
  externallyManagedBitrate starting = true /\
  Consumer_IsActive onlyLowLayer = true /\
  referenceReady starting /\
  Z.of_nat (length (producerRtpStreams starting)) <= 32767 /\
  exists u c' l r,
    useAvailableScan onlyLowLayer (virtualBitrateFor starting 200000 true)
      (set_provisionalTargetTemporalLayer (-1)
         (set_provisionalTargetSpatialLayer (-1) starting)) = Done u c' l /\
    UseAvailableBitrate onlyLowLayer 200000 true starting
      = Done r c' (Call mUseAvailableBitrate :: l) /\
    (u <= 200000 -> r = u) /\
    (200000 < u <= virtualBitrateFor starting 200000 true -> r = 200000) /\
    (200000 < u -> virtualBitrateFor starting 200000 true < u -> r = u) /\
    (0 <= virtualBitrateFor starting 200000 true ->
     u <= virtualBitrateFor starting 200000 true).
Proof.
  split; [reflexivity |]. split; [reflexivity |].
  split; [exact starting_referenceReady |].
  split; [vm_compute; discriminate |].
  apply (@UseAvailableBitrate_return forwarding doubles onlyLowLayer starting 200000 true).
  - reflexivity.
  - reflexivity.
  - exact starting_referenceReady.
  - vm_compute. discriminate.
Defined.

(** *** No current layer without a target layer (C7) *)

Lemma switching_noTargetNoCurrent : noTargetNoCurrent switching.
Proof. unfold noTargetNoCurrent. vm_compute. discriminate. Defined.

Lemma noTargetNoCurrent_preserved_witness :
  noTargetNoCurrent switching /\
  noTargetNoCurrent (after healthy opUserOnPaused switching) /\
  targetSpatialLayer (after healthy opUserOnPaused switching) = -1.
Proof.
  split; [exact switching_noTargetNoCurrent |].
  split; [| reflexivity].
  apply (@noTargetNoCurrent_preserved forwarding doubles healthy opUserOnPaused switching).
  exact switching_noTargetNoCurrent.
Defined.

(** *** Preferred layers (C9) *)

Lemma HandleRequest_same_preferred_layers_witness :
  methodId samePreferredLayers = CONSUMER_SET_PREFERRED_LAYERS /\
  requestedSpatialLayer switching samePreferredLayers
    = Some (preferredSpatialLayer switching) /\
  requestedTemporalLayer switching samePreferredLayers
    = preferredTemporalLayer switching /\
  HandleRequest healthy samePreferredLayers switching
    = Done tt switching [Call mHandleRequest; RequestAccept] /\
  ~ In (Call mMayChangeLayers) (logOf (HandleRequest healthy samePreferredLayers switching)) /\
  forall mappedSsrc,
    ~ In (OnConsumerKeyFrameRequested mappedSsrc)
        (logOf (HandleRequest healthy samePreferredLayers switching)).
Proof.
  split; [reflexivity |]. split; [reflexivity |]. split; [reflexivity |].
  apply (@HandleRequest_same_preferred_layers forwarding healthy switching
           samePreferredLayers); reflexivity.
Defined.

(** *** Commit of the provisional layers (C10) *)

Lemma ApplyLayers_frame_witness :
  externallyManagedBitrate switching = true /\
  noProvisional (finalState (ApplyLayers healthy switching)) /\
  targetSpatialLayer (finalState (ApplyLayers healthy switching)) = -1.
Proof.
  split; [reflexivity |].
  split; [| reflexivity].
  exact (proj1 (@ApplyLayers_frame forwarding healthy switching eq_refl)).
Defined.

(** *** Packets that are not forwarded *)

Lemma topLayerPacket_dropped : droppedUntouched healthy switching topLayerPacket.
Proof.
  right. right. right. exists 2.
  split; [vm_compute; reflexivity |].
  left. split; [vm_compute; discriminate |]. left. vm_compute. discriminate.
Defined.

Lemma SendRtpPacket_dropped_witness :
  droppedUntouched healthy switching topLayerPacket /\
  SendRtpPacket healthy topLayerPacket switching
    = Done topLayerPacket switching [Call mSendRtpPacket].
Proof.
  split; [exact topLayerPacket_dropped |].
  exact (@SendRtpPacket_dropped forwarding healthy switching topLayerPacket
           topLayerPacket_dropped).
Defined.

Lemma supported_payload_type (c : @Consumer forwarding) :
  supportedCodecPayloadTypes c = {[ 96 ]} -> 96 ∈ supportedCodecPayloadTypes c.
Proof. intros ->. apply elem_of_singleton_2. reflexivity. Defined.

Lemma SendRtpPacket_unknown_ssrc_witness :
  IsActive healthy = true /\
  targetTemporalLayer (steady forwardAll) <> -1 /\
  pktPayloadType strangerPacket ∈ supportedCodecPayloadTypes (steady forwardAll) /\
  mapMappedSsrcSpatialLayer (steady forwardAll) !! pktSsrc strangerPacket = None /\
  SendRtpPacket healthy strangerPacket (steady forwardAll)
    = Stop OutOfRange (steady forwardAll) [Call mSendRtpPacket].
Proof.
  assert (Htarget : targetTemporalLayer (steady forwardAll) <> -1)
    by (vm_compute; discriminate).
  assert (Htype : pktPayloadType strangerPacket
                  ∈ supportedCodecPayloadTypes (steady forwardAll))
    by (apply (supported_payload_type (steady forwardAll)); reflexivity).
  assert (Hnone : mapMappedSsrcSpatialLayer (steady forwardAll) !! pktSsrc strangerPacket
                  = None) by (vm_compute; reflexivity).
  split; [reflexivity |]. split; [exact Htarget |]. split; [exact Htype |].
  split; [exact Hnone |].
  exact (@SendRtpPacket_unknown_ssrc forwarding healthy (steady forwardAll) strangerPacket
           eq_refl Htarget Htype Hnone).
Defined.

Lemma SendRtpPacket_hand_over_witness :
  In (RtpStreamSend_ReceivePacket (SetSsrc 7 latePacket))
    (logOf (SendRtpPacket healthy latePacket (steady forwardAll))) /\
  forwardable healthy (steady forwardAll) latePacket.
Proof.
  assert (Hin : In (RtpStreamSend_ReceivePacket (SetSsrc 7 latePacket))
                  (logOf (SendRtpPacket healthy latePacket (steady forwardAll))))
    by (vm_compute; right; left; reflexivity).
  split; [exact Hin |].
  exact (@SendRtpPacket_hand_over forwarding healthy (steady forwardAll) latePacket _ Hin).
Defined.

(** *** Layers in use *)

Lemma tsReferenceSpatialLayer_set_once_witness :
  tsReferenceSpatialLayer (steady forwardAll) <> -1 /\
  tsReferenceSpatialLayer (run pauseAndResume (steady forwardAll))
    = tsReferenceSpatialLayer (steady forwardAll).
Proof.
  assert (Hset : tsReferenceSpatialLayer (steady forwardAll) <> -1)
    by (vm_compute; discriminate).
  split; [exact Hset |].
  exact (@tsReferenceSpatialLayer_set_once forwarding doubles pauseAndResume (steady forwardAll)
           Hset).
Defined.

Lemma offsetStored_extraOffsetsCounted : extraOffsetsCounted offsetStored.
Proof. unfold extraOffsetsCounted. cbn. lia. Defined.

(** The stored extra offset has been applied to 200 packets; with the next
    one the count would pass 200, and the map is cleared. *)
Lemma tsExtraOffetPacketCount_reset_witness :
  extraOffsetsCounted offsetStored /\
  tsExtraOffetPacketCount (run latePackets offsetStored) = 200 /\
  tsExtraOffsets (run latePackets offsetStored) = {[ 500 := 501 ]} /\
  extraOffsetFor (run latePackets offsetStored) latePacket = 501 /\
  exists timestamp c',
    rewriteTimestamp latePacket (run latePackets offsetStored) = Done timestamp c' [] /\
    timestamp = 1001 /\
    tsExtraOffsets c' = ∅ /\ tsExtraOffetPacketCount c' = 0.
Proof.
  split; [exact offsetStored_extraOffsetsCounted |].
  assert (Hcount : tsExtraOffetPacketCount (run latePackets offsetStored) = 200)
    by (vm_compute; reflexivity).
  assert (Hmap : tsExtraOffsets (run latePackets offsetStored) = {[ 500 := 501 ]})
    by (vm_compute; reflexivity).
  assert (Hextra : extraOffsetFor (run latePackets offsetStored) latePacket = 501)
    by (vm_compute; reflexivity).
  split; [exact Hcount |]. split; [exact Hmap |]. split; [exact Hextra |].
  destruct (@tsExtraOffetPacketCount_reset forwarding doubles latePackets offsetStored latePacket
              offsetStored_extraOffsetsCounted)
    as (timestamp & c' & Hrun & _ & _ & Hrule).
  exists timestamp, c'. split; [exact Hrun |].
  assert (Hsome : tsExtraOffsets (run latePackets offsetStored) <> ∅).
  { rewrite Hmap. apply insert_non_empty. }
  destruct (Hrule Hsome) as [Htimestamp Hcleared].
  rewrite Hextra, Hcount in Hcleared. cbn in Hcleared.
  split; [| exact Hcleared].
  rewrite Htimestamp, Hextra. vm_compute. reflexivity.
Defined.

Lemma coldStart_unsetTogether : unsetTogether coldStart.
Proof. split; intros _; [split |]; reflexivity. Defined.

Lemma unsetTogether_run_witness :
  unsetTogether coldStart /\
  unsetTogether (run [(healthy, opUserOnTransportConnected)] coldStart) /\
  targetSpatialLayer (run [(healthy, opUserOnTransportConnected)] coldStart) = 2.
Proof.
  split; [exact coldStart_unsetTogether |].
  split; [| reflexivity].
  exact (@unsetTogether_run forwarding doubles [(healthy, opUserOnTransportConnected)] coldStart
           coldStart_unsetTogether).
Defined.

(** *** Target layers *)

Lemma coldStart_referenceReady : referenceReady coldStart.
Proof. left. reflexivity. Defined.

Lemma three_slots (c : @Consumer forwarding) :
  producerRtpStreams c = allStreams ->
  Z.of_nat (length (producerRtpStreams c)) <= 32767.
Proof. intros ->. cbn. lia. Defined.

Lemma RecalculateTargetLayers_choice_witness :
  referenceReady coldStart /\
  Z.of_nat (length (producerRtpStreams coldStart)) <= 32767 /\
  exists changed s t,
    RecalculateTargetLayers healthy coldStart = Done (changed, s, t) coldStart [] /\
    ((s = -1 /\ t = -1) \/
     (eligible healthy coldStart s /\
      (s = preferredSpatialLayer coldStart -> t = preferredTemporalLayer coldStart) /\
      (s < preferredSpatialLayer coldStart ->
       t = Int.i16 (GetTemporalLayers (rtpStream coldStart) - 1)) /\
      (preferredSpatialLayer coldStart < s -> t = 0))) /\
    (changed = false <->
     s = targetSpatialLayer coldStart /\ t = targetTemporalLayer coldStart).
Proof.
  split; [exact coldStart_referenceReady |].
  split; [exact (three_slots coldStart eq_refl) |].
  exact (@RecalculateTargetLayers_choice forwarding healthy coldStart
           coldStart_referenceReady (three_slots coldStart eq_refl)).
Defined.

Lemma MayChangeLayers_externally_managed_witness :
  externallyManagedBitrate starting = true /\
  finalState (MayChangeLayers healthy false starting) = starting /\
  forall e, In e (logOf (MayChangeLayers healthy false starting)) ->
    e = Call mMayChangeLayers \/ e = OnConsumerNeedBitrateChange.
Proof.
  split; [reflexivity |].
  exact (@MayChangeLayers_externally_managed forwarding healthy false starting eq_refl).
Defined.

Lemma coldStart_recalculated :
  RecalculateTargetLayers healthy coldStart = Done (true, 2, 2) coldStart [].
Proof. vm_compute. reflexivity. Defined.

Lemma MayChangeLayers_locally_managed_witness :
  externallyManagedBitrate coldStart = false /\
  RecalculateTargetLayers healthy coldStart = Done (true, 2, 2) coldStart [] /\
  targetSpatialLayer (finalState (MayChangeLayers healthy false coldStart)) = 2 /\
  targetTemporalLayer (finalState (MayChangeLayers healthy false coldStart)) = 2.
Proof.
  split; [reflexivity |]. split; [exact coldStart_recalculated |].
  exact (@MayChangeLayers_locally_managed forwarding healthy false coldStart true 2 2
           eq_refl coldStart_recalculated).
Defined.

(** *** Provisional layers *)

Lemma UseAvailableBitrate_allocates_witness :
  externallyManagedBitrate starting = true /\
  Consumer_IsActive onlyLowLayer = true /\
  referenceReady starting /\
  Z.of_nat (length (producerRtpStreams starting)) <= 32767 /\
  exists u c' l,
    UseAvailableBitrate onlyLowLayer 200000 true starting
      = Done (reshapeUsedBitrate u 200000 (virtualBitrateFor starting 200000 true)) c' l /\
    allocated onlyLowLayer (virtualBitrateFor starting 200000 true) u c'.
Proof.
  split; [reflexivity |]. split; [reflexivity |].
  split; [exact starting_referenceReady |].
  split; [exact (three_slots starting eq_refl) |].
  exact (@UseAvailableBitrate_allocates forwarding doubles onlyLowLayer starting 200000 true
           eq_refl eq_refl starting_referenceReady (three_slots starting eq_refl)).
Defined.

Lemma allocating_upgraded :
  IncreaseTemporalLayer onlyLowLayer 200000 false allocating
    = Done 80000 (set_provisionalTargetTemporalLayer 1 allocating)
        [Call mIncreaseTemporalLayer].
Proof. vm_compute. reflexivity. Defined.

Lemma IncreaseTemporalLayer_upgrade_witness :
  IncreaseTemporalLayer onlyLowLayer 200000 false allocating
    = Done 80000 (set_provisionalTargetTemporalLayer 1 allocating)
        [Call mIncreaseTemporalLayer] /\
  ((80000 = 0 /\ set_provisionalTargetTemporalLayer 1 allocating = allocating) \/
   exists q t,
     holdsStream allocating (provisionalTargetSpatialLayer allocating) q /\
     set_provisionalTargetTemporalLayer 1 allocating
       = set_provisionalTargetTemporalLayer t allocating /\
     Int.i16 (provisionalTargetTemporalLayer allocating + 1) <= t
       < RtpStream.GetTemporalLayers (producer onlyLowLayer q) /\
     (forall t', Int.i16 (provisionalTargetTemporalLayer allocating + 1) <= t' < t ->
        RtpStream.GetLayerBitrate (producer onlyLowLayer q) 0 t' = 0) /\
     ~ (preferredSpatialLayer allocating <= provisionalTargetSpatialLayer allocating /\
        preferredTemporalLayer allocating < t) /\
     RtpStream.GetLayerBitrate (producer onlyLowLayer q) 0 t <> 0 /\
     RtpStream.GetLayerBitrate (producer onlyLowLayer q) 0 t
       <= virtualBitrateFor allocating 200000 false /\
     80000 = Z.min (RtpStream.GetLayerBitrate (producer onlyLowLayer q) 0 t) 200000).
Proof.
  split; [exact allocating_upgraded |].
  exact (@IncreaseTemporalLayer_upgrade forwarding doubles onlyLowLayer allocating _ 200000 false
           80000 _ allocating_upgraded).
Defined.

Lemma allocating_provisional :
  provisionalTargetSpatialLayer allocating = -1 ->
  provisionalTargetTemporalLayer allocating = -1.
Proof. intros Hnone. vm_compute in Hnone. discriminate. Defined.

Lemma ApplyLayers_commits_witness :
  externallyManagedBitrate allocating = true /\
  Consumer_IsActive onlyLowLayer = true /\
  (provisionalTargetSpatialLayer allocating = -1 ->
   provisionalTargetTemporalLayer allocating = -1) /\
  targetSpatialLayer (finalState (ApplyLayers onlyLowLayer allocating))
    = provisionalTargetSpatialLayer allocating /\
  targetTemporalLayer (finalState (ApplyLayers onlyLowLayer allocating))
    = provisionalTargetTemporalLayer allocating.
Proof.
  split; [reflexivity |]. split; [reflexivity |].
  split; [exact allocating_provisional |].
  exact (@ApplyLayers_commits forwarding onlyLowLayer allocating eq_refl eq_refl
           allocating_provisional).
Defined.

(** *** Preferred layers of a request *)

Lemma up_to_three_layers : 0 <= 3 <= 2 ^ 15.
Proof. split; discriminate. Defined.

Lemma HandleRequest_clamps_witness :
  methodId tooHighLayer = CONSUMER_SET_PREFERRED_LAYERS /\
  asUnsigned (dataSpatialLayer tooHighLayer) = Some 5 /\
  0 <= 5 < 2 ^ 15 /\
  (forall temporal,
     asUnsigned (dataTemporalLayer tooHighLayer) = Some temporal ->
     0 <= temporal < 2 ^ 15) /\
  0 <= GetSpatialLayers (rtpStream (steady forwardAll)) <= 2 ^ 15 /\
  0 <= GetTemporalLayers (rtpStream (steady forwardAll)) <= 2 ^ 15 /\
  preferredSpatialLayer (finalState (HandleRequest healthy tooHighLayer (steady forwardAll)))
    = Z.min 5 (3 - 1) /\
  preferredTemporalLayer (finalState (HandleRequest healthy tooHighLayer (steady forwardAll)))
    = 3 - 1.
Proof.
  assert (Hspatial : 0 <= 5 < 2 ^ 15) by (split; [discriminate | reflexivity]).
  assert (Htemporal : forall temporal,
             asUnsigned (dataTemporalLayer tooHighLayer) = Some temporal ->
             0 <= temporal < 2 ^ 15) by (intros temporal Hsome; discriminate).
  split; [reflexivity |]. split; [reflexivity |]. split; [exact Hspatial |].
  split; [exact Htemporal |].
  split; [exact up_to_three_layers |]. split; [exact up_to_three_layers |].
  exact (@HandleRequest_clamps forwarding healthy (steady forwardAll) tooHighLayer 5
           eq_refl eq_refl Hspatial Htemporal up_to_three_layers up_to_three_layers).
Defined.

Lemma HandleRequest_wraps_witness :
  methodId hugeLayer = CONSUMER_SET_PREFERRED_LAYERS /\
  asUnsigned (dataSpatialLayer hugeLayer) = Some 65535 /\
  2 ^ 15 <= 65535 < 2 ^ 16 /\
  0 <= GetSpatialLayers (rtpStream (steady forwardAll)) /\
  preferredSpatialLayer (finalState (HandleRequest healthy hugeLayer (steady forwardAll)))
    = 65535 - 2 ^ 16.
Proof.
  assert (Hspatial : 2 ^ 15 <= 65535 < 2 ^ 16) by (split; [discriminate | reflexivity]).
  assert (Hlayers : 0 <= GetSpatialLayers (rtpStream (steady forwardAll)))
    by discriminate.
  split; [reflexivity |]. split; [reflexivity |]. split; [exact Hspatial |].
  split; [exact Hlayers |].
  exact (@HandleRequest_wraps forwarding healthy (steady forwardAll) hugeLayer 65535
           eq_refl eq_refl Hspatial Hlayers).
Defined.

Lemma HandleRequest_missing_spatialLayer_witness :
  methodId noLayer = CONSUMER_SET_PREFERRED_LAYERS /\
  asUnsigned (dataSpatialLayer noLayer) = None /\
  HandleRequest healthy noLayer (steady forwardAll)
    = Stop TypeError (steady forwardAll) [Call mHandleRequest].
Proof.
  split; [reflexivity |]. split; [reflexivity |].
  exact (@HandleRequest_missing_spatialLayer forwarding healthy (steady forwardAll) noLayer
           eq_refl eq_refl).
Defined.

(** *** Producer streams *)

Lemma steady_layer_1 : is_Some (slotAt (steady forwardAll) 1).
Proof. exists (Some 1%nat). reflexivity. Defined.

Lemma steady_maps_101 : mapMappedSsrcSpatialLayer (steady forwardAll) !! 101 = Some 1.
Proof. vm_compute. reflexivity. Defined.

Lemma ProducerRtpStream_stores_witness :
  mapMappedSsrcSpatialLayer (steady forwardAll) !! 101 = Some 1 /\
  is_Some (slotAt (steady forwardAll) 1) /\
  let c' :=
    set_producerRtpStreams
      (<[Z.to_nat 1 := Some 5%nat]> (producerRtpStreams (steady forwardAll)))
      (steady forwardAll) in
  ProducerRtpStream (Some 5%nat) 101 (steady forwardAll)
    = Done tt c' [Call mProducerRtpStream] /\
  slotAt c' 1 = Some (Some 5%nat) /\
  (forall s', s' <> 1 -> slotAt c' s' = slotAt (steady forwardAll) s') /\
  length (producerRtpStreams c') = length (producerRtpStreams (steady forwardAll)).
Proof.
  split; [exact steady_maps_101 |]. split; [exact steady_layer_1 |].
  exact (@ProducerRtpStream_stores forwarding (Some 5%nat) 101 (steady forwardAll) 1
           steady_maps_101 steady_layer_1).
Defined.

Lemma steady_mappedInRange : mappedInRange (steady forwardAll).
Proof.
  intros ssrc s Hs. unfold steady, consumer in Hs. cbn in Hs.
  repeat (apply lookup_insert_Some in Hs;
          destruct Hs as [[<- <-] | [_ Hs]];
          [split; [eexists; reflexivity | reflexivity] |]).
  apply lookup_singleton_Some in Hs. destruct Hs as [<- <-].
  split; [eexists; reflexivity | reflexivity].
Defined.

Lemma mappedInRange_run_witness :
  mappedInRange (steady forwardAll) /\
  mappedInRange
    (run [(healthy, opProducerRtpStream None 101); (healthy, opUserOnPaused)]
       (steady forwardAll)).
Proof.
  split; [exact steady_mappedInRange |].
  exact (@mappedInRange_run forwarding doubles
           [(healthy, opProducerRtpStream None 101); (healthy, opUserOnPaused)]
           (steady forwardAll) steady_mappedInRange).
Defined.

(** *** Timestamps *)

Lemma ntpTsOffset_difference_witness :
  0 <= 1000 < 2 ^ 63 /\ 0 <= 1001 < 2 ^ 63 /\
  - 2 ^ 63 <= (1001 - 1000) * 90000 < 2 ^ 63 /\
  ntpTsOffset 1000 90000 1001 90000 90000
    = Int.u32 (90000 - ((1001 - 1000) * 90000) ÷ 1000 - 90000) /\
  Int.u32 (90000 - ntpTsOffset 1000 90000 1001 90000 90000)
    = Int.u32 (90000 + ((1001 - 1000) * 90000) ÷ 1000).
Proof.
  assert (H1 : 0 <= 1000 < 2 ^ 63) by (split; [discriminate | reflexivity]).
  assert (H2 : 0 <= 1001 < 2 ^ 63) by (split; [discriminate | reflexivity]).
  assert (H3 : - 2 ^ 63 <= (1001 - 1000) * 90000 < 2 ^ 63)
    by (split; [discriminate | reflexivity]).
  split; [exact H1 |]. split; [exact H2 |]. split; [exact H3 |].
  exact (ntpTsOffset_difference 1000 90000 1001 90000 90000 H1 H2 H3).
Defined.

Lemma deltaFrames_waiting :
  forall env'' waiting,
    In (env'', opSendRtpPacket waiting) deltaFrames -> pktIsKeyFrame waiting = false.
Proof.
  intros env'' waiting [Hop | [Hop | [Hop | []]]];
    [injection Hop as _ <- | discriminate Hop | injection Hop as _ <-]; reflexivity.
Defined.

Lemma resumed_key_frame_forwarded :
  In (RtpStreamSend_ReceivePacket (SetSsrc 7 keyFrame))
    (logOf (SendRtpPacket healthy keyFrame
              (run deltaFrames (after healthy opUserOnResumed (steady forwardAll))))).
Proof. vm_compute. right. left. reflexivity. Defined.

(** After the resume two packets that are no key frames come and go
    unsent; the key frame that follows is handed to the send stream. *)
Lemma key_frame_after_resume_witness :
  (opUserOnResumed = opUserOnResumed \/ opUserOnResumed = opUserOnTransportConnected) /\
  (forall env'' waiting,
     In (env'', opSendRtpPacket waiting) deltaFrames -> pktIsKeyFrame waiting = false) /\
  In (RtpStreamSend_ReceivePacket (SetSsrc 7 keyFrame))
    (logOf (SendRtpPacket healthy keyFrame
              (run deltaFrames (after healthy opUserOnResumed (steady forwardAll))))) /\
  pktIsKeyFrame keyFrame = true.
Proof.
  split; [left; reflexivity |]. split; [exact deltaFrames_waiting |].
  split; [exact resumed_key_frame_forwarded |].
  exact (@key_frame_after_resume forwarding doubles healthy opUserOnResumed deltaFrames
           (steady forwardAll) healthy keyFrame _ (or_introl eq_refl)
           deltaFrames_waiting resumed_key_frame_forwarded).
Defined.

(** *** Construction *)

Abbreviation plainData := (constructorData None "video/VP8").

Lemma three_encodings : 1 < Z.of_nat (length (consumableRtpEncodings unconstructed)) <= 2 ^ 15.
Proof. split; [reflexivity | discriminate]. Defined.

Lemma construct_maps_witness :
  1 < Z.of_nat (length (consumableRtpEncodings unconstructed)) <= 2 ^ 15 /\
  RtpEncodingParameters.spatialLayers (encodings_0 (rtpParameters plainData))
    = Z.of_nat (length (consumableRtpEncodings unconstructed)) /\
  mapMappedSsrcSpatialLayer unconstructed = ∅ /\
  producerRtpStreams unconstructed = [] /\
  initialPreferredLayers plainData = Some (2, 2) /\
  IsValidTypeForCodec plainData
    (RtpCodecParameters.mimeType (GetCodecForEncoding (rtpParameters plainData))) = true /\
  GetEncodingContext plainData
    (RtpCodecParameters.mimeType (GetCodecForEncoding (rtpParameters plainData)))
    (RtpEncodingParameters.spatialLayers (encodings_0 (rtpParameters plainData)))
    (RtpEncodingParameters.temporalLayers (encodings_0 (rtpParameters plainData)))
    = Some {| targetTemporal := 2; currentTemporal := 2 |} /\
  let c' :=
    constructed plainData 2 2 {| targetTemporal := 2; currentTemporal := 2 |}
      unconstructed in
  construct plainData unconstructed = Done tt c' [] /\
  producerRtpStreams c' = replicate (length (consumableRtpEncodings unconstructed)) None /\
  (forall ssrc,
     ssrc ∈ consumableRtpEncodings unconstructed
     <-> is_Some (mapMappedSsrcSpatialLayer c' !! ssrc)) /\
  mappedInRange c'.
Proof.
  split; [exact three_encodings |]. do 6 (split; [reflexivity |]).
  exact (@construct_maps forwarding plainData unconstructed 2 2
           {| targetTemporal := 2; currentTemporal := 2 |}
           three_encodings eq_refl eq_refl eq_refl eq_refl eq_refl eq_refl).
Defined.

Lemma construct_preferred_witness :
  1 < Z.of_nat (length (consumableRtpEncodings unconstructed)) <= 2 ^ 15 /\
  RtpEncodingParameters.spatialLayers (encodings_0 (rtpParameters plainData))
    = Z.of_nat (length (consumableRtpEncodings unconstructed)) /\
  0 <= RtpEncodingParameters.temporalLayers (encodings_0 (rtpParameters plainData))
    <= 2 ^ 15 /\
  preferredSpatialLayer (finalState (construct plainData unconstructed)) = 3 - 1 /\
  preferredTemporalLayer (finalState (construct plainData unconstructed)) = 3 - 1.
Proof.
  split; [exact three_encodings |]. split; [reflexivity |].
  split; [exact up_to_three_layers |].
  exact (@construct_preferred forwarding plainData unconstructed
           three_encodings eq_refl up_to_three_layers).
Defined.

Lemma singleEncoding_rejected : rejected plainData singleEncoding.
Proof. left. cbn. lia. Defined.

Lemma construct_throws_witness :
  rejected plainData singleEncoding /\
  exists c', construct plainData singleEncoding = Stop TypeError c' [].
Proof.
  split; [exact singleEncoding_rejected |].
  exact (@construct_throws forwarding plainData singleEncoding singleEncoding_rejected).
Defined.

Lemma CreateRtpStream_setup_witness :
  Params.useNack noFlags = false /\ Params.usePli noFlags = false /\
  Params.useFir noFlags = false /\ Params.useDtx noFlags = false /\
  Params.useInBandFec noFlags = false /\
  let setup := CreateRtpStream noFlags threeLayers false false in
  Params.useNack (setupParams setup) = existsb nackFeedback (RtpCodecParameters.rtcpFeedback vp8) /\
  Params.usePli (setupParams setup) = existsb pliFeedback (RtpCodecParameters.rtcpFeedback vp8) /\
  Params.useFir (setupParams setup) = existsb firFeedback (RtpCodecParameters.rtcpFeedback vp8) /\
  Params.useDtx (setupParams setup)
    = enabled vp8 "usedtx" || RtpEncodingParameters.dtx (encodings_0 threeLayers) /\
  Params.useInBandFec (setupParams setup) = enabled vp8 "useinbandfec" /\
  setupBufferSize setup
    = (if existsb nackFeedback (RtpCodecParameters.rtcpFeedback vp8) then 600 else 0).
Proof.
  do 5 (split; [reflexivity |]).
  exact (CreateRtpStream_setup noFlags threeLayers false false
           eq_refl eq_refl eq_refl eq_refl eq_refl).
Defined.

(** *** The key frame of a re-sync *)

Lemma lateKeyFrame_forwardedAtSync : forwardedAtSync healthy resyncing lateKeyFrame.
Proof.
  unfold forwardedAtSync.
  split; [reflexivity |].
  split; [vm_compute; discriminate |].
  split; [apply (supported_payload_type resyncing); reflexivity |].
  split; [vm_compute; reflexivity |].
  split; reflexivity.
Defined.

Lemma resyncing_synced :
  syncStream healthy lateKeyFrame (currentSpatialLayer resyncing) resyncing
    = Done tt (finalState (syncStream healthy lateKeyFrame 0 resyncing)) [].
Proof. vm_compute. reflexivity. Defined.

Lemma SendRtpPacket_sync_timestamp_witness :
  forwardedAtSync healthy resyncing lateKeyFrame /\
  syncStream healthy lateKeyFrame (currentSpatialLayer resyncing) resyncing
    = Done tt (finalState (syncStream healthy lateKeyFrame 0 resyncing)) [] /\
  fst (fst (ProcessPayload
              (encodingContext (finalState (syncStream healthy lateKeyFrame 0 resyncing)))
              lateKeyFrame)) = true /\
  exists sent packet' final before behind,
    SendRtpPacket healthy lateKeyFrame resyncing =
      Done packet' final (before ++ RtpStreamSend_ReceivePacket sent :: behind) /\
    noHandOver before /\ noHandOver behind /\
    (pktTimestamp sent = Int.u32 (GetMaxPacketTs (rtpStream resyncing) + 1) \/
     GetMaxPacketTs (rtpStream resyncing) < pktTimestamp sent).
Proof.
  split; [exact lateKeyFrame_forwardedAtSync |].
  split; [exact resyncing_synced |]. split; [reflexivity |].
  exact (@SendRtpPacket_sync_timestamp forwarding healthy resyncing _ lateKeyFrame []
           lateKeyFrame_forwardedAtSync resyncing_synced eq_refl).
Defined.

End Examples.
